(** * poc-scrollbar: the scroll container, its change detection and the helpers

    A shallow embedding of [src/scrollcontainer.js] (class [ScrollContainer]),
    of its successor (class [PocScrollbar], which adds a [MutationObserver]
    variant of the change detection) and of [helper.js]
    ([applyOptionsToScollBarElement], [debounce]), with the properties the
    specification states about them.

    The embedding keeps three layers apart:
    - [JS]: the values a script can hold and the operators the sources use on
      them ([typeof], truthiness, [<], [>], [!==], [+]);
    - [DOM], [Window], [ScrollView], [Host]: what the browser and the rest
      of the page own (the container element, timers, observers, the
      rendered scroll view), and [Loop], the host dispatching timers;
    - [Helper], [ScrollContainer], [PocScrollbar]: the code of the repository,
      the two classes written in a state-and-exception monad over the host.

    After the embedding come the closed forms the statements are written
    with, a small example page, the properties, and the code run on the
    example page. *)

From Stdlib Require Import ZArith Lia.
From stdpp Require Import gmap strings list fin_maps sorting.

#[local] Set Warnings "-register-all".
#[local] Open Scope Z_scope.

(* ===================================================================== *)
(** ** JavaScript values *)
(* ===================================================================== *)

Module JS.

(** A JavaScript number: [NaN], an infinity, or a finite value.  A finite
    double is a dyadic rational, so it is either an integer, [Fin z], or a
    fraction that is no integer, [Frac a k], which stands for
    [(2a + 1) / 2^(k + 1)]; every finite value has exactly one of the two
    forms, so that [===] is equality.  The model computes with them
    exactly: it bounds neither the size nor the precision of a number. *)
Inductive number :=
| NaN
| NegInf
| Fin (z : Z)
| Frac (a : Z) (k : nat)
| PosInf.

(** Values.  Arrays and objects carry the identity of the reference ([ref]),
    which is what [===] compares, next to their own enumerable properties. *)
Inductive value :=
| VUndefined
| VNull
| VBool (b : bool)
| VNumber (n : number)
| VString (s : string)
| VArray (ref : nat) (items : list value)
| VObject (ref : nat) (props : gmap string value).

#[global] Instance number_eq_dec : EqDecision number.
Proof. solve_decision. Defined.

#[global] Instance value_inhabited : Inhabited value := populate VUndefined.

(** [typeof v]. *)
Definition typeof (v : value) : string :=
  match v with
  | VUndefined => "undefined"
  | VNull => "object"
  | VBool _ => "boolean"
  | VNumber _ => "number"
  | VString _ => "string"
  | VArray _ _ => "object"
  | VObject _ _ => "object"
  end.

(** [Array.isArray(v)]. *)
Definition isArray (v : value) : bool :=
  match v with VArray _ _ => true | _ => false end.

(** Truthiness, as used by [if], [&&], [||] and [?:]. *)
Definition ToBoolean (v : value) : bool :=
  match v with
  | VUndefined | VNull => false
  | VBool b => b
  | VNumber NaN => false
  | VNumber (Fin z) => negb (z =? 0)
  | VNumber _ => true
  | VString s => negb (String.eqb s "")
  | VArray _ _ | VObject _ _ => true
  end.

(** [o[k]]: reading a property.  A missing property, and any property of a
    primitive or of an array that is not an index, reads as [undefined]
    (the keys read by the sources end in [Styles] or [Class] or are option
    names, none of which a built-in prototype defines). *)
Definition get (o : gmap string value) (k : string) : value :=
  default VUndefined (o !! k).

Definition prop (v : value) (k : string) : value :=
  match v with
  | VObject _ o => get o k
  | _ => VUndefined
  end.

(** What is the engine's and its browser's business, not the
    repository's, and in which the development is parametric: how a string,
    an array or an object becomes a number ([StringToNumber], after
    [ToPrimitive] for the last two); how a number, an array or an object
    becomes a string; and the whole number of pixels an element reports
    after it was assigned the fractional offset [(2a + 1) / 2^(k + 1)]. *)
Class Coercions := {
  NonPrimitiveToNumber : value → number;
  OtherToString : value → string;
  RoundOffset : Z → nat → Z
}.

Section Operators.
Context `{Coercions}.

Definition ToNumber (v : value) : number :=
  match v with
  | VUndefined => NaN
  | VNull => Fin 0
  | VBool true => Fin 1
  | VBool false => Fin 0
  | VNumber n => n
  | VString _ | VArray _ _ | VObject _ _ => NonPrimitiveToNumber v
  end.

(** [ToString(v)], which a method applies to an argument it declares as
    a string. *)
Definition ToString (v : value) : string :=
  match v with
  | VUndefined => "undefined"
  | VNull => "null"
  | VBool true => "true"
  | VBool false => "false"
  | VString s => s
  | VNumber _ | VArray _ _ | VObject _ _ => OtherToString v
  end.

(** [m / 2^k] as a number: halves are cancelled while the numerator is
    even. *)
Fixpoint dyadic (m : Z) (k : nat) : number :=
  match k with
  | O => Fin m
  | S k' => if Z.even m then dyadic (m / 2) k' else Frac ((m - 1) / 2) k'
  end.

(** [a < b] on numbers: false as soon as one side is [NaN]; two finite
    numbers are compared over a common denominator. *)
Definition num_ltb (a b : number) : bool :=
  match a, b with
  | NaN, _ | _, NaN => false
  | NegInf, NegInf => false
  | NegInf, _ => true
  | _, NegInf => false
  | PosInf, _ => false
  | _, PosInf => true
  | Fin x, Fin y => x <? y
  | Fin x, Frac b l => x * 2 ^ (Z.of_nat l + 1) <? 2 * b + 1
  | Frac a k, Fin y => 2 * a + 1 <? y * 2 ^ (Z.of_nat k + 1)
  | Frac a k, Frac b l =>
      (2 * a + 1) * 2 ^ (Z.of_nat l + 1) <? (2 * b + 1) * 2 ^ (Z.of_nat k + 1)
  end.

(** [a + b] on numbers.  An integer and a fraction add up to a fraction
    with the same denominator. *)
Definition num_add (a b : number) : number :=
  match a, b with
  | NaN, _ | _, NaN => NaN
  | Fin x, Fin y => Fin (x + y)
  | Fin x, Frac b l => Frac (x * 2 ^ Z.of_nat l + b) l
  | Frac a k, Fin y => Frac (y * 2 ^ Z.of_nat k + a) k
  | Frac a k, Frac b l =>
      dyadic ((2 * a + 1) * 2 ^ (Z.of_nat l + 1) + (2 * b + 1) * 2 ^ (Z.of_nat k + 1))
             (k + 1 + (l + 1))
  | NegInf, PosInf | PosInf, NegInf => NaN
  | NegInf, _ | _, NegInf => NegInf
  | PosInf, _ | _, PosInf => PosInf
  end.

(** [- a] and [a - b] on numbers. *)
Definition num_neg (a : number) : number :=
  match a with
  | NaN => NaN
  | NegInf => PosInf
  | Fin x => Fin (- x)
  | Frac a k => Frac (- a - 1) k
  | PosInf => NegInf
  end.

Definition num_sub (a b : number) : number := num_add a (num_neg b).

(** [a < n] and [a > n] where the right operand is a number, which is the
    only form the sources use: the left operand goes through [ToNumber]. *)
Definition less_than (a : value) (n : number) : bool :=
  num_ltb (ToNumber a) n.

Definition greater_than (a : value) (n : number) : bool :=
  num_ltb n (ToNumber a).

End Operators.

(** [a === b] on numbers: [NaN] equals nothing, itself included. *)
Definition num_eqb (a b : number) : bool :=
  match a, b with
  | NaN, _ | _, NaN => false
  | NegInf, NegInf => true
  | PosInf, PosInf => true
  | Fin x, Fin y => x =? y
  | Frac a k, Frac b l => (a =? b) && Nat.eqb k l
  | _, _ => false
  end.

(** [a === b]: same type and same value; references by identity. *)
Definition strict_eq (a b : value) : bool :=
  match a, b with
  | VUndefined, VUndefined => true
  | VNull, VNull => true
  | VBool x, VBool y => Bool.eqb x y
  | VNumber x, VNumber y => num_eqb x y
  | VString x, VString y => String.eqb x y
  | VArray r _, VArray r' _ => Nat.eqb r r'
  | VObject r _, VObject r' _ => Nat.eqb r r'
  | _, _ => false
  end.

(** [a !== b]. *)
Definition strict_neq (a b : value) : bool := negb (strict_eq a b).

(** The conversion of a number to WebIDL's [long], which [setTimeout] and
    [setInterval] apply to their delay: not finite gives 0, a fraction is
    cut off towards 0, and the integer wraps around modulo [2^32] into the
    signed range. *)
Definition to_long (n : number) : Z :=
  match n with
  | Fin z => (z + 2 ^ 31) mod 2 ^ 32 - 2 ^ 31
  | Frac a k => (Z.quot (2 * a + 1) (2 ^ (Z.of_nat k + 1)) + 2 ^ 31) mod 2 ^ 32 - 2 ^ 31
  | _ => 0
  end.

End JS.

(* ===================================================================== *)
(** ** The browser: elements, timers, observers, the rendered view *)
(* ===================================================================== *)

(** Function references.  Listeners, timer actions and observer callbacks
    are compared by identity, so all that is kept of a function is which
    closure it is. *)
Inductive callback :=
| EventListener (key : string)   (* [this._eventListener[key]] *)
| ChangeHandler                  (* what [_createIntervalHandler] / [_getMutationHandler] returns *)
| Debounced (f : callback)       (* what [debounce(f, _)] returns *)
| Foreign (n : nat).             (* a function some other script created *)

#[global] Instance callback_eq_dec : EqDecision callback.
Proof. solve_decision. Defined.

Module DOM.

(** The chain of [parentElement] links above an element.  A DOM tree is
    finite, so the chain ends: in [null] (or, for a foreign object that is
    no element, in [undefined]). *)
Inductive parent :=
| Null
| Undefined
| Element (isDocumentBody : bool) (parentElement : parent).

(** An element in one state of the page: the geometry and the computed
    position it reports in that state, its parent chain and listeners, the
    values scripts assigned to the properties of its [style], by property,
    and the tokens of its [classList].  What the browser's layout makes of
    an assignment to [style] or of a new class is not modelled: no
    definition below recomputes the geometry or the computed position. *)
Record element := {
  scrollTop : Z;
  scrollLeft : Z;
  clientHeight : Z;
  clientWidth : Z;
  scrollHeight : Z;
  scrollWidth : Z;
  parentElement : parent;
  listeners : list (string * callback);
  style : gmap string JS.value;
  classList : list string;
  computedPosition : string
}.

(** The geometry every browser maintains: the scrolling area is at least as
    large as the client area, and the scroll offsets stay inside it. *)
Definition well_formed (e : element) : Prop :=
  0 ≤ scrollTop e ≤ scrollHeight e - clientHeight e ∧
  0 ≤ scrollLeft e ≤ scrollWidth e - clientWidth e.

(** What the setters of [scrollTop] and [scrollLeft] store (CSSOM View):
    the value as a number, a value that is not finite as 0, a fraction as
    the whole number of pixels the browser rounds it to, and the result
    brought into the scrollable range. *)
Definition normalize `{JS.Coercions} (n : JS.number) : Z :=
  match n with
  | JS.Fin z => z
  | JS.Frac a k => JS.RoundOffset a k
  | _ => 0
  end.

Definition into_range (limit y : Z) : Z := Z.max 0 (Z.min y limit).

Definition set_scrollTop `{JS.Coercions} (v : JS.value) (e : element) : element :=
  {| scrollTop := into_range (scrollHeight e - clientHeight e) (normalize (JS.ToNumber v));
     scrollLeft := scrollLeft e;
     clientHeight := clientHeight e; clientWidth := clientWidth e;
     scrollHeight := scrollHeight e; scrollWidth := scrollWidth e;
     parentElement := parentElement e; listeners := listeners e;
     style := style e; classList := classList e;
     computedPosition := computedPosition e |}.

Definition set_scrollLeft `{JS.Coercions} (v : JS.value) (e : element) : element :=
  {| scrollTop := scrollTop e;
     scrollLeft := into_range (scrollWidth e - clientWidth e) (normalize (JS.ToNumber v));
     clientHeight := clientHeight e; clientWidth := clientWidth e;
     scrollHeight := scrollHeight e; scrollWidth := scrollWidth e;
     parentElement := parentElement e; listeners := listeners e;
     style := style e; classList := classList e;
     computedPosition := computedPosition e |}.

(** [e.style[k] = v]: the assignment is recorded. *)
Definition set_style (k : string) (v : JS.value) (e : element) : element :=
  {| scrollTop := scrollTop e; scrollLeft := scrollLeft e;
     clientHeight := clientHeight e; clientWidth := clientWidth e;
     scrollHeight := scrollHeight e; scrollWidth := scrollWidth e;
     parentElement := parentElement e; listeners := listeners e;
     style := <[k := v]> (style e); classList := classList e;
     computedPosition := computedPosition e |}.

(** What a call of a method of the element comes to: it returns, or it
    throws a [DOMException]; either way with the element as the call left
    it. *)
Inductive completion :=
| Returns (e : element)
| DOMException (e : element).

Definition element_of (r : completion) : element :=
  match r with
  | Returns e | DOMException e => e
  end.

(** ASCII whitespace: tab, line feed, form feed, carriage return, space. *)
Definition is_whitespace (a : Ascii.ascii) : bool :=
  let n := Ascii.nat_of_ascii a in
  Nat.eqb n 9 || Nat.eqb n 10 || Nat.eqb n 12 || Nat.eqb n 13 || Nat.eqb n 32.

Fixpoint has_whitespace (s : string) : bool :=
  match s with
  | EmptyString => false
  | String a s => is_whitespace a || has_whitespace s
  end.

(** A string that can be a class token. *)
Definition is_token (t : string) : bool :=
  negb (String.eqb t "") && negb (has_whitespace t).

Definition set_classList (l : list string) (e : element) : element :=
  {| scrollTop := scrollTop e; scrollLeft := scrollLeft e;
     clientHeight := clientHeight e; clientWidth := clientWidth e;
     scrollHeight := scrollHeight e; scrollWidth := scrollWidth e;
     parentElement := parentElement e; listeners := listeners e;
     style := style e; classList := l;
     computedPosition := computedPosition e |}.

(** [e.classList.add(v)] (DOM, [DOMTokenList]): the argument is converted
    to a string; the empty string is a [SyntaxError] and a string with
    ASCII whitespace an [InvalidCharacterError]; any other token is
    appended to the tokens unless it is one of them. *)
Definition classList_add `{JS.Coercions} (v : JS.value) (e : element) : completion :=
  let token := JS.ToString v in
  if String.eqb token "" || has_whitespace token then DOMException e
  else if decide (token ∈ classList e) then Returns e
  else Returns (set_classList (classList e ++ [token]) e).

Definition set_listeners (l : list (string * callback)) (e : element) : element :=
  {| scrollTop := scrollTop e; scrollLeft := scrollLeft e;
     clientHeight := clientHeight e; clientWidth := clientWidth e;
     scrollHeight := scrollHeight e; scrollWidth := scrollWidth e;
     parentElement := parentElement e; listeners := l;
     style := style e; classList := classList e;
     computedPosition := computedPosition e |}.

(** [e.addEventListener(type, f)]: a listener already registered for the
    type is not registered twice. *)
Definition addEventListener (type : string) (f : callback) (e : element) : element :=
  if decide ((type, f) ∈ listeners e) then e
  else set_listeners (listeners e ++ [(type, f)]) e.

(** [e.removeEventListener(type, f)]. *)
Definition removeEventListener (type : string) (f : callback) (e : element) : element :=
  set_listeners (filter (λ l, l ≠ (type, f)) (listeners e)) e.

End DOM.

Module Window.

(** An active timer of [setTimeout] ([repeating = false]) or [setInterval]. *)
Record timer := {
  handle : nat;
  action : callback;
  delay : Z;
  due : Z;
  repeating : bool
}.

(** The window's clock (in milliseconds) and its list of active timers. *)
Record t := {
  now : Z;
  next_handle : nat;
  timers : list timer
}.

Definition schedule (rep : bool) (f : callback) (d : JS.number) (w : t) : nat * t :=
  let d := Z.max 0 (JS.to_long d) in
  (next_handle w,
   {| now := now w;
      next_handle := S (next_handle w);
      timers := timers w ++ [{| handle := next_handle w; action := f; delay := d;
                                due := now w + d; repeating := rep |}] |}).

(** [window.setTimeout(f, d)] and [window.setInterval(f, d)]: the handle and
    the window after the call. *)
Definition setTimeout := schedule false.
Definition setInterval := schedule true.

(** [window.clearTimeout(p)] and [window.clearInterval(p)], which share one
    pool of handles; [None] is a [null] handle, which names no timer. *)
Definition clear (p : option nat) (w : t) : t :=
  match p with
  | None => w
  | Some h =>
      {| now := now w; next_handle := next_handle w;
         timers := filter (λ x, handle x ≠ h) (timers w) |}
  end.

Definition clearTimeout := clear.
Definition clearInterval := clear.

(** Time passes. *)
Definition elapse (d : Z) (w : t) : t :=
  {| now := now w + Z.max 0 d; next_handle := next_handle w; timers := timers w |}.

End Window.

(* ===================================================================== *)
(** ** helper.js *)
(* ===================================================================== *)

Module Helper.
Import JS.

(** [Object.keys(o).forEach(aKey => f(aKey))] over the own properties. *)
Definition forEach_key {A} (o : gmap string value) (f : string → A → A) (a : A) : A :=
  foldl (λ acc aKey, f aKey acc) a (map_to_list o).*1.

(** [Object.keys(v)] reaches the properties of an object; the function is
    only called on what passed the [typeof ... === 'object'] test. *)
Definition own (v : value) : gmap string value :=
  match v with
  | VObject _ o => o
  | _ => ∅
  end.

Definition entries (v : value) : list value :=
  match v with
  | VArray _ l => l
  | _ => []
  end.

(** [l.forEach(aClass => aElement.classList.add(aClass))], which the first
    call that throws ends. *)
Fixpoint forEach_class `{Coercions} (l : list value) (aElement : DOM.element)
  : DOM.completion :=
  match l with
  | [] => DOM.Returns aElement
  | aClass :: l =>
      match DOM.classList_add aClass aElement with
      | DOM.Returns aElement => forEach_class l aElement
      | DOM.DOMException aElement => DOM.DOMException aElement
      end
  end.

Definition applyOptionsToScollBarElement `{Coercions}
    (aElement : DOM.element) (aElementName : string) (aOptions : value)
  : DOM.completion :=
  (* frist create the option keys, that should get read *)
  let stylesKey := aElementName +:+ "Styles" in
  let classKey := aElementName +:+ "Class" in
  (* then go for the style key and apply it to the element *)
  let aElement :=
    if ToBoolean aOptions && ToBoolean (prop aOptions stylesKey)
       && String.eqb (typeof (prop aOptions stylesKey)) "object"
       && negb (isArray (prop aOptions stylesKey))
    then
      forEach_key (own (prop aOptions stylesKey))
        (λ aKey, DOM.set_style aKey (prop (prop aOptions stylesKey) aKey))
        aElement
    else aElement in
  (* then apply the classes to the elements *)
  if ToBoolean aOptions && ToBoolean (prop aOptions classKey)
     && String.eqb (typeof (prop aOptions classKey)) "string"
  then DOM.classList_add (prop aOptions classKey) aElement
  else if ToBoolean aOptions && isArray (prop aOptions classKey)
  then forEach_class (entries (prop aOptions classKey)) aElement
  else DOM.Returns aElement.

(** The closure [debounce] returns: its two captured arguments and the
    variable [pointer] it shares between its invocations. *)
Record debounced := {
  aCallback : callback;
  aWaitTime : value;
  pointer : option nat
}.

Definition debounce (aCallback : callback) (aWaitTime : value) : debounced :=
  {| aCallback := aCallback; aWaitTime := aWaitTime; pointer := None |}.

(** One invocation of the returned function. *)
Definition call `{Coercions} (d : debounced) (w : Window.t) : debounced * Window.t :=
  let w := Window.clearTimeout (pointer d) w in
  let '(h, w) := Window.setTimeout (aCallback d) (ToNumber (aWaitTime d)) w in
  ({| aCallback := aCallback d; aWaitTime := aWaitTime d; pointer := Some h |}, w).

End Helper.

(* ===================================================================== *)
(** ** The event loop around a debounced callback *)
(* ===================================================================== *)

Module Loop.
Import JS.

(** What the host can do to a debounced function [d] over time: some script
    calls it, time passes, or the host dispatches the timer with a given
    handle (which it only does once that timer is due). *)
Inductive event :=
| Call
| Elapse (ms : Z)
| Dispatch (h : nat).

(** The history kept for the statements: when the debounced function was
    called and when its callback ran, newest first. *)
Inductive entry :=
| Called (at_ : Z)
| Ran (at_ : Z).

Record t := {
  window : Window.t;
  closure : Helper.debounced;
  history : list entry
}.

Definition initial (w : Window.t) (f : callback) (aWaitTime : value) : t :=
  {| window := w; closure := Helper.debounce f aWaitTime; history := [] |}.

(** Dispatching handle [h]: nothing unless a timer with that handle is
    active and due; a timeout leaves the list of active timers, an interval
    is armed again; what ran is recorded when it is the debounced callback. *)
Definition dispatch (h : nat) (s : t) : t :=
  let w := window s in
  match List.find (λ x, Nat.eqb (Window.handle x) h) (Window.timers w) with
  | None => s
  | Some x =>
      if Window.due x <=? Window.now w then
        let rest := filter (λ y, Window.handle y ≠ h) (Window.timers w) in
        let again :=
          if Window.repeating x
          then [{| Window.handle := h; Window.action := Window.action x;
                   Window.delay := Window.delay x;
                   Window.due := Window.now w + Window.delay x;
                   Window.repeating := true |}]
          else [] in
        {| window := {| Window.now := Window.now w;
                        Window.next_handle := Window.next_handle w;
                        Window.timers := rest ++ again |};
           closure := closure s;
           history :=
             if decide (Window.action x = Helper.aCallback (closure s))
             then Ran (Window.now w) :: history s
             else history s |}
      else s
  end.

Definition step `{Coercions} (s : t) (e : event) : t :=
  match e with
  | Call =>
      let '(d, w) := Helper.call (closure s) (window s) in
      {| window := w; closure := d;
         history := Called (Window.now (window s)) :: history s |}
  | Elapse ms =>
      {| window := Window.elapse ms (window s); closure := closure s;
         history := history s |}
  | Dispatch h => dispatch h s
  end.

Definition run `{Coercions} (s : t) (es : list event) : t := foldl step s es.

(** The delay the host gives a timer set with [aWaitTime]. *)
Definition wait `{Coercions} (aWaitTime : value) : Z :=
  Z.max 0 (to_long (ToNumber aWaitTime)).

(** The callback's timers that are still active. *)
Definition pending (s : t) : list Window.timer :=
  filter (λ x, Window.action x = Helper.aCallback (closure s))
         (Window.timers (window s)).

Definition time_of (e : entry) : Z :=
  match e with
  | Called t | Ran t => t
  end.

End Loop.

(* ===================================================================== *)
(** ** The scroll view and the host *)
(* ===================================================================== *)

Module ScrollView.

(** Modelled from the spec: the class [ScrollView] of [./scrollview], which
    both containers import and which is not among the sources.  The spec
    calls it "a view renderer (owns visual thumb positioning)" in "a
    one-directional parent→child update relationship with no feedback
    loop": the view is a sink, and what is kept of it is the sequence of
    calls it received, oldest first. *)
Inductive call :=
| construct
| parentUpdated
| scrollTopUpdated (v : JS.value)
| scrollLeftUpdated (v : JS.value)
| destroy.

End ScrollView.

Module Host.

(** Everything the instance shares with the browser and with other scripts:
    the container element, the window's timers, the mutation observers
    connected to the container (by callback), the calls the scroll view
    received, and whether the global [MutationObserver] is truthy. *)
Record t := {
  container : DOM.element;
  window : Window.t;
  observers : list callback;
  view : list ScrollView.call;
  hasMutationObserver : bool
}.

Definition set_container (c : DOM.element) (h : t) : t :=
  {| container := c; window := window h; observers := observers h;
     view := view h; hasMutationObserver := hasMutationObserver h |}.

Definition set_window (w : Window.t) (h : t) : t :=
  {| container := container h; window := w; observers := observers h;
     view := view h; hasMutationObserver := hasMutationObserver h |}.

Definition set_observers (o : list callback) (h : t) : t :=
  {| container := container h; window := window h; observers := o;
     view := view h; hasMutationObserver := hasMutationObserver h |}.

Definition set_view (v : list ScrollView.call) (h : t) : t :=
  {| container := container h; window := window h; observers := observers h;
     view := v; hasMutationObserver := hasMutationObserver h |}.

End Host.

(** A field that holds a reference or was set to [null]. *)
Inductive pointer := Null | Ref.

(** What a method call comes to: a value and the state after it, or a
    [TypeError] (a property read or a call on [null]) and the state at the
    point it was thrown. *)
Inductive result (S A : Type) :=
| Ok (a : A) (s : S)
| TypeError (s : S).

Arguments Ok {S A} a s.
Arguments TypeError {S A} s.

Definition M (S A : Type) : Type := S → result S A.

Definition ret {S A} (a : A) : M S A := λ s, Ok a s.

Definition bind {S A B} (m : M S A) (f : A → M S B) : M S B :=
  λ s, match m s with
       | Ok a s' => f a s'
       | TypeError s' => TypeError s'
       end.

Definition throw {S A} : M S A := λ s, TypeError s.

Definition read {S} : M S S := λ s, Ok s s.

Definition write {S} (s : S) : M S unit := λ _, Ok tt s.

Notation "'let!' x ':=' m 'in' k" := (bind m (λ x, k))
  (at level 10, x name, m at level 100, k at level 200, only parsing).
Notation "'do!' m 'in' k" := (bind m (λ _, k))
  (at level 10, m at level 100, k at level 200, only parsing).

(** [forEach] over a list, in order. *)
Fixpoint forEach {S A} (l : list A) (f : A → M S unit) : M S unit :=
  match l with
  | [] => ret tt
  | x :: l => do! f x in forEach l f
  end.

(** The search for the root element that both change handlers start with:
    [while (p !== null && p !== undefined && p !== document.body)
       p = p.parentElement]. *)
Fixpoint potentialRootElement (p : DOM.parent) : DOM.parent :=
  match p with
  | DOM.Element false up => potentialRootElement up
  | _ => p
  end.

Definition null_or_undefined (p : DOM.parent) : bool :=
  match p with
  | DOM.Null | DOM.Undefined => true
  | DOM.Element _ _ => false
  end.

(** A wheel event, as far as the listener reads it. *)
Record WheelEvent := {
  defaultPrevented : bool;
  deltaX : JS.number;
  deltaY : JS.number
}.

(* ===================================================================== *)
(** ** src/scrollcontainer.js: class ScrollContainer *)
(* ===================================================================== *)

Module ScrollContainer.
Import JS.

(** The variables the interval handler closes over. *)
Record cache := {
  containerHeight : Z;
  containerWidth : Z;
  scrollHeight : Z;
  scrollWidth : Z
}.

Record instance := {
  _container : pointer;
  _options : gmap string value;
  _scrollView : pointer;
  _eventListener : list (string * callback);
  _intervalPointer : option nat;
  _scrollTop : value;
  _scrollLeft : value;
  handler : cache
}.

Record state := {
  host : Host.t;
  this : instance
}.

Definition on_host (f : Host.t → Host.t) : M state unit :=
  λ s, Ok tt {| host := f (host s); this := this s |}.

Definition on_this (f : instance → instance) : M state unit :=
  λ s, Ok tt {| host := host s; this := f (this s) |}.

Definition set__container (p : pointer) (i : instance) : instance :=
  {| _container := p; _options := _options i; _scrollView := _scrollView i;
     _eventListener := _eventListener i; _intervalPointer := _intervalPointer i;
     _scrollTop := _scrollTop i; _scrollLeft := _scrollLeft i; handler := handler i |}.

Definition set__options (o : gmap string value) (i : instance) : instance :=
  {| _container := _container i; _options := o; _scrollView := _scrollView i;
     _eventListener := _eventListener i; _intervalPointer := _intervalPointer i;
     _scrollTop := _scrollTop i; _scrollLeft := _scrollLeft i; handler := handler i |}.

Definition set__scrollView (p : pointer) (i : instance) : instance :=
  {| _container := _container i; _options := _options i; _scrollView := p;
     _eventListener := _eventListener i; _intervalPointer := _intervalPointer i;
     _scrollTop := _scrollTop i; _scrollLeft := _scrollLeft i; handler := handler i |}.

Definition set__eventListener (l : list (string * callback)) (i : instance) : instance :=
  {| _container := _container i; _options := _options i; _scrollView := _scrollView i;
     _eventListener := l; _intervalPointer := _intervalPointer i;
     _scrollTop := _scrollTop i; _scrollLeft := _scrollLeft i; handler := handler i |}.

Definition set__intervalPointer (p : option nat) (i : instance) : instance :=
  {| _container := _container i; _options := _options i; _scrollView := _scrollView i;
     _eventListener := _eventListener i; _intervalPointer := p;
     _scrollTop := _scrollTop i; _scrollLeft := _scrollLeft i; handler := handler i |}.

Definition set__scrollTop (v : value) (i : instance) : instance :=
  {| _container := _container i; _options := _options i; _scrollView := _scrollView i;
     _eventListener := _eventListener i; _intervalPointer := _intervalPointer i;
     _scrollTop := v; _scrollLeft := _scrollLeft i; handler := handler i |}.

Definition set__scrollLeft (v : value) (i : instance) : instance :=
  {| _container := _container i; _options := _options i; _scrollView := _scrollView i;
     _eventListener := _eventListener i; _intervalPointer := _intervalPointer i;
     _scrollTop := _scrollTop i; _scrollLeft := v; handler := handler i |}.

Definition set_handler (c : cache) (i : instance) : instance :=
  {| _container := _container i; _options := _options i; _scrollView := _scrollView i;
     _eventListener := _eventListener i; _intervalPointer := _intervalPointer i;
     _scrollTop := _scrollTop i; _scrollLeft := _scrollLeft i; handler := c |}.

(** [this]: the fields of the instance. *)
Definition self : M state instance := λ s, Ok (this s) s.

(** [this._container]: the element, or a [TypeError] to whoever reads a
    property of it after [destroy] set the field to [null]. *)
Definition container : M state DOM.element :=
  λ s, match _container (this s) with
       | Ref => Ok (Host.container (host s)) s
       | Null => TypeError s
       end.

(** An assignment to, or a method call on, [this._container]. *)
Definition on_container (f : DOM.element → DOM.element) : M state unit :=
  let! c := container in
  on_host (Host.set_container (f c)).

(** A method call on [this._scrollView]. *)
Definition scrollView (c : ScrollView.call) : M state unit :=
  λ s, match _scrollView (this s) with
       | Ref => on_host (λ h, Host.set_view (Host.view h ++ [c]) h) s
       | Null => TypeError s
       end.

Section Methods.
Context `{Coercions}.

Definition scrollTop (arguments : list value) : M state value :=
  let aScrollTop := default VUndefined (arguments !! 0%nat) in
  let! this := self in
  (* If this method was called with something else than a number, or
     scrolling is completly disabled, just return the scroll top *)
  if negb (String.eqb (typeof aScrollTop) "number")
     || ToBoolean (get (_options this) "disableYScrolling")
  then
    let! c := container in
    ret (VNumber (Fin (DOM.scrollTop c)))
  else
    (* then validate the newScrollTop value *)
    let! newScrollTop :=
      (if less_than aScrollTop (Fin 0) then ret (VNumber (Fin 0))
       else
         let! c := container in
         if greater_than aScrollTop (Fin (DOM.scrollHeight c - DOM.clientHeight c))
         then ret (VNumber (Fin (DOM.scrollHeight c - DOM.clientHeight c)))
         else ret aScrollTop) in
    (* if the scroll top has changed *)
    let! this := self in
    do! (if strict_neq (_scrollTop this) newScrollTop
         then
           do! scrollView (ScrollView.scrollTopUpdated newScrollTop) in
           do! on_container (DOM.set_scrollTop newScrollTop) in
           on_this (set__scrollTop newScrollTop)
         else ret tt) in
    ret newScrollTop.

Definition scrollLeft (arguments : list value) : M state value :=
  let aScrollLeft := default VUndefined (arguments !! 0%nat) in
  let! this := self in
  if Nat.eqb (length arguments) 0
     || ToBoolean (get (_options this) "disableXScrolling")
  then
    let! c := container in
    ret (VNumber (Fin (DOM.scrollLeft c)))
  else
    (* now validate the scrollLeft value *)
    let! newScrollLeft :=
      (if less_than aScrollLeft (Fin 0) then ret (VNumber (Fin 0))
       else
         let! c := container in
         if greater_than aScrollLeft (Fin (DOM.scrollWidth c - DOM.clientWidth c))
         then ret (VNumber (Fin (DOM.scrollWidth c - DOM.clientWidth c)))
         else ret aScrollLeft) in
    (* if scrollLeft has changed *)
    let! this := self in
    do! (if strict_neq (_scrollLeft this) newScrollLeft
         then
           do! scrollView (ScrollView.scrollLeftUpdated newScrollLeft) in
           do! on_container (DOM.set_scrollLeft newScrollLeft) in
           on_this (set__scrollLeft newScrollLeft)
         else ret tt) in
    ret newScrollLeft.

Definition destroy : M state unit :=
  (* first clear the interval *)
  let! this := self in
  do! on_host (λ h, Host.set_window
                      (Window.clearInterval (_intervalPointer this) (Host.window h)) h) in
  (* then clean up the event listeners *)
  do! forEach (_eventListener this)
        (λ '(aKey, f), on_container (DOM.removeEventListener aKey f)) in
  (* destroy the scrollView *)
  do! scrollView ScrollView.destroy in
  (* and null the pointers *)
  do! on_this (set__scrollView Null) in
  on_this (set__container Null).

(** The listener [this._eventListener.wheel]; the result tells whether it
    called [aEvent.preventDefault()]. *)
Definition wheel (aEvent : WheelEvent) : M state bool :=
  (* if the default is prevented, we ignore this event *)
  if defaultPrevented aEvent then ret false
  else
    (* else we store the old values *)
    let! c := container in
    let currentScrollTop := DOM.scrollTop c in
    let! c := container in
    let currentScrollLeft := DOM.scrollLeft c in
    (* trigger the changing *)
    let! c := container in
    let! _ := scrollTop [VNumber (num_add (Fin (DOM.scrollTop c)) (deltaY aEvent))] in
    let! c := container in
    let! _ := scrollLeft [VNumber (num_add (Fin (DOM.scrollLeft c)) (deltaX aEvent))] in
    (* and if something actually changed *)
    let! c := container in
    if negb (currentScrollTop =? DOM.scrollTop c) then ret true
    else
      let! c := container in
      if negb (currentScrollLeft =? DOM.scrollLeft c) then ret true
      else ret false.

(** [_createIntervalHandler()]: the cache the returned closure starts with. *)
Definition _createIntervalHandler : M state unit :=
  let! c := container in
  let containerHeight := DOM.clientHeight c in
  let! c := container in
  let containerWidth := DOM.clientWidth c in
  let! c := container in
  let scrollHeight := DOM.scrollHeight c in
  let! c := container in
  let scrollWidth := DOM.scrollWidth c in
  on_this (set_handler {| containerHeight := containerHeight;
                          containerWidth := containerWidth;
                          scrollHeight := scrollHeight;
                          scrollWidth := scrollWidth |}).

Definition changed (k : cache) (c : DOM.element) : bool :=
  negb (containerHeight k =? DOM.clientHeight c)
  || negb (containerWidth k =? DOM.clientWidth c)
  || negb (scrollHeight k =? DOM.scrollHeight c)
  || negb (scrollWidth k =? DOM.scrollWidth c).

(** One tick: a call of the closure [_createIntervalHandler] returned. *)
Definition intervalHandler : M state unit :=
  (* search for the root element of this element *)
  let! c := container in
  let root := potentialRootElement (DOM.parentElement c) in
  let! this := self in
  let oldScrollTop := _scrollTop this in
  let oldScrollLeft := _scrollLeft this in
  do! scrollView (ScrollView.scrollTopUpdated (VNumber (Fin 0))) in
  do! scrollView (ScrollView.scrollLeftUpdated (VNumber (Fin 0))) in
  (* if there is no root element *)
  if null_or_undefined root then
    (* simply destroy everything, because we are detached from DOM *)
    destroy
  else
    (* else check if something has changed *)
    do! (let! this := self in
         let! c := container in
         if changed (handler this) c then
           (* and if something has changed, refresh the cache *)
           do! on_this (set_handler {| containerHeight := DOM.clientHeight c;
                                       containerWidth := DOM.clientWidth c;
                                       scrollHeight := DOM.scrollHeight c;
                                       scrollWidth := DOM.scrollWidth c |}) in
           (* and tell the scrollView about the parent update *)
           scrollView ScrollView.parentUpdated
         else ret tt) in
    do! (let! this := self in
         let! c := container in
         if strict_neq (_scrollTop this) (VNumber (Fin (DOM.scrollTop c))) then
           let! _ := scrollTop [VNumber (Fin (DOM.scrollTop c))] in ret tt
         else if less_than oldScrollTop (Fin (scrollHeight (handler this))) then
           scrollView (ScrollView.scrollTopUpdated oldScrollTop)
         else ret tt) in
    let! this := self in
    let! c := container in
    if strict_neq (_scrollLeft this) (VNumber (Fin (DOM.scrollLeft c))) then
      let! _ := scrollLeft [VNumber (Fin (DOM.scrollLeft c))] in ret tt
    else if less_than oldScrollLeft (Fin (scrollWidth (handler this))) then
      scrollView (ScrollView.scrollLeftUpdated oldScrollLeft)
    else ret tt.

(** [new ScrollContainer(aElement, aOptions)], where [aElement] is the
    host's container. *)
Definition constructor (aOptions : gmap string value) : M state unit :=
  (* first save the given values *)
  do! on_this (set__container Ref) in
  do! on_this (set__options aOptions) in
  (* then create a new scrollView *)
  do! on_this (set__scrollView Ref) in
  do! scrollView ScrollView.construct in
  (* then setup the event listeners *)
  do! on_this (set__eventListener
                 [("wheel", EventListener "wheel");
                  ("touchstart", EventListener "touchstart")]) in
  (* then setup an interval, that executes the interval handler *)
  do! _createIntervalHandler in
  let checkInterval :=
    if ToBoolean (get aOptions "checkInterval") then get aOptions "checkInterval"
    else VNumber (Fin 300) in
  let! s := read in
  let '(h, w) := Window.setInterval ChangeHandler (ToNumber checkInterval)
                   (Host.window (host s)) in
  do! on_host (Host.set_window w) in
  do! on_this (set__intervalPointer (Some h)) in
  (* then go and set the style for the container element *)
  do! on_container (DOM.set_style "overflow" (VString "hidden")) in
  let! c := container in
  let currentPositionStyle := DOM.computedPosition c in
  do! (if negb (String.eqb currentPositionStyle "absolute")
          && negb (String.eqb currentPositionStyle "relative")
       then on_container (DOM.set_style "position" (VString "relative"))
       else ret tt) in
  (* then attach all event handlers to the container *)
  let! this := self in
  do! forEach (_eventListener this)
        (λ '(aKey, f), on_container (DOM.addEventListener aKey f)) in
  do! on_this (set__scrollTop (VNumber (Fin 0))) in
  do! on_this (set__scrollLeft (VNumber (Fin 0))) in
  (* and tell the scrollView to execute a parentUpdated *)
  scrollView ScrollView.parentUpdated.

End Methods.

(** The object before the constructor body runs. *)
Definition blank : instance :=
  {| _container := Null; _options := ∅; _scrollView := Null;
     _eventListener := []; _intervalPointer := None;
     _scrollTop := VUndefined; _scrollLeft := VUndefined;
     handler := {| containerHeight := 0; containerWidth := 0;
                   scrollHeight := 0; scrollWidth := 0 |} |}.

Definition new `{Coercions} (h : Host.t) (aOptions : gmap string value)
  : result state unit :=
  constructor aOptions {| host := h; this := blank |}.

End ScrollContainer.

(* ===================================================================== *)
(** ** The successor: class PocScrollbar *)
(* ===================================================================== *)

Module PocScrollbar.
Import JS.

(** The variables the mutation handler closes over. *)
Record cache := {
  containerHeight : Z;
  containerWidth : Z;
  scrollHeight : Z;
  scrollWidth : Z
}.

(** What the field [_mutationObserver] holds: nothing yet, a
    [MutationObserver] (known by its callback), [null] once that observer
    was disconnected, or the handle of the interval that stands in for it. *)
Inductive observer_field :=
| Unset
| Observer (f : callback)
| Disconnected
| Interval (h : nat).

Record instance := {
  _container : pointer;
  _options : gmap string value;
  _scrollView : pointer;
  _eventListener : list (string * callback);
  _mutationObserver : observer_field;
  _scrollTop : value;
  _scrollLeft : value;
  handler : cache;
  debouncer : option Helper.debounced
}.

Record state := {
  host : Host.t;
  this : instance
}.

Definition on_host (f : Host.t → Host.t) : M state unit :=
  λ s, Ok tt {| host := f (host s); this := this s |}.

Definition on_this (f : instance → instance) : M state unit :=
  λ s, Ok tt {| host := host s; this := f (this s) |}.

Definition set__container (p : pointer) (i : instance) : instance :=
  {| _container := p; _options := _options i; _scrollView := _scrollView i;
     _eventListener := _eventListener i; _mutationObserver := _mutationObserver i;
     _scrollTop := _scrollTop i; _scrollLeft := _scrollLeft i; handler := handler i;
     debouncer := debouncer i |}.

Definition set__options (o : gmap string value) (i : instance) : instance :=
  {| _container := _container i; _options := o; _scrollView := _scrollView i;
     _eventListener := _eventListener i; _mutationObserver := _mutationObserver i;
     _scrollTop := _scrollTop i; _scrollLeft := _scrollLeft i; handler := handler i;
     debouncer := debouncer i |}.

Definition set__scrollView (p : pointer) (i : instance) : instance :=
  {| _container := _container i; _options := _options i; _scrollView := p;
     _eventListener := _eventListener i; _mutationObserver := _mutationObserver i;
     _scrollTop := _scrollTop i; _scrollLeft := _scrollLeft i; handler := handler i;
     debouncer := debouncer i |}.

Definition set__eventListener (l : list (string * callback)) (i : instance) : instance :=
  {| _container := _container i; _options := _options i; _scrollView := _scrollView i;
     _eventListener := l; _mutationObserver := _mutationObserver i;
     _scrollTop := _scrollTop i; _scrollLeft := _scrollLeft i; handler := handler i;
     debouncer := debouncer i |}.

Definition set__mutationObserver (p : observer_field) (i : instance) : instance :=
  {| _container := _container i; _options := _options i; _scrollView := _scrollView i;
     _eventListener := _eventListener i; _mutationObserver := p;
     _scrollTop := _scrollTop i; _scrollLeft := _scrollLeft i; handler := handler i;
     debouncer := debouncer i |}.

Definition set__scrollTop (v : value) (i : instance) : instance :=
  {| _container := _container i; _options := _options i; _scrollView := _scrollView i;
     _eventListener := _eventListener i; _mutationObserver := _mutationObserver i;
     _scrollTop := v; _scrollLeft := _scrollLeft i; handler := handler i;
     debouncer := debouncer i |}.

Definition set__scrollLeft (v : value) (i : instance) : instance :=
  {| _container := _container i; _options := _options i; _scrollView := _scrollView i;
     _eventListener := _eventListener i; _mutationObserver := _mutationObserver i;
     _scrollTop := _scrollTop i; _scrollLeft := v; handler := handler i;
     debouncer := debouncer i |}.

Definition set_handler (c : cache) (i : instance) : instance :=
  {| _container := _container i; _options := _options i; _scrollView := _scrollView i;
     _eventListener := _eventListener i; _mutationObserver := _mutationObserver i;
     _scrollTop := _scrollTop i; _scrollLeft := _scrollLeft i; handler := c;
     debouncer := debouncer i |}.

Definition set_debouncer (d : option Helper.debounced) (i : instance) : instance :=
  {| _container := _container i; _options := _options i; _scrollView := _scrollView i;
     _eventListener := _eventListener i; _mutationObserver := _mutationObserver i;
     _scrollTop := _scrollTop i; _scrollLeft := _scrollLeft i; handler := handler i;
     debouncer := d |}.

(** [this]: the fields of the instance. *)
Definition self : M state instance := λ s, Ok (this s) s.

(** [this._container]: the element, or a [TypeError] to whoever reads a
    property of it after [destroy] set the field to [null]. *)
Definition container : M state DOM.element :=
  λ s, match _container (this s) with
       | Ref => Ok (Host.container (host s)) s
       | Null => TypeError s
       end.

(** An assignment to, or a method call on, [this._container]. *)
Definition on_container (f : DOM.element → DOM.element) : M state unit :=
  let! c := container in
  on_host (Host.set_container (f c)).

(** A method call on [this._scrollView]. *)
Definition scrollView (c : ScrollView.call) : M state unit :=
  λ s, match _scrollView (this s) with
       | Ref => on_host (λ h, Host.set_view (Host.view h ++ [c]) h) s
       | Null => TypeError s
       end.

Section Methods.
Context `{Coercions}.

Definition scrollTop (arguments : list value) : M state value :=
  let aScrollTop := default VUndefined (arguments !! 0%nat) in
  let! this := self in
  (* If this method was called with something else than a number, or
     scrolling is completly disabled, just return the scroll top *)
  if negb (String.eqb (typeof aScrollTop) "number")
     || ToBoolean (get (_options this) "disableYScrolling")
  then
    let! c := container in
    ret (VNumber (Fin (DOM.scrollTop c)))
  else
    (* then validate the newScrollTop value *)
    let! newScrollTop :=
      (if less_than aScrollTop (Fin 0) then ret (VNumber (Fin 0))
       else
         let! c := container in
         if greater_than aScrollTop (Fin (DOM.scrollHeight c - DOM.clientHeight c))
         then ret (VNumber (Fin (DOM.scrollHeight c - DOM.clientHeight c)))
         else ret aScrollTop) in
    (* if the scroll top has changed *)
    let! this := self in
    do! (if strict_neq (_scrollTop this) newScrollTop
         then
           do! scrollView (ScrollView.scrollTopUpdated newScrollTop) in
           do! on_container (DOM.set_scrollTop newScrollTop) in
           on_this (set__scrollTop newScrollTop)
         else ret tt) in
    ret newScrollTop.

Definition scrollLeft (arguments : list value) : M state value :=
  let aScrollLeft := default VUndefined (arguments !! 0%nat) in
  let! this := self in
  if Nat.eqb (length arguments) 0
     || ToBoolean (get (_options this) "disableXScrolling")
  then
    let! c := container in
    ret (VNumber (Fin (DOM.scrollLeft c)))
  else
    (* now validate the scrollLeft value *)
    let! newScrollLeft :=
      (if less_than aScrollLeft (Fin 0) then ret (VNumber (Fin 0))
       else
         let! c := container in
         if greater_than aScrollLeft (Fin (DOM.scrollWidth c - DOM.clientWidth c))
         then ret (VNumber (Fin (DOM.scrollWidth c - DOM.clientWidth c)))
         else ret aScrollLeft) in
    (* if scrollLeft has changed *)
    let! this := self in
    do! (if strict_neq (_scrollLeft this) newScrollLeft
         then
           do! scrollView (ScrollView.scrollLeftUpdated newScrollLeft) in
           do! on_container (DOM.set_scrollLeft newScrollLeft) in
           on_this (set__scrollLeft newScrollLeft)
         else ret tt) in
    ret newScrollLeft.

Definition destroy : M state unit :=
  (* clear the mutation observer *)
  let! this := self in
  do! (if ToBoolean (get (_options this) "useMutationObserver") then
         match _mutationObserver this with
         | Observer f =>
             do! on_host (λ h, Host.set_observers
                                 (filter (λ g, g ≠ f) (Host.observers h)) h) in
             on_this (set__mutationObserver Disconnected)
         | Unset | Disconnected | Interval _ => throw
         end
       else
         let p := match _mutationObserver this with
                  | Interval h => Some h
                  | Unset | Disconnected | Observer _ => None
                  end in
         on_host (λ h, Host.set_window (Window.clearInterval p (Host.window h)) h)) in
  (* then clean up the event listeners *)
  do! forEach (_eventListener this)
        (λ '(aKey, f), on_container (DOM.removeEventListener aKey f)) in
  (* destroy the scrollView *)
  do! scrollView ScrollView.destroy in
  (* and null the pointers *)
  do! on_this (set__scrollView Null) in
  on_this (set__container Null).

(** The listener [this._eventListener.wheel]; the result tells whether it
    called [aEvent.preventDefault()]. *)
Definition wheel (aEvent : WheelEvent) : M state bool :=
  (* if the default is prevented, we ignore this event *)
  if defaultPrevented aEvent then ret false
  else
    (* else we store the old values *)
    let! c := container in
    let currentScrollTop := DOM.scrollTop c in
    let! c := container in
    let currentScrollLeft := DOM.scrollLeft c in
    (* trigger the changing *)
    let! c := container in
    let! _ := scrollTop [VNumber (num_add (Fin (DOM.scrollTop c)) (deltaY aEvent))] in
    let! c := container in
    let! _ := scrollLeft [VNumber (num_add (Fin (DOM.scrollLeft c)) (deltaX aEvent))] in
    (* and if something actually changed *)
    let! c := container in
    if negb (currentScrollTop =? DOM.scrollTop c) then ret true
    else
      let! c := container in
      if negb (currentScrollLeft =? DOM.scrollLeft c) then ret true
      else ret false.

(** [_getMutationHandler()]: the cache the returned closure starts with. *)
Definition _getMutationHandler : M state unit :=
  let! c := container in
  let containerHeight := DOM.clientHeight c in
  let! c := container in
  let containerWidth := DOM.clientWidth c in
  let! c := container in
  let scrollHeight := DOM.scrollHeight c in
  let! c := container in
  let scrollWidth := DOM.scrollWidth c in
  on_this (set_handler {| containerHeight := containerHeight;
                          containerWidth := containerWidth;
                          scrollHeight := scrollHeight;
                          scrollWidth := scrollWidth |}).

Definition changed (k : cache) (c : DOM.element) : bool :=
  negb (containerHeight k =? DOM.clientHeight c)
  || negb (containerWidth k =? DOM.clientWidth c)
  || negb (scrollHeight k =? DOM.scrollHeight c)
  || negb (scrollWidth k =? DOM.scrollWidth c).

(** One tick: a call of the closure [_getMutationHandler] returned. *)
Definition mutationHandler : M state unit :=
  (* search for the root element of this element *)
  let! c := container in
  let root := potentialRootElement (DOM.parentElement c) in
  let! this := self in
  let oldScrollTop := _scrollTop this in
  let oldScrollLeft := _scrollLeft this in
  do! scrollView (ScrollView.scrollTopUpdated (VNumber (Fin 0))) in
  do! scrollView (ScrollView.scrollLeftUpdated (VNumber (Fin 0))) in
  (* if there is no root element *)
  if null_or_undefined root then
    (* simply destroy everything, because we are detached from DOM *)
    destroy
  else
    (* else check if something has changed *)
    do! (let! this := self in
         let! c := container in
         if changed (handler this) c then
           (* and if something has changed, refresh the cache *)
           do! on_this (set_handler {| containerHeight := DOM.clientHeight c;
                                       containerWidth := DOM.clientWidth c;
                                       scrollHeight := DOM.scrollHeight c;
                                       scrollWidth := DOM.scrollWidth c |}) in
           (* and tell the scrollView about the parent update *)
           scrollView ScrollView.parentUpdated
         else ret tt) in
    do! (let! this := self in
         let! c := container in
         if strict_neq (_scrollTop this) (VNumber (Fin (DOM.scrollTop c))) then
           let! _ := scrollTop [VNumber (Fin (DOM.scrollTop c))] in ret tt
         else if less_than oldScrollTop (Fin (scrollHeight (handler this))) then
           scrollView (ScrollView.scrollTopUpdated oldScrollTop)
         else ret tt) in
    let! this := self in
    let! c := container in
    if strict_neq (_scrollLeft this) (VNumber (Fin (DOM.scrollLeft c))) then
      let! _ := scrollLeft [VNumber (Fin (DOM.scrollLeft c))] in ret tt
    else if less_than oldScrollLeft (Fin (scrollWidth (handler this))) then
      scrollView (ScrollView.scrollLeftUpdated oldScrollLeft)
    else ret tt.

(** The callback of the [MutationObserver], that is one invocation of
    [debounce(mutationHandler, checkInterval)], when the observer is
    connected and has mutations to deliver. *)
Definition observed : M state unit :=
  let! s := read in
  match _mutationObserver (this s), debouncer (this s) with
  | Observer f, Some d =>
      if decide (f ∈ Host.observers (host s)) then
        let '(d, w) := Helper.call d (Host.window (host s)) in
        do! on_host (Host.set_window w) in
        on_this (set_debouncer (Some d))
      else ret tt
  | _, _ => ret tt
  end.

(** [new PocScrollbar(aElement, aOptions)], where [aElement] is the host's
    container.  [this._options] and [aOptions] are one object. *)
Definition constructor (aOptions : gmap string value) : M state unit :=
  (* first save the given values *)
  do! on_this (set__container Ref) in
  do! on_this (set__options aOptions) in
  (* then create a new scrollView *)
  do! on_this (set__scrollView Ref) in
  do! scrollView ScrollView.construct in
  (* then setup the event listeners *)
  do! on_this (set__eventListener
                 [("wheel", EventListener "wheel");
                  ("touchstart", EventListener "touchstart")]) in
  (* first we generate the needed data for mutation handling *)
  do! _getMutationHandler in
  let checkInterval :=
    if String.eqb (typeof (get aOptions "checkInterval")) "number"
    then get aOptions "checkInterval"
    else VNumber (Fin 300) in
  (* then we validate the useMutationObserver option *)
  let! s := read in
  do! on_this (set__options
                 (<["useMutationObserver" :=
                      if Host.hasMutationObserver (host s)
                      then get (_options (this s)) "useMutationObserver"
                      else VBool false]> (_options (this s)))) in
  (* and then we setup the corresponding mutation handler *)
  let! this := self in
  do! (if ToBoolean (get (_options this) "useMutationObserver") then
         let d := Helper.debounce ChangeHandler checkInterval in
         do! on_this (set_debouncer (Some d)) in
         do! on_this (set__mutationObserver (Observer (Debounced ChangeHandler))) in
         let! _ := container in
         on_host (λ h, Host.set_observers
                         (Host.observers h ++ [Debounced ChangeHandler]) h)
       else
         let! s := read in
         let '(h, w) := Window.setInterval ChangeHandler (ToNumber checkInterval)
                          (Host.window (host s)) in
         do! on_host (Host.set_window w) in
         on_this (set__mutationObserver (Interval h))) in
  (* then go and set the style for the container element *)
  do! on_container (DOM.set_style "overflow" (VString "hidden")) in
  let! c := container in
  let currentPositionStyle := DOM.computedPosition c in
  do! (if negb (String.eqb currentPositionStyle "absolute")
          && negb (String.eqb currentPositionStyle "relative")
       then on_container (DOM.set_style "position" (VString "relative"))
       else ret tt) in
  (* then attach all event handlers to the container *)
  let! this := self in
  do! forEach (_eventListener this)
        (λ '(aKey, f), on_container (DOM.addEventListener aKey f)) in
  do! on_this (set__scrollTop (VNumber (Fin 0))) in
  do! on_this (set__scrollLeft (VNumber (Fin 0))) in
  (* and tell the scrollView to execute a parentUpdated *)
  scrollView ScrollView.parentUpdated.

End Methods.

(** The object before the constructor body runs. *)
Definition blank : instance :=
  {| _container := Null; _options := ∅; _scrollView := Null;
     _eventListener := []; _mutationObserver := Unset;
     _scrollTop := VUndefined; _scrollLeft := VUndefined;
     handler := {| containerHeight := 0; containerWidth := 0;
                   scrollHeight := 0; scrollWidth := 0 |};
     debouncer := None |}.

Definition new `{Coercions} (h : Host.t) (aOptions : gmap string value)
  : result state unit :=
  constructor aOptions {| host := h; this := blank |}.

End PocScrollbar.

(* ===================================================================== *)
(** ** The listener [touchstart] of both classes *)
(* ===================================================================== *)

Module Touch.
Import JS.

(** What the listener and the two closures it creates use of the instance
    they belong to.  The listener is the same text in both classes. *)
Class Scroller (S : Type) := {
  aOptions : S → gmap string value;
  _container : M S DOM.element;
  scrollTop : list value → M S value;
  scrollLeft : list value → M S value
}.

Record touch := {
  clientX : number;
  clientY : number
}.

(** What the listeners read of a touch event; [which] is the attribute of
    [UIEvent], a number. *)
Record TouchEvent := {
  defaultPrevented : bool;
  which : number;
  touches : list touch
}.

(** The variables of one call of [touchstart], which its two closures
    share; the two function variables hold their closure or [null]. *)
Record variables := {
  touchToTrack : number;
  tmpMoverX : number;
  tmpMoverY : number;
  tmpMovePointer : pointer;
  tmpEndPointer : pointer
}.

(** A listener on [document.body]: one of the two closures of the [g]-th
    call of [touchstart], or a function of another script. *)
Inductive listener :=
| Move (g : nat)
| End_ (g : nat)
| Foreign (n : nat).

#[global] Instance listener_eq_dec : EqDecision listener.
Proof. solve_decision. Defined.

(** The instance, the listeners of [document.body], and the variables of
    every call of [touchstart] so far. *)
Record state (S : Type) := {
  instance : S;
  body : list (string * listener);
  calls : list variables
}.

Arguments instance {S} s.
Arguments body {S} s.
Arguments calls {S} s.

(** [touches[i]] for a number [i]: an entry of the list at an index, else
    [undefined]. *)
Definition item (l : list touch) (i : number) : option touch :=
  match i with
  | Fin z => if 0 <=? z then l !! Z.to_nat z else None
  | _ => None
  end.

(** [body.addEventListener(type, f)] and [body.removeEventListener(type, f)];
    removing [null] removes nothing. *)
Definition addEventListener (type : string) (f : listener)
    (l : list (string * listener)) : list (string * listener) :=
  if decide ((type, f) ∈ l) then l else l ++ [(type, f)].

Definition removeEventListener (type : string) (p : pointer) (f : listener)
    (l : list (string * listener)) : list (string * listener) :=
  match p with
  | Ref => filter (λ x, x ≠ (type, f)) l
  | Null => l
  end.

Section Listeners.
Context `{Coercions} {S : Type} `{Scroller S}.

(** A method call on, or a property read of, the instance. *)
Definition lift {A} (m : M S A) : M (state S) A :=
  λ s, match m (instance s) with
       | Ok a i => Ok a {| instance := i; body := body s; calls := calls s |}
       | TypeError i => TypeError {| instance := i; body := body s; calls := calls s |}
       end.

Definition on_body (f : list (string * listener) → list (string * listener))
  : M (state S) unit :=
  λ s, Ok tt {| instance := instance s; body := f (body s); calls := calls s |}.

(** [aEvent.touches[i]], of which a property is read next: a [TypeError]
    when there is no such touch. *)
Definition touch_at (aEvent : TouchEvent) (i : number) : M (state S) touch :=
  λ s, match item (touches aEvent) i with
       | Some t => Ok t s
       | None => TypeError s
       end.

(** An assignment to the variables of the [g]-th call. *)
Definition assign (g : nat) (v : variables) : M (state S) unit :=
  λ s, Ok tt {| instance := instance s; body := body s; calls := <[g := v]> (calls s) |}.

(** The listener [this._eventListener.touchstart]. *)
Definition touchstart (aEvent : TouchEvent) : M (state S) unit :=
  let! s := read in
  if defaultPrevented aEvent
     || ToBoolean (get (aOptions (instance s)) "disableTouchScrollingOnContainer")
  then ret tt
  else
    (* save a pointer to the touch to track *)
    let touchToTrack :=
      if ToBoolean (VNumber (which aEvent)) then which aEvent else Fin 0 in
    (* and save temporary variables for the move calculation *)
    let! t := touch_at aEvent touchToTrack in
    let tmpMoverX := clientX t in
    let! t := touch_at aEvent touchToTrack in
    let tmpMoverY := clientY t in
    (* then setup a move function pointer, and a pointer to a touchend
       function handler *)
    let! s := read in
    let g := length (calls s) in
    do! write {| instance := instance s; body := body s;
                 calls := calls s ++ [{| touchToTrack := touchToTrack;
                                         tmpMoverX := tmpMoverX;
                                         tmpMoverY := tmpMoverY;
                                         tmpMovePointer := Ref;
                                         tmpEndPointer := Ref |}] |} in
    (* and finally add the event handlers *)
    do! on_body (addEventListener "touchmove" (Move g)) in
    do! on_body (addEventListener "touchend" (End_ g)) in
    on_body (addEventListener "touchleave" (End_ g)).

(** The function in [tmpMovePointer] of the [g]-th call.  (Of a call that
    never happened there is no such function; the model lets it do
    nothing.) *)
Definition touchmove (g : nat) (aaEvent : TouchEvent) : M (state S) unit :=
  let! s := read in
  match calls s !! g with
  | None => ret tt
  | Some v =>
      (* which only tracks the correct touch *)
      if strict_neq (VNumber (which aaEvent)) (VNumber (touchToTrack v)) then ret tt
      else
        (* calculates the distance *)
        let! t := touch_at aaEvent (touchToTrack v) in
        let distanceX := num_sub (tmpMoverX v) (clientX t) in
        let! t := touch_at aaEvent (touchToTrack v) in
        let distanceY := num_sub (tmpMoverY v) (clientY t) in
        let! t := touch_at aaEvent (touchToTrack v) in
        let v := {| touchToTrack := touchToTrack v; tmpMoverX := clientX t;
                    tmpMoverY := tmpMoverY v; tmpMovePointer := tmpMovePointer v;
                    tmpEndPointer := tmpEndPointer v |} in
        do! assign g v in
        let! t := touch_at aaEvent (touchToTrack v) in
        let v := {| touchToTrack := touchToTrack v; tmpMoverX := tmpMoverX v;
                    tmpMoverY := clientY t; tmpMovePointer := tmpMovePointer v;
                    tmpEndPointer := tmpEndPointer v |} in
        do! assign g v in
        (* and triggers an update for scrollTop and scrollLeft *)
        let! c := lift _container in
        let! _ := lift (scrollTop [VNumber (num_add (Fin (DOM.scrollTop c)) distanceY)]) in
        let! c := lift _container in
        let! _ := lift (scrollLeft [VNumber (num_add (Fin (DOM.scrollLeft c)) distanceX)]) in
        ret tt
  end.

(** The function in [tmpEndPointer] of the [g]-th call, which listens to
    [touchend] and to [touchleave]. *)
Definition touchend (g : nat) (aaEvent : TouchEvent) : M (state S) unit :=
  let! s := read in
  match calls s !! g with
  | None => ret tt
  | Some v =>
      (* which only reacts to the correct touch *)
      if strict_neq (VNumber (which aaEvent)) (VNumber (touchToTrack v)) then ret tt
      else
        (* deregisters the event handlers *)
        do! on_body (removeEventListener "touchmove" (tmpMovePointer v) (Move g)) in
        do! on_body (removeEventListener "touchend" (tmpEndPointer v) (End_ g)) in
        do! on_body (removeEventListener "touchleave" (tmpEndPointer v) (End_ g)) in
        (* and nulls the pointer for freeing memory *)
        do! assign g {| touchToTrack := touchToTrack v; tmpMoverX := tmpMoverX v;
                        tmpMoverY := tmpMoverY v; tmpMovePointer := Null;
                        tmpEndPointer := tmpEndPointer v |} in
        assign g {| touchToTrack := touchToTrack v; tmpMoverX := tmpMoverX v;
                    tmpMoverY := tmpMoverY v; tmpMovePointer := Null;
                    tmpEndPointer := Null |}
  end.

End Listeners.

(** The two classes as the listener sees them. *)
#[global] Instance ScrollContainer_scroller `{Coercions} : Scroller ScrollContainer.state :=
  {| aOptions := λ s, ScrollContainer._options (ScrollContainer.this s);
     _container := ScrollContainer.container;
     scrollTop := ScrollContainer.scrollTop;
     scrollLeft := ScrollContainer.scrollLeft |}.

#[global] Instance PocScrollbar_scroller `{Coercions} : Scroller PocScrollbar.state :=
  {| aOptions := λ s, PocScrollbar._options (PocScrollbar.this s);
     _container := PocScrollbar.container;
     scrollTop := PocScrollbar.scrollTop;
     scrollLeft := PocScrollbar.scrollLeft |}.

End Touch.

(* ===================================================================== *)
(** * Closed forms and predicates used by the statements *)
(* ===================================================================== *)

Import JS.

Section ClosedForms.
Context `{Coercions}.

(** ** Offsets and operators *)

(** The largest offsets. *)
Definition top_limit (c : DOM.element) : Z := DOM.scrollHeight c - DOM.clientHeight c.
Definition left_limit (c : DOM.element) : Z := DOM.scrollWidth c - DOM.clientWidth c.

(** What both accessors make of their argument: the validated offset. *)
Definition validated (limit : Z) (v : value) : value :=
  if less_than v (Fin 0) then VNumber (Fin 0)
  else if greater_than v (Fin limit) then VNumber (Fin limit)
  else v.

(** The largest integer below the fraction [(2a + 1) / 2^(k + 1)]. *)
Definition floor (a : Z) (k : nat) : Z := (2 * a + 1) / 2 ^ (Z.of_nat k + 1).

(** A number clamped into [[0, limit]], as the specification has it: the
    nearest number of the range, which is the number itself when it lies
    in the range.  (A fraction lies below 0 when its floor does, and above
    the limit when its floor is the limit or more.) *)
Definition clamped (limit : Z) (n : number) : number :=
  match n with
  | NaN => NaN
  | NegInf => Fin 0
  | Fin z => Fin (Z.max 0 (Z.min z limit))
  | Frac a k =>
      if floor a k <? 0 then Fin 0
      else if limit <=? floor a k then Fin limit
      else Frac a k
  | PosInf => Fin limit
  end.

(** A number of the range [[0, limit]]. *)
Definition within (limit : Z) (n : number) : Prop :=
  match n with
  | Fin z => 0 ≤ z ≤ limit
  | Frac a k => 0 ≤ floor a k < limit
  | NaN | NegInf | PosInf => False
  end.

(** A number that is an integer or an infinity. *)
Definition whole (n : number) : Prop :=
  match n with
  | NaN | Frac _ _ => False
  | NegInf | Fin _ | PosInf => True
  end.

(** What an element with the largest offset [limit] reports once it was
    assigned the number [n]. *)
Definition reported (limit : Z) (n : number) : Z :=
  DOM.into_range limit (DOM.normalize n).

(** Walking up the [parentElement] links from [p] reaches
    [document.body]; and: it reaches [null] or [undefined] before it
    reaches [document.body]. *)
Inductive reaches_body : DOM.parent → Prop :=
| reaches_here (up : DOM.parent) : reaches_body (DOM.Element true up)
| reaches_above (up : DOM.parent) :
    reaches_body up → reaches_body (DOM.Element false up).

Inductive ends_outside : DOM.parent → Prop :=
| ends_null : ends_outside DOM.Null
| ends_undefined : ends_outside DOM.Undefined
| ends_above (up : DOM.parent) :
    ends_outside up → ends_outside (DOM.Element false up).

(** The container has no root: the walk up from its parent ends in [null]
    or [undefined] before it meets [document.body]. *)
Definition detached (c : DOM.element) : bool :=
  null_or_undefined (potentialRootElement (DOM.parentElement c)).

(** The calls [cs] hold no [parentUpdated]. *)
Definition quiet (cs : list ScrollView.call) : Prop := ScrollView.parentUpdated ∉ cs.

(** A delta that cannot move the offset: it is zero, or it points out of the
    scrollable range at the bound the offset is at. *)
Definition outward (offset limit d : Z) : Prop :=
  d = 0 ∨ (offset = limit ∧ 0 ≤ d) ∨ (offset = 0 ∧ d ≤ 0).

(** ** ScrollContainer *)

(** The instance is live: [destroy] has not nulled its pointers. *)
Definition sc_live (s : ScrollContainer.state) : Prop :=
  ScrollContainer._container (ScrollContainer.this s) = Ref ∧
  ScrollContainer._scrollView (ScrollContainer.this s) = Ref.

(** The state once the scroll view received the calls [cs]. *)
Definition sc_told (cs : list ScrollView.call) (s : ScrollContainer.state)
  : ScrollContainer.state :=
  {| ScrollContainer.host :=
       Host.set_view (Host.view (ScrollContainer.host s) ++ cs) (ScrollContainer.host s);
     ScrollContainer.this := ScrollContainer.this s |}.

(** The state after [scrollTop] (or [scrollLeft]) found the offset changed:
    the view is told, the element is assigned, the field is stored. *)
Definition sc_top_written (v : value) (s : ScrollContainer.state) : ScrollContainer.state :=
  let h := ScrollContainer.host s in
  {| ScrollContainer.host :=
       Host.set_container (DOM.set_scrollTop v (Host.container h))
         (Host.set_view (Host.view h ++ [ScrollView.scrollTopUpdated v]) h);
     ScrollContainer.this := ScrollContainer.set__scrollTop v (ScrollContainer.this s) |}.

Definition sc_left_written (v : value) (s : ScrollContainer.state) : ScrollContainer.state :=
  let h := ScrollContainer.host s in
  {| ScrollContainer.host :=
       Host.set_container (DOM.set_scrollLeft v (Host.container h))
         (Host.set_view (Host.view h ++ [ScrollView.scrollLeftUpdated v]) h);
     ScrollContainer.this := ScrollContainer.set__scrollLeft v (ScrollContainer.this s) |}.

(** The two guards. *)
Definition sc_top_is_getter (args : list value) (s : ScrollContainer.state) : bool :=
  negb (String.eqb (typeof (default VUndefined (args !! 0%nat))) "number")
  || ToBoolean (get (ScrollContainer._options (ScrollContainer.this s)) "disableYScrolling").

Definition sc_left_is_getter (args : list value) (s : ScrollContainer.state) : bool :=
  Nat.eqb (length args) 0
  || ToBoolean (get (ScrollContainer._options (ScrollContainer.this s)) "disableXScrolling").

(** What [scrollTop(args)] returns and the state it leaves, in closed form. *)
Definition sc_top_value (args : list value) (s : ScrollContainer.state) : value :=
  let c := Host.container (ScrollContainer.host s) in
  if sc_top_is_getter args s then VNumber (Fin (DOM.scrollTop c))
  else validated (top_limit c) (default VUndefined (args !! 0%nat)).

Definition sc_top_state (args : list value) (s : ScrollContainer.state)
  : ScrollContainer.state :=
  if sc_top_is_getter args s then s
  else if strict_neq (ScrollContainer._scrollTop (ScrollContainer.this s)) (sc_top_value args s)
       then sc_top_written (sc_top_value args s) s
       else s.

Definition sc_left_value (args : list value) (s : ScrollContainer.state) : value :=
  let c := Host.container (ScrollContainer.host s) in
  if sc_left_is_getter args s then VNumber (Fin (DOM.scrollLeft c))
  else validated (left_limit c) (default VUndefined (args !! 0%nat)).

Definition sc_left_state (args : list value) (s : ScrollContainer.state)
  : ScrollContainer.state :=
  if sc_left_is_getter args s then s
  else if strict_neq (ScrollContainer._scrollLeft (ScrollContainer.this s)) (sc_left_value args s)
       then sc_left_written (sc_left_value args s) s
       else s.

(** The state [destroy] leaves. *)
Definition sc_destroyed (s : ScrollContainer.state) : ScrollContainer.state :=
  let h := ScrollContainer.host s in
  let i := ScrollContainer.this s in
  {| ScrollContainer.host :=
       {| Host.container :=
            foldl (λ c '(aKey, g), DOM.removeEventListener aKey g c)
                  (Host.container h) (ScrollContainer._eventListener i);
          Host.window := Window.clearInterval (ScrollContainer._intervalPointer i) (Host.window h);
          Host.observers := Host.observers h;
          Host.view := Host.view h ++ [ScrollView.destroy];
          Host.hasMutationObserver := Host.hasMutationObserver h |};
     ScrollContainer.this :=
       ScrollContainer.set__container Null (ScrollContainer.set__scrollView Null i) |}.

(** The wheel listener on a live instance. *)
Definition sc_wheeled (e : WheelEvent) (s : ScrollContainer.state) : ScrollContainer.state :=
  let top := DOM.scrollTop (Host.container (ScrollContainer.host s)) in
  let s1 := sc_top_state [VNumber (num_add (Fin top) (deltaY e))] s in
  let left := DOM.scrollLeft (Host.container (ScrollContainer.host s1)) in
  sc_left_state [VNumber (num_add (Fin left) (deltaX e))] s1.

Definition sc_moved (s s' : ScrollContainer.state) : bool :=
  negb (DOM.scrollTop (Host.container (ScrollContainer.host s))
        =? DOM.scrollTop (Host.container (ScrollContainer.host s')))
  || negb (DOM.scrollLeft (Host.container (ScrollContainer.host s))
           =? DOM.scrollLeft (Host.container (ScrollContainer.host s'))).

(** The dimension check of a tick: the cache is refreshed and the view is
    told when one of the four dimensions moved. *)
Definition sc_measured (c : DOM.element) : ScrollContainer.cache :=
  {| ScrollContainer.containerHeight := DOM.clientHeight c;
     ScrollContainer.containerWidth := DOM.clientWidth c;
     ScrollContainer.scrollHeight := DOM.scrollHeight c;
     ScrollContainer.scrollWidth := DOM.scrollWidth c |}.

Definition sc_refreshed (s : ScrollContainer.state) : ScrollContainer.state :=
  let c := Host.container (ScrollContainer.host s) in
  if ScrollContainer.changed (ScrollContainer.handler (ScrollContainer.this s)) c
  then sc_told [ScrollView.parentUpdated]
         {| ScrollContainer.host := ScrollContainer.host s;
            ScrollContainer.this :=
              ScrollContainer.set_handler (sc_measured c) (ScrollContainer.this s) |}
  else s.

(** The re-synchronization of a tick, one axis at a time. *)
Definition sc_resynced_top (old : value) (s : ScrollContainer.state) : ScrollContainer.state :=
  let top := VNumber (Fin (DOM.scrollTop (Host.container (ScrollContainer.host s)))) in
  if strict_neq (ScrollContainer._scrollTop (ScrollContainer.this s)) top
  then sc_top_state [top] s
  else if less_than old
            (Fin (ScrollContainer.scrollHeight (ScrollContainer.handler (ScrollContainer.this s))))
       then sc_told [ScrollView.scrollTopUpdated old] s
       else s.

Definition sc_resynced_left (old : value) (s : ScrollContainer.state) : ScrollContainer.state :=
  let left := VNumber (Fin (DOM.scrollLeft (Host.container (ScrollContainer.host s)))) in
  if strict_neq (ScrollContainer._scrollLeft (ScrollContainer.this s)) left
  then sc_left_state [left] s
  else if less_than old
            (Fin (ScrollContainer.scrollWidth (ScrollContainer.handler (ScrollContainer.this s))))
       then sc_told [ScrollView.scrollLeftUpdated old] s
       else s.

(** The two calls every tick starts with. *)
Definition sc_reset (s : ScrollContainer.state) : ScrollContainer.state :=
  sc_told [ScrollView.scrollLeftUpdated (VNumber (Fin 0))]
    (sc_told [ScrollView.scrollTopUpdated (VNumber (Fin 0))] s).

(** A tick of an attached container in closed form. *)
Definition sc_ticked (s : ScrollContainer.state) : ScrollContainer.state :=
  sc_resynced_left (ScrollContainer._scrollLeft (ScrollContainer.this s))
    (sc_resynced_top (ScrollContainer._scrollTop (ScrollContainer.this s))
       (sc_refreshed (sc_reset s))).

(** Both axes enabled, which is the options' default. *)
Definition sc_enabledY (s : ScrollContainer.state) : Prop :=
  ToBoolean (get (ScrollContainer._options (ScrollContainer.this s)) "disableYScrolling") = false.

Definition sc_enabledX (s : ScrollContainer.state) : Prop :=
  ToBoolean (get (ScrollContainer._options (ScrollContainer.this s)) "disableXScrolling") = false.

Definition sc_synced_top (s : ScrollContainer.state) : Prop :=
  ScrollContainer._scrollTop (ScrollContainer.this s)
  = VNumber (Fin (DOM.scrollTop (Host.container (ScrollContainer.host s)))).

Definition sc_synced_left (s : ScrollContainer.state) : Prop :=
  ScrollContainer._scrollLeft (ScrollContainer.this s)
  = VNumber (Fin (DOM.scrollLeft (Host.container (ScrollContainer.host s)))).

(** The stored offsets are the native ones. *)
Definition sc_synced (s : ScrollContainer.state) : Prop :=
  sc_synced_top s ∧ sc_synced_left s.

Definition sc_well_formed (s : ScrollContainer.state) : Prop :=
  DOM.well_formed (Host.container (ScrollContainer.host s)).

(** ** PocScrollbar *)

(** The instance is live: [destroy] has not nulled its pointers. *)
Definition poc_live (s : PocScrollbar.state) : Prop :=
  PocScrollbar._container (PocScrollbar.this s) = Ref ∧
  PocScrollbar._scrollView (PocScrollbar.this s) = Ref.

(** The state once the scroll view received the calls [cs]. *)
Definition poc_told (cs : list ScrollView.call) (s : PocScrollbar.state)
  : PocScrollbar.state :=
  {| PocScrollbar.host :=
       Host.set_view (Host.view (PocScrollbar.host s) ++ cs) (PocScrollbar.host s);
     PocScrollbar.this := PocScrollbar.this s |}.

(** The state after [scrollTop] (or [scrollLeft]) found the offset changed:
    the view is told, the element is assigned, the field is stored. *)
Definition poc_top_written (v : value) (s : PocScrollbar.state) : PocScrollbar.state :=
  let h := PocScrollbar.host s in
  {| PocScrollbar.host :=
       Host.set_container (DOM.set_scrollTop v (Host.container h))
         (Host.set_view (Host.view h ++ [ScrollView.scrollTopUpdated v]) h);
     PocScrollbar.this := PocScrollbar.set__scrollTop v (PocScrollbar.this s) |}.

Definition poc_left_written (v : value) (s : PocScrollbar.state) : PocScrollbar.state :=
  let h := PocScrollbar.host s in
  {| PocScrollbar.host :=
       Host.set_container (DOM.set_scrollLeft v (Host.container h))
         (Host.set_view (Host.view h ++ [ScrollView.scrollLeftUpdated v]) h);
     PocScrollbar.this := PocScrollbar.set__scrollLeft v (PocScrollbar.this s) |}.

(** The two guards. *)
Definition poc_top_is_getter (args : list value) (s : PocScrollbar.state) : bool :=
  negb (String.eqb (typeof (default VUndefined (args !! 0%nat))) "number")
  || ToBoolean (get (PocScrollbar._options (PocScrollbar.this s)) "disableYScrolling").

Definition poc_left_is_getter (args : list value) (s : PocScrollbar.state) : bool :=
  Nat.eqb (length args) 0
  || ToBoolean (get (PocScrollbar._options (PocScrollbar.this s)) "disableXScrolling").

(** What [scrollTop(args)] returns and the state it leaves, in closed form. *)
Definition poc_top_value (args : list value) (s : PocScrollbar.state) : value :=
  let c := Host.container (PocScrollbar.host s) in
  if poc_top_is_getter args s then VNumber (Fin (DOM.scrollTop c))
  else validated (top_limit c) (default VUndefined (args !! 0%nat)).

Definition poc_top_state (args : list value) (s : PocScrollbar.state)
  : PocScrollbar.state :=
  if poc_top_is_getter args s then s
  else if strict_neq (PocScrollbar._scrollTop (PocScrollbar.this s)) (poc_top_value args s)
       then poc_top_written (poc_top_value args s) s
       else s.

Definition poc_left_value (args : list value) (s : PocScrollbar.state) : value :=
  let c := Host.container (PocScrollbar.host s) in
  if poc_left_is_getter args s then VNumber (Fin (DOM.scrollLeft c))
  else validated (left_limit c) (default VUndefined (args !! 0%nat)).

Definition poc_left_state (args : list value) (s : PocScrollbar.state)
  : PocScrollbar.state :=
  if poc_left_is_getter args s then s
  else if strict_neq (PocScrollbar._scrollLeft (PocScrollbar.this s)) (poc_left_value args s)
       then poc_left_written (poc_left_value args s) s
       else s.

(** The wheel listener on a live instance. *)
Definition poc_wheeled (e : WheelEvent) (s : PocScrollbar.state) : PocScrollbar.state :=
  let top := DOM.scrollTop (Host.container (PocScrollbar.host s)) in
  let s1 := poc_top_state [VNumber (num_add (Fin top) (deltaY e))] s in
  let left := DOM.scrollLeft (Host.container (PocScrollbar.host s1)) in
  poc_left_state [VNumber (num_add (Fin left) (deltaX e))] s1.

Definition poc_moved (s s' : PocScrollbar.state) : bool :=
  negb (DOM.scrollTop (Host.container (PocScrollbar.host s))
        =? DOM.scrollTop (Host.container (PocScrollbar.host s')))
  || negb (DOM.scrollLeft (Host.container (PocScrollbar.host s))
           =? DOM.scrollLeft (Host.container (PocScrollbar.host s'))).

(** The dimension check of a tick: the cache is refreshed and the view is
    told when one of the four dimensions moved. *)
Definition poc_measured (c : DOM.element) : PocScrollbar.cache :=
  {| PocScrollbar.containerHeight := DOM.clientHeight c;
     PocScrollbar.containerWidth := DOM.clientWidth c;
     PocScrollbar.scrollHeight := DOM.scrollHeight c;
     PocScrollbar.scrollWidth := DOM.scrollWidth c |}.

Definition poc_refreshed (s : PocScrollbar.state) : PocScrollbar.state :=
  let c := Host.container (PocScrollbar.host s) in
  if PocScrollbar.changed (PocScrollbar.handler (PocScrollbar.this s)) c
  then poc_told [ScrollView.parentUpdated]
         {| PocScrollbar.host := PocScrollbar.host s;
            PocScrollbar.this :=
              PocScrollbar.set_handler (poc_measured c) (PocScrollbar.this s) |}
  else s.

(** The re-synchronization of a tick, one axis at a time. *)
Definition poc_resynced_top (old : value) (s : PocScrollbar.state) : PocScrollbar.state :=
  let top := VNumber (Fin (DOM.scrollTop (Host.container (PocScrollbar.host s)))) in
  if strict_neq (PocScrollbar._scrollTop (PocScrollbar.this s)) top
  then poc_top_state [top] s
  else if less_than old
            (Fin (PocScrollbar.scrollHeight (PocScrollbar.handler (PocScrollbar.this s))))
       then poc_told [ScrollView.scrollTopUpdated old] s
       else s.

Definition poc_resynced_left (old : value) (s : PocScrollbar.state) : PocScrollbar.state :=
  let left := VNumber (Fin (DOM.scrollLeft (Host.container (PocScrollbar.host s)))) in
  if strict_neq (PocScrollbar._scrollLeft (PocScrollbar.this s)) left
  then poc_left_state [left] s
  else if less_than old
            (Fin (PocScrollbar.scrollWidth (PocScrollbar.handler (PocScrollbar.this s))))
       then poc_told [ScrollView.scrollLeftUpdated old] s
       else s.

(** The two calls every tick starts with. *)
Definition poc_reset (s : PocScrollbar.state) : PocScrollbar.state :=
  poc_told [ScrollView.scrollLeftUpdated (VNumber (Fin 0))]
    (poc_told [ScrollView.scrollTopUpdated (VNumber (Fin 0))] s).

(** A tick of an attached container in closed form. *)
Definition poc_ticked (s : PocScrollbar.state) : PocScrollbar.state :=
  poc_resynced_left (PocScrollbar._scrollLeft (PocScrollbar.this s))
    (poc_resynced_top (PocScrollbar._scrollTop (PocScrollbar.this s))
       (poc_refreshed (poc_reset s))).

(** Both axes enabled, which is the options' default. *)
Definition poc_enabledY (s : PocScrollbar.state) : Prop :=
  ToBoolean (get (PocScrollbar._options (PocScrollbar.this s)) "disableYScrolling") = false.

Definition poc_enabledX (s : PocScrollbar.state) : Prop :=
  ToBoolean (get (PocScrollbar._options (PocScrollbar.this s)) "disableXScrolling") = false.

Definition poc_well_formed (s : PocScrollbar.state) : Prop :=
  DOM.well_formed (Host.container (PocScrollbar.host s)).

(** The option that chooses the observer over the interval, as [destroy]
    reads it. *)
Definition poc_uses_observer (s : PocScrollbar.state) : bool :=
  ToBoolean (get (PocScrollbar._options (PocScrollbar.this s)) "useMutationObserver").

(** The field [_mutationObserver] holds an observer when the option says
    so, which is how the constructor leaves the two. *)
Definition poc_armed (s : PocScrollbar.state) : Prop :=
  poc_uses_observer s = true →
  ∃ f, PocScrollbar._mutationObserver (PocScrollbar.this s) = PocScrollbar.Observer f.

(** The state [destroy] leaves. *)
Definition poc_destroyed (s : PocScrollbar.state) : PocScrollbar.state :=
  let h := PocScrollbar.host s in
  let i := PocScrollbar.this s in
  {| PocScrollbar.host :=
       {| Host.container :=
            foldl (λ c '(aKey, g), DOM.removeEventListener aKey g c)
                  (Host.container h) (PocScrollbar._eventListener i);
          Host.window :=
            if poc_uses_observer s then Host.window h
            else Window.clearInterval
                   match PocScrollbar._mutationObserver i with
                   | PocScrollbar.Interval p => Some p
                   | _ => None
                   end (Host.window h);
          Host.observers :=
            if poc_uses_observer s then
              match PocScrollbar._mutationObserver i with
              | PocScrollbar.Observer f => filter (λ g, g ≠ f) (Host.observers h)
              | _ => Host.observers h
              end
            else Host.observers h;
          Host.view := Host.view h ++ [ScrollView.destroy];
          Host.hasMutationObserver := Host.hasMutationObserver h |};
     PocScrollbar.this :=
       PocScrollbar.set__container Null
         (PocScrollbar.set__scrollView Null
            (if poc_uses_observer s
             then PocScrollbar.set__mutationObserver PocScrollbar.Disconnected i
             else i)) |}.

(** ** debounce in the event loop *)

(** Handles are handed out in increasing order: every active timer has a
    handle below the next one. *)
Definition fresh_handles (w : Window.t) : Prop :=
  ∀ x, x ∈ Window.timers w → (Window.handle x < Window.next_handle w)%nat.

(** The timer one invocation of the debounced function leaves. *)
Definition armed_timer (s : Loop.t) : Window.timer :=
  {| Window.handle := Window.next_handle (Loop.window s);
     Window.action := Helper.aCallback (Loop.closure s);
     Window.delay := Loop.wait (Helper.aWaitTime (Loop.closure s));
     Window.due := Window.now (Loop.window s) + Loop.wait (Helper.aWaitTime (Loop.closure s));
     Window.repeating := false |}.

(** Every run of the callback comes right after a call of the debounced
    function, with no other call or run between the two, and at least the
    wait later. *)
Definition runs_follow_calls (d : Z) (h : list Loop.entry) : Prop :=
  ∀ l1 t l2, h = l1 ++ Loop.Ran t :: l2 →
    ∃ c l3, l2 = Loop.Called c :: l3 ∧ c + d ≤ t.

(** Any two runs of the callback are at least the wait apart. *)
Definition runs_apart (d : Z) (h : list Loop.entry) : Prop :=
  ∀ l1 t2 l2 t1 l3, h = l1 ++ Loop.Ran t2 :: l2 ++ Loop.Ran t1 :: l3 → t1 + d ≤ t2.

(** What holds of the loop between any two events. *)
Definition loop_invariant (s : Loop.t) : Prop :=
  let w := Loop.window s in
  let f := Helper.aCallback (Loop.closure s) in
  let d := Loop.wait (Helper.aWaitTime (Loop.closure s)) in
  fresh_handles w ∧
  (∀ x, x ∈ Window.timers w → Window.action x = f →
     Helper.pointer (Loop.closure s) = Some (Window.handle x) ∧
     Window.repeating x = false ∧
     ∃ c l, Loop.history s = Loop.Called c :: l ∧ Window.due x = c + d) ∧
  Forall (λ e, Loop.time_of e ≤ Window.now w) (Loop.history s) ∧
  StronglySorted (λ a b, Loop.time_of b ≤ Loop.time_of a) (Loop.history s) ∧
  runs_follow_calls d (Loop.history s).

(** ** applyOptionsToScollBarElement *)

(** The styles the element ends up with: the own properties of the styles
    option over what was there, when that option is an object that is no
    array. *)
Definition styles_applied (styles : value) (old : gmap string value) : gmap string value :=
  match styles with
  | VObject _ o => o ∪ old
  | _ => old
  end.

(** The element with other styles. *)
Definition restyled (m : gmap string value) (e : DOM.element) : DOM.element :=
  {| DOM.scrollTop := DOM.scrollTop e; DOM.scrollLeft := DOM.scrollLeft e;
     DOM.clientHeight := DOM.clientHeight e; DOM.clientWidth := DOM.clientWidth e;
     DOM.scrollHeight := DOM.scrollHeight e; DOM.scrollWidth := DOM.scrollWidth e;
     DOM.parentElement := DOM.parentElement e; DOM.listeners := DOM.listeners e;
     DOM.style := m; DOM.classList := DOM.classList e;
     DOM.computedPosition := DOM.computedPosition e |}.

(** The calls of [classList.add] the class option leads to: one for the
    option itself when it is a string that is not empty, one for each
    entry when it is an array. *)
Definition classes_applied (class : value) (e : DOM.element) : DOM.completion :=
  match class with
  | VString s => if String.eqb s "" then DOM.Returns e else DOM.classList_add class e
  | VArray _ l => Helper.forEach_class l e
  | _ => DOM.Returns e
  end.

(** What the specification says of the entries [l] of an array of classes,
    added to the tokens [old] with the outcome [r]: the entries up to the
    first that is no token are added, each once and in their order, behind
    the tokens there were; the call returns when every entry is a token
    and throws at the first that is not. *)
Definition entries_added (l : list value) (old : list string) (r : DOM.completion) : Prop :=
  ∃ good new : list string,
    Forall (λ t, DOM.is_token t = true) good ∧
    DOM.classList (DOM.element_of r) = old ++ new ∧
    NoDup new ∧ sublist new good ∧
    (∀ t, t ∈ new ↔ t ∈ good ∧ t ∉ old) ∧
    ((r = DOM.Returns (DOM.element_of r) ∧ ToString <$> l = good) ∨
     (∃ bad rest, r = DOM.DOMException (DOM.element_of r) ∧
                  ToString <$> l = good ++ bad :: rest ∧ DOM.is_token bad = false)).

(** ** The two containers side by side *)

(** An instance of each class over the same host, with the same pointers,
    options and stored offsets. *)
Definition same_instance (s : ScrollContainer.state) (p : PocScrollbar.state) : Prop :=
  ScrollContainer.host s = PocScrollbar.host p ∧
  ScrollContainer._container (ScrollContainer.this s)
  = PocScrollbar._container (PocScrollbar.this p) ∧
  ScrollContainer._scrollView (ScrollContainer.this s)
  = PocScrollbar._scrollView (PocScrollbar.this p) ∧
  ScrollContainer._options (ScrollContainer.this s)
  = PocScrollbar._options (PocScrollbar.this p) ∧
  ScrollContainer._scrollTop (ScrollContainer.this s)
  = PocScrollbar._scrollTop (PocScrollbar.this p) ∧
  ScrollContainer._scrollLeft (ScrollContainer.this s)
  = PocScrollbar._scrollLeft (PocScrollbar.this p).

(** Two calls came to the same: both returned the same value or both
    threw, and the instances still agree. *)
Definition same_outcome (a : result ScrollContainer.state value)
    (b : result PocScrollbar.state value) : Prop :=
  match a, b with
  | Ok v s, Ok v' p => v = v' ∧ same_instance s p
  | TypeError s, TypeError p => same_instance s p
  | _, _ => False
  end.

End ClosedForms.

Section MoreClosedForms.
Context `{Coercions}.

(** ** What the view shows *)

(** The offset the scroll view was last told, if it was told any. *)
Definition shown_top (cs : list ScrollView.call) : option value :=
  foldl (λ shown c, match c with
                    | ScrollView.scrollTopUpdated v => Some v
                    | _ => shown
                    end) None cs.

Definition shown_left (cs : list ScrollView.call) : option value :=
  foldl (λ shown c, match c with
                    | ScrollView.scrollLeftUpdated v => Some v
                    | _ => shown
                    end) None cs.

(** ** ScrollContainer: more closed forms *)

(** The top offset, native and stored, is in [s'] what it was in [s]. *)
Definition sc_top_kept (s s' : ScrollContainer.state) : Prop :=
  DOM.scrollTop (Host.container (ScrollContainer.host s'))
  = DOM.scrollTop (Host.container (ScrollContainer.host s)) ∧
  ScrollContainer._scrollTop (ScrollContainer.this s')
  = ScrollContainer._scrollTop (ScrollContainer.this s).

Definition sc_left_kept (s s' : ScrollContainer.state) : Prop :=
  DOM.scrollLeft (Host.container (ScrollContainer.host s'))
  = DOM.scrollLeft (Host.container (ScrollContainer.host s)) ∧
  ScrollContainer._scrollLeft (ScrollContainer.this s')
  = ScrollContainer._scrollLeft (ScrollContainer.this s).

(** The options disable an axis. *)
Definition sc_disabledY (s : ScrollContainer.state) : Prop :=
  ToBoolean (get (ScrollContainer._options (ScrollContainer.this s)) "disableYScrolling") = true.

Definition sc_disabledX (s : ScrollContainer.state) : Prop :=
  ToBoolean (get (ScrollContainer._options (ScrollContainer.this s)) "disableXScrolling") = true.

(** ** PocScrollbar: more closed forms *)

(** The top offset, native and stored, is in [s'] what it was in [s]. *)
Definition poc_top_kept (s s' : PocScrollbar.state) : Prop :=
  DOM.scrollTop (Host.container (PocScrollbar.host s'))
  = DOM.scrollTop (Host.container (PocScrollbar.host s)) ∧
  PocScrollbar._scrollTop (PocScrollbar.this s')
  = PocScrollbar._scrollTop (PocScrollbar.this s).

Definition poc_left_kept (s s' : PocScrollbar.state) : Prop :=
  DOM.scrollLeft (Host.container (PocScrollbar.host s'))
  = DOM.scrollLeft (Host.container (PocScrollbar.host s)) ∧
  PocScrollbar._scrollLeft (PocScrollbar.this s')
  = PocScrollbar._scrollLeft (PocScrollbar.this s).

(** The options disable an axis. *)
Definition poc_disabledY (s : PocScrollbar.state) : Prop :=
  ToBoolean (get (PocScrollbar._options (PocScrollbar.this s)) "disableYScrolling") = true.

Definition poc_disabledX (s : PocScrollbar.state) : Prop :=
  ToBoolean (get (PocScrollbar._options (PocScrollbar.this s)) "disableXScrolling") = true.

(** ** PocScrollbar: the stored offsets against the native ones *)

Definition poc_synced_top (s : PocScrollbar.state) : Prop :=
  PocScrollbar._scrollTop (PocScrollbar.this s)
  = VNumber (Fin (DOM.scrollTop (Host.container (PocScrollbar.host s)))).

Definition poc_synced_left (s : PocScrollbar.state) : Prop :=
  PocScrollbar._scrollLeft (PocScrollbar.this s)
  = VNumber (Fin (DOM.scrollLeft (Host.container (PocScrollbar.host s)))).

Definition poc_synced (s : PocScrollbar.state) : Prop :=
  poc_synced_top s ∧ poc_synced_left s.

(** ** ScrollContainer: the stored offsets up to rounding *)

(** The element reports what it would report once it was assigned the
    stored offset: the stored offset itself, or the whole number of pixels
    the browser rounds it to. *)
Definition sc_tracked_top (s : ScrollContainer.state) : Prop :=
  let c := Host.container (ScrollContainer.host s) in
  ∃ r, ScrollContainer._scrollTop (ScrollContainer.this s) = VNumber r ∧
       DOM.scrollTop c = reported (top_limit c) r.

Definition sc_tracked_left (s : ScrollContainer.state) : Prop :=
  let c := Host.container (ScrollContainer.host s) in
  ∃ r, ScrollContainer._scrollLeft (ScrollContainer.this s) = VNumber r ∧
       DOM.scrollLeft c = reported (left_limit c) r.

(** The element was scrolled from [c] by [dy] down and [dx] to the right:
    the instance stores the sums clamped into the range, and the element
    reports them (rounded when they are fractions). *)
Definition sc_scrolled_by (c : DOM.element) (dy dx : number) (s' : ScrollContainer.state) :
    Prop :=
  let y := clamped (top_limit c) (num_add (Fin (DOM.scrollTop c)) dy) in
  let x := clamped (left_limit c) (num_add (Fin (DOM.scrollLeft c)) dx) in
  let c' := Host.container (ScrollContainer.host s') in
  ScrollContainer._scrollTop (ScrollContainer.this s') = VNumber y ∧
  ScrollContainer._scrollLeft (ScrollContainer.this s') = VNumber x ∧
  DOM.scrollTop c' = reported (top_limit c) y ∧
  DOM.scrollLeft c' = reported (left_limit c) x.

(** ** PocScrollbar: the stored offsets up to rounding *)

(** The element reports what it would report once it was assigned the
    stored offset: the stored offset itself, or the whole number of pixels
    the browser rounds it to. *)
Definition poc_tracked_top (s : PocScrollbar.state) : Prop :=
  let c := Host.container (PocScrollbar.host s) in
  ∃ r, PocScrollbar._scrollTop (PocScrollbar.this s) = VNumber r ∧
       DOM.scrollTop c = reported (top_limit c) r.

Definition poc_tracked_left (s : PocScrollbar.state) : Prop :=
  let c := Host.container (PocScrollbar.host s) in
  ∃ r, PocScrollbar._scrollLeft (PocScrollbar.this s) = VNumber r ∧
       DOM.scrollLeft c = reported (left_limit c) r.

(** The element was scrolled from [c] by [dy] down and [dx] to the right:
    the instance stores the sums clamped into the range, and the element
    reports them (rounded when they are fractions). *)
Definition poc_scrolled_by (c : DOM.element) (dy dx : number) (s' : PocScrollbar.state) :
    Prop :=
  let y := clamped (top_limit c) (num_add (Fin (DOM.scrollTop c)) dy) in
  let x := clamped (left_limit c) (num_add (Fin (DOM.scrollLeft c)) dx) in
  let c' := Host.container (PocScrollbar.host s') in
  PocScrollbar._scrollTop (PocScrollbar.this s') = VNumber y ∧
  PocScrollbar._scrollLeft (PocScrollbar.this s') = VNumber x ∧
  DOM.scrollTop c' = reported (top_limit c) y ∧
  DOM.scrollLeft c' = reported (left_limit c) x.

(** ** ScrollContainer: the constructor in closed form *)

(** The delay of the polling interval: [aOptions.checkInterval || 300], as
    the window takes it. *)
Definition sc_checkInterval (aOptions : gmap string value) : Z :=
  Z.max 0 (to_long (ToNumber (if ToBoolean (get aOptions "checkInterval")
                              then get aOptions "checkInterval"
                              else VNumber (Fin 300)))).

(** The two listeners of [_eventListener], in the order of its keys. *)
Definition own_listeners : list (string * callback) :=
  [("wheel", EventListener "wheel"); ("touchstart", EventListener "touchstart")].

(** The element once a constructor is done with it. *)
Definition dressed (c : DOM.element) : DOM.element :=
  let c1 := DOM.set_style "overflow" (VString "hidden") c in
  let c2 := if negb (String.eqb (DOM.computedPosition c1) "absolute")
               && negb (String.eqb (DOM.computedPosition c1) "relative")
            then DOM.set_style "position" (VString "relative") c1
            else c1 in
  foldl (λ c '(aKey, f), DOM.addEventListener aKey f c) c2 own_listeners.

(** The timer [setInterval] adds for the change handler. *)
Definition poll_timer (w : Window.t) (d : Z) : Window.timer :=
  {| Window.handle := Window.next_handle w; Window.action := ChangeHandler;
     Window.delay := d; Window.due := Window.now w + d; Window.repeating := true |}.

Definition polling (w : Window.t) (d : Z) : Window.t :=
  {| Window.now := Window.now w; Window.next_handle := S (Window.next_handle w);
     Window.timers := Window.timers w ++ [poll_timer w d] |}.

Definition sc_constructed (h : Host.t) (aOptions : gmap string value) : ScrollContainer.state :=
  {| ScrollContainer.host :=
       {| Host.container := dressed (Host.container h);
          Host.window := polling (Host.window h) (sc_checkInterval aOptions);
          Host.observers := Host.observers h;
          Host.view := Host.view h ++ [ScrollView.construct; ScrollView.parentUpdated];
          Host.hasMutationObserver := Host.hasMutationObserver h |};
     ScrollContainer.this :=
       {| ScrollContainer._container := Ref;
          ScrollContainer._options := aOptions;
          ScrollContainer._scrollView := Ref;
          ScrollContainer._eventListener := own_listeners;
          ScrollContainer._intervalPointer := Some (Window.next_handle (Host.window h));
          ScrollContainer._scrollTop := VNumber (Fin 0);
          ScrollContainer._scrollLeft := VNumber (Fin 0);
          ScrollContainer.handler := sc_measured (Host.container h) |} |}.

(** The instance after [destroy]: both pointers are [null]. *)
Definition sc_dead (s : ScrollContainer.state) : Prop :=
  ScrollContainer._container (ScrollContainer.this s) = Null ∧
  ScrollContainer._scrollView (ScrollContainer.this s) = Null.

(** ** PocScrollbar: the constructor in closed form *)

(** [aOptions.checkInterval] when it is a number, else 300. *)
Definition poc_checkInterval (aOptions : gmap string value) : value :=
  if String.eqb (typeof (get aOptions "checkInterval")) "number"
  then get aOptions "checkInterval"
  else VNumber (Fin 300).

(** The options object once the constructor validated
    [useMutationObserver] against the window. *)
Definition poc_validated_options (h : Host.t) (aOptions : gmap string value)
  : gmap string value :=
  <["useMutationObserver" :=
      if Host.hasMutationObserver h then get aOptions "useMutationObserver"
      else VBool false]> aOptions.

(** Whether the constructor takes the observer. *)
Definition poc_observes (h : Host.t) (aOptions : gmap string value) : bool :=
  ToBoolean (get (poc_validated_options h aOptions) "useMutationObserver").

Definition poc_constructed (h : Host.t) (aOptions : gmap string value) : PocScrollbar.state :=
  {| PocScrollbar.host :=
       {| Host.container := dressed (Host.container h);
          Host.window :=
            if poc_observes h aOptions then Host.window h
            else polling (Host.window h)
                   (Z.max 0 (to_long (ToNumber (poc_checkInterval aOptions))));
          Host.observers :=
            if poc_observes h aOptions
            then Host.observers h ++ [Debounced ChangeHandler]
            else Host.observers h;
          Host.view := Host.view h ++ [ScrollView.construct; ScrollView.parentUpdated];
          Host.hasMutationObserver := Host.hasMutationObserver h |};
     PocScrollbar.this :=
       {| PocScrollbar._container := Ref;
          PocScrollbar._options := poc_validated_options h aOptions;
          PocScrollbar._scrollView := Ref;
          PocScrollbar._eventListener := own_listeners;
          PocScrollbar._mutationObserver :=
            if poc_observes h aOptions
            then PocScrollbar.Observer (Debounced ChangeHandler)
            else PocScrollbar.Interval (Window.next_handle (Host.window h));
          PocScrollbar._scrollTop := VNumber (Fin 0);
          PocScrollbar._scrollLeft := VNumber (Fin 0);
          PocScrollbar.handler := poc_measured (Host.container h);
          PocScrollbar.debouncer :=
            if poc_observes h aOptions
            then Some (Helper.debounce ChangeHandler (poc_checkInterval aOptions))
            else None |} |}.

Definition poc_dead (s : PocScrollbar.state) : Prop :=
  PocScrollbar._container (PocScrollbar.this s) = Null ∧
  PocScrollbar._scrollView (PocScrollbar.this s) = Null.

(** ** The element under a container *)

(** What a constructor leaves of the element [c] in [c']: its parent and
    its classes as they were, [overflow] assigned [hidden], [position]
    assigned [relative] unless the computed position is absolute or
    relative already (and then not assigned at all), and the two listeners
    added to those there were. *)
Definition dressed_as (c c' : DOM.element) : Prop :=
  DOM.parentElement c' = DOM.parentElement c ∧
  DOM.classList c' = DOM.classList c ∧
  DOM.style c' !! "overflow" = Some (VString "hidden") ∧
  DOM.style c' !! "position"
  = (if String.eqb (DOM.computedPosition c) "absolute"
        || String.eqb (DOM.computedPosition c) "relative"
     then DOM.style c !! "position"
     else Some (VString "relative")) ∧
  (∃ added, DOM.listeners c' = DOM.listeners c ++ added) ∧
  (∀ y, y ∈ DOM.listeners c' ↔
        y ∈ DOM.listeners c ∨ y = ("wheel", EventListener "wheel")
        ∨ y = ("touchstart", EventListener "touchstart")).

(** The element has none of the listeners a container adds. *)
Definition bare (c : DOM.element) : Prop :=
  ∀ y, y ∈ own_listeners → y ∉ DOM.listeners c.

(** ** ScrollContainer after [destroy] *)

(** [scrollTop(args)] on a destroyed instance gets past the [null]
    pointers only on a negative number while the stored offset is 0. *)
Definition sc_top_survives (args : list value) (s : ScrollContainer.state) : bool :=
  negb (sc_top_is_getter args s)
  && less_than (default VUndefined (args !! 0%nat)) (Fin 0)
  && negb (strict_neq (ScrollContainer._scrollTop (ScrollContainer.this s)) (VNumber (Fin 0))).

Definition sc_left_survives (args : list value) (s : ScrollContainer.state) : bool :=
  negb (sc_left_is_getter args s)
  && less_than (default VUndefined (args !! 0%nat)) (Fin 0)
  && negb (strict_neq (ScrollContainer._scrollLeft (ScrollContainer.this s)) (VNumber (Fin 0))).

(** ** PocScrollbar after [destroy] *)

(** [scrollTop(args)] on a destroyed instance gets past the [null]
    pointers only on a negative number while the stored offset is 0. *)
Definition poc_top_survives (args : list value) (s : PocScrollbar.state) : bool :=
  negb (poc_top_is_getter args s)
  && less_than (default VUndefined (args !! 0%nat)) (Fin 0)
  && negb (strict_neq (PocScrollbar._scrollTop (PocScrollbar.this s)) (VNumber (Fin 0))).

Definition poc_left_survives (args : list value) (s : PocScrollbar.state) : bool :=
  negb (poc_left_is_getter args s)
  && less_than (default VUndefined (args !! 0%nat)) (Fin 0)
  && negb (strict_neq (PocScrollbar._scrollLeft (PocScrollbar.this s)) (VNumber (Fin 0))).

(** What [destroy] gives back of the element [c] in [c']: its parent, its
    listeners and its classes. *)
Definition given_back (c c' : DOM.element) : Prop :=
  DOM.parentElement c' = DOM.parentElement c ∧
  DOM.listeners c' = DOM.listeners c ∧
  DOM.classList c' = DOM.classList c.

(** ** The touch listeners *)

(** The touch a call of [touchstart] tracks: [aEvent.which || 0]. *)
Definition tracked (e : Touch.TouchEvent) : number :=
  if ToBoolean (VNumber (Touch.which e)) then Touch.which e else Fin 0.

(** The three listeners the [g]-th call of [touchstart] adds to the body. *)
Definition gesture_listeners (g : nat) : list (string * Touch.listener) :=
  [("touchmove", Touch.Move g); ("touchend", Touch.End_ g); ("touchleave", Touch.End_ g)].

(** Every closure on the body belongs to a call that happened. *)
Definition body_closed {S} (s : Touch.state S) : Prop :=
  ∀ k g, (k, Touch.Move g) ∈ Touch.body s ∨ (k, Touch.End_ g) ∈ Touch.body s →
         (g < length (Touch.calls s))%nat.

(** The listener returns at its first test. *)
Definition touch_ignored {S} `{Touch.Scroller S} (e : Touch.TouchEvent) (s : Touch.state S)
  : bool :=
  Touch.defaultPrevented e
  || ToBoolean (get (Touch.aOptions (Touch.instance s)) "disableTouchScrollingOnContainer").

(** The variables a call of [touchstart] starts with, and ends with. *)
Definition touch_started (e : Touch.TouchEvent) (t : Touch.touch) : Touch.variables :=
  {| Touch.touchToTrack := tracked e;
     Touch.tmpMoverX := Touch.clientX t; Touch.tmpMoverY := Touch.clientY t;
     Touch.tmpMovePointer := Ref; Touch.tmpEndPointer := Ref |}.

Definition touch_ended (v : Touch.variables) : Touch.variables :=
  {| Touch.touchToTrack := Touch.touchToTrack v;
     Touch.tmpMoverX := Touch.tmpMoverX v; Touch.tmpMoverY := Touch.tmpMoverY v;
     Touch.tmpMovePointer := Null; Touch.tmpEndPointer := Null |}.

(** The variables once the closure saw the touch at [t]. *)
Definition touch_moved (v : Touch.variables) (t : Touch.touch) : Touch.variables :=
  {| Touch.touchToTrack := Touch.touchToTrack v;
     Touch.tmpMoverX := Touch.clientX t; Touch.tmpMoverY := Touch.clientY t;
     Touch.tmpMovePointer := Touch.tmpMovePointer v;
     Touch.tmpEndPointer := Touch.tmpEndPointer v |}.

(** ** Counting in the history of a debounced function *)

Definition calls_in (h : list Loop.entry) : nat :=
  length (List.filter (λ e, match e with Loop.Called _ => true | Loop.Ran _ => false end) h).

Definition runs_in (h : list Loop.entry) : nat :=
  length (List.filter (λ e, match e with Loop.Ran _ => true | Loop.Called _ => false end) h).

(** ** ScrollContainer under the touch listeners *)

(** The state of the listeners around the instance [i]. *)
Definition sc_touching (s : Touch.state ScrollContainer.state)
    (i : ScrollContainer.state) (calls : list Touch.variables)
  : Touch.state ScrollContainer.state :=
  {| Touch.instance := i; Touch.body := Touch.body s; Touch.calls := calls |}.

(** ** PocScrollbar under the touch listeners *)

(** The state of the listeners around the instance [i]. *)
Definition poc_touching (s : Touch.state PocScrollbar.state)
    (i : PocScrollbar.state) (calls : list Touch.variables)
  : Touch.state PocScrollbar.state :=
  {| Touch.instance := i; Touch.body := Touch.body s; Touch.calls := calls |}.

End MoreClosedForms.

(* ===================================================================== *)
(** * A page to run the code on *)
(* ===================================================================== *)

(** An engine for the examples, none of which converts a string, an array
    or an object to a number or a number, an array or an object to a
    string.  Its browser rounds a fractional offset to the nearest whole
    pixel, a half upwards. *)
Definition example_engine : Coercions :=
  {| NonPrimitiveToNumber := λ _, NaN;
     OtherToString := λ _, "";
     RoundOffset := λ a k, (2 * a + 1 + 2 ^ Z.of_nat k) / 2 ^ (Z.of_nat k + 1) |}.

(** A [div] of 200 by 100 pixels holding 500 pixels of text, inside the
    body of a document. *)
Definition example_container : DOM.element :=
  {| DOM.scrollTop := 0; DOM.scrollLeft := 0;
     DOM.clientHeight := 100; DOM.clientWidth := 200;
     DOM.scrollHeight := 500; DOM.scrollWidth := 200;
     DOM.parentElement := DOM.Element true (DOM.Element false DOM.Null);
     DOM.listeners := [];
     DOM.style := ∅;
     DOM.classList := [];
     DOM.computedPosition := "static" |}.

Definition example_host : Host.t :=
  {| Host.container := example_container;
     Host.window := {| Window.now := 0; Window.next_handle := 1; Window.timers := [] |};
     Host.observers := [];
     Host.view := [];
     Host.hasMutationObserver := true |}.

(** The same page after the reader scrolled the [div] down by 50 pixels. *)
Definition scrolled_host : Host.t :=
  Host.set_container
    (@DOM.set_scrollTop example_engine (VNumber (Fin 50)) example_container)
    example_host.

Definition state_of {S A} (r : result S A) : S :=
  match r with
  | Ok _ s => s
  | TypeError s => s
  end.

(** [new ScrollContainer(div)] and [new PocScrollbar(div)] on that page. *)
Definition example_sc : ScrollContainer.state :=
  state_of (@ScrollContainer.new example_engine example_host ∅).

Definition example_poc : PocScrollbar.state :=
  state_of (@PocScrollbar.new example_engine example_host ∅).

(** [new PocScrollbar(div, {useMutationObserver: true})]. *)
Definition example_observing : PocScrollbar.state :=
  state_of (@PocScrollbar.new example_engine example_host
              {["useMutationObserver" := VBool true]}).

(** The [div] grown to 150 pixels, inside a [section] of an [article] that
    was taken out of the document: two links up from the [div] there is no
    parent. *)
Definition removed_container : DOM.element :=
  {| DOM.scrollTop := 0; DOM.scrollLeft := 0;
     DOM.clientHeight := 150; DOM.clientWidth := 200;
     DOM.scrollHeight := 500; DOM.scrollWidth := 200;
     DOM.parentElement := DOM.Element false (DOM.Element false DOM.Null);
     DOM.listeners := DOM.listeners (Host.container (ScrollContainer.host example_sc));
     DOM.style := DOM.style (Host.container (ScrollContainer.host example_sc));
     DOM.classList := [];
     DOM.computedPosition := "relative" |}.

Definition removed_sc : ScrollContainer.state :=
  {| ScrollContainer.host :=
       Host.set_container removed_container (ScrollContainer.host example_sc);
     ScrollContainer.this := ScrollContainer.this example_sc |}.

Definition removed_poc : PocScrollbar.state :=
  {| PocScrollbar.host :=
       Host.set_container removed_container (PocScrollbar.host example_poc);
     PocScrollbar.this := PocScrollbar.this example_poc |}.

(** The [div] grown to 150 pixels since the container was built, inside a
    [section] of the body. *)
Definition resized_container : DOM.element :=
  {| DOM.scrollTop := 0; DOM.scrollLeft := 0;
     DOM.clientHeight := 150; DOM.clientWidth := 200;
     DOM.scrollHeight := 500; DOM.scrollWidth := 200;
     DOM.parentElement := DOM.Element false (DOM.Element true (DOM.Element false DOM.Null));
     DOM.listeners := DOM.listeners (Host.container (ScrollContainer.host example_sc));
     DOM.style := DOM.style (Host.container (ScrollContainer.host example_sc));
     DOM.classList := [];
     DOM.computedPosition := "relative" |}.

Definition resized_sc : ScrollContainer.state :=
  {| ScrollContainer.host :=
       Host.set_container resized_container (ScrollContainer.host example_sc);
     ScrollContainer.this := ScrollContainer.this example_sc |}.

(** A [ScrollContainer] built with the options object [PocScrollbar] leaves
    behind. *)
Definition example_sc_like_poc : ScrollContainer.state :=
  state_of (@ScrollContainer.new example_engine example_host
              (PocScrollbar._options (PocScrollbar.this example_poc))).

(** One notch of the wheel, downwards. *)
Definition example_wheel : WheelEvent :=
  {| defaultPrevented := false; deltaX := Fin 0; deltaY := Fin 120 |}.

(** A move on a track pad, by a pixel and a quarter downwards. *)
Definition example_trackpad : WheelEvent :=
  {| defaultPrevented := false; deltaX := Fin 0; deltaY := Frac 2 1 |}.

(** A container of each class on the example page with both axes disabled. *)
Definition locked_options : gmap string value :=
  {["disableYScrolling" := VBool true; "disableXScrolling" := VBool true]}.

Definition locked_sc : ScrollContainer.state :=
  state_of (@ScrollContainer.new example_engine example_host locked_options).

(** [{checkInterval: 0}]. *)
Definition eager_options : gmap string value := {["checkInterval" := VNumber (Fin 0)]}.


(** The host calls a debounced function, calls it again 100 ms later, and
    dispatches its timers as they fall due. *)
Definition example_events : list Loop.event :=
  [Loop.Call; Loop.Elapse 100; Loop.Call; Loop.Dispatch 1; Loop.Dispatch 2;
   Loop.Elapse 300; Loop.Dispatch 2; Loop.Dispatch 2].

(** A finger put down on the example container, and the same finger 30
    pixels further up. *)
Definition example_finger : Touch.TouchEvent :=
  {| Touch.defaultPrevented := false; Touch.which := Fin 0;
     Touch.touches := [{| Touch.clientX := Fin 20; Touch.clientY := Fin 80 |}] |}.

Definition example_drag : Touch.TouchEvent :=
  {| Touch.defaultPrevented := false; Touch.which := Fin 0;
     Touch.touches := [{| Touch.clientX := Fin 20; Touch.clientY := Fin 50 |}] |}.

(** The finger at [(20.5, 49.5)]: 30.5 pixels further up and half a pixel
    to the right. *)
Definition example_slide : Touch.TouchEvent :=
  {| Touch.defaultPrevented := false; Touch.which := Fin 0;
     Touch.touches := [{| Touch.clientX := Frac 20 0; Touch.clientY := Frac 49 0 |}] |}.

(** The example container before any touch, and while the finger is down. *)
Definition example_touching : Touch.state ScrollContainer.state :=
  {| Touch.instance := example_sc; Touch.body := []; Touch.calls := [] |}.

Definition example_dragging : Touch.state ScrollContainer.state :=
  {| Touch.instance := example_sc;
     Touch.body := [("touchmove", Touch.Move 0); ("touchend", Touch.End_ 0);
                    ("touchleave", Touch.End_ 0)];
     Touch.calls := [{| Touch.touchToTrack := Fin 0;
                        Touch.tmpMoverX := Fin 20; Touch.tmpMoverY := Fin 80;
                        Touch.tmpMovePointer := Ref; Touch.tmpEndPointer := Ref |}] |}.

(* ===================================================================== *)
(** * Properties *)
(* ===================================================================== *)

Section Properties.
Context `{Coercions}.

(** ** Tactics *)

(** Take a live state apart into its host and the fields of the instance. *)
Ltac sc_open s :=
  let h := fresh "h" in let i := fresh "i" in
  destruct s as [h i]; destruct i; unfold sc_live in *; simpl in *;
  repeat match goal with
         | H : _ ∧ _ |- _ => destruct H
         end; subst.

(** Unfold the monad and the primitive accesses of the instance. *)
Ltac sc_run :=
  cbv [bind ret throw read write
       ScrollContainer.self ScrollContainer.container ScrollContainer.on_container
       ScrollContainer.on_host ScrollContainer.on_this ScrollContainer.scrollView];
  cbn [ScrollContainer.host ScrollContainer.this
       ScrollContainer._container ScrollContainer._scrollView
       ScrollContainer._options ScrollContainer._scrollTop ScrollContainer._scrollLeft].

(** Take a live state apart into its host and the fields of the instance. *)
Ltac poc_open s :=
  let h := fresh "h" in let i := fresh "i" in
  destruct s as [h i]; destruct i; unfold poc_live in *; simpl in *;
  repeat match goal with
         | H : _ ∧ _ |- _ => destruct H
         end; subst.

(** Unfold the monad and the primitive accesses of the instance. *)
Ltac poc_run :=
  cbv [bind ret throw read write
       PocScrollbar.self PocScrollbar.container PocScrollbar.on_container
       PocScrollbar.on_host PocScrollbar.on_this PocScrollbar.scrollView];
  cbn [PocScrollbar.host PocScrollbar.this
       PocScrollbar._container PocScrollbar._scrollView
       PocScrollbar._options PocScrollbar._scrollTop PocScrollbar._scrollLeft].

(** Take two agreeing states apart, and identify what they share. *)
Ltac both_open s p :=
  let h := fresh "h" in let i := fresh "i" in
  let h' := fresh "h" in let i' := fresh "i" in
  destruct s as [h i]; destruct i; destruct p as [h' i']; destruct i';
  unfold same_instance in *; simpl in *;
  repeat match goal with
         | H : _ ∧ _ |- _ => destruct H
         end; subst.

(** Follow every branch of the two runs. *)
Ltac both_split :=
  repeat match goal with
         | |- context [if ?b then _ else _] => destruct b; simpl
         | |- context [match ?p with Null => _ | Ref => _ end] => destruct p; simpl
         end.

(** ** Offsets and operators *)

Lemma less_than_number (n m : number) : less_than (VNumber n) m = num_ltb n m.
Proof. reflexivity. Qed.

Lemma greater_than_number (n m : number) : greater_than (VNumber n) m = num_ltb m n.
Proof. reflexivity. Qed.

Lemma num_ltb_Fin (x y : Z) : num_ltb (Fin x) (Fin y) = (x <? y).
Proof. reflexivity. Qed.

Lemma strict_neq_Fin_false (v : value) (z : Z) :
  strict_neq v (VNumber (Fin z)) = false → v = VNumber (Fin z).
Proof.
  unfold strict_neq, strict_eq. destruct v as [| | |[]| | |]; cbn; try discriminate.
  intros E. apply negb_false_iff, Z.eqb_eq in E. by subst.
Qed.

Lemma into_range_id (limit y : Z) : 0 ≤ y ≤ limit → DOM.into_range limit y = y.
Proof. unfold DOM.into_range. lia. Qed.

Lemma num_add_not_NaN (z : Z) (n : number) : n ≠ NaN → num_add (Fin z) n ≠ NaN.
Proof. by destruct n. Qed.

(** What the element's setters store and what they leave alone. *)
Lemma set_scrollTop_Fin (z : Z) (c : DOM.element) :
  0 ≤ z ≤ top_limit c → DOM.scrollTop (DOM.set_scrollTop (VNumber (Fin z)) c) = z.
Proof. intros Hz. simpl. by apply into_range_id. Qed.

Lemma set_scrollLeft_Fin (z : Z) (c : DOM.element) :
  0 ≤ z ≤ left_limit c → DOM.scrollLeft (DOM.set_scrollLeft (VNumber (Fin z)) c) = z.
Proof. intros Hz. simpl. by apply into_range_id. Qed.

Lemma set_scrollTop_well_formed (v : value) (c : DOM.element) :
  DOM.well_formed c → DOM.well_formed (DOM.set_scrollTop v c).
Proof. unfold DOM.well_formed. simpl. unfold DOM.into_range. lia. Qed.

Lemma set_scrollLeft_well_formed (v : value) (c : DOM.element) :
  DOM.well_formed c → DOM.well_formed (DOM.set_scrollLeft v c).
Proof. unfold DOM.well_formed. simpl. unfold DOM.into_range. lia. Qed.

Lemma removeEventListener_geometry (l : list (string * callback)) (c : DOM.element) :
  let c' := foldl (λ c '(aKey, g), DOM.removeEventListener aKey g c) c l in
  DOM.scrollTop c' = DOM.scrollTop c ∧ DOM.scrollLeft c' = DOM.scrollLeft c.
Proof.
  revert c. induction l as [|[k g] l IH]; intros c; [done|].
  simpl. destruct (IH (DOM.removeEventListener k g c)) as [-> ->]. done.
Qed.

(** Fractions against integers: the comparisons of the code, which go over
    a common denominator, are comparisons with the floor. *)
Lemma floor_bounds (a : Z) (k : nat) :
  0 < 2 ^ (Z.of_nat k + 1) ∧
  2 ^ (Z.of_nat k + 1) * floor a k ≤ 2 * a + 1
  < 2 ^ (Z.of_nat k + 1) * (floor a k + 1).
Proof.
  assert (0 < 2 ^ (Z.of_nat k + 1)) as Hd by (apply Z.pow_pos_nonneg; lia).
  split; [done|]. unfold floor. split.
  - by apply Z.mul_div_le.
  - replace (_ / _ + 1) with (Z.succ ((2 * a + 1) / 2 ^ (Z.of_nat k + 1))) by lia.
    by apply Z.mul_succ_div_gt.
Qed.

Lemma frac_no_integer (a : Z) (k : nat) (y : Z) :
  y * 2 ^ (Z.of_nat k + 1) ≠ 2 * a + 1.
Proof.
  rewrite Z.pow_add_r by lia. change (2 ^ 1) with 2.
  replace (y * (2 ^ Z.of_nat k * 2)) with (2 * (y * 2 ^ Z.of_nat k)) by ring. lia.
Qed.

Lemma num_ltb_Frac_Fin (a : Z) (k : nat) (y : Z) :
  num_ltb (Frac a k) (Fin y) = (floor a k <? y).
Proof.
  destruct (floor_bounds a k) as (Hd & Hlo & Hhi). cbn [num_ltb].
  destruct (Z.ltb_spec (2 * a + 1) (y * 2 ^ (Z.of_nat k + 1))),
    (Z.ltb_spec (floor a k) y); try done; nia.
Qed.

Lemma num_ltb_Fin_Frac (y a : Z) (k : nat) :
  num_ltb (Fin y) (Frac a k) = (y <=? floor a k).
Proof.
  destruct (floor_bounds a k) as (Hd & Hlo & Hhi).
  pose proof (frac_no_integer a k y) as Hne. cbn [num_ltb].
  destruct (Z.ltb_spec (y * 2 ^ (Z.of_nat k + 1)) (2 * a + 1)),
    (Z.leb_spec y (floor a k)); try done; nia.
Qed.

(** The validation of the accessors clamps. *)
Lemma validated_clamped (limit : Z) (n : number) :
  0 ≤ limit → validated limit (VNumber n) = VNumber (clamped limit n).
Proof.
  intros Hl. unfold validated, clamped. rewrite less_than_number, greater_than_number.
  destruct n as [| |z|a k|]; try reflexivity.
  - rewrite !num_ltb_Fin.
    destruct (Z.ltb_spec z 0); [f_equal; f_equal; lia|].
    destruct (Z.ltb_spec limit z); f_equal; f_equal; lia.
  - rewrite num_ltb_Frac_Fin, num_ltb_Fin_Frac.
    destruct (floor a k <? 0); [done|]. by destruct (limit <=? floor a k).
Qed.

Lemma clamped_within (limit : Z) (n : number) :
  0 ≤ limit → n ≠ NaN → within limit (clamped limit n).
Proof.
  intros Hl Hn. destruct n as [| |z|a k|]; simpl; try done; try lia.
  destruct (Z.ltb_spec (floor a k) 0); simpl; [lia|].
  destruct (Z.leb_spec limit (floor a k)); simpl; lia.
Qed.

Lemma clamped_whole (limit : Z) (n : number) :
  0 ≤ limit → whole n → ∃ z, clamped limit n = Fin z ∧ 0 ≤ z ≤ limit.
Proof.
  intros Hl Hn. destruct n as [| |z|a k|]; simpl; try done.
  - exists 0. split; [done|lia].
  - eexists. split; [done|lia].
  - exists limit. split; [done|lia].
Qed.

Lemma clamped_inside (limit : Z) (n : number) :
  within limit n → clamped limit n = n.
Proof.
  destruct n as [| |z|a k|]; simpl; try done.
  - intros Hz. f_equal. lia.
  - intros Hf. destruct (Z.ltb_spec (floor a k) 0); [lia|].
    destruct (Z.leb_spec limit (floor a k)); [lia|done].
Qed.

Lemma validated_number (limit : Z) (n : number) :
  n ≠ NaN → ∃ r, validated limit (VNumber n) = VNumber r ∧ r ≠ NaN.
Proof.
  intros Hn. unfold validated. destruct (less_than _ _); [by eexists|].
  destruct (greater_than _ _); by eexists.
Qed.

(** [!==] on numbers. *)
Lemma strict_neq_number_false (v : value) (n : number) :
  strict_neq v (VNumber n) = false → v = VNumber n.
Proof.
  unfold strict_neq, strict_eq. destruct v as [| | |m| | |]; try discriminate.
  intros E. apply negb_false_iff in E.
  destruct m, n; cbn in E; try discriminate; try done.
  - apply Z.eqb_eq in E. by subst.
  - apply andb_true_iff in E as [->%Z.eqb_eq ->%Nat.eqb_eq]. done.
Qed.

Lemma strict_neq_same (n : number) :
  n ≠ NaN → strict_neq (VNumber n) (VNumber n) = false.
Proof.
  intros Hn. unfold strict_neq, strict_eq. apply negb_false_iff.
  destruct n; cbn; try done.
  - apply Z.eqb_refl.
  - by rewrite Z.eqb_refl, Nat.eqb_refl.
Qed.

Lemma num_add_whole (z : Z) (n : number) : whole n → whole (num_add (Fin z) n).
Proof. by destruct n. Qed.

Lemma validated_is_number (limit : Z) (n : number) :
  ∃ r, validated limit (VNumber n) = VNumber r.
Proof.
  unfold validated. destruct (less_than _ _); [by eexists|].
  destruct (greater_than _ _); by eexists.
Qed.

(** The search for the root element against the parent chain. *)
Lemma reaches_body_attached (p : DOM.parent) :
  reaches_body p → null_or_undefined (potentialRootElement p) = false.
Proof. induction 1; done. Qed.

Lemma ends_outside_detached (p : DOM.parent) :
  ends_outside p → null_or_undefined (potentialRootElement p) = true.
Proof. induction 1; done. Qed.

(** What the element reports after an assignment. *)
Lemma set_scrollTop_reported (n : number) (c : DOM.element) :
  DOM.scrollTop (DOM.set_scrollTop (VNumber n) c) = reported (top_limit c) n.
Proof. reflexivity. Qed.

Lemma set_scrollLeft_reported (n : number) (c : DOM.element) :
  DOM.scrollLeft (DOM.set_scrollLeft (VNumber n) c) = reported (left_limit c) n.
Proof. reflexivity. Qed.

Lemma reported_Fin (limit z : Z) : 0 ≤ z ≤ limit → reported limit (Fin z) = z.
Proof. intros Hz. unfold reported. simpl. by apply into_range_id. Qed.

#[local] Opaque num_ltb num_add strict_neq ToBoolean get less_than greater_than
  DOM.set_scrollTop DOM.set_scrollLeft.

Lemma validated_in_range (limit : Z) (n : number) :
  whole n → 0 ≤ limit →
  ∃ z, validated limit (VNumber n) = VNumber (Fin z) ∧ 0 ≤ z ≤ limit.
Proof.
  intros Hn Hl. rewrite validated_clamped by done.
  destruct (clamped_whole limit n Hl Hn) as (z & -> & Hz). eauto.
Qed.

Lemma validated_inside (limit z : Z) :
  0 ≤ z ≤ limit → validated limit (VNumber (Fin z)) = VNumber (Fin z).
Proof.
  intros Hz. unfold validated.
  rewrite less_than_number, greater_than_number, !num_ltb_Fin.
  destruct (z <? 0) eqn:E1; [lia|].
  destruct (limit <? z) eqn:E2; [lia|]. done.
Qed.

Lemma validated_outward (offset limit d : Z) :
  0 ≤ offset ≤ limit → outward offset limit d →
  validated limit (VNumber (Fin (offset + d))) = VNumber (Fin offset).
Proof.
  intros Ho Hd. unfold validated.
  rewrite less_than_number, greater_than_number, !num_ltb_Fin.
  destruct (offset + d <? 0) eqn:E1; [f_equal; f_equal; unfold outward in Hd; lia|].
  destruct (limit <? offset + d) eqn:E2; f_equal; f_equal; unfold outward in Hd; lia.
Qed.

Lemma num_add_Fin (x y : Z) : num_add (Fin x) (Fin y) = Fin (x + y).
Proof. reflexivity. Qed.

Lemma removeEventListener_listeners (l : list (string * callback)) (c : DOM.element)
    (y : string * callback) :
  y ∈ DOM.listeners (foldl (λ c '(aKey, g), DOM.removeEventListener aKey g c) c l)
  ↔ y ∈ DOM.listeners c ∧ y ∉ l.
Proof.
  revert c. induction l as [|[k g] l IH]; intros c; simpl.
  - split; [|by intros [? _]]. intros Hy. split; [done|]. by intros ?%elem_of_nil.
  - rewrite IH. simpl. rewrite list_elem_of_filter, not_elem_of_cons. tauto.
Qed.

Lemma clear_handle (h : nat) (w : Window.t) (x : Window.timer) :
  x ∈ Window.timers (Window.clear (Some h) w) → Window.handle x ≠ h.
Proof. simpl. by intros [? _]%list_elem_of_filter. Qed.

(** ** ScrollContainer *)

Lemma sc_scrollTop_live (s : ScrollContainer.state) (args : list value) :
  sc_live s →
  ScrollContainer.scrollTop args s = Ok (sc_top_value args s) (sc_top_state args s).
Proof.
  intros Hl. sc_open s.
  unfold ScrollContainer.scrollTop, sc_top_state, sc_top_value, sc_top_is_getter,
    validated, top_limit.
  sc_run. simpl.
  destruct (negb _ || _); [done|].
  destruct (less_than _ _); simpl.
  - destruct (strict_neq _ _); reflexivity.
  - destruct (greater_than _ _); simpl; destruct (strict_neq _ _); reflexivity.
Qed.

Lemma sc_scrollLeft_live (s : ScrollContainer.state) (args : list value) :
  sc_live s →
  ScrollContainer.scrollLeft args s = Ok (sc_left_value args s) (sc_left_state args s).
Proof.
  intros Hl. sc_open s.
  unfold ScrollContainer.scrollLeft, sc_left_state, sc_left_value, sc_left_is_getter,
    validated, left_limit.
  sc_run. simpl.
  destruct (_ || _); [done|].
  destruct (less_than _ _); simpl.
  - destruct (strict_neq _ _); reflexivity.
  - destruct (greater_than _ _); simpl; destruct (strict_neq _ _); reflexivity.
Qed.

Lemma sc_top_state_live (s : ScrollContainer.state) (args : list value) :
  sc_live s → sc_live (sc_top_state args s).
Proof.
  unfold sc_top_state. intros Hl.
  destruct (sc_top_is_getter _ _); [done|]. destruct (strict_neq _ _); done.
Qed.

Lemma sc_left_state_live (s : ScrollContainer.state) (args : list value) :
  sc_live s → sc_live (sc_left_state args s).
Proof.
  unfold sc_left_state. intros Hl.
  destruct (sc_left_is_getter _ _); [done|]. destruct (strict_neq _ _); done.
Qed.

(** [forEach] over listeners on a live instance: the element after each
    of them was handed to [f]. *)
Lemma sc_forEach_container (f : string → callback → DOM.element → DOM.element)
    (l : list (string * callback)) (s : ScrollContainer.state) :
  ScrollContainer._container (ScrollContainer.this s) = Ref →
  forEach l (λ '(aKey, g), ScrollContainer.on_container (f aKey g)) s
  = Ok tt {| ScrollContainer.host :=
               Host.set_container
                 (foldl (λ c '(aKey, g), f aKey g c)
                        (Host.container (ScrollContainer.host s)) l)
                 (ScrollContainer.host s);
             ScrollContainer.this := ScrollContainer.this s |}.
Proof.
  revert s. induction l as [|[aKey g] l IH]; intros [h i] Hc; simpl in *.
  - unfold ret. by destruct h.
  - unfold bind at 1. unfold ScrollContainer.on_container at 1. sc_run. rewrite Hc. simpl.
    rewrite IH by done. simpl. done.
Qed.

Lemma sc_destroy_live (s : ScrollContainer.state) :
  sc_live s → ScrollContainer.destroy s = Ok tt (sc_destroyed s).
Proof.
  intros Hl. sc_open s. unfold ScrollContainer.destroy, sc_destroyed.
  unfold bind at 1. unfold ScrollContainer.self at 1.
  unfold bind at 1. unfold ScrollContainer.on_host at 1.
  unfold bind at 1. rewrite sc_forEach_container by done.
  sc_run. simpl. done.
Qed.

Lemma sc_container_live (s : ScrollContainer.state) :
  sc_live s → ScrollContainer.container s = Ok (Host.container (ScrollContainer.host s)) s.
Proof. intros [Hc _]. unfold ScrollContainer.container. by rewrite Hc. Qed.

Lemma sc_wheel_live (e : WheelEvent) (s : ScrollContainer.state) :
  sc_live s →
  defaultPrevented e = false →
  ScrollContainer.wheel e s = Ok (sc_moved s (sc_wheeled e s)) (sc_wheeled e s).
Proof.
  intros Hl He. unfold ScrollContainer.wheel, sc_wheeled, sc_moved. rewrite He.
  pose proof (sc_top_state_live s [VNumber (num_add (Fin (DOM.scrollTop (Host.container
    (ScrollContainer.host s)))) (deltaY e))] Hl) as Hl1.
  set (s1 := sc_top_state _ s) in *.
  pose proof (sc_left_state_live s1 [VNumber (num_add (Fin (DOM.scrollLeft (Host.container
    (ScrollContainer.host s1)))) (deltaX e))] Hl1) as Hl2.
  set (s2 := sc_left_state _ s1) in *.
  unfold bind. rewrite !(sc_container_live s) by done.
  rewrite (sc_scrollTop_live s) by done. fold s1.
  rewrite (sc_container_live s1) by done.
  rewrite (sc_scrollLeft_live s1) by done. fold s2.
  rewrite !(sc_container_live s2) by done.
  unfold ret. destruct (negb _); simpl; [done|].
  rewrite (sc_container_live s2) by done. destruct (negb _); done.
Qed.

Lemma sc_scrollView_live (c : ScrollView.call) (s : ScrollContainer.state) :
  sc_live s → ScrollContainer.scrollView c s = Ok tt (sc_told [c] s).
Proof. intros [_ Hv]. unfold ScrollContainer.scrollView. by rewrite Hv. Qed.

Lemma sc_refreshed_live (s : ScrollContainer.state) : sc_live s → sc_live (sc_refreshed s).
Proof. unfold sc_refreshed. intros Hl. by destruct (ScrollContainer.changed _ _). Qed.

Lemma sc_resynced_top_live (old : value) (s : ScrollContainer.state) :
  sc_live s → sc_live (sc_resynced_top old s).
Proof.
  unfold sc_resynced_top. intros Hl. destruct (strict_neq _ _).
  - by apply sc_top_state_live.
  - by destruct (less_than _ _).
Qed.

Lemma sc_intervalHandler_live (s : ScrollContainer.state) :
  sc_live s →
  ScrollContainer.intervalHandler s
  = if detached (Host.container (ScrollContainer.host s))
    then ScrollContainer.destroy (sc_reset s)
    else Ok tt (sc_ticked s).
Proof.
  intros Hl. unfold ScrollContainer.intervalHandler, sc_ticked, detached.
  unfold bind at 1. rewrite (sc_container_live s) by done.
  unfold bind at 1. unfold ScrollContainer.self at 1.
  unfold bind at 1. rewrite (sc_scrollView_live _ s) by done.
  unfold bind at 1. rewrite (sc_scrollView_live _ (sc_told _ s)) by done.
  fold (sc_reset s).
  assert (sc_live (sc_reset s)) as Hl1 by done.
  change (Host.container (ScrollContainer.host s))
    with (Host.container (ScrollContainer.host (sc_reset s))) at 1.
  destruct (null_or_undefined _); [done|].
  change (ScrollContainer.this s) with (ScrollContainer.this (sc_reset s)).
  generalize dependent (sc_reset s). clear s Hl. intros s Hl.
  unfold bind at 1.
  assert (bind (ScrollContainer.self) (λ this,
            bind ScrollContainer.container (λ c,
              if ScrollContainer.changed (ScrollContainer.handler this) c
              then bind (ScrollContainer.on_this (ScrollContainer.set_handler
                     {| ScrollContainer.containerHeight := DOM.clientHeight c;
                        ScrollContainer.containerWidth := DOM.clientWidth c;
                        ScrollContainer.scrollHeight := DOM.scrollHeight c;
                        ScrollContainer.scrollWidth := DOM.scrollWidth c |}))
                     (λ _, ScrollContainer.scrollView ScrollView.parentUpdated)
              else ret tt)) s = Ok tt (sc_refreshed s)) as ->.
  { unfold bind at 1. unfold ScrollContainer.self at 1.
    unfold bind at 1. rewrite (sc_container_live s) by done.
    unfold sc_refreshed. destruct (ScrollContainer.changed _ _); [|done].
    unfold bind, ScrollContainer.on_this. by rewrite sc_scrollView_live. }
  pose proof (sc_refreshed_live s Hl) as Hl2.
  remember (ScrollContainer._scrollTop (ScrollContainer.this s)) as old_top eqn:E1.
  remember (ScrollContainer._scrollLeft (ScrollContainer.this s)) as old_left eqn:E2.
  clear E1 E2.
  generalize dependent (sc_refreshed s). clear s Hl. intros s Hl.
  unfold bind at 1. unfold bind at 1. unfold ScrollContainer.self at 1.
  unfold bind at 1. rewrite (sc_container_live s) by done.
  assert ((if strict_neq (ScrollContainer._scrollTop (ScrollContainer.this s))
                (VNumber (Fin (DOM.scrollTop (Host.container (ScrollContainer.host s)))))
           then bind (ScrollContainer.scrollTop
                        [VNumber (Fin (DOM.scrollTop (Host.container (ScrollContainer.host s))))])
                     (λ _, ret tt)
           else if less_than old_top
                     (Fin (ScrollContainer.scrollHeight
                             (ScrollContainer.handler (ScrollContainer.this s))))
                then ScrollContainer.scrollView (ScrollView.scrollTopUpdated old_top)
                else ret tt) s = Ok tt (sc_resynced_top old_top s)) as ->.
  { unfold sc_resynced_top. destruct (strict_neq _ _).
    - unfold bind. by rewrite sc_scrollTop_live.
    - destruct (less_than _ _); [|done]. by rewrite sc_scrollView_live. }
  pose proof (sc_resynced_top_live old_top s Hl) as Hl3.
  generalize dependent (sc_resynced_top old_top s). clear s Hl. intros s Hl.
  unfold bind at 1. unfold ScrollContainer.self at 1.
  unfold bind at 1. rewrite (sc_container_live s) by done.
  unfold sc_resynced_left. destruct (strict_neq _ _).
  - unfold bind. by rewrite sc_scrollLeft_live.
  - destruct (less_than _ _); [|done]. by rewrite sc_scrollView_live.
Qed.

(** Neither accessor touches the cache, and what they tell the view is
    never [parentUpdated]. *)
Lemma sc_top_state_frame (args : list value) (s : ScrollContainer.state) :
  ScrollContainer.handler (ScrollContainer.this (sc_top_state args s))
  = ScrollContainer.handler (ScrollContainer.this s) ∧
  ∃ cs, Host.view (ScrollContainer.host (sc_top_state args s))
        = Host.view (ScrollContainer.host s) ++ cs ∧ quiet cs.
Proof.
  unfold sc_top_state, quiet.
  destruct (sc_top_is_getter _ _); [|destruct (strict_neq _ _)]; simpl; split; try done.
  - exists []. rewrite app_nil_r. split; [done|]. by intros ?%elem_of_nil.
  - eexists. split; [done|]. by intros [?|?%elem_of_nil]%elem_of_cons.
  - exists []. rewrite app_nil_r. split; [done|]. by intros ?%elem_of_nil.
Qed.

Lemma sc_left_state_frame (args : list value) (s : ScrollContainer.state) :
  ScrollContainer.handler (ScrollContainer.this (sc_left_state args s))
  = ScrollContainer.handler (ScrollContainer.this s) ∧
  ∃ cs, Host.view (ScrollContainer.host (sc_left_state args s))
        = Host.view (ScrollContainer.host s) ++ cs ∧ quiet cs.
Proof.
  unfold sc_left_state, quiet.
  destruct (sc_left_is_getter _ _); [|destruct (strict_neq _ _)]; simpl; split; try done.
  - exists []. rewrite app_nil_r. split; [done|]. by intros ?%elem_of_nil.
  - eexists. split; [done|]. by intros [?|?%elem_of_nil]%elem_of_cons.
  - exists []. rewrite app_nil_r. split; [done|]. by intros ?%elem_of_nil.
Qed.

Lemma sc_resynced_top_frame (old : value) (s : ScrollContainer.state) :
  ScrollContainer.handler (ScrollContainer.this (sc_resynced_top old s))
  = ScrollContainer.handler (ScrollContainer.this s) ∧
  ∃ cs, Host.view (ScrollContainer.host (sc_resynced_top old s))
        = Host.view (ScrollContainer.host s) ++ cs ∧ quiet cs.
Proof.
  unfold sc_resynced_top. destruct (strict_neq _ _); [apply sc_top_state_frame|].
  unfold quiet. destruct (less_than _ _); simpl; split; try done.
  - eexists. split; [done|]. by intros [?|?%elem_of_nil]%elem_of_cons.
  - exists []. rewrite app_nil_r. split; [done|]. by intros ?%elem_of_nil.
Qed.

Lemma sc_resynced_left_frame (old : value) (s : ScrollContainer.state) :
  ScrollContainer.handler (ScrollContainer.this (sc_resynced_left old s))
  = ScrollContainer.handler (ScrollContainer.this s) ∧
  ∃ cs, Host.view (ScrollContainer.host (sc_resynced_left old s))
        = Host.view (ScrollContainer.host s) ++ cs ∧ quiet cs.
Proof.
  unfold sc_resynced_left. destruct (strict_neq _ _); [apply sc_left_state_frame|].
  unfold quiet. destruct (less_than _ _); simpl; split; try done.
  - eexists. split; [done|]. by intros [?|?%elem_of_nil]%elem_of_cons.
  - exists []. rewrite app_nil_r. split; [done|]. by intros ?%elem_of_nil.
Qed.

(** A tick of an attached container: the calls the view receives hold
    [parentUpdated] exactly when a dimension differs from the cache, and
    then the cache holds the four current dimensions. *)
Lemma sc_tick_attached (s : ScrollContainer.state) :
  sc_live s →
  detached (Host.container (ScrollContainer.host s)) = false →
  let c := Host.container (ScrollContainer.host s) in
  let k := ScrollContainer.handler (ScrollContainer.this s) in
  ∃ s' cs,
    ScrollContainer.intervalHandler s = Ok tt s' ∧
    Host.view (ScrollContainer.host s') = Host.view (ScrollContainer.host s) ++ cs ∧
    (ScrollView.parentUpdated ∈ cs ↔ ScrollContainer.changed k c = true) ∧
    ScrollContainer.handler (ScrollContainer.this s')
    = (if ScrollContainer.changed k c then sc_measured c else k).
Proof.
  intros Hl Ha c k. rewrite sc_intervalHandler_live by done.
  rewrite Ha. unfold sc_ticked.
  destruct (sc_resynced_left_frame (ScrollContainer._scrollLeft (ScrollContainer.this s))
    (sc_resynced_top (ScrollContainer._scrollTop (ScrollContainer.this s))
       (sc_refreshed (sc_reset s)))) as (Hk2 & cs2 & Hv2 & Hq2).
  destruct (sc_resynced_top_frame (ScrollContainer._scrollTop (ScrollContainer.this s))
    (sc_refreshed (sc_reset s))) as (Hk1 & cs1 & Hv1 & Hq1).
  revert Hk2 Hk1 Hv2 Hv1. unfold sc_refreshed. simpl. fold c k. unfold quiet in *.
  destruct (ScrollContainer.changed k c); simpl; intros Hk2 Hk1 Hv2 Hv1;
    eexists; eexists; (split; [done|]); rewrite Hk2, Hk1, Hv2, Hv1; simpl;
    rewrite <- !app_assoc; (split; [done|]); (split; [|done]);
    rewrite !elem_of_app, !elem_of_cons, !elem_of_nil.
  - split; [done|]. intros _. repeat first [ by left; left | by left | right ].
  - split; [|done]. intuition discriminate.
Qed.

(** A tick of a detached container is the two opening calls and [destroy]. *)
Lemma sc_tick_detached (s : ScrollContainer.state) :
  sc_live s →
  detached (Host.container (ScrollContainer.host s)) = true →
  ScrollContainer.intervalHandler s = ScrollContainer.destroy (sc_reset s) ∧
  ∃ s', ScrollContainer.intervalHandler s = Ok tt s' ∧
    Host.view (ScrollContainer.host s')
    = Host.view (ScrollContainer.host s)
      ++ [ScrollView.scrollTopUpdated (VNumber (Fin 0));
          ScrollView.scrollLeftUpdated (VNumber (Fin 0));
          ScrollView.destroy] ∧
    ScrollContainer.handler (ScrollContainer.this s')
    = ScrollContainer.handler (ScrollContainer.this s) ∧
    ScrollContainer._scrollTop (ScrollContainer.this s')
    = ScrollContainer._scrollTop (ScrollContainer.this s) ∧
    ScrollContainer._scrollLeft (ScrollContainer.this s')
    = ScrollContainer._scrollLeft (ScrollContainer.this s) ∧
    ScrollContainer._container (ScrollContainer.this s') = Null ∧
    ScrollContainer._scrollView (ScrollContainer.this s') = Null.
Proof.
  intros Hl Ha. rewrite sc_intervalHandler_live by done. rewrite Ha.
  split; [done|]. rewrite (sc_destroy_live (sc_reset s)) by done.
  eexists. split; [done|]. simpl. rewrite <- !app_assoc. done.
Qed.

Lemma sc_top_value_number (n : number) (s : ScrollContainer.state) :
  sc_enabledY s →
  sc_top_is_getter [VNumber n] s = false ∧
  sc_top_value [VNumber n] s
  = validated (top_limit (Host.container (ScrollContainer.host s))) (VNumber n).
Proof.
  intros He. unfold sc_top_value, sc_top_is_getter. unfold sc_enabledY in He.
  rewrite He. done.
Qed.

Lemma sc_left_value_number (n : number) (s : ScrollContainer.state) :
  sc_enabledX s →
  sc_left_is_getter [VNumber n] s = false ∧
  sc_left_value [VNumber n] s
  = validated (left_limit (Host.container (ScrollContainer.host s))) (VNumber n).
Proof.
  intros He. unfold sc_left_value, sc_left_is_getter. unfold sc_enabledX in He.
  rewrite He. done.
Qed.

(** [scrollTop(n)] for a number that is not [NaN]: the result is the
    number clamped into the range; when it differs from the stored offset
    it is assigned to the element, which then reports it (rounded when it
    is a fraction), the view is told it and the field holds it; otherwise
    nothing happened. *)
Lemma sc_scrollTop_clamped (s : ScrollContainer.state) (n : number) :
  let c := Host.container (ScrollContainer.host s) in
  let r := clamped (top_limit c) n in
  sc_live s → sc_enabledY s → n ≠ NaN → 0 ≤ top_limit c →
  within (top_limit c) r ∧
  ∃ s',
    ScrollContainer.scrollTop [VNumber n] s = Ok (VNumber r) s' ∧
    if strict_neq (ScrollContainer._scrollTop (ScrollContainer.this s)) (VNumber r)
    then Host.container (ScrollContainer.host s') = DOM.set_scrollTop (VNumber r) c ∧
         DOM.scrollTop (Host.container (ScrollContainer.host s')) = reported (top_limit c) r ∧
         (∀ z, r = Fin z → DOM.scrollTop (Host.container (ScrollContainer.host s')) = z) ∧
         Host.view (ScrollContainer.host s')
         = Host.view (ScrollContainer.host s) ++ [ScrollView.scrollTopUpdated (VNumber r)] ∧
         ScrollContainer._scrollTop (ScrollContainer.this s') = VNumber r
    else s' = s.
Proof.
  intros c r Hl He Hn Hlim.
  pose proof (clamped_within (top_limit c) n Hlim Hn) as Hin. fold r in Hin.
  split; [done|]. rewrite sc_scrollTop_live by done.
  destruct (sc_top_value_number n s He) as [Hg Hv].
  unfold sc_top_state. rewrite Hg, Hv, validated_clamped by done. fold c r.
  eexists. split; [done|].
  destruct (strict_neq _ _); [|done]. simpl. fold c.
  split_and!; try done.
  intros z Hz. rewrite set_scrollTop_reported, Hz. apply reported_Fin.
  by rewrite Hz in Hin.
Qed.

Lemma sc_scrollLeft_clamped (s : ScrollContainer.state) (n : number) :
  let c := Host.container (ScrollContainer.host s) in
  let r := clamped (left_limit c) n in
  sc_live s → sc_enabledX s → n ≠ NaN → 0 ≤ left_limit c →
  within (left_limit c) r ∧
  ∃ s',
    ScrollContainer.scrollLeft [VNumber n] s = Ok (VNumber r) s' ∧
    if strict_neq (ScrollContainer._scrollLeft (ScrollContainer.this s)) (VNumber r)
    then Host.container (ScrollContainer.host s') = DOM.set_scrollLeft (VNumber r) c ∧
         DOM.scrollLeft (Host.container (ScrollContainer.host s')) = reported (left_limit c) r ∧
         (∀ z, r = Fin z → DOM.scrollLeft (Host.container (ScrollContainer.host s')) = z) ∧
         Host.view (ScrollContainer.host s')
         = Host.view (ScrollContainer.host s) ++ [ScrollView.scrollLeftUpdated (VNumber r)] ∧
         ScrollContainer._scrollLeft (ScrollContainer.this s') = VNumber r
    else s' = s.
Proof.
  intros c r Hl He Hn Hlim.
  pose proof (clamped_within (left_limit c) n Hlim Hn) as Hin. fold r in Hin.
  split; [done|]. rewrite sc_scrollLeft_live by done.
  destruct (sc_left_value_number n s He) as [Hg Hv].
  unfold sc_left_state. rewrite Hg, Hv, validated_clamped by done. fold c r.
  eexists. split; [done|].
  destruct (strict_neq _ _); [|done]. simpl. fold c.
  split_and!; try done.
  intros z Hz. rewrite set_scrollLeft_reported, Hz. apply reported_Fin.
  by rewrite Hz in Hin.
Qed.

Lemma sc_well_formed_limits (s : ScrollContainer.state) :
  sc_well_formed s →
  0 ≤ top_limit (Host.container (ScrollContainer.host s)) ∧
  0 ≤ left_limit (Host.container (ScrollContainer.host s)).
Proof. unfold sc_well_formed, DOM.well_formed, top_limit, left_limit. lia. Qed.

(** What [scrollTop] leaves alone, whatever it was given. *)
Lemma sc_top_state_rest (args : list value) (s : ScrollContainer.state) :
  let s' := sc_top_state args s in
  ScrollContainer._options (ScrollContainer.this s') = ScrollContainer._options (ScrollContainer.this s) ∧
  ScrollContainer._scrollLeft (ScrollContainer.this s') = ScrollContainer._scrollLeft (ScrollContainer.this s) ∧
  DOM.scrollLeft (Host.container (ScrollContainer.host s'))
  = DOM.scrollLeft (Host.container (ScrollContainer.host s)) ∧
  (sc_well_formed s → sc_well_formed s').
Proof.
  unfold sc_top_state. destruct (sc_top_is_getter _ _); [done|].
  destruct (strict_neq _ _); [|done]. simpl.
  split; [done|]. split; [done|]. split; [done|].
  unfold sc_well_formed. simpl. apply set_scrollTop_well_formed.
Qed.

Lemma sc_left_state_rest (args : list value) (s : ScrollContainer.state) :
  let s' := sc_left_state args s in
  ScrollContainer._options (ScrollContainer.this s') = ScrollContainer._options (ScrollContainer.this s) ∧
  ScrollContainer._scrollTop (ScrollContainer.this s') = ScrollContainer._scrollTop (ScrollContainer.this s) ∧
  DOM.scrollTop (Host.container (ScrollContainer.host s'))
  = DOM.scrollTop (Host.container (ScrollContainer.host s)) ∧
  (sc_well_formed s → sc_well_formed s').
Proof.
  unfold sc_left_state. destruct (sc_left_is_getter _ _); [done|].
  destruct (strict_neq _ _); [|done]. simpl.
  split; [done|]. split; [done|]. split; [done|].
  unfold sc_well_formed. simpl. apply set_scrollLeft_well_formed.
Qed.

(** [scrollTop] keeps the stored top offset equal to the native one when it
    is given an integer or an infinity. *)
Lemma sc_top_state_synced (n : number) (s : ScrollContainer.state) :
  sc_well_formed s → whole n → sc_synced_top s →
  sc_synced_top (sc_top_state [VNumber n] s).
Proof.
  intros Hw Hn Hs. unfold sc_top_state, sc_top_value.
  destruct (sc_top_is_getter _ _); [done|]. simpl.
  destruct (validated_in_range (top_limit (Host.container (ScrollContainer.host s))) n Hn)
    as (z & Hz & Hr); [by apply sc_well_formed_limits|].
  rewrite Hz. destruct (strict_neq _ _); [|done].
  unfold sc_synced_top. simpl. by rewrite set_scrollTop_Fin.
Qed.

Lemma sc_left_state_synced (n : number) (s : ScrollContainer.state) :
  sc_well_formed s → whole n → sc_synced_left s →
  sc_synced_left (sc_left_state [VNumber n] s).
Proof.
  intros Hw Hn Hs. unfold sc_left_state, sc_left_value.
  destruct (sc_left_is_getter _ _); [done|]. simpl.
  destruct (validated_in_range (left_limit (Host.container (ScrollContainer.host s))) n Hn)
    as (z & Hz & Hr); [by apply sc_well_formed_limits|].
  rewrite Hz. destruct (strict_neq _ _); [|done].
  unfold sc_synced_left. simpl. by rewrite set_scrollLeft_Fin.
Qed.

Lemma sc_top_state_keeps_left (args : list value) (s : ScrollContainer.state) :
  sc_synced_left s → sc_synced_left (sc_top_state args s).
Proof.
  unfold sc_synced_left. intros Hs.
  destruct (sc_top_state_rest args s) as (_ & -> & -> & _). done.
Qed.

Lemma sc_left_state_keeps_top (args : list value) (s : ScrollContainer.state) :
  sc_synced_top s → sc_synced_top (sc_left_state args s).
Proof.
  unfold sc_synced_top. intros Hs.
  destruct (sc_left_state_rest args s) as (_ & -> & -> & _). done.
Qed.

(** The re-synchronization of a tick makes the stored offset the native one
    on an axis whose scrolling is enabled, and keeps them equal on any axis. *)
Lemma sc_resynced_top_synced (old : value) (s : ScrollContainer.state) :
  sc_well_formed s → sc_enabledY s ∨ sc_synced_top s →
  sc_synced_top (sc_resynced_top old s).
Proof.
  intros Hw Hes. unfold sc_resynced_top.
  destruct (strict_neq _ _) eqn:E.
  - destruct Hes as [He|Hs]; [|by apply sc_top_state_synced].
    destruct (sc_top_value_number (Fin (DOM.scrollTop (Host.container (ScrollContainer.host s))))
                s He) as [Hg Hv].
    unfold sc_top_state. rewrite Hg, Hv.
    rewrite validated_inside by apply Hw. rewrite E.
    unfold sc_synced_top. simpl. rewrite set_scrollTop_Fin; [done|apply Hw].
  - apply strict_neq_Fin_false in E. by destruct (less_than _ _).
Qed.

Lemma sc_resynced_left_synced (old : value) (s : ScrollContainer.state) :
  sc_well_formed s → sc_enabledX s ∨ sc_synced_left s →
  sc_synced_left (sc_resynced_left old s).
Proof.
  intros Hw Hes. unfold sc_resynced_left.
  destruct (strict_neq _ _) eqn:E.
  - destruct Hes as [He|Hs]; [|by apply sc_left_state_synced].
    destruct (sc_left_value_number (Fin (DOM.scrollLeft (Host.container (ScrollContainer.host s))))
                s He) as [Hg Hv].
    unfold sc_left_state. rewrite Hg, Hv.
    rewrite validated_inside by apply Hw. rewrite E.
    unfold sc_synced_left. simpl. rewrite set_scrollLeft_Fin; [done|apply Hw].
  - apply strict_neq_Fin_false in E. by destruct (less_than _ _).
Qed.

Lemma sc_resynced_top_rest (old : value) (s : ScrollContainer.state) :
  let s' := sc_resynced_top old s in
  ScrollContainer._options (ScrollContainer.this s') = ScrollContainer._options (ScrollContainer.this s) ∧
  (sc_synced_left s → sc_synced_left s') ∧
  (sc_well_formed s → sc_well_formed s').
Proof.
  unfold sc_resynced_top. destruct (strict_neq _ _).
  - destruct (sc_top_state_rest
      [VNumber (Fin (DOM.scrollTop (Host.container (ScrollContainer.host s))))] s)
      as (Ho & _ & _ & Hw).
    split; [done|]. split; [apply sc_top_state_keeps_left|done].
  - by destruct (less_than _ _).
Qed.

(** A tick ends with the stored offsets equal to the native ones on every
    axis that is enabled or was equal before. *)
Lemma sc_ticked_synced (s : ScrollContainer.state) :
  sc_well_formed s →
  sc_enabledY s ∨ sc_synced_top s →
  sc_enabledX s ∨ sc_synced_left s →
  sc_synced (sc_ticked s).
Proof.
  intros Hw Hy Hx. unfold sc_ticked.
  assert (sc_well_formed (sc_refreshed (sc_reset s))
          ∧ (sc_enabledY (sc_refreshed (sc_reset s)) ∨ sc_synced_top (sc_refreshed (sc_reset s)))
          ∧ (sc_enabledX (sc_refreshed (sc_reset s)) ∨ sc_synced_left (sc_refreshed (sc_reset s))))
    as (Hw1 & Hy1 & Hx1).
  { unfold sc_refreshed. by destruct (ScrollContainer.changed _ _). }
  set (s1 := sc_refreshed (sc_reset s)) in *.
  set (old_top := ScrollContainer._scrollTop (ScrollContainer.this s)).
  set (old_left := ScrollContainer._scrollLeft (ScrollContainer.this s)).
  pose proof (sc_resynced_top_synced old_top s1 Hw1 Hy1) as Ht.
  destruct (sc_resynced_top_rest old_top s1) as (Ho & Hl & Hw2).
  set (s2 := sc_resynced_top old_top s1) in *.
  assert (sc_enabledX s2 ∨ sc_synced_left s2) as Hx2.
  { destruct Hx1 as [He|Hs]; [left|right; by apply Hl].
    unfold sc_enabledX in *. by rewrite Ho. }
  split.
  - unfold sc_resynced_left. destruct (strict_neq _ _).
    + by apply sc_left_state_keeps_top.
    + by destruct (less_than _ _).
  - apply sc_resynced_left_synced; [by apply Hw2|done].
Qed.

Lemma sc_destroyed_synced (s : ScrollContainer.state) :
  sc_synced s → sc_synced (sc_destroyed s).
Proof.
  unfold sc_synced, sc_synced_top, sc_synced_left. simpl.
  destruct (removeEventListener_geometry
              (ScrollContainer._eventListener (ScrollContainer.this s))
              (Host.container (ScrollContainer.host s))) as [-> ->]. done.
Qed.

Lemma sc_wheeled_synced (e : WheelEvent) (s : ScrollContainer.state) :
  sc_well_formed s → whole (deltaY e) → whole (deltaX e) →
  sc_synced s → sc_synced (sc_wheeled e s).
Proof.
  intros Hw Hy Hx [Ht Hl]. unfold sc_wheeled.
  set (a := [VNumber (num_add (Fin (DOM.scrollTop (Host.container (ScrollContainer.host s))))
                              (deltaY e))]).
  pose proof (sc_top_state_synced _ s Hw
    (num_add_whole (DOM.scrollTop (Host.container (ScrollContainer.host s))) _ Hy) Ht) as Ht1.
  pose proof (sc_top_state_keeps_left a s Hl) as Hl1.
  destruct (sc_top_state_rest a s) as (_ & _ & _ & Hw1). specialize (Hw1 Hw).
  fold a in Ht1. set (s1 := sc_top_state a s) in *.
  split.
  - by apply sc_left_state_keeps_top.
  - apply sc_left_state_synced; [done| |done]. by apply num_add_whole.
Qed.

(** The stored offsets up to rounding. *)
Lemma sc_top_state_tracked (n : number) (s : ScrollContainer.state) :
  sc_tracked_top s → sc_tracked_top (sc_top_state [VNumber n] s).
Proof.
  intros Ht. unfold sc_top_state, sc_top_value.
  destruct (sc_top_is_getter _ _); [done|]. simpl.
  destruct (validated_is_number (top_limit (Host.container (ScrollContainer.host s))) n)
    as [r ->].
  destruct (strict_neq _ _); [|done].
  exists r. simpl. split; [done|]. by rewrite set_scrollTop_reported.
Qed.

Lemma sc_left_state_tracked (n : number) (s : ScrollContainer.state) :
  sc_tracked_left s → sc_tracked_left (sc_left_state [VNumber n] s).
Proof.
  intros Ht. unfold sc_left_state, sc_left_value.
  destruct (sc_left_is_getter _ _); [done|]. simpl.
  destruct (validated_is_number (left_limit (Host.container (ScrollContainer.host s))) n)
    as [r ->].
  destruct (strict_neq _ _); [|done].
  exists r. simpl. split; [done|]. by rewrite set_scrollLeft_reported.
Qed.

Lemma sc_top_state_tracked_left (args : list value) (s : ScrollContainer.state) :
  sc_tracked_left s → sc_tracked_left (sc_top_state args s).
Proof.
  unfold sc_top_state. destruct (sc_top_is_getter _ _); [done|].
  by destruct (strict_neq _ _).
Qed.

Lemma sc_left_state_tracked_top (args : list value) (s : ScrollContainer.state) :
  sc_tracked_top s → sc_tracked_top (sc_left_state args s).
Proof.
  unfold sc_left_state. destruct (sc_left_is_getter _ _); [done|].
  by destruct (strict_neq _ _).
Qed.

Lemma sc_wheeled_tracked (e : WheelEvent) (s : ScrollContainer.state) :
  sc_tracked_top s → sc_tracked_left s →
  sc_tracked_top (sc_wheeled e s) ∧ sc_tracked_left (sc_wheeled e s).
Proof.
  intros Ht Hl. unfold sc_wheeled. split.
  - by apply sc_left_state_tracked_top, sc_top_state_tracked.
  - by apply sc_left_state_tracked, sc_top_state_tracked_left.
Qed.

Lemma sc_synced_tracked (s : ScrollContainer.state) :
  sc_well_formed s → sc_synced s → sc_tracked_top s ∧ sc_tracked_left s.
Proof.
  intros [Hwt Hwl] [Ht Hl]. split; eexists; (split; [done|]);
    symmetry; by apply reported_Fin.
Qed.

(** A fraction of the range is stored as it is, and the element reports a
    whole number: the two are not equal. *)
Lemma sc_scrollTop_fraction (a : Z) (k : nat) (s : ScrollContainer.state) :
  let c := Host.container (ScrollContainer.host s) in
  sc_live s → sc_enabledY s → within (top_limit c) (Frac a k) →
  ∃ s', ScrollContainer.scrollTop [VNumber (Frac a k)] s = Ok (VNumber (Frac a k)) s' ∧
    ScrollContainer._scrollTop (ScrollContainer.this s') = VNumber (Frac a k) ∧
    ¬ sc_synced_top s'.
Proof.
  intros c Hl He Hin.
  assert (0 ≤ top_limit c) as Hlim by (simpl in Hin; lia).
  destruct (sc_scrollTop_clamped s (Frac a k) Hl He ltac:(done) Hlim) as (_ & s' & Hr & Hs).
  fold c in Hr, Hs. rewrite clamped_inside in Hr, Hs by done.
  exists s'. split; [done|].
  assert (ScrollContainer._scrollTop (ScrollContainer.this s') = VNumber (Frac a k)) as Hst.
  { destruct (strict_neq _ _) eqn:E; [by destruct Hs as (_ & _ & _ & _ & ?)|].
    subst s'. by apply strict_neq_number_false. }
  split; [done|]. unfold sc_synced_top. by rewrite Hst.
Qed.

Lemma sc_scrollLeft_fraction (a : Z) (k : nat) (s : ScrollContainer.state) :
  let c := Host.container (ScrollContainer.host s) in
  sc_live s → sc_enabledX s → within (left_limit c) (Frac a k) →
  ∃ s', ScrollContainer.scrollLeft [VNumber (Frac a k)] s = Ok (VNumber (Frac a k)) s' ∧
    ScrollContainer._scrollLeft (ScrollContainer.this s') = VNumber (Frac a k) ∧
    ¬ sc_synced_left s'.
Proof.
  intros c Hl He Hin.
  assert (0 ≤ left_limit c) as Hlim by (simpl in Hin; lia).
  destruct (sc_scrollLeft_clamped s (Frac a k) Hl He ltac:(done) Hlim) as (_ & s' & Hr & Hs).
  fold c in Hr, Hs. rewrite clamped_inside in Hr, Hs by done.
  exists s'. split; [done|].
  assert (ScrollContainer._scrollLeft (ScrollContainer.this s') = VNumber (Frac a k)) as Hst.
  { destruct (strict_neq _ _) eqn:E; [by destruct Hs as (_ & _ & _ & _ & ?)|].
    subst s'. by apply strict_neq_number_false. }
  split; [done|]. unfold sc_synced_left. by rewrite Hst.
Qed.

(** The dimension check of the handler against the four dimensions. *)
Lemma sc_changed_dimensions (k : ScrollContainer.cache) (c : DOM.element) :
  ScrollContainer.changed k c = true ↔
  ScrollContainer.containerHeight k ≠ DOM.clientHeight c ∨
  ScrollContainer.containerWidth k ≠ DOM.clientWidth c ∨
  ScrollContainer.scrollHeight k ≠ DOM.scrollHeight c ∨
  ScrollContainer.scrollWidth k ≠ DOM.scrollWidth c.
Proof.
  unfold ScrollContainer.changed.
  rewrite !orb_true_iff, !negb_true_iff, !Z.eqb_neq. tauto.
Qed.

Lemma sc_top_state_outward (d : Z) (s : ScrollContainer.state) :
  let c := Host.container (ScrollContainer.host s) in
  sc_well_formed s → outward (DOM.scrollTop c) (top_limit c) d →
  DOM.scrollTop (Host.container (ScrollContainer.host
    (sc_top_state [VNumber (Fin (DOM.scrollTop c + d))] s))) = DOM.scrollTop c.
Proof.
  intros c Hw Hd. unfold sc_top_state, sc_top_value.
  destruct (sc_top_is_getter _ _); [done|]. simpl. fold c.
  rewrite validated_outward by (done || apply Hw).
  destruct (strict_neq _ _); [|done]. simpl. fold c.
  rewrite set_scrollTop_Fin; [done|apply Hw].
Qed.

Lemma sc_left_state_outward (d : Z) (s : ScrollContainer.state) :
  let c := Host.container (ScrollContainer.host s) in
  sc_well_formed s → outward (DOM.scrollLeft c) (left_limit c) d →
  DOM.scrollLeft (Host.container (ScrollContainer.host
    (sc_left_state [VNumber (Fin (DOM.scrollLeft c + d))] s))) = DOM.scrollLeft c.
Proof.
  intros c Hw Hd. unfold sc_left_state, sc_left_value.
  destruct (sc_left_is_getter _ _); [done|]. simpl. fold c.
  rewrite validated_outward by (done || apply Hw).
  destruct (strict_neq _ _); [|done]. simpl. fold c.
  rewrite set_scrollLeft_Fin; [done|apply Hw].
Qed.

Lemma sc_wheeled_outward (e : WheelEvent) (dx dy : Z) (s : ScrollContainer.state) :
  let c := Host.container (ScrollContainer.host s) in
  sc_well_formed s →
  deltaY e = Fin dy → deltaX e = Fin dx →
  outward (DOM.scrollTop c) (top_limit c) dy →
  outward (DOM.scrollLeft c) (left_limit c) dx →
  sc_moved s (sc_wheeled e s) = false.
Proof.
  intros c Hw Hy Hx Hoy Hox. subst c.
  unfold sc_moved, sc_wheeled. rewrite Hy, Hx, !num_add_Fin.
  pose proof (sc_top_state_outward dy s Hw Hoy) as Ht. simpl in Ht.
  destruct (sc_top_state_rest
    [VNumber (Fin (DOM.scrollTop (Host.container (ScrollContainer.host s)) + dy))] s)
    as (_ & _ & Hl & Hw1).
  specialize (Hw1 Hw).
  set (s1 := sc_top_state _ s) in *.
  assert (left_limit (Host.container (ScrollContainer.host s1))
          = left_limit (Host.container (ScrollContainer.host s))) as Hlim.
  { subst s1. unfold sc_top_state. destruct (sc_top_is_getter _ _); [done|].
    by destruct (strict_neq _ _). }
  rewrite <- Hl, <- Hlim in Hox.
  pose proof (sc_left_state_outward dx s1 Hw1 Hox) as Hl2.
  destruct (sc_left_state_rest
    [VNumber (Fin (DOM.scrollLeft (Host.container (ScrollContainer.host s1)) + dx))] s1)
    as (_ & _ & Ht2 & _).
  rewrite Ht2, Hl2, Ht, Hl, !Z.eqb_refl. done.
Qed.

Lemma sc_new (h : Host.t) (aOptions : gmap string value) :
  ∃ s, ScrollContainer.new h aOptions = Ok tt s ∧
    sc_live s ∧
    ScrollContainer._options (ScrollContainer.this s) = aOptions ∧
    ScrollContainer._scrollTop (ScrollContainer.this s) = VNumber (Fin 0) ∧
    ScrollContainer._scrollLeft (ScrollContainer.this s) = VNumber (Fin 0) ∧
    DOM.scrollTop (Host.container (ScrollContainer.host s)) = DOM.scrollTop (Host.container h) ∧
    DOM.scrollLeft (Host.container (ScrollContainer.host s)) = DOM.scrollLeft (Host.container h).
Proof.
  unfold ScrollContainer.new, ScrollContainer.constructor, ScrollContainer._createIntervalHandler.
  sc_run. simpl. sc_run. simpl.
  destruct (negb _ && negb _); sc_run; simpl;
    unfold DOM.addEventListener; simpl;
    repeat (destruct (decide _); simpl);
    (eexists; split; [reflexivity|]); repeat split.
Qed.

(** [destroy()] on a live [ScrollContainer]: the interval is cleared, no
    listener of [_eventListener] is left on the container, the view is
    destroyed and both pointers are [null]. *)
Lemma sc_destroy_clears (s : ScrollContainer.state) :
  sc_live s →
  ∃ s', ScrollContainer.destroy s = Ok tt s' ∧
    (∀ x h, ScrollContainer._intervalPointer (ScrollContainer.this s) = Some h →
            x ∈ Window.timers (Host.window (ScrollContainer.host s')) →
            Window.handle x ≠ h) ∧
    (∀ y, y ∈ ScrollContainer._eventListener (ScrollContainer.this s) →
          y ∉ DOM.listeners (Host.container (ScrollContainer.host s'))) ∧
    Host.view (ScrollContainer.host s')
    = Host.view (ScrollContainer.host s) ++ [ScrollView.destroy] ∧
    ScrollContainer._container (ScrollContainer.this s') = Null ∧
    ScrollContainer._scrollView (ScrollContainer.this s') = Null.
Proof.
  intros Hl. rewrite sc_destroy_live by done. eexists. split; [done|]. simpl.
  split; [|split; [|done]].
  - intros x h -> Hx. by apply clear_handle in Hx.
  - intros y Hy [_ Hn]%removeEventListener_listeners. done.
Qed.

(** ** PocScrollbar *)

Lemma poc_scrollTop_live (s : PocScrollbar.state) (args : list value) :
  poc_live s →
  PocScrollbar.scrollTop args s = Ok (poc_top_value args s) (poc_top_state args s).
Proof.
  intros Hl. poc_open s.
  unfold PocScrollbar.scrollTop, poc_top_state, poc_top_value, poc_top_is_getter,
    validated, top_limit.
  poc_run. simpl.
  destruct (negb _ || _); [done|].
  destruct (less_than _ _); simpl.
  - destruct (strict_neq _ _); reflexivity.
  - destruct (greater_than _ _); simpl; destruct (strict_neq _ _); reflexivity.
Qed.

Lemma poc_scrollLeft_live (s : PocScrollbar.state) (args : list value) :
  poc_live s →
  PocScrollbar.scrollLeft args s = Ok (poc_left_value args s) (poc_left_state args s).
Proof.
  intros Hl. poc_open s.
  unfold PocScrollbar.scrollLeft, poc_left_state, poc_left_value, poc_left_is_getter,
    validated, left_limit.
  poc_run. simpl.
  destruct (_ || _); [done|].
  destruct (less_than _ _); simpl.
  - destruct (strict_neq _ _); reflexivity.
  - destruct (greater_than _ _); simpl; destruct (strict_neq _ _); reflexivity.
Qed.

Lemma poc_top_state_live (s : PocScrollbar.state) (args : list value) :
  poc_live s → poc_live (poc_top_state args s).
Proof.
  unfold poc_top_state. intros Hl.
  destruct (poc_top_is_getter _ _); [done|]. destruct (strict_neq _ _); done.
Qed.

Lemma poc_left_state_live (s : PocScrollbar.state) (args : list value) :
  poc_live s → poc_live (poc_left_state args s).
Proof.
  unfold poc_left_state. intros Hl.
  destruct (poc_left_is_getter _ _); [done|]. destruct (strict_neq _ _); done.
Qed.

(** [forEach] over listeners on a live instance: the element after each
    of them was handed to [f]. *)
Lemma poc_forEach_container (f : string → callback → DOM.element → DOM.element)
    (l : list (string * callback)) (s : PocScrollbar.state) :
  PocScrollbar._container (PocScrollbar.this s) = Ref →
  forEach l (λ '(aKey, g), PocScrollbar.on_container (f aKey g)) s
  = Ok tt {| PocScrollbar.host :=
               Host.set_container
                 (foldl (λ c '(aKey, g), f aKey g c)
                        (Host.container (PocScrollbar.host s)) l)
                 (PocScrollbar.host s);
             PocScrollbar.this := PocScrollbar.this s |}.
Proof.
  revert s. induction l as [|[aKey g] l IH]; intros [h i] Hc; simpl in *.
  - unfold ret. by destruct h.
  - unfold bind at 1. unfold PocScrollbar.on_container at 1. poc_run. rewrite Hc. simpl.
    rewrite IH by done. simpl. done.
Qed.

Lemma poc_container_live (s : PocScrollbar.state) :
  poc_live s → PocScrollbar.container s = Ok (Host.container (PocScrollbar.host s)) s.
Proof. intros [Hc _]. unfold PocScrollbar.container. by rewrite Hc. Qed.

Lemma poc_wheel_live (e : WheelEvent) (s : PocScrollbar.state) :
  poc_live s →
  defaultPrevented e = false →
  PocScrollbar.wheel e s = Ok (poc_moved s (poc_wheeled e s)) (poc_wheeled e s).
Proof.
  intros Hl He. unfold PocScrollbar.wheel, poc_wheeled, poc_moved. rewrite He.
  pose proof (poc_top_state_live s [VNumber (num_add (Fin (DOM.scrollTop (Host.container
    (PocScrollbar.host s)))) (deltaY e))] Hl) as Hl1.
  set (s1 := poc_top_state _ s) in *.
  pose proof (poc_left_state_live s1 [VNumber (num_add (Fin (DOM.scrollLeft (Host.container
    (PocScrollbar.host s1)))) (deltaX e))] Hl1) as Hl2.
  set (s2 := poc_left_state _ s1) in *.
  unfold bind. rewrite !(poc_container_live s) by done.
  rewrite (poc_scrollTop_live s) by done. fold s1.
  rewrite (poc_container_live s1) by done.
  rewrite (poc_scrollLeft_live s1) by done. fold s2.
  rewrite !(poc_container_live s2) by done.
  unfold ret. destruct (negb _); simpl; [done|].
  rewrite (poc_container_live s2) by done. destruct (negb _); done.
Qed.

Lemma poc_scrollView_live (c : ScrollView.call) (s : PocScrollbar.state) :
  poc_live s → PocScrollbar.scrollView c s = Ok tt (poc_told [c] s).
Proof. intros [_ Hv]. unfold PocScrollbar.scrollView. by rewrite Hv. Qed.

Lemma poc_refreshed_live (s : PocScrollbar.state) : poc_live s → poc_live (poc_refreshed s).
Proof. unfold poc_refreshed. intros Hl. by destruct (PocScrollbar.changed _ _). Qed.

Lemma poc_resynced_top_live (old : value) (s : PocScrollbar.state) :
  poc_live s → poc_live (poc_resynced_top old s).
Proof.
  unfold poc_resynced_top. intros Hl. destruct (strict_neq _ _).
  - by apply poc_top_state_live.
  - by destruct (less_than _ _).
Qed.

Lemma poc_mutationHandler_live (s : PocScrollbar.state) :
  poc_live s →
  PocScrollbar.mutationHandler s
  = if detached (Host.container (PocScrollbar.host s))
    then PocScrollbar.destroy (poc_reset s)
    else Ok tt (poc_ticked s).
Proof.
  intros Hl. unfold PocScrollbar.mutationHandler, poc_ticked, detached.
  unfold bind at 1. rewrite (poc_container_live s) by done.
  unfold bind at 1. unfold PocScrollbar.self at 1.
  unfold bind at 1. rewrite (poc_scrollView_live _ s) by done.
  unfold bind at 1. rewrite (poc_scrollView_live _ (poc_told _ s)) by done.
  fold (poc_reset s).
  assert (poc_live (poc_reset s)) as Hl1 by done.
  change (Host.container (PocScrollbar.host s))
    with (Host.container (PocScrollbar.host (poc_reset s))) at 1.
  destruct (null_or_undefined _); [done|].
  change (PocScrollbar.this s) with (PocScrollbar.this (poc_reset s)).
  generalize dependent (poc_reset s). clear s Hl. intros s Hl.
  unfold bind at 1.
  assert (bind (PocScrollbar.self) (λ this,
            bind PocScrollbar.container (λ c,
              if PocScrollbar.changed (PocScrollbar.handler this) c
              then bind (PocScrollbar.on_this (PocScrollbar.set_handler
                     {| PocScrollbar.containerHeight := DOM.clientHeight c;
                        PocScrollbar.containerWidth := DOM.clientWidth c;
                        PocScrollbar.scrollHeight := DOM.scrollHeight c;
                        PocScrollbar.scrollWidth := DOM.scrollWidth c |}))
                     (λ _, PocScrollbar.scrollView ScrollView.parentUpdated)
              else ret tt)) s = Ok tt (poc_refreshed s)) as ->.
  { unfold bind at 1. unfold PocScrollbar.self at 1.
    unfold bind at 1. rewrite (poc_container_live s) by done.
    unfold poc_refreshed. destruct (PocScrollbar.changed _ _); [|done].
    unfold bind, PocScrollbar.on_this. by rewrite poc_scrollView_live. }
  pose proof (poc_refreshed_live s Hl) as Hl2.
  remember (PocScrollbar._scrollTop (PocScrollbar.this s)) as old_top eqn:E1.
  remember (PocScrollbar._scrollLeft (PocScrollbar.this s)) as old_left eqn:E2.
  clear E1 E2.
  generalize dependent (poc_refreshed s). clear s Hl. intros s Hl.
  unfold bind at 1. unfold bind at 1. unfold PocScrollbar.self at 1.
  unfold bind at 1. rewrite (poc_container_live s) by done.
  assert ((if strict_neq (PocScrollbar._scrollTop (PocScrollbar.this s))
                (VNumber (Fin (DOM.scrollTop (Host.container (PocScrollbar.host s)))))
           then bind (PocScrollbar.scrollTop
                        [VNumber (Fin (DOM.scrollTop (Host.container (PocScrollbar.host s))))])
                     (λ _, ret tt)
           else if less_than old_top
                     (Fin (PocScrollbar.scrollHeight
                             (PocScrollbar.handler (PocScrollbar.this s))))
                then PocScrollbar.scrollView (ScrollView.scrollTopUpdated old_top)
                else ret tt) s = Ok tt (poc_resynced_top old_top s)) as ->.
  { unfold poc_resynced_top. destruct (strict_neq _ _).
    - unfold bind. by rewrite poc_scrollTop_live.
    - destruct (less_than _ _); [|done]. by rewrite poc_scrollView_live. }
  pose proof (poc_resynced_top_live old_top s Hl) as Hl3.
  generalize dependent (poc_resynced_top old_top s). clear s Hl. intros s Hl.
  unfold bind at 1. unfold PocScrollbar.self at 1.
  unfold bind at 1. rewrite (poc_container_live s) by done.
  unfold poc_resynced_left. destruct (strict_neq _ _).
  - unfold bind. by rewrite poc_scrollLeft_live.
  - destruct (less_than _ _); [|done]. by rewrite poc_scrollView_live.
Qed.

(** Neither accessor touches the cache, and what they tell the view is
    never [parentUpdated]. *)
Lemma poc_top_state_frame (args : list value) (s : PocScrollbar.state) :
  PocScrollbar.handler (PocScrollbar.this (poc_top_state args s))
  = PocScrollbar.handler (PocScrollbar.this s) ∧
  ∃ cs, Host.view (PocScrollbar.host (poc_top_state args s))
        = Host.view (PocScrollbar.host s) ++ cs ∧ quiet cs.
Proof.
  unfold poc_top_state, quiet.
  destruct (poc_top_is_getter _ _); [|destruct (strict_neq _ _)]; simpl; split; try done.
  - exists []. rewrite app_nil_r. split; [done|]. by intros ?%elem_of_nil.
  - eexists. split; [done|]. by intros [?|?%elem_of_nil]%elem_of_cons.
  - exists []. rewrite app_nil_r. split; [done|]. by intros ?%elem_of_nil.
Qed.

Lemma poc_left_state_frame (args : list value) (s : PocScrollbar.state) :
  PocScrollbar.handler (PocScrollbar.this (poc_left_state args s))
  = PocScrollbar.handler (PocScrollbar.this s) ∧
  ∃ cs, Host.view (PocScrollbar.host (poc_left_state args s))
        = Host.view (PocScrollbar.host s) ++ cs ∧ quiet cs.
Proof.
  unfold poc_left_state, quiet.
  destruct (poc_left_is_getter _ _); [|destruct (strict_neq _ _)]; simpl; split; try done.
  - exists []. rewrite app_nil_r. split; [done|]. by intros ?%elem_of_nil.
  - eexists. split; [done|]. by intros [?|?%elem_of_nil]%elem_of_cons.
  - exists []. rewrite app_nil_r. split; [done|]. by intros ?%elem_of_nil.
Qed.

Lemma poc_resynced_top_frame (old : value) (s : PocScrollbar.state) :
  PocScrollbar.handler (PocScrollbar.this (poc_resynced_top old s))
  = PocScrollbar.handler (PocScrollbar.this s) ∧
  ∃ cs, Host.view (PocScrollbar.host (poc_resynced_top old s))
        = Host.view (PocScrollbar.host s) ++ cs ∧ quiet cs.
Proof.
  unfold poc_resynced_top. destruct (strict_neq _ _); [apply poc_top_state_frame|].
  unfold quiet. destruct (less_than _ _); simpl; split; try done.
  - eexists. split; [done|]. by intros [?|?%elem_of_nil]%elem_of_cons.
  - exists []. rewrite app_nil_r. split; [done|]. by intros ?%elem_of_nil.
Qed.

Lemma poc_resynced_left_frame (old : value) (s : PocScrollbar.state) :
  PocScrollbar.handler (PocScrollbar.this (poc_resynced_left old s))
  = PocScrollbar.handler (PocScrollbar.this s) ∧
  ∃ cs, Host.view (PocScrollbar.host (poc_resynced_left old s))
        = Host.view (PocScrollbar.host s) ++ cs ∧ quiet cs.
Proof.
  unfold poc_resynced_left. destruct (strict_neq _ _); [apply poc_left_state_frame|].
  unfold quiet. destruct (less_than _ _); simpl; split; try done.
  - eexists. split; [done|]. by intros [?|?%elem_of_nil]%elem_of_cons.
  - exists []. rewrite app_nil_r. split; [done|]. by intros ?%elem_of_nil.
Qed.

(** A tick of an attached container: the calls the view receives hold
    [parentUpdated] exactly when a dimension differs from the cache, and
    then the cache holds the four current dimensions. *)
Lemma poc_tick_attached (s : PocScrollbar.state) :
  poc_live s →
  detached (Host.container (PocScrollbar.host s)) = false →
  let c := Host.container (PocScrollbar.host s) in
  let k := PocScrollbar.handler (PocScrollbar.this s) in
  ∃ s' cs,
    PocScrollbar.mutationHandler s = Ok tt s' ∧
    Host.view (PocScrollbar.host s') = Host.view (PocScrollbar.host s) ++ cs ∧
    (ScrollView.parentUpdated ∈ cs ↔ PocScrollbar.changed k c = true) ∧
    PocScrollbar.handler (PocScrollbar.this s')
    = (if PocScrollbar.changed k c then poc_measured c else k).
Proof.
  intros Hl Ha c k. rewrite poc_mutationHandler_live by done.
  rewrite Ha. unfold poc_ticked.
  destruct (poc_resynced_left_frame (PocScrollbar._scrollLeft (PocScrollbar.this s))
    (poc_resynced_top (PocScrollbar._scrollTop (PocScrollbar.this s))
       (poc_refreshed (poc_reset s)))) as (Hk2 & cs2 & Hv2 & Hq2).
  destruct (poc_resynced_top_frame (PocScrollbar._scrollTop (PocScrollbar.this s))
    (poc_refreshed (poc_reset s))) as (Hk1 & cs1 & Hv1 & Hq1).
  revert Hk2 Hk1 Hv2 Hv1. unfold poc_refreshed. simpl. fold c k. unfold quiet in *.
  destruct (PocScrollbar.changed k c); simpl; intros Hk2 Hk1 Hv2 Hv1;
    eexists; eexists; (split; [done|]); rewrite Hk2, Hk1, Hv2, Hv1; simpl;
    rewrite <- !app_assoc; (split; [done|]); (split; [|done]);
    rewrite !elem_of_app, !elem_of_cons, !elem_of_nil.
  - split; [done|]. intros _. repeat first [ by left; left | by left | right ].
  - split; [|done]. intuition discriminate.
Qed.

Lemma poc_top_value_number (n : number) (s : PocScrollbar.state) :
  poc_enabledY s →
  poc_top_is_getter [VNumber n] s = false ∧
  poc_top_value [VNumber n] s
  = validated (top_limit (Host.container (PocScrollbar.host s))) (VNumber n).
Proof.
  intros He. unfold poc_top_value, poc_top_is_getter. unfold poc_enabledY in He.
  rewrite He. done.
Qed.

Lemma poc_left_value_number (n : number) (s : PocScrollbar.state) :
  poc_enabledX s →
  poc_left_is_getter [VNumber n] s = false ∧
  poc_left_value [VNumber n] s
  = validated (left_limit (Host.container (PocScrollbar.host s))) (VNumber n).
Proof.
  intros He. unfold poc_left_value, poc_left_is_getter. unfold poc_enabledX in He.
  rewrite He. done.
Qed.

(** [scrollTop(n)] for a number that is not [NaN]: the result is the
    number clamped into the range; when it differs from the stored offset
    it is assigned to the element, which then reports it (rounded when it
    is a fraction), the view is told it and the field holds it; otherwise
    nothing happened. *)
Lemma poc_scrollTop_clamped (s : PocScrollbar.state) (n : number) :
  let c := Host.container (PocScrollbar.host s) in
  let r := clamped (top_limit c) n in
  poc_live s → poc_enabledY s → n ≠ NaN → 0 ≤ top_limit c →
  within (top_limit c) r ∧
  ∃ s',
    PocScrollbar.scrollTop [VNumber n] s = Ok (VNumber r) s' ∧
    if strict_neq (PocScrollbar._scrollTop (PocScrollbar.this s)) (VNumber r)
    then Host.container (PocScrollbar.host s') = DOM.set_scrollTop (VNumber r) c ∧
         DOM.scrollTop (Host.container (PocScrollbar.host s')) = reported (top_limit c) r ∧
         (∀ z, r = Fin z → DOM.scrollTop (Host.container (PocScrollbar.host s')) = z) ∧
         Host.view (PocScrollbar.host s')
         = Host.view (PocScrollbar.host s) ++ [ScrollView.scrollTopUpdated (VNumber r)] ∧
         PocScrollbar._scrollTop (PocScrollbar.this s') = VNumber r
    else s' = s.
Proof.
  intros c r Hl He Hn Hlim.
  pose proof (clamped_within (top_limit c) n Hlim Hn) as Hin. fold r in Hin.
  split; [done|]. rewrite poc_scrollTop_live by done.
  destruct (poc_top_value_number n s He) as [Hg Hv].
  unfold poc_top_state. rewrite Hg, Hv, validated_clamped by done. fold c r.
  eexists. split; [done|].
  destruct (strict_neq _ _); [|done]. simpl. fold c.
  split_and!; try done.
  intros z Hz. rewrite set_scrollTop_reported, Hz. apply reported_Fin.
  by rewrite Hz in Hin.
Qed.

Lemma poc_scrollLeft_clamped (s : PocScrollbar.state) (n : number) :
  let c := Host.container (PocScrollbar.host s) in
  let r := clamped (left_limit c) n in
  poc_live s → poc_enabledX s → n ≠ NaN → 0 ≤ left_limit c →
  within (left_limit c) r ∧
  ∃ s',
    PocScrollbar.scrollLeft [VNumber n] s = Ok (VNumber r) s' ∧
    if strict_neq (PocScrollbar._scrollLeft (PocScrollbar.this s)) (VNumber r)
    then Host.container (PocScrollbar.host s') = DOM.set_scrollLeft (VNumber r) c ∧
         DOM.scrollLeft (Host.container (PocScrollbar.host s')) = reported (left_limit c) r ∧
         (∀ z, r = Fin z → DOM.scrollLeft (Host.container (PocScrollbar.host s')) = z) ∧
         Host.view (PocScrollbar.host s')
         = Host.view (PocScrollbar.host s) ++ [ScrollView.scrollLeftUpdated (VNumber r)] ∧
         PocScrollbar._scrollLeft (PocScrollbar.this s') = VNumber r
    else s' = s.
Proof.
  intros c r Hl He Hn Hlim.
  pose proof (clamped_within (left_limit c) n Hlim Hn) as Hin. fold r in Hin.
  split; [done|]. rewrite poc_scrollLeft_live by done.
  destruct (poc_left_value_number n s He) as [Hg Hv].
  unfold poc_left_state. rewrite Hg, Hv, validated_clamped by done. fold c r.
  eexists. split; [done|].
  destruct (strict_neq _ _); [|done]. simpl. fold c.
  split_and!; try done.
  intros z Hz. rewrite set_scrollLeft_reported, Hz. apply reported_Fin.
  by rewrite Hz in Hin.
Qed.

(** What [scrollTop] leaves alone, whatever it was given. *)
Lemma poc_top_state_rest (args : list value) (s : PocScrollbar.state) :
  let s' := poc_top_state args s in
  PocScrollbar._options (PocScrollbar.this s') = PocScrollbar._options (PocScrollbar.this s) ∧
  PocScrollbar._scrollLeft (PocScrollbar.this s') = PocScrollbar._scrollLeft (PocScrollbar.this s) ∧
  DOM.scrollLeft (Host.container (PocScrollbar.host s'))
  = DOM.scrollLeft (Host.container (PocScrollbar.host s)) ∧
  (poc_well_formed s → poc_well_formed s').
Proof.
  unfold poc_top_state. destruct (poc_top_is_getter _ _); [done|].
  destruct (strict_neq _ _); [|done]. simpl.
  split; [done|]. split; [done|]. split; [done|].
  unfold poc_well_formed. simpl. apply set_scrollTop_well_formed.
Qed.

Lemma poc_left_state_rest (args : list value) (s : PocScrollbar.state) :
  let s' := poc_left_state args s in
  PocScrollbar._options (PocScrollbar.this s') = PocScrollbar._options (PocScrollbar.this s) ∧
  PocScrollbar._scrollTop (PocScrollbar.this s') = PocScrollbar._scrollTop (PocScrollbar.this s) ∧
  DOM.scrollTop (Host.container (PocScrollbar.host s'))
  = DOM.scrollTop (Host.container (PocScrollbar.host s)) ∧
  (poc_well_formed s → poc_well_formed s').
Proof.
  unfold poc_left_state. destruct (poc_left_is_getter _ _); [done|].
  destruct (strict_neq _ _); [|done]. simpl.
  split; [done|]. split; [done|]. split; [done|].
  unfold poc_well_formed. simpl. apply set_scrollLeft_well_formed.
Qed.

Lemma poc_top_state_outward (d : Z) (s : PocScrollbar.state) :
  let c := Host.container (PocScrollbar.host s) in
  poc_well_formed s → outward (DOM.scrollTop c) (top_limit c) d →
  DOM.scrollTop (Host.container (PocScrollbar.host
    (poc_top_state [VNumber (Fin (DOM.scrollTop c + d))] s))) = DOM.scrollTop c.
Proof.
  intros c Hw Hd. unfold poc_top_state, poc_top_value.
  destruct (poc_top_is_getter _ _); [done|]. simpl. fold c.
  rewrite validated_outward by (done || apply Hw).
  destruct (strict_neq _ _); [|done]. simpl. fold c.
  rewrite set_scrollTop_Fin; [done|apply Hw].
Qed.

Lemma poc_left_state_outward (d : Z) (s : PocScrollbar.state) :
  let c := Host.container (PocScrollbar.host s) in
  poc_well_formed s → outward (DOM.scrollLeft c) (left_limit c) d →
  DOM.scrollLeft (Host.container (PocScrollbar.host
    (poc_left_state [VNumber (Fin (DOM.scrollLeft c + d))] s))) = DOM.scrollLeft c.
Proof.
  intros c Hw Hd. unfold poc_left_state, poc_left_value.
  destruct (poc_left_is_getter _ _); [done|]. simpl. fold c.
  rewrite validated_outward by (done || apply Hw).
  destruct (strict_neq _ _); [|done]. simpl. fold c.
  rewrite set_scrollLeft_Fin; [done|apply Hw].
Qed.

Lemma poc_wheeled_outward (e : WheelEvent) (dx dy : Z) (s : PocScrollbar.state) :
  let c := Host.container (PocScrollbar.host s) in
  poc_well_formed s →
  deltaY e = Fin dy → deltaX e = Fin dx →
  outward (DOM.scrollTop c) (top_limit c) dy →
  outward (DOM.scrollLeft c) (left_limit c) dx →
  poc_moved s (poc_wheeled e s) = false.
Proof.
  intros c Hw Hy Hx Hoy Hox. subst c.
  unfold poc_moved, poc_wheeled. rewrite Hy, Hx, !num_add_Fin.
  pose proof (poc_top_state_outward dy s Hw Hoy) as Ht. simpl in Ht.
  destruct (poc_top_state_rest
    [VNumber (Fin (DOM.scrollTop (Host.container (PocScrollbar.host s)) + dy))] s)
    as (_ & _ & Hl & Hw1).
  specialize (Hw1 Hw).
  set (s1 := poc_top_state _ s) in *.
  assert (left_limit (Host.container (PocScrollbar.host s1))
          = left_limit (Host.container (PocScrollbar.host s))) as Hlim.
  { subst s1. unfold poc_top_state. destruct (poc_top_is_getter _ _); [done|].
    by destruct (strict_neq _ _). }
  rewrite <- Hl, <- Hlim in Hox.
  pose proof (poc_left_state_outward dx s1 Hw1 Hox) as Hl2.
  destruct (poc_left_state_rest
    [VNumber (Fin (DOM.scrollLeft (Host.container (PocScrollbar.host s1)) + dx))] s1)
    as (_ & _ & Ht2 & _).
  rewrite Ht2, Hl2, Ht, Hl, !Z.eqb_refl. done.
Qed.

Lemma poc_destroy_live (s : PocScrollbar.state) :
  poc_live s → poc_armed s → PocScrollbar.destroy s = Ok tt (poc_destroyed s).
Proof.
  intros Hl Ha. unfold poc_armed in Ha. unfold PocScrollbar.destroy, poc_destroyed.
  unfold poc_uses_observer in *.
  poc_open s.
  unfold bind at 1. unfold PocScrollbar.self at 1. simpl.
  destruct (ToBoolean _).
  - destruct Ha as [f Hf]; [done|]. subst.
    unfold bind at 1. unfold bind at 1. unfold PocScrollbar.on_host at 1.
    unfold PocScrollbar.on_this at 1.
    unfold bind at 1. rewrite poc_forEach_container by done.
    poc_run. simpl. done.
  - unfold bind at 1. unfold PocScrollbar.on_host at 1.
    unfold bind at 1. rewrite poc_forEach_container by done.
    poc_run. simpl. by destruct _mutationObserver.
Qed.

(** A tick of a detached container is the two opening calls and [destroy]. *)
Lemma poc_tick_detached (s : PocScrollbar.state) :
  poc_live s →
  detached (Host.container (PocScrollbar.host s)) = true →
  PocScrollbar.mutationHandler s = PocScrollbar.destroy (poc_reset s) ∧
  (poc_armed s →
   ∃ s', PocScrollbar.mutationHandler s = Ok tt s' ∧
    Host.view (PocScrollbar.host s')
    = Host.view (PocScrollbar.host s)
      ++ [ScrollView.scrollTopUpdated (VNumber (Fin 0));
          ScrollView.scrollLeftUpdated (VNumber (Fin 0));
          ScrollView.destroy] ∧
    PocScrollbar.handler (PocScrollbar.this s')
    = PocScrollbar.handler (PocScrollbar.this s) ∧
    PocScrollbar._scrollTop (PocScrollbar.this s')
    = PocScrollbar._scrollTop (PocScrollbar.this s) ∧
    PocScrollbar._scrollLeft (PocScrollbar.this s')
    = PocScrollbar._scrollLeft (PocScrollbar.this s) ∧
    PocScrollbar._container (PocScrollbar.this s') = Null ∧
    PocScrollbar._scrollView (PocScrollbar.this s') = Null).
Proof.
  intros Hl Ha. rewrite poc_mutationHandler_live by done. rewrite Ha.
  split; [done|]. intros Hm. rewrite (poc_destroy_live (poc_reset s)) by done.
  eexists. split; [done|]. simpl. rewrite <- !app_assoc.
  unfold poc_uses_observer. simpl. by destruct (ToBoolean _).
Qed.

(** [destroy()] on a live [PocScrollbar]: the interval is cleared or the
    observer is disconnected, no listener of [_eventListener] is left on
    the container, the view is destroyed and both pointers are [null]. *)
Lemma poc_destroy_clears (s : PocScrollbar.state) :
  poc_live s → poc_armed s →
  ∃ s', PocScrollbar.destroy s = Ok tt s' ∧
    (∀ x h, poc_uses_observer s = false →
            PocScrollbar._mutationObserver (PocScrollbar.this s) = PocScrollbar.Interval h →
            x ∈ Window.timers (Host.window (PocScrollbar.host s')) →
            Window.handle x ≠ h) ∧
    (∀ f, poc_uses_observer s = true →
          PocScrollbar._mutationObserver (PocScrollbar.this s) = PocScrollbar.Observer f →
          f ∉ Host.observers (PocScrollbar.host s')) ∧
    (∀ y, y ∈ PocScrollbar._eventListener (PocScrollbar.this s) →
          y ∉ DOM.listeners (Host.container (PocScrollbar.host s'))) ∧
    Host.view (PocScrollbar.host s')
    = Host.view (PocScrollbar.host s) ++ [ScrollView.destroy] ∧
    PocScrollbar._container (PocScrollbar.this s') = Null ∧
    PocScrollbar._scrollView (PocScrollbar.this s') = Null.
Proof.
  intros Hl Ha. rewrite poc_destroy_live by done. eexists. split; [done|]. simpl.
  split; [|split; [|split; [|done]]].
  - intros x h -> -> Hx. by apply clear_handle in Hx.
  - intros f -> ->. by intros [? _]%list_elem_of_filter.
  - intros y Hy [_ Hn]%removeEventListener_listeners. done.
Qed.

Lemma poc_new (h : Host.t) (aOptions : gmap string value) :
  ∃ s, PocScrollbar.new h aOptions = Ok tt s ∧
    poc_live s ∧ poc_armed s ∧
    PocScrollbar._scrollTop (PocScrollbar.this s) = VNumber (Fin 0) ∧
    PocScrollbar._scrollLeft (PocScrollbar.this s) = VNumber (Fin 0) ∧
    DOM.scrollTop (Host.container (PocScrollbar.host s)) = DOM.scrollTop (Host.container h) ∧
    DOM.scrollLeft (Host.container (PocScrollbar.host s)) = DOM.scrollLeft (Host.container h).
Proof.
  unfold PocScrollbar.new, PocScrollbar.constructor, PocScrollbar._getMutationHandler.
  unfold poc_armed, poc_uses_observer.
  poc_run. simpl. poc_run. simpl.
  destruct (ToBoolean _) eqn:E; poc_run; simpl;
    destruct (negb _ && negb _); poc_run; simpl;
    unfold DOM.addEventListener; simpl;
    repeat (destruct (decide _); simpl);
    (eexists; split; [reflexivity|]); simpl; repeat split; eauto; by rewrite E.
Qed.

(** The stored offsets of [PocScrollbar] against the native ones. *)
Lemma poc_well_formed_limits (s : PocScrollbar.state) :
  poc_well_formed s →
  0 ≤ top_limit (Host.container (PocScrollbar.host s)) ∧
  0 ≤ left_limit (Host.container (PocScrollbar.host s)).
Proof. unfold poc_well_formed, DOM.well_formed, top_limit, left_limit. lia. Qed.

Lemma poc_top_state_synced (n : number) (s : PocScrollbar.state) :
  poc_well_formed s → whole n → poc_synced_top s →
  poc_synced_top (poc_top_state [VNumber n] s).
Proof.
  intros Hw Hn Hs. unfold poc_top_state, poc_top_value.
  destruct (poc_top_is_getter _ _); [done|]. simpl.
  destruct (validated_in_range (top_limit (Host.container (PocScrollbar.host s))) n Hn)
    as (z & Hz & Hr); [by apply poc_well_formed_limits|].
  rewrite Hz. destruct (strict_neq _ _); [|done].
  unfold poc_synced_top. simpl. by rewrite set_scrollTop_Fin.
Qed.

Lemma poc_left_state_synced (n : number) (s : PocScrollbar.state) :
  poc_well_formed s → whole n → poc_synced_left s →
  poc_synced_left (poc_left_state [VNumber n] s).
Proof.
  intros Hw Hn Hs. unfold poc_left_state, poc_left_value.
  destruct (poc_left_is_getter _ _); [done|]. simpl.
  destruct (validated_in_range (left_limit (Host.container (PocScrollbar.host s))) n Hn)
    as (z & Hz & Hr); [by apply poc_well_formed_limits|].
  rewrite Hz. destruct (strict_neq _ _); [|done].
  unfold poc_synced_left. simpl. by rewrite set_scrollLeft_Fin.
Qed.

Lemma poc_top_state_keeps_left (args : list value) (s : PocScrollbar.state) :
  poc_synced_left s → poc_synced_left (poc_top_state args s).
Proof.
  unfold poc_synced_left. intros Hs.
  destruct (poc_top_state_rest args s) as (_ & -> & -> & _). done.
Qed.

Lemma poc_left_state_keeps_top (args : list value) (s : PocScrollbar.state) :
  poc_synced_top s → poc_synced_top (poc_left_state args s).
Proof.
  unfold poc_synced_top. intros Hs.
  destruct (poc_left_state_rest args s) as (_ & -> & -> & _). done.
Qed.

Lemma poc_resynced_top_synced (old : value) (s : PocScrollbar.state) :
  poc_well_formed s → poc_enabledY s ∨ poc_synced_top s →
  poc_synced_top (poc_resynced_top old s).
Proof.
  intros Hw Hes. unfold poc_resynced_top.
  destruct (strict_neq _ _) eqn:E.
  - destruct Hes as [He|Hs]; [|by apply poc_top_state_synced].
    destruct (poc_top_value_number (Fin (DOM.scrollTop (Host.container (PocScrollbar.host s))))
                s He) as [Hg Hv].
    unfold poc_top_state. rewrite Hg, Hv.
    rewrite validated_inside by apply Hw. rewrite E.
    unfold poc_synced_top. simpl. rewrite set_scrollTop_Fin; [done|apply Hw].
  - apply strict_neq_Fin_false in E. by destruct (less_than _ _).
Qed.

Lemma poc_resynced_left_synced (old : value) (s : PocScrollbar.state) :
  poc_well_formed s → poc_enabledX s ∨ poc_synced_left s →
  poc_synced_left (poc_resynced_left old s).
Proof.
  intros Hw Hes. unfold poc_resynced_left.
  destruct (strict_neq _ _) eqn:E.
  - destruct Hes as [He|Hs]; [|by apply poc_left_state_synced].
    destruct (poc_left_value_number (Fin (DOM.scrollLeft (Host.container (PocScrollbar.host s))))
                s He) as [Hg Hv].
    unfold poc_left_state. rewrite Hg, Hv.
    rewrite validated_inside by apply Hw. rewrite E.
    unfold poc_synced_left. simpl. rewrite set_scrollLeft_Fin; [done|apply Hw].
  - apply strict_neq_Fin_false in E. by destruct (less_than _ _).
Qed.

Lemma poc_resynced_top_rest (old : value) (s : PocScrollbar.state) :
  let s' := poc_resynced_top old s in
  PocScrollbar._options (PocScrollbar.this s') = PocScrollbar._options (PocScrollbar.this s) ∧
  (poc_synced_left s → poc_synced_left s') ∧
  (poc_well_formed s → poc_well_formed s').
Proof.
  unfold poc_resynced_top. destruct (strict_neq _ _).
  - destruct (poc_top_state_rest
      [VNumber (Fin (DOM.scrollTop (Host.container (PocScrollbar.host s))))] s)
      as (Ho & _ & _ & Hw).
    split; [done|]. split; [apply poc_top_state_keeps_left|done].
  - by destruct (less_than _ _).
Qed.

Lemma poc_ticked_synced (s : PocScrollbar.state) :
  poc_well_formed s →
  poc_enabledY s ∨ poc_synced_top s →
  poc_enabledX s ∨ poc_synced_left s →
  poc_synced (poc_ticked s).
Proof.
  intros Hw Hy Hx. unfold poc_ticked.
  assert (poc_well_formed (poc_refreshed (poc_reset s))
          ∧ (poc_enabledY (poc_refreshed (poc_reset s)) ∨ poc_synced_top (poc_refreshed (poc_reset s)))
          ∧ (poc_enabledX (poc_refreshed (poc_reset s)) ∨ poc_synced_left (poc_refreshed (poc_reset s))))
    as (Hw1 & Hy1 & Hx1).
  { unfold poc_refreshed. by destruct (PocScrollbar.changed _ _). }
  set (s1 := poc_refreshed (poc_reset s)) in *.
  set (old_top := PocScrollbar._scrollTop (PocScrollbar.this s)).
  set (old_left := PocScrollbar._scrollLeft (PocScrollbar.this s)).
  pose proof (poc_resynced_top_synced old_top s1 Hw1 Hy1) as Ht.
  destruct (poc_resynced_top_rest old_top s1) as (Ho & Hl & Hw2).
  set (s2 := poc_resynced_top old_top s1) in *.
  assert (poc_enabledX s2 ∨ poc_synced_left s2) as Hx2.
  { destruct Hx1 as [He|Hs]; [left|right; by apply Hl].
    unfold poc_enabledX in *. by rewrite Ho. }
  split.
  - unfold poc_resynced_left. destruct (strict_neq _ _).
    + by apply poc_left_state_keeps_top.
    + by destruct (less_than _ _).
  - apply poc_resynced_left_synced; [by apply Hw2|done].
Qed.

Lemma poc_destroyed_synced (s : PocScrollbar.state) :
  poc_synced s → poc_synced (poc_destroyed s).
Proof.
  unfold poc_synced, poc_synced_top, poc_synced_left. simpl.
  destruct (removeEventListener_geometry
              (PocScrollbar._eventListener (PocScrollbar.this s))
              (Host.container (PocScrollbar.host s))) as [-> ->].
  by destruct (poc_uses_observer s).
Qed.

Lemma poc_wheeled_synced (e : WheelEvent) (s : PocScrollbar.state) :
  poc_well_formed s → whole (deltaY e) → whole (deltaX e) →
  poc_synced s → poc_synced (poc_wheeled e s).
Proof.
  intros Hw Hy Hx [Ht Hl]. unfold poc_wheeled.
  set (a := [VNumber (num_add (Fin (DOM.scrollTop (Host.container (PocScrollbar.host s))))
                              (deltaY e))]).
  pose proof (poc_top_state_synced _ s Hw
    (num_add_whole (DOM.scrollTop (Host.container (PocScrollbar.host s))) _ Hy) Ht) as Ht1.
  pose proof (poc_top_state_keeps_left a s Hl) as Hl1.
  destruct (poc_top_state_rest a s) as (_ & _ & _ & Hw1). specialize (Hw1 Hw).
  fold a in Ht1. set (s1 := poc_top_state a s) in *.
  split.
  - by apply poc_left_state_keeps_top.
  - apply poc_left_state_synced; [done| |done]. by apply num_add_whole.
Qed.

(** The stored offsets up to rounding. *)
Lemma poc_top_state_tracked (n : number) (s : PocScrollbar.state) :
  poc_tracked_top s → poc_tracked_top (poc_top_state [VNumber n] s).
Proof.
  intros Ht. unfold poc_top_state, poc_top_value.
  destruct (poc_top_is_getter _ _); [done|]. simpl.
  destruct (validated_is_number (top_limit (Host.container (PocScrollbar.host s))) n)
    as [r ->].
  destruct (strict_neq _ _); [|done].
  exists r. simpl. split; [done|]. by rewrite set_scrollTop_reported.
Qed.

Lemma poc_left_state_tracked (n : number) (s : PocScrollbar.state) :
  poc_tracked_left s → poc_tracked_left (poc_left_state [VNumber n] s).
Proof.
  intros Ht. unfold poc_left_state, poc_left_value.
  destruct (poc_left_is_getter _ _); [done|]. simpl.
  destruct (validated_is_number (left_limit (Host.container (PocScrollbar.host s))) n)
    as [r ->].
  destruct (strict_neq _ _); [|done].
  exists r. simpl. split; [done|]. by rewrite set_scrollLeft_reported.
Qed.

Lemma poc_top_state_tracked_left (args : list value) (s : PocScrollbar.state) :
  poc_tracked_left s → poc_tracked_left (poc_top_state args s).
Proof.
  unfold poc_top_state. destruct (poc_top_is_getter _ _); [done|].
  by destruct (strict_neq _ _).
Qed.

Lemma poc_left_state_tracked_top (args : list value) (s : PocScrollbar.state) :
  poc_tracked_top s → poc_tracked_top (poc_left_state args s).
Proof.
  unfold poc_left_state. destruct (poc_left_is_getter _ _); [done|].
  by destruct (strict_neq _ _).
Qed.

Lemma poc_wheeled_tracked (e : WheelEvent) (s : PocScrollbar.state) :
  poc_tracked_top s → poc_tracked_left s →
  poc_tracked_top (poc_wheeled e s) ∧ poc_tracked_left (poc_wheeled e s).
Proof.
  intros Ht Hl. unfold poc_wheeled. split.
  - by apply poc_left_state_tracked_top, poc_top_state_tracked.
  - by apply poc_left_state_tracked, poc_top_state_tracked_left.
Qed.

Lemma poc_synced_tracked (s : PocScrollbar.state) :
  poc_well_formed s → poc_synced s → poc_tracked_top s ∧ poc_tracked_left s.
Proof.
  intros [Hwt Hwl] [Ht Hl]. split; eexists; (split; [done|]);
    symmetry; by apply reported_Fin.
Qed.

(** A fraction of the range is stored as it is, and the element reports a
    whole number: the two are not equal. *)
Lemma poc_scrollTop_fraction (a : Z) (k : nat) (s : PocScrollbar.state) :
  let c := Host.container (PocScrollbar.host s) in
  poc_live s → poc_enabledY s → within (top_limit c) (Frac a k) →
  ∃ s', PocScrollbar.scrollTop [VNumber (Frac a k)] s = Ok (VNumber (Frac a k)) s' ∧
    PocScrollbar._scrollTop (PocScrollbar.this s') = VNumber (Frac a k) ∧
    ¬ poc_synced_top s'.
Proof.
  intros c Hl He Hin.
  assert (0 ≤ top_limit c) as Hlim by (simpl in Hin; lia).
  destruct (poc_scrollTop_clamped s (Frac a k) Hl He ltac:(done) Hlim) as (_ & s' & Hr & Hs).
  fold c in Hr, Hs. rewrite clamped_inside in Hr, Hs by done.
  exists s'. split; [done|].
  assert (PocScrollbar._scrollTop (PocScrollbar.this s') = VNumber (Frac a k)) as Hst.
  { destruct (strict_neq _ _) eqn:E; [by destruct Hs as (_ & _ & _ & _ & ?)|].
    subst s'. by apply strict_neq_number_false. }
  split; [done|]. unfold poc_synced_top. by rewrite Hst.
Qed.

Lemma poc_scrollLeft_fraction (a : Z) (k : nat) (s : PocScrollbar.state) :
  let c := Host.container (PocScrollbar.host s) in
  poc_live s → poc_enabledX s → within (left_limit c) (Frac a k) →
  ∃ s', PocScrollbar.scrollLeft [VNumber (Frac a k)] s = Ok (VNumber (Frac a k)) s' ∧
    PocScrollbar._scrollLeft (PocScrollbar.this s') = VNumber (Frac a k) ∧
    ¬ poc_synced_left s'.
Proof.
  intros c Hl He Hin.
  assert (0 ≤ left_limit c) as Hlim by (simpl in Hin; lia).
  destruct (poc_scrollLeft_clamped s (Frac a k) Hl He ltac:(done) Hlim) as (_ & s' & Hr & Hs).
  fold c in Hr, Hs. rewrite clamped_inside in Hr, Hs by done.
  exists s'. split; [done|].
  assert (PocScrollbar._scrollLeft (PocScrollbar.this s') = VNumber (Frac a k)) as Hst.
  { destruct (strict_neq _ _) eqn:E; [by destruct Hs as (_ & _ & _ & _ & ?)|].
    subst s'. by apply strict_neq_number_false. }
  split; [done|]. unfold poc_synced_left. by rewrite Hst.
Qed.

(** The dimension check of the handler against the four dimensions. *)
Lemma poc_changed_dimensions (k : PocScrollbar.cache) (c : DOM.element) :
  PocScrollbar.changed k c = true ↔
  PocScrollbar.containerHeight k ≠ DOM.clientHeight c ∨
  PocScrollbar.containerWidth k ≠ DOM.clientWidth c ∨
  PocScrollbar.scrollHeight k ≠ DOM.scrollHeight c ∨
  PocScrollbar.scrollWidth k ≠ DOM.scrollWidth c.
Proof.
  unfold PocScrollbar.changed.
  rewrite !orb_true_iff, !negb_true_iff, !Z.eqb_neq. tauto.
Qed.

(** ** debounce in the event loop *)

Lemma loop_closure_fixed (s : Loop.t) (e : Loop.event) :
  Helper.aCallback (Loop.closure (Loop.step s e)) = Helper.aCallback (Loop.closure s) ∧
  Helper.aWaitTime (Loop.closure (Loop.step s e)) = Helper.aWaitTime (Loop.closure s).
Proof.
  destruct e as [|ms|h]; simpl; try done.
  unfold Loop.dispatch. destruct (List.find _ _); [|done].
  by destruct (_ <=? _).
Qed.

Lemma loop_run_closure_fixed (es : list Loop.event) (s : Loop.t) :
  Helper.aCallback (Loop.closure (Loop.run s es)) = Helper.aCallback (Loop.closure s) ∧
  Helper.aWaitTime (Loop.closure (Loop.run s es)) = Helper.aWaitTime (Loop.closure s).
Proof.
  revert s. induction es as [|e es IH]; intros s; [done|]. simpl.
  destruct (IH (Loop.step s e)) as [-> ->]. apply loop_closure_fixed.
Qed.

Lemma runs_follow_calls_called (d t : Z) (h : list Loop.entry) :
  runs_follow_calls d h → runs_follow_calls d (Loop.Called t :: h).
Proof.
  intros Hq l1 t' l2 E. destruct l1 as [|e l1]; [discriminate|].
  injection E as _ E. by apply (Hq l1).
Qed.

Lemma runs_follow_calls_ran (d c t : Z) (h : list Loop.entry) :
  c + d ≤ t → runs_follow_calls d (Loop.Called c :: h) →
  runs_follow_calls d (Loop.Ran t :: Loop.Called c :: h).
Proof.
  intros Hc Hq l1 t' l2 E. destruct l1 as [|e l1].
  - injection E as <- <-. eauto.
  - injection E as _ E. by apply (Hq l1).
Qed.

Lemma filter_none {A} (P : A → Prop) `{∀ x, Decision (P x)} (l : list A) :
  (∀ x, x ∈ l → ¬ P x) → filter P l = [].
Proof.
  induction l as [|a l IH]; intros Hl; [done|].
  rewrite filter_cons_False by (apply Hl; by left).
  apply IH. intros x Hx. apply Hl. by right.
Qed.

Lemma clear_timers (p : option nat) (w : Window.t) (x : Window.timer) :
  x ∈ Window.timers (Window.clear p w)
  ↔ x ∈ Window.timers w ∧ p ≠ Some (Window.handle x).
Proof.
  destruct p as [h|]; simpl.
  - rewrite list_elem_of_filter. split; intros [? ?]; split; congruence.
  - split; [by intros ?|by intros [? _]].
Qed.

(** One call of the debounced function, spelled out. *)
Lemma loop_step_call (s : Loop.t) :
  Loop.step s Loop.Call
  = {| Loop.window :=
         {| Window.now := Window.now (Loop.window s);
            Window.next_handle := S (Window.next_handle (Loop.window s));
            Window.timers :=
              Window.timers (Window.clear (Helper.pointer (Loop.closure s)) (Loop.window s))
              ++ [armed_timer s] |};
       Loop.closure :=
         {| Helper.aCallback := Helper.aCallback (Loop.closure s);
            Helper.aWaitTime := Helper.aWaitTime (Loop.closure s);
            Helper.pointer := Some (Window.next_handle (Loop.window s)) |};
       Loop.history := Loop.Called (Window.now (Loop.window s)) :: Loop.history s |}.
Proof. unfold armed_timer. simpl. by destruct (Helper.pointer _). Qed.

Lemma pending_call (s : Loop.t) :
  loop_invariant s → Loop.pending (Loop.step s Loop.Call) = [armed_timer s].
Proof.
  intros (Hf & Hp & _). rewrite loop_step_call. unfold Loop.pending. simpl.
  rewrite filter_app, filter_cons_True, filter_nil by done.
  match goal with |- ?l ++ _ = _ => assert (l = []) as ->; [|done] end.
  apply filter_none. intros x [Hin Hne]%clear_timers Ha.
  destruct (Hp x Hin Ha) as (Hptr & _). done.
Qed.

Lemma loop_invariant_call (s : Loop.t) :
  loop_invariant s → loop_invariant (Loop.step s Loop.Call).
Proof.
  intros (Hf & Hp & Hn & Hs & Hq). rewrite loop_step_call.
  unfold loop_invariant. simpl.
  split; [|split; [|split; [|split]]].
  - intros x [[Hin _]%clear_timers| ->%list_elem_of_singleton]%elem_of_app; simpl.
    + specialize (Hf x Hin). lia.
    + lia.
  - intros x [[Hin Hne]%clear_timers| ->%list_elem_of_singleton]%elem_of_app Ha.
    + destruct (Hp x Hin Ha) as (Hptr & _). done.
    + simpl. split; [done|]. split; [done|]. by eexists _, _.
  - constructor; [simpl; lia|done].
  - constructor; [done|]. eapply Forall_impl; [exact Hn|]. done.
  - by apply runs_follow_calls_called.
Qed.

Lemma loop_invariant_elapse (ms : Z) (s : Loop.t) :
  loop_invariant s → loop_invariant (Loop.step s (Loop.Elapse ms)).
Proof.
  intros (Hf & Hp & Hn & Hs & Hq). unfold loop_invariant. simpl.
  split; [done|]. split; [done|]. split; [|done].
  eapply Forall_impl; [exact Hn|]. simpl. lia.
Qed.

Lemma loop_invariant_dispatch (h : nat) (s : Loop.t) :
  loop_invariant s → loop_invariant (Loop.step s (Loop.Dispatch h)).
Proof.
  intros (Hf & Hp & Hn & Hs & Hq). simpl. unfold Loop.dispatch.
  destruct (List.find _ _) as [x|] eqn:E; [|done].
  apply List.find_some in E as [Hin Hh]. apply list_elem_of_In in Hin.
  apply Nat.eqb_eq in Hh.
  destruct (_ <=? _) eqn:Hdue; [|done]. apply Z.leb_le in Hdue.
  unfold loop_invariant. simpl.
  destruct (decide (Window.action x = Helper.aCallback (Loop.closure s))) as [Ha|Ha].
  - destruct (Hp x Hin Ha) as (Hptr & Hrep & c & l & Hh' & Hd).
    rewrite Hrep, app_nil_r.
    split; [|split; [|split; [|split]]].
    + intros y [_ Hy]%list_elem_of_filter. by apply Hf.
    + intros y [Hne Hy]%list_elem_of_filter Hay.
      destruct (Hp y Hy Hay) as (Hptr' & _). congruence.
    + constructor; [simpl; lia|done].
    + constructor; [done|]. done.
    + rewrite Hh' in *. apply runs_follow_calls_ran; [lia|done].
  - split; [|split; [|done]].
    + intros y [[_ Hy]%list_elem_of_filter|Hy]%elem_of_app; [by apply Hf|].
      destruct (Window.repeating x); [|by apply elem_of_nil in Hy].
      apply list_elem_of_singleton in Hy as ->. simpl. subst h. by apply Hf.
    + intros y [[_ Hy]%list_elem_of_filter|Hy]%elem_of_app Hay; [by apply Hp|].
      destruct (Window.repeating x); [|by apply elem_of_nil in Hy].
      apply list_elem_of_singleton in Hy as ->. done.
Qed.

Lemma loop_invariant_step (s : Loop.t) (e : Loop.event) :
  loop_invariant s → loop_invariant (Loop.step s e).
Proof.
  destruct e.
  - apply loop_invariant_call.
  - apply loop_invariant_elapse.
  - apply loop_invariant_dispatch.
Qed.

Lemma loop_invariant_run (es : list Loop.event) (s : Loop.t) :
  loop_invariant s → loop_invariant (Loop.run s es).
Proof.
  revert s. induction es as [|e es IH]; intros s Hs; [done|].
  simpl. by apply IH, loop_invariant_step.
Qed.

Lemma loop_invariant_initial (w : Window.t) (f : callback) (aWaitTime : value) :
  fresh_handles w →
  (∀ x, x ∈ Window.timers w → Window.action x ≠ f) →
  loop_invariant (Loop.initial w f aWaitTime).
Proof.
  intros Hf Hn. unfold loop_invariant. simpl.
  split; [done|]. split; [by intros x Hx ?%Hn|].
  split; [constructor|]. split; [constructor|].
  intros [|??] ?? ?; discriminate.
Qed.

(** In a history that is in order, runs that follow calls are apart. *)
Lemma runs_follow_calls_apart (d : Z) (h : list Loop.entry) :
  StronglySorted (λ a b, Loop.time_of b ≤ Loop.time_of a) h →
  runs_follow_calls d h → runs_apart d h.
Proof.
  intros Hs Hq l1 t2 l2 t1 l3 E.
  destruct (Hq l1 t2 (l2 ++ Loop.Ran t1 :: l3) E) as (c & l & El & Hc).
  destruct l2 as [|e l2]; simplify_eq/=.
  apply StronglySorted_app in Hs as (_ & _ & (_ & Hs)%StronglySorted_cons).
  apply StronglySorted_cons in Hs as [Hall _].
  rewrite Forall_app, Forall_cons in Hall. destruct Hall as (_ & Ht & _).
  simpl in Ht. lia.
Qed.

(** ** applyOptionsToScollBarElement *)

#[local] Transparent get ToBoolean.

Lemma foldl_set_style (f : string → value) (ks : list string) (e : DOM.element) :
  foldl (λ acc aKey, DOM.set_style aKey (f aKey) acc) e ks
  = {| DOM.scrollTop := DOM.scrollTop e; DOM.scrollLeft := DOM.scrollLeft e;
       DOM.clientHeight := DOM.clientHeight e; DOM.clientWidth := DOM.clientWidth e;
       DOM.scrollHeight := DOM.scrollHeight e; DOM.scrollWidth := DOM.scrollWidth e;
       DOM.parentElement := DOM.parentElement e; DOM.listeners := DOM.listeners e;
       DOM.style := foldl (λ m aKey, <[aKey := f aKey]> m) (DOM.style e) ks;
       DOM.classList := DOM.classList e;
       DOM.computedPosition := DOM.computedPosition e |}.
Proof.
  revert e. induction ks as [|k ks IH]; intros e; simpl; [by destruct e|].
  by rewrite IH.
Qed.

Lemma lookup_foldl_insert (f : string → value) (ks : list string)
    (m : gmap string value) (k : string) :
  foldl (λ m aKey, <[aKey := f aKey]> m) m ks !! k
  = if decide (k ∈ ks) then Some (f k) else m !! k.
Proof.
  revert m. induction ks as [|a ks IH]; intros m.
  - cbn [foldl]. case_decide as Hk; [by apply elem_of_nil in Hk|done].
  - cbn [foldl]. rewrite IH. destruct (decide (k ∈ ks)) as [Hin|Hin].
    + rewrite decide_True; [done|]. by right.
    + destruct (decide (k = a)) as [->|Hne].
      * rewrite decide_True by by left. by rewrite lookup_insert_eq.
      * rewrite decide_False by (by intros [?|?]%elem_of_cons).
        by rewrite lookup_insert_ne.
Qed.

Lemma elem_of_keys (o : gmap string value) (k : string) :
  k ∈ (map_to_list o).*1 ↔ is_Some (o !! k).
Proof.
  rewrite list_elem_of_fmap. split.
  - intros ([k' v] & -> & Hin%elem_of_map_to_list). by exists v.
  - intros [v Hv]. exists (k, v). split; [done|]. by apply elem_of_map_to_list.
Qed.

(** Copying every own property of [o] leaves the union of [o] and the old
    styles. *)
Lemma forEach_key_styles (o : gmap string value) (m : gmap string value) :
  foldl (λ m aKey, <[aKey := get o aKey]> m) m (map_to_list o).*1 = o ∪ m.
Proof.
  apply map_eq. intros k. rewrite lookup_foldl_insert.
  destruct (decide _) as [[v Hv]%elem_of_keys|Hn].
  - unfold get. rewrite Hv. simpl. symmetry. by apply lookup_union_Some_l.
  - rewrite elem_of_keys, <- eq_None_not_Some in Hn.
    symmetry. by rewrite lookup_union_r.
Qed.

(** One call of [classList.add]. *)
Lemma classList_add_token (v : value) (e : DOM.element) :
  DOM.classList_add v e
  = if DOM.is_token (ToString v)
    then DOM.Returns (if decide (ToString v ∈ DOM.classList e) then e
                      else DOM.set_classList (DOM.classList e ++ [ToString v]) e)
    else DOM.DOMException e.
Proof.
  unfold DOM.classList_add, DOM.is_token.
  destruct (String.eqb _ ""); simpl; [done|].
  destruct (DOM.has_whitespace _); simpl; [done|]. by case_decide.
Qed.

Lemma set_classList_same (e : DOM.element) : DOM.set_classList (DOM.classList e) e = e.
Proof. by destruct e. Qed.

(** The calls for the entries of an array. *)
Lemma forEach_class_added (l : list value) (e : DOM.element) :
  entries_added l (DOM.classList e) (Helper.forEach_class l e) ∧
  ∃ new, DOM.element_of (Helper.forEach_class l e)
         = DOM.set_classList (DOM.classList e ++ new) e.
Proof.
  revert e. induction l as [|v l IH]; intros e.
  { split; [|exists []; simpl; by rewrite app_nil_r, set_classList_same].
    exists [], []. simpl. rewrite app_nil_r.
    split; [constructor|]. split; [done|]. split; [constructor|].
    split; [constructor|]. split; [|by left].
    intros x. split; [by intros ?%elem_of_nil|by intros [?%elem_of_nil _]]. }
  cbn [Helper.forEach_class]. rewrite classList_add_token.
  destruct (DOM.is_token (ToString v)) eqn:Et.
  2:{ split; [|exists []; simpl; by rewrite app_nil_r, set_classList_same].
      exists [], []. simpl. rewrite app_nil_r.
      split; [constructor|]. split; [done|]. split; [constructor|].
      split; [apply sublist_nil_l|]. split.
      - intros x. split; [by intros ?%elem_of_nil|by intros [?%elem_of_nil _]].
      - right. by exists (ToString v), (ToString <$> l). }
  case_decide as Hin.
  - destruct (IH e) as [(good & new & Hg & Hc & Hnd & Hsub & Hm & Hr) [new' He]].
    split; [|by exists new'].
    exists (ToString v :: good), new. split_and!; try done.
    + by constructor.
    + by apply sublist_cons.
    + intros t. rewrite Hm, elem_of_cons. split; [tauto|].
      intros [[->|?] ?]; [done|tauto].
    + destruct Hr as [[Hr <-]|(bad & rest & Hr & Ht & Hb)]; [by left|right].
      exists bad, rest. by rewrite fmap_cons, Ht.
  - set (e1 := DOM.set_classList (DOM.classList e ++ [ToString v]) e).
    destruct (IH e1) as [(good & new & Hg & Hc & Hnd & Hsub & Hm & Hr) [new' He]].
    subst e1. cbn [DOM.set_classList DOM.classList] in Hc, Hm, He.
    split; [|exists (ToString v :: new'); rewrite He; simpl; by rewrite <- app_assoc].
    exists (ToString v :: good), (ToString v :: new). split_and!.
    + by constructor.
    + by rewrite Hc, <- app_assoc.
    + constructor; [|done]. intros [_ Hn]%Hm. apply Hn, elem_of_app. right. by left.
    + by apply sublist_skip.
    + intros t. rewrite !elem_of_cons, Hm, elem_of_app, list_elem_of_singleton.
      destruct (decide (t = ToString v)) as [->|Hne]; [tauto|]. tauto.
    + destruct Hr as [[Hr <-]|(bad & rest & Hr & Ht & Hb)]; [by left|right].
      exists bad, rest. by rewrite fmap_cons, Ht.
Qed.

(** The function in closed form. *)
Lemma applyOptions_closed (e : DOM.element) (aElementName : string) (aOptions : value) :
  Helper.applyOptionsToScollBarElement e aElementName aOptions
  = classes_applied (prop aOptions (aElementName +:+ "Class"))
      (restyled (styles_applied (prop aOptions (aElementName +:+ "Styles")) (DOM.style e)) e).
Proof.
  unfold Helper.applyOptionsToScollBarElement.
  destruct aOptions as [| |b|n|s|r l|r o].
  1-6: cbn [prop];
       repeat match goal with
              | |- context [ToBoolean ?v] => destruct (ToBoolean v)
              end; simpl; by destruct e.
  cbn [prop ToBoolean andb].
  generalize (get o (aElementName +:+ "Styles")) as styles.
  generalize (get o (aElementName +:+ "Class")) as class.
  intros class styles.
  assert ((if ToBoolean styles && String.eqb (typeof styles) "object"
                && negb (isArray styles)
             then Helper.forEach_key (Helper.own styles)
                    (λ aKey, DOM.set_style aKey (prop styles aKey)) e
             else e)
            = restyled (styles_applied styles (DOM.style e)) e) as ->.
  { unfold restyled.
    destruct styles as [| |b|n|s|r' l|r' o']; simpl;
      rewrite ?andb_false_r; try (by destruct e).
    unfold Helper.forEach_key. rewrite foldl_set_style. simpl.
    by rewrite forEach_key_styles. }
  destruct class as [| |b|n|s|r' l|r' o']; simpl;
    rewrite ?andb_false_r; try done.
  by destruct (String.eqb s "").
Qed.

(** What the function does to the styles and the listeners, whether it
    returns or throws. *)
Lemma applyOptions_styles (e : DOM.element) (aElementName : string) (aOptions : value) :
  let e' := DOM.element_of (Helper.applyOptionsToScollBarElement e aElementName aOptions) in
  DOM.style e' = styles_applied (prop aOptions (aElementName +:+ "Styles")) (DOM.style e) ∧
  DOM.listeners e' = DOM.listeners e.
Proof.
  intros e'. subst e'. rewrite applyOptions_closed.
  set (e1 := restyled _ e).
  assert (DOM.style e1 = styles_applied (prop aOptions (aElementName +:+ "Styles")) (DOM.style e)
          ∧ DOM.listeners e1 = DOM.listeners e) as [<- <-] by done.
  unfold classes_applied. destruct (prop aOptions (aElementName +:+ "Class")); try done.
  - destruct (String.eqb _ ""); [done|]. rewrite classList_add_token.
    destruct (DOM.is_token _); [|done]. simpl. by case_decide.
  - destruct (forEach_class_added items e1) as [_ [new ->]]. done.
Qed.

(** ** The two containers side by side *)

Lemma scrollTop_same (s : ScrollContainer.state) (p : PocScrollbar.state)
    (args : list value) :
  same_instance s p →
  same_outcome (ScrollContainer.scrollTop args s) (PocScrollbar.scrollTop args p).
Proof.
  intros Hs. both_open s p.
  unfold ScrollContainer.scrollTop, PocScrollbar.scrollTop, same_outcome.
  sc_run. poc_run. simpl.
  both_split; unfold same_instance; simpl; done.
Qed.

Lemma scrollLeft_same (s : ScrollContainer.state) (p : PocScrollbar.state)
    (args : list value) :
  same_instance s p →
  same_outcome (ScrollContainer.scrollLeft args s) (PocScrollbar.scrollLeft args p).
Proof.
  intros Hs. both_open s p.
  unfold ScrollContainer.scrollLeft, PocScrollbar.scrollLeft, same_outcome.
  sc_run. poc_run. simpl.
  both_split; unfold same_instance; simpl; done.
Qed.

(** ** The claims *)

(** A pure getter: [scrollTop(x)] with [x] not a number, or on a container
    whose vertical scrolling is disabled, returns the native offset and
    changes nothing. *)
Lemma sc_scrollTop_getter (s : ScrollContainer.state) (args : list value) :
  sc_live s →
  sc_top_is_getter args s = true →
  ScrollContainer.scrollTop args s
  = Ok (VNumber (Fin (DOM.scrollTop (Host.container (ScrollContainer.host s))))) s.
Proof.
  intros Hl Hg. rewrite sc_scrollTop_live by done.
  unfold sc_top_value, sc_top_state. by rewrite Hg.
Qed.

Lemma sc_scrollLeft_getter (s : ScrollContainer.state) (args : list value) :
  sc_live s →
  sc_left_is_getter args s = true →
  ScrollContainer.scrollLeft args s
  = Ok (VNumber (Fin (DOM.scrollLeft (Host.container (ScrollContainer.host s))))) s.
Proof.
  intros Hl Hg. rewrite sc_scrollLeft_live by done.
  unfold sc_left_value, sc_left_state. by rewrite Hg.
Qed.

Lemma sc_top_is_getter_not_number (s : ScrollContainer.state) (v : value) (rest : list value) :
  typeof v ≠ "number" → sc_top_is_getter (v :: rest) s = true.
Proof.
  intros Hv. unfold sc_top_is_getter. simpl.
  apply String.eqb_neq in Hv. by rewrite Hv.
Qed.

(** A pure getter: [scrollTop(x)] with [x] not a number, or on a container
    whose vertical scrolling is disabled, returns the native offset and
    changes nothing. *)
Lemma poc_scrollTop_getter (s : PocScrollbar.state) (args : list value) :
  poc_live s →
  poc_top_is_getter args s = true →
  PocScrollbar.scrollTop args s
  = Ok (VNumber (Fin (DOM.scrollTop (Host.container (PocScrollbar.host s))))) s.
Proof.
  intros Hl Hg. rewrite poc_scrollTop_live by done.
  unfold poc_top_value, poc_top_state. by rewrite Hg.
Qed.

Lemma poc_scrollLeft_getter (s : PocScrollbar.state) (args : list value) :
  poc_live s →
  poc_left_is_getter args s = true →
  PocScrollbar.scrollLeft args s
  = Ok (VNumber (Fin (DOM.scrollLeft (Host.container (PocScrollbar.host s))))) s.
Proof.
  intros Hl Hg. rewrite poc_scrollLeft_live by done.
  unfold poc_left_value, poc_left_state. by rewrite Hg.
Qed.

Lemma poc_top_is_getter_not_number (s : PocScrollbar.state) (v : value) (rest : list value) :
  typeof v ≠ "number" → poc_top_is_getter (v :: rest) s = true.
Proof.
  intros Hv. unfold poc_top_is_getter. simpl.
  apply String.eqb_neq in Hv. by rewrite Hv.
Qed.

(** C1 (as amended).  [scrollTop(n)] and [scrollLeft(n)], called on either
    container with a number [n] other than [NaN] while the axis is not
    disabled and the element's scroll size is at least its client size,
    return [n] clamped into the range from 0 to
    [scrollHeight - clientHeight] (respectively [scrollWidth - clientWidth]):
    0 for a number below 0, the limit for one above it, and [n] itself,
    whole or fractional, for a number of the range.  When that value
    differs from the stored offset, it is assigned to the element's scroll
    property, which then reports it (an integer as it is, a fraction as the
    whole number of pixels the browser rounds it to), the view's last call
    ([scrollTopUpdated] / [scrollLeftUpdated]) carries exactly that value
    and the field stores it; otherwise the state is unchanged. *)
Theorem clamped_offset_is_written (n : number) :
  n ≠ NaN →
  (∀ s : ScrollContainer.state,
     let c := Host.container (ScrollContainer.host s) in
     let r := clamped (top_limit c) n in
     sc_live s → sc_enabledY s → 0 ≤ top_limit c →
     within (top_limit c) r ∧
     ∃ s',
       ScrollContainer.scrollTop [VNumber n] s = Ok (VNumber r) s' ∧
       if strict_neq (ScrollContainer._scrollTop (ScrollContainer.this s)) (VNumber r)
       then Host.container (ScrollContainer.host s') = DOM.set_scrollTop (VNumber r) c ∧
            DOM.scrollTop (Host.container (ScrollContainer.host s')) = reported (top_limit c) r ∧
            (∀ z, r = Fin z → DOM.scrollTop (Host.container (ScrollContainer.host s')) = z) ∧
            Host.view (ScrollContainer.host s')
            = Host.view (ScrollContainer.host s) ++ [ScrollView.scrollTopUpdated (VNumber r)] ∧
            ScrollContainer._scrollTop (ScrollContainer.this s') = VNumber r
       else s' = s) ∧
  (∀ s : ScrollContainer.state,
     let c := Host.container (ScrollContainer.host s) in
     let r := clamped (left_limit c) n in
     sc_live s → sc_enabledX s → 0 ≤ left_limit c →
     within (left_limit c) r ∧
     ∃ s',
       ScrollContainer.scrollLeft [VNumber n] s = Ok (VNumber r) s' ∧
       if strict_neq (ScrollContainer._scrollLeft (ScrollContainer.this s)) (VNumber r)
       then Host.container (ScrollContainer.host s') = DOM.set_scrollLeft (VNumber r) c ∧
            DOM.scrollLeft (Host.container (ScrollContainer.host s')) = reported (left_limit c) r ∧
            (∀ z, r = Fin z → DOM.scrollLeft (Host.container (ScrollContainer.host s')) = z) ∧
            Host.view (ScrollContainer.host s')
            = Host.view (ScrollContainer.host s) ++ [ScrollView.scrollLeftUpdated (VNumber r)] ∧
            ScrollContainer._scrollLeft (ScrollContainer.this s') = VNumber r
       else s' = s) ∧
  (∀ p : PocScrollbar.state,
     let c := Host.container (PocScrollbar.host p) in
     let r := clamped (top_limit c) n in
     poc_live p → poc_enabledY p → 0 ≤ top_limit c →
     within (top_limit c) r ∧
     ∃ p',
       PocScrollbar.scrollTop [VNumber n] p = Ok (VNumber r) p' ∧
       if strict_neq (PocScrollbar._scrollTop (PocScrollbar.this p)) (VNumber r)
       then Host.container (PocScrollbar.host p') = DOM.set_scrollTop (VNumber r) c ∧
            DOM.scrollTop (Host.container (PocScrollbar.host p')) = reported (top_limit c) r ∧
            (∀ z, r = Fin z → DOM.scrollTop (Host.container (PocScrollbar.host p')) = z) ∧
            Host.view (PocScrollbar.host p')
            = Host.view (PocScrollbar.host p) ++ [ScrollView.scrollTopUpdated (VNumber r)] ∧
            PocScrollbar._scrollTop (PocScrollbar.this p') = VNumber r
       else p' = p) ∧
  (∀ p : PocScrollbar.state,
     let c := Host.container (PocScrollbar.host p) in
     let r := clamped (left_limit c) n in
     poc_live p → poc_enabledX p → 0 ≤ left_limit c →
     within (left_limit c) r ∧
     ∃ p',
       PocScrollbar.scrollLeft [VNumber n] p = Ok (VNumber r) p' ∧
       if strict_neq (PocScrollbar._scrollLeft (PocScrollbar.this p)) (VNumber r)
       then Host.container (PocScrollbar.host p') = DOM.set_scrollLeft (VNumber r) c ∧
            DOM.scrollLeft (Host.container (PocScrollbar.host p')) = reported (left_limit c) r ∧
            (∀ z, r = Fin z → DOM.scrollLeft (Host.container (PocScrollbar.host p')) = z) ∧
            Host.view (PocScrollbar.host p')
            = Host.view (PocScrollbar.host p) ++ [ScrollView.scrollLeftUpdated (VNumber r)] ∧
            PocScrollbar._scrollLeft (PocScrollbar.this p') = VNumber r
       else p' = p).
Proof.
  intros Hn. split_and!.
  - intros s c r Hl He Hlim. by apply sc_scrollTop_clamped.
  - intros s c r Hl He Hlim. by apply sc_scrollLeft_clamped.
  - intros p c r Hl He Hlim. by apply poc_scrollTop_clamped.
  - intros p c r Hl He Hlim. by apply poc_scrollLeft_clamped.
Qed.

(** C3 (as amended).  The constructor of either class stores 0 for both
    offsets whatever the element reports, so the stored offsets equal the
    native ones after it only on an element that is not scrolled.  From a
    state in which they are equal and the element's geometry is well
    formed, [scrollTop(n)] and [scrollLeft(n)] with an integer or an
    infinity, a wheel event whose deltas are integers or infinities, and a
    tick of the interval or mutation handler (of a [PocScrollbar] whose
    [_mutationObserver] is an observer when its option
    [useMutationObserver] is truthy, as the constructor leaves it) all
    return and leave them equal; and a tick of an attached container with
    neither axis disabled makes them equal whatever the stored offsets
    were.  A fraction of the range given
    to [scrollTop] or [scrollLeft] is stored as it is while the element
    reports a whole number of pixels, so the two differ after the call.
    What every call of the two accessors with a number and every wheel
    event does keep is weaker: the element reports the stored offset the
    way a browser reports an offset it was assigned, a fraction rounded to
    whole pixels. *)
Theorem stored_offsets_follow_native :
  ((∀ (h : Host.t) (aOptions : gmap string value),
      ∃ s, ScrollContainer.new h aOptions = Ok tt s ∧
        ScrollContainer._scrollTop (ScrollContainer.this s) = VNumber (Fin 0) ∧
        ScrollContainer._scrollLeft (ScrollContainer.this s) = VNumber (Fin 0)) ∧
   (∀ (s : ScrollContainer.state) (n : number),
      sc_live s → sc_well_formed s → sc_synced s → whole n →
      (∃ r s', ScrollContainer.scrollTop [VNumber n] s = Ok r s' ∧ sc_synced s') ∧
      (∃ r s', ScrollContainer.scrollLeft [VNumber n] s = Ok r s' ∧ sc_synced s')) ∧
   (∀ (s : ScrollContainer.state) (e : WheelEvent),
      sc_live s → sc_well_formed s → sc_synced s →
      whole (deltaY e) → whole (deltaX e) →
      ∃ b s', ScrollContainer.wheel e s = Ok b s' ∧ sc_synced s') ∧
   (∀ s : ScrollContainer.state,
      sc_live s → sc_well_formed s → sc_synced s →
      ∃ s', ScrollContainer.intervalHandler s = Ok tt s' ∧ sc_synced s') ∧
   (∀ s : ScrollContainer.state,
      sc_live s → sc_well_formed s →
      reaches_body (DOM.parentElement (Host.container (ScrollContainer.host s))) →
      sc_enabledY s → sc_enabledX s →
      ∃ s', ScrollContainer.intervalHandler s = Ok tt s' ∧ sc_synced s') ∧
   (∀ (s : ScrollContainer.state) (a : Z) (k : nat),
      sc_live s →
      (sc_enabledY s →
       within (top_limit (Host.container (ScrollContainer.host s))) (Frac a k) →
       ∃ s', ScrollContainer.scrollTop [VNumber (Frac a k)] s = Ok (VNumber (Frac a k)) s' ∧
         ScrollContainer._scrollTop (ScrollContainer.this s') = VNumber (Frac a k) ∧
         ¬ sc_synced_top s') ∧
      (sc_enabledX s →
       within (left_limit (Host.container (ScrollContainer.host s))) (Frac a k) →
       ∃ s', ScrollContainer.scrollLeft [VNumber (Frac a k)] s = Ok (VNumber (Frac a k)) s' ∧
         ScrollContainer._scrollLeft (ScrollContainer.this s') = VNumber (Frac a k) ∧
         ¬ sc_synced_left s')) ∧
   (∀ (s : ScrollContainer.state) (n : number) (e : WheelEvent),
      sc_live s → sc_tracked_top s → sc_tracked_left s →
      (∃ r s', ScrollContainer.scrollTop [VNumber n] s = Ok r s' ∧
               sc_tracked_top s' ∧ sc_tracked_left s') ∧
      (∃ r s', ScrollContainer.scrollLeft [VNumber n] s = Ok r s' ∧
               sc_tracked_top s' ∧ sc_tracked_left s') ∧
      (∃ b s', ScrollContainer.wheel e s = Ok b s' ∧
               sc_tracked_top s' ∧ sc_tracked_left s'))) ∧
  ((∀ (h : Host.t) (aOptions : gmap string value),
      ∃ p, PocScrollbar.new h aOptions = Ok tt p ∧
        PocScrollbar._scrollTop (PocScrollbar.this p) = VNumber (Fin 0) ∧
        PocScrollbar._scrollLeft (PocScrollbar.this p) = VNumber (Fin 0)) ∧
   (∀ (p : PocScrollbar.state) (n : number),
      poc_live p → poc_well_formed p → poc_synced p → whole n →
      (∃ r p', PocScrollbar.scrollTop [VNumber n] p = Ok r p' ∧ poc_synced p') ∧
      (∃ r p', PocScrollbar.scrollLeft [VNumber n] p = Ok r p' ∧ poc_synced p')) ∧
   (∀ (p : PocScrollbar.state) (e : WheelEvent),
      poc_live p → poc_well_formed p → poc_synced p →
      whole (deltaY e) → whole (deltaX e) →
      ∃ b p', PocScrollbar.wheel e p = Ok b p' ∧ poc_synced p') ∧
   (∀ p : PocScrollbar.state,
      poc_live p → poc_well_formed p → poc_synced p → poc_armed p →
      ∃ p', PocScrollbar.mutationHandler p = Ok tt p' ∧ poc_synced p') ∧
   (∀ p : PocScrollbar.state,
      poc_live p → poc_well_formed p →
      reaches_body (DOM.parentElement (Host.container (PocScrollbar.host p))) →
      poc_enabledY p → poc_enabledX p →
      ∃ p', PocScrollbar.mutationHandler p = Ok tt p' ∧ poc_synced p') ∧
   (∀ (p : PocScrollbar.state) (a : Z) (k : nat),
      poc_live p →
      (poc_enabledY p →
       within (top_limit (Host.container (PocScrollbar.host p))) (Frac a k) →
       ∃ p', PocScrollbar.scrollTop [VNumber (Frac a k)] p = Ok (VNumber (Frac a k)) p' ∧
         PocScrollbar._scrollTop (PocScrollbar.this p') = VNumber (Frac a k) ∧
         ¬ poc_synced_top p') ∧
      (poc_enabledX p →
       within (left_limit (Host.container (PocScrollbar.host p))) (Frac a k) →
       ∃ p', PocScrollbar.scrollLeft [VNumber (Frac a k)] p = Ok (VNumber (Frac a k)) p' ∧
         PocScrollbar._scrollLeft (PocScrollbar.this p') = VNumber (Frac a k) ∧
         ¬ poc_synced_left p')) ∧
   (∀ (p : PocScrollbar.state) (n : number) (e : WheelEvent),
      poc_live p → poc_tracked_top p → poc_tracked_left p →
      (∃ r p', PocScrollbar.scrollTop [VNumber n] p = Ok r p' ∧
               poc_tracked_top p' ∧ poc_tracked_left p') ∧
      (∃ r p', PocScrollbar.scrollLeft [VNumber n] p = Ok r p' ∧
               poc_tracked_top p' ∧ poc_tracked_left p') ∧
      (∃ b p', PocScrollbar.wheel e p = Ok b p' ∧
               poc_tracked_top p' ∧ poc_tracked_left p'))).
Proof.
  split; split_and!.
  - intros h aOptions. destruct (sc_new h aOptions) as (s & Hs & _ & _ & Ht & Hl & Hn).
    exists s. done.
  - intros s n Hl Hw [Ht Hlf] Hn. split.
    + rewrite sc_scrollTop_live by done. eexists _, _. split; [done|]. split.
      * by apply sc_top_state_synced.
      * by apply sc_top_state_keeps_left.
    + rewrite sc_scrollLeft_live by done. eexists _, _. split; [done|]. split.
      * by apply sc_left_state_keeps_top.
      * by apply sc_left_state_synced.
  - intros s e Hl Hw Hs Hy Hx. destruct (defaultPrevented e) eqn:Ed.
    + exists false, s. unfold ScrollContainer.wheel. rewrite Ed. done.
    + rewrite sc_wheel_live by done. eexists _, _. split; [done|].
      by apply sc_wheeled_synced.
  - intros s Hl Hw Hs. rewrite sc_intervalHandler_live by done.
    destruct (detached _).
    + rewrite sc_destroy_live by done. eexists. split; [done|].
      apply sc_destroyed_synced. apply Hs.
    + eexists. split; [done|]. destruct Hs. apply sc_ticked_synced; auto.
  - intros s Hl Hw Ha Hy Hx. rewrite sc_intervalHandler_live by done.
    unfold detached. rewrite (reaches_body_attached _ Ha).
    eexists. split; [done|]. apply sc_ticked_synced; auto.
  - intros s a k Hl. split.
    + intros He Hin. by apply sc_scrollTop_fraction.
    + intros He Hin. by apply sc_scrollLeft_fraction.
  - intros s n e Hl Ht Hlf. split_and!.
    + rewrite sc_scrollTop_live by done. eexists _, _. split; [done|]. split.
      * by apply sc_top_state_tracked.
      * by apply sc_top_state_tracked_left.
    + rewrite sc_scrollLeft_live by done. eexists _, _. split; [done|]. split.
      * by apply sc_left_state_tracked_top.
      * by apply sc_left_state_tracked.
    + destruct (defaultPrevented e) eqn:Ed.
      * exists false, s. unfold ScrollContainer.wheel. rewrite Ed. done.
      * rewrite sc_wheel_live by done. eexists _, _. split; [done|].
        by apply sc_wheeled_tracked.
  - intros h aOptions. destruct (poc_new h aOptions) as (s & Hs & _ & _ & Ht & Hl & Hn).
    exists s. done.
  - intros s n Hl Hw [Ht Hlf] Hn. split.
    + rewrite poc_scrollTop_live by done. eexists _, _. split; [done|]. split.
      * by apply poc_top_state_synced.
      * by apply poc_top_state_keeps_left.
    + rewrite poc_scrollLeft_live by done. eexists _, _. split; [done|]. split.
      * by apply poc_left_state_keeps_top.
      * by apply poc_left_state_synced.
  - intros s e Hl Hw Hs Hy Hx. destruct (defaultPrevented e) eqn:Ed.
    + exists false, s. unfold PocScrollbar.wheel. rewrite Ed. done.
    + rewrite poc_wheel_live by done. eexists _, _. split; [done|].
      by apply poc_wheeled_synced.
  - intros s Hl Hw Hs Harm. rewrite poc_mutationHandler_live by done.
    destruct (detached _).
    + rewrite poc_destroy_live by done. eexists. split; [done|].
      apply poc_destroyed_synced. apply Hs.
    + eexists. split; [done|]. destruct Hs. apply poc_ticked_synced; auto.
  - intros s Hl Hw Ha Hy Hx. rewrite poc_mutationHandler_live by done.
    unfold detached. rewrite (reaches_body_attached _ Ha).
    eexists. split; [done|]. apply poc_ticked_synced; auto.
  - intros s a k Hl. split.
    + intros He Hin. by apply poc_scrollTop_fraction.
    + intros He Hin. by apply poc_scrollLeft_fraction.
  - intros s n e Hl Ht Hlf. split_and!.
    + rewrite poc_scrollTop_live by done. eexists _, _. split; [done|]. split.
      * by apply poc_top_state_tracked.
      * by apply poc_top_state_tracked_left.
    + rewrite poc_scrollLeft_live by done. eexists _, _. split; [done|]. split.
      * by apply poc_left_state_tracked_top.
      * by apply poc_left_state_tracked.
    + destruct (defaultPrevented e) eqn:Ed.
      * exists false, s. unfold PocScrollbar.wheel. rewrite Ed. done.
      * rewrite poc_wheel_live by done. eexists _, _. split; [done|].
        by apply poc_wheeled_tracked.
Qed.

(** C4.  The wheel listener of either container ignores an event whose
    default is already prevented: it returns without calling
    [preventDefault] and leaves the state as it was.  Otherwise it calls
    [scrollTop(scrollTop + deltaY)] and then [scrollLeft(scrollLeft + deltaX)]
    and calls [preventDefault] exactly when the element's [scrollTop] or
    [scrollLeft] differs from what it was before the two calls; in
    particular it does not call it when the element is at a bound of its
    range on each axis and the delta points out of the range. *)
Theorem wheel_prevents_default_iff_scrolled (e : WheelEvent) :
  (∀ s : ScrollContainer.state,
     sc_live s →
     let c := Host.container (ScrollContainer.host s) in
     if defaultPrevented e then ScrollContainer.wheel e s = Ok false s
     else
       ∃ r1 s1 r2 s' b,
         ScrollContainer.scrollTop
           [VNumber (num_add (Fin (DOM.scrollTop c)) (deltaY e))] s = Ok r1 s1 ∧
         ScrollContainer.scrollLeft
           [VNumber (num_add (Fin (DOM.scrollLeft (Host.container (ScrollContainer.host s1))))
                             (deltaX e))] s1 = Ok r2 s' ∧
         ScrollContainer.wheel e s = Ok b s' ∧
         (b = true ↔
          DOM.scrollTop c ≠ DOM.scrollTop (Host.container (ScrollContainer.host s')) ∨
          DOM.scrollLeft c ≠ DOM.scrollLeft (Host.container (ScrollContainer.host s'))) ∧
         (∀ dx dy,
            sc_well_formed s → deltaY e = Fin dy → deltaX e = Fin dx →
            outward (DOM.scrollTop c) (top_limit c) dy →
            outward (DOM.scrollLeft c) (left_limit c) dx →
            b = false)) ∧
  (∀ p : PocScrollbar.state,
     poc_live p →
     let c := Host.container (PocScrollbar.host p) in
     if defaultPrevented e then PocScrollbar.wheel e p = Ok false p
     else
       ∃ r1 p1 r2 p' b,
         PocScrollbar.scrollTop
           [VNumber (num_add (Fin (DOM.scrollTop c)) (deltaY e))] p = Ok r1 p1 ∧
         PocScrollbar.scrollLeft
           [VNumber (num_add (Fin (DOM.scrollLeft (Host.container (PocScrollbar.host p1))))
                             (deltaX e))] p1 = Ok r2 p' ∧
         PocScrollbar.wheel e p = Ok b p' ∧
         (b = true ↔
          DOM.scrollTop c ≠ DOM.scrollTop (Host.container (PocScrollbar.host p')) ∨
          DOM.scrollLeft c ≠ DOM.scrollLeft (Host.container (PocScrollbar.host p'))) ∧
         (∀ dx dy,
            poc_well_formed p → deltaY e = Fin dy → deltaX e = Fin dx →
            outward (DOM.scrollTop c) (top_limit c) dy →
            outward (DOM.scrollLeft c) (left_limit c) dx →
            b = false)).
Proof.
  split.
  - intros s Hl c. destruct (defaultPrevented e) eqn:Ed.
    { unfold ScrollContainer.wheel. by rewrite Ed. }
    rewrite sc_wheel_live by done. rewrite sc_scrollTop_live by done.
    eexists _, _. rewrite sc_scrollLeft_live by by apply sc_top_state_live.
    eexists _, _, _. split; [done|]. split; [done|]. split; [done|]. split.
    + unfold sc_moved. rewrite orb_true_iff, !negb_true_iff, !Z.eqb_neq. done.
    + intros dx dy Hw Hy Hx Hoy Hox. by eapply sc_wheeled_outward.
  - intros p Hl c. destruct (defaultPrevented e) eqn:Ed.
    { unfold PocScrollbar.wheel. by rewrite Ed. }
    rewrite poc_wheel_live by done. rewrite poc_scrollTop_live by done.
    eexists _, _. rewrite poc_scrollLeft_live by by apply poc_top_state_live.
    eexists _, _, _. split; [done|]. split; [done|]. split; [done|]. split.
    + unfold poc_moved. rewrite orb_true_iff, !negb_true_iff, !Z.eqb_neq. done.
    + intros dx dy Hw Hy Hx Hoy Hox. by eapply poc_wheeled_outward.
Qed.

(** C5 (as amended).  On a tick of either handler whose container is
    attached to the document (the walk up its [parentElement] links
    reaches [document.body]), the scroll view receives [parentUpdated] if
    and only if one of the element's [clientHeight], [clientWidth],
    [scrollHeight], [scrollWidth] differs from the cached value (cached
    when the handler was created or at the last detected change), and then
    the cache holds the four current values; otherwise the cache is
    unchanged. *)
Theorem attached_tick_reports_resize :
  (∀ s : ScrollContainer.state,
     sc_live s →
     reaches_body (DOM.parentElement (Host.container (ScrollContainer.host s))) →
     let c := Host.container (ScrollContainer.host s) in
     let k := ScrollContainer.handler (ScrollContainer.this s) in
     ∃ s' cs,
       ScrollContainer.intervalHandler s = Ok tt s' ∧
       Host.view (ScrollContainer.host s') = Host.view (ScrollContainer.host s) ++ cs ∧
       (ScrollView.parentUpdated ∈ cs ↔
        ScrollContainer.containerHeight k ≠ DOM.clientHeight c ∨
        ScrollContainer.containerWidth k ≠ DOM.clientWidth c ∨
        ScrollContainer.scrollHeight k ≠ DOM.scrollHeight c ∨
        ScrollContainer.scrollWidth k ≠ DOM.scrollWidth c) ∧
       (ScrollView.parentUpdated ∈ cs →
        ScrollContainer.handler (ScrollContainer.this s')
        = {| ScrollContainer.containerHeight := DOM.clientHeight c;
             ScrollContainer.containerWidth := DOM.clientWidth c;
             ScrollContainer.scrollHeight := DOM.scrollHeight c;
             ScrollContainer.scrollWidth := DOM.scrollWidth c |}) ∧
       (ScrollView.parentUpdated ∉ cs →
        ScrollContainer.handler (ScrollContainer.this s') = k)) ∧
  (∀ p : PocScrollbar.state,
     poc_live p →
     reaches_body (DOM.parentElement (Host.container (PocScrollbar.host p))) →
     let c := Host.container (PocScrollbar.host p) in
     let k := PocScrollbar.handler (PocScrollbar.this p) in
     ∃ p' cs,
       PocScrollbar.mutationHandler p = Ok tt p' ∧
       Host.view (PocScrollbar.host p') = Host.view (PocScrollbar.host p) ++ cs ∧
       (ScrollView.parentUpdated ∈ cs ↔
        PocScrollbar.containerHeight k ≠ DOM.clientHeight c ∨
        PocScrollbar.containerWidth k ≠ DOM.clientWidth c ∨
        PocScrollbar.scrollHeight k ≠ DOM.scrollHeight c ∨
        PocScrollbar.scrollWidth k ≠ DOM.scrollWidth c) ∧
       (ScrollView.parentUpdated ∈ cs →
        PocScrollbar.handler (PocScrollbar.this p')
        = {| PocScrollbar.containerHeight := DOM.clientHeight c;
             PocScrollbar.containerWidth := DOM.clientWidth c;
             PocScrollbar.scrollHeight := DOM.scrollHeight c;
             PocScrollbar.scrollWidth := DOM.scrollWidth c |}) ∧
       (ScrollView.parentUpdated ∉ cs →
        PocScrollbar.handler (PocScrollbar.this p') = k)).
Proof.
  split.
  - intros s Hl Ha c k.
    destruct (sc_tick_attached s Hl) as (s' & cs & Hr & Hv & Hp & Hk).
    { unfold detached. by apply reaches_body_attached. }
    exists s', cs. fold c k in Hp, Hk. rewrite <- sc_changed_dimensions.
    split; [done|]. split; [done|]. split; [done|]. rewrite Hk, Hp. split.
    + by intros ->.
    + intros Hn. by destruct (ScrollContainer.changed k c).
  - intros p Hl Ha c k.
    destruct (poc_tick_attached p Hl) as (p' & cs & Hr & Hv & Hp & Hk).
    { unfold detached. by apply reaches_body_attached. }
    exists p', cs. fold c k in Hp, Hk. rewrite <- poc_changed_dimensions.
    split; [done|]. split; [done|]. split; [done|]. rewrite Hk, Hp. split.
    + by intros ->.
    + intros Hn. by destruct (PocScrollbar.changed k c).
Qed.

(** C10.  On a tick of either handler, when the walk up the
    [parentElement] links from the container meets [null] or [undefined]
    before [document.body], however many links that takes, the handler
    calls [destroy()] right after the
    two opening calls to the view ([scrollTopUpdated(0)],
    [scrollLeftUpdated(0)]) and returns: the view receives no
    [parentUpdated], the cache is not refreshed, and the stored offsets are
    not re-synchronized.  (For [PocScrollbar] the outcome of [destroy()] is
    spelled out for an instance whose observer field is as its constructor
    left it.) *)
Theorem detached_tick_destroys :
  (∀ s : ScrollContainer.state,
     sc_live s →
     ends_outside (DOM.parentElement (Host.container (ScrollContainer.host s))) →
     ScrollContainer.intervalHandler s = ScrollContainer.destroy (sc_reset s) ∧
     ∃ s', ScrollContainer.intervalHandler s = Ok tt s' ∧
       Host.view (ScrollContainer.host s')
       = Host.view (ScrollContainer.host s)
         ++ [ScrollView.scrollTopUpdated (VNumber (Fin 0));
             ScrollView.scrollLeftUpdated (VNumber (Fin 0));
             ScrollView.destroy] ∧
       ScrollContainer.handler (ScrollContainer.this s')
       = ScrollContainer.handler (ScrollContainer.this s) ∧
       ScrollContainer._scrollTop (ScrollContainer.this s')
       = ScrollContainer._scrollTop (ScrollContainer.this s) ∧
       ScrollContainer._scrollLeft (ScrollContainer.this s')
       = ScrollContainer._scrollLeft (ScrollContainer.this s) ∧
       ScrollContainer._container (ScrollContainer.this s') = Null ∧
       ScrollContainer._scrollView (ScrollContainer.this s') = Null) ∧
  (∀ p : PocScrollbar.state,
     poc_live p →
     ends_outside (DOM.parentElement (Host.container (PocScrollbar.host p))) →
     PocScrollbar.mutationHandler p = PocScrollbar.destroy (poc_reset p) ∧
     (poc_armed p →
      ∃ p', PocScrollbar.mutationHandler p = Ok tt p' ∧
       Host.view (PocScrollbar.host p')
       = Host.view (PocScrollbar.host p)
         ++ [ScrollView.scrollTopUpdated (VNumber (Fin 0));
             ScrollView.scrollLeftUpdated (VNumber (Fin 0));
             ScrollView.destroy] ∧
       PocScrollbar.handler (PocScrollbar.this p')
       = PocScrollbar.handler (PocScrollbar.this p) ∧
       PocScrollbar._scrollTop (PocScrollbar.this p')
       = PocScrollbar._scrollTop (PocScrollbar.this p) ∧
       PocScrollbar._scrollLeft (PocScrollbar.this p')
       = PocScrollbar._scrollLeft (PocScrollbar.this p) ∧
       PocScrollbar._container (PocScrollbar.this p') = Null ∧
       PocScrollbar._scrollView (PocScrollbar.this p') = Null)).
Proof.
  split.
  - intros s Hl Ha. apply sc_tick_detached; [done|].
    unfold detached. by apply ends_outside_detached.
  - intros p Hl Ha. apply poc_tick_detached; [done|].
    unfold detached. by apply ends_outside_detached.
Qed.

(** C7.  Start from a window none of whose timers runs the callback [f],
    debounce [f] with [aWaitTime], and let the host call the debounced
    function, let time pass and dispatch due timers in any order.  Then,
    with [d] the delay the host derives from [aWaitTime]: one more call of
    the debounced function leaves exactly one active timer for [f], not
    repeating and due [d] after the call (any earlier one is cancelled);
    every run of [f] comes right after a call of the debounced function,
    with no other call or run in between, and at least [d] later; and any
    two runs of [f] are at least [d] apart. *)
Theorem debounce_fires_once_per_wait (w : Window.t) (f : callback)
    (aWaitTime : value) (es : list Loop.event) :
  fresh_handles w →
  (∀ x, x ∈ Window.timers w → Window.action x ≠ f) →
  let s := Loop.run (Loop.initial w f aWaitTime) es in
  let d := Loop.wait aWaitTime in
  Loop.pending (Loop.step s Loop.Call)
  = [{| Window.handle := Window.next_handle (Loop.window s);
        Window.action := f;
        Window.delay := d;
        Window.due := Window.now (Loop.window s) + d;
        Window.repeating := false |}] ∧
  runs_follow_calls d (Loop.history s) ∧
  runs_apart d (Loop.history s).
Proof.
  intros Hf Hn s d.
  pose proof (loop_invariant_run es _ (loop_invariant_initial w f aWaitTime Hf Hn)) as Hi.
  fold s in Hi.
  destruct (loop_run_closure_fixed es (Loop.initial w f aWaitTime)) as [Hc Hw].
  fold s in Hc, Hw. simpl in Hc, Hw.
  split; [|split].
  - rewrite pending_call by done. unfold armed_timer. rewrite Hc, Hw. done.
  - destruct Hi as (_ & _ & _ & _ & Hq). by rewrite Hw in Hq.
  - destruct Hi as (_ & _ & _ & Hs & Hq). rewrite Hw in Hq.
    by apply runs_follow_calls_apart.
Qed.


(** C9.  [scrollTop] and [scrollLeft] of [ScrollContainer] and of
    [PocScrollbar] do the same: called with the same arguments on instances
    that share the host (element, view) and agree on pointers, options and
    stored offsets, both return the same value, or both throw, and the
    instances agree afterwards in the same way (same element, same calls
    received by the view, same stored offsets). *)
Theorem accessors_agree (s : ScrollContainer.state) (p : PocScrollbar.state)
    (args : list value) :
  same_instance s p →
  same_outcome (ScrollContainer.scrollTop args s) (PocScrollbar.scrollTop args p) ∧
  same_outcome (ScrollContainer.scrollLeft args s) (PocScrollbar.scrollLeft args p).
Proof.
  intros Hs. split.
  - by apply scrollTop_same.
  - by apply scrollLeft_same.
Qed.

(** ** More about the operators *)

#[local] Transparent strict_neq num_ltb less_than greater_than.

Lemma strict_neq_same_Fin (z : Z) : strict_neq (VNumber (Fin z)) (VNumber (Fin z)) = false.
Proof. unfold strict_neq, strict_eq, num_eqb. by rewrite Z.eqb_refl. Qed.

#[local] Transparent DOM.set_scrollTop DOM.set_scrollLeft.

(** Assigning an element the offset it has leaves it as it is. *)
Lemma set_scrollTop_same (c : DOM.element) :
  DOM.well_formed c → DOM.set_scrollTop (VNumber (Fin (DOM.scrollTop c))) c = c.
Proof.
  intros [Ht _]. unfold DOM.set_scrollTop. simpl.
  rewrite into_range_id by done. by destruct c.
Qed.

Lemma set_scrollLeft_same (c : DOM.element) :
  DOM.well_formed c → DOM.set_scrollLeft (VNumber (Fin (DOM.scrollLeft c))) c = c.
Proof.
  intros [_ Hl]. unfold DOM.set_scrollLeft. simpl.
  rewrite into_range_id by done. by destruct c.
Qed.

#[local] Opaque DOM.set_scrollTop DOM.set_scrollLeft.

#[local] Opaque strict_neq num_ltb less_than greater_than.

(** What is shown after two runs of calls is what the second run shows,
    or else what the first one did. *)
Lemma shown_top_app (a b : list ScrollView.call) :
  shown_top (a ++ b) = match shown_top b with Some v => Some v | None => shown_top a end.
Proof.
  unfold shown_top. rewrite foldl_app.
  match goal with |- context [foldl ?f None a] => generalize (foldl f None a) as o end.
  induction b as [|c b IH] using rev_ind; intros o; [done|].
  rewrite !foldl_app. simpl. destruct c; try done; apply IH.
Qed.

Lemma shown_left_app (a b : list ScrollView.call) :
  shown_left (a ++ b) = match shown_left b with Some v => Some v | None => shown_left a end.
Proof.
  unfold shown_left. rewrite foldl_app.
  match goal with |- context [foldl ?f None a] => generalize (foldl f None a) as o end.
  induction b as [|c b IH] using rev_ind; intros o; [done|].
  rewrite !foldl_app. simpl. destruct c; try done; apply IH.
Qed.

(** An integer clamped into the range is reported as it is. *)
Lemma reported_clamped_Fin (limit z : Z) :
  0 ≤ limit →
  clamped limit (Fin z) = Fin (DOM.into_range limit z) ∧
  reported limit (clamped limit (Fin z)) = DOM.into_range limit z.
Proof.
  intros Hl. split; [done|]. unfold reported, clamped, DOM.into_range. simpl.
  unfold DOM.into_range. lia.
Qed.

Lemma num_sub_Fin (x y : Z) : num_sub (Fin x) (Fin y) = Fin (x - y).
Proof. unfold num_sub. simpl. by rewrite num_add_Fin. Qed.

(** ** ScrollContainer: more about the two accessors *)

Lemma sc_top_limit_kept (args : list value) (s : ScrollContainer.state) :
  top_limit (Host.container (ScrollContainer.host (sc_top_state args s)))
  = top_limit (Host.container (ScrollContainer.host s)).
Proof.
  unfold sc_top_state. destruct (sc_top_is_getter _ _); [done|].
  by destruct (strict_neq _ _).
Qed.

Lemma sc_left_limit_kept (args : list value) (s : ScrollContainer.state) :
  left_limit (Host.container (ScrollContainer.host (sc_left_state args s)))
  = left_limit (Host.container (ScrollContainer.host s)).
Proof.
  unfold sc_left_state. destruct (sc_left_is_getter _ _); [done|].
  by destruct (strict_neq _ _).
Qed.

(** After [scrollTop(n)] with a number other than [NaN] the stored offset
    is the returned one, and the same call again changes nothing. *)
Lemma sc_scrollTop_twice (s : ScrollContainer.state) (n : number) :
  sc_live s → sc_enabledY s → n ≠ NaN →
  ∃ r s1,
    ScrollContainer.scrollTop [VNumber n] s = Ok r s1 ∧
    ScrollContainer._scrollTop (ScrollContainer.this s1) = r ∧
    ScrollContainer.scrollTop [VNumber n] s1 = Ok r s1.
Proof.
  intros Hl He Hn.
  destruct (sc_top_value_number n s He) as [Hg Hv].
  destruct (validated_number (top_limit (Host.container (ScrollContainer.host s))) n Hn)
    as (z & Hz & Hzn).
  rewrite sc_scrollTop_live by done.
  eexists _, _. split; [done|].
  assert (ScrollContainer._scrollTop (ScrollContainer.this (sc_top_state [VNumber n] s))
          = sc_top_value [VNumber n] s) as Hst.
  { unfold sc_top_state. rewrite Hg. destruct (strict_neq _ _) eqn:E; [done|].
    rewrite Hv, Hz in *. by apply strict_neq_number_false. }
  split; [done|].
  assert (sc_enabledY (sc_top_state [VNumber n] s)) as He1.
  { unfold sc_enabledY. by destruct (sc_top_state_rest [VNumber n] s) as (-> & _). }
  rewrite sc_scrollTop_live by by apply sc_top_state_live.
  destruct (sc_top_value_number n (sc_top_state [VNumber n] s) He1) as [Hg1 Hv1].
  assert (sc_top_value [VNumber n] (sc_top_state [VNumber n] s)
          = sc_top_value [VNumber n] s) as Hsame.
  { by rewrite Hv1, Hv, sc_top_limit_kept. }
  rewrite Hsame. f_equal.
  unfold sc_top_state at 1. rewrite Hg1, Hsame, Hst, Hv, Hz.
  by rewrite strict_neq_same.
Qed.

Lemma sc_scrollLeft_twice (s : ScrollContainer.state) (n : number) :
  sc_live s → sc_enabledX s → n ≠ NaN →
  ∃ r s1,
    ScrollContainer.scrollLeft [VNumber n] s = Ok r s1 ∧
    ScrollContainer._scrollLeft (ScrollContainer.this s1) = r ∧
    ScrollContainer.scrollLeft [VNumber n] s1 = Ok r s1.
Proof.
  intros Hl He Hn.
  destruct (sc_left_value_number n s He) as [Hg Hv].
  destruct (validated_number (left_limit (Host.container (ScrollContainer.host s))) n Hn)
    as (z & Hz & Hzn).
  rewrite sc_scrollLeft_live by done.
  eexists _, _. split; [done|].
  assert (ScrollContainer._scrollLeft (ScrollContainer.this (sc_left_state [VNumber n] s))
          = sc_left_value [VNumber n] s) as Hst.
  { unfold sc_left_state. rewrite Hg. destruct (strict_neq _ _) eqn:E; [done|].
    rewrite Hv, Hz in *. by apply strict_neq_number_false. }
  split; [done|].
  assert (sc_enabledX (sc_left_state [VNumber n] s)) as He1.
  { unfold sc_enabledX. by destruct (sc_left_state_rest [VNumber n] s) as (-> & _). }
  rewrite sc_scrollLeft_live by by apply sc_left_state_live.
  destruct (sc_left_value_number n (sc_left_state [VNumber n] s) He1) as [Hg1 Hv1].
  assert (sc_left_value [VNumber n] (sc_left_state [VNumber n] s)
          = sc_left_value [VNumber n] s) as Hsame.
  { by rewrite Hv1, Hv, sc_left_limit_kept. }
  rewrite Hsame. f_equal.
  unfold sc_left_state at 1. rewrite Hg1, Hsame, Hst, Hv, Hz.
  by rewrite strict_neq_same.
Qed.

(** ** PocScrollbar: more about the two accessors *)

Lemma poc_top_limit_kept (args : list value) (s : PocScrollbar.state) :
  top_limit (Host.container (PocScrollbar.host (poc_top_state args s)))
  = top_limit (Host.container (PocScrollbar.host s)).
Proof.
  unfold poc_top_state. destruct (poc_top_is_getter _ _); [done|].
  by destruct (strict_neq _ _).
Qed.

Lemma poc_left_limit_kept (args : list value) (s : PocScrollbar.state) :
  left_limit (Host.container (PocScrollbar.host (poc_left_state args s)))
  = left_limit (Host.container (PocScrollbar.host s)).
Proof.
  unfold poc_left_state. destruct (poc_left_is_getter _ _); [done|].
  by destruct (strict_neq _ _).
Qed.

(** After [scrollTop(n)] with a number other than [NaN] the stored offset
    is the returned one, and the same call again changes nothing. *)
Lemma poc_scrollTop_twice (s : PocScrollbar.state) (n : number) :
  poc_live s → poc_enabledY s → n ≠ NaN →
  ∃ r s1,
    PocScrollbar.scrollTop [VNumber n] s = Ok r s1 ∧
    PocScrollbar._scrollTop (PocScrollbar.this s1) = r ∧
    PocScrollbar.scrollTop [VNumber n] s1 = Ok r s1.
Proof.
  intros Hl He Hn.
  destruct (poc_top_value_number n s He) as [Hg Hv].
  destruct (validated_number (top_limit (Host.container (PocScrollbar.host s))) n Hn)
    as (z & Hz & Hzn).
  rewrite poc_scrollTop_live by done.
  eexists _, _. split; [done|].
  assert (PocScrollbar._scrollTop (PocScrollbar.this (poc_top_state [VNumber n] s))
          = poc_top_value [VNumber n] s) as Hst.
  { unfold poc_top_state. rewrite Hg. destruct (strict_neq _ _) eqn:E; [done|].
    rewrite Hv, Hz in *. by apply strict_neq_number_false. }
  split; [done|].
  assert (poc_enabledY (poc_top_state [VNumber n] s)) as He1.
  { unfold poc_enabledY. by destruct (poc_top_state_rest [VNumber n] s) as (-> & _). }
  rewrite poc_scrollTop_live by by apply poc_top_state_live.
  destruct (poc_top_value_number n (poc_top_state [VNumber n] s) He1) as [Hg1 Hv1].
  assert (poc_top_value [VNumber n] (poc_top_state [VNumber n] s)
          = poc_top_value [VNumber n] s) as Hsame.
  { by rewrite Hv1, Hv, poc_top_limit_kept. }
  rewrite Hsame. f_equal.
  unfold poc_top_state at 1. rewrite Hg1, Hsame, Hst, Hv, Hz.
  by rewrite strict_neq_same.
Qed.

Lemma poc_scrollLeft_twice (s : PocScrollbar.state) (n : number) :
  poc_live s → poc_enabledX s → n ≠ NaN →
  ∃ r s1,
    PocScrollbar.scrollLeft [VNumber n] s = Ok r s1 ∧
    PocScrollbar._scrollLeft (PocScrollbar.this s1) = r ∧
    PocScrollbar.scrollLeft [VNumber n] s1 = Ok r s1.
Proof.
  intros Hl He Hn.
  destruct (poc_left_value_number n s He) as [Hg Hv].
  destruct (validated_number (left_limit (Host.container (PocScrollbar.host s))) n Hn)
    as (z & Hz & Hzn).
  rewrite poc_scrollLeft_live by done.
  eexists _, _. split; [done|].
  assert (PocScrollbar._scrollLeft (PocScrollbar.this (poc_left_state [VNumber n] s))
          = poc_left_value [VNumber n] s) as Hst.
  { unfold poc_left_state. rewrite Hg. destruct (strict_neq _ _) eqn:E; [done|].
    rewrite Hv, Hz in *. by apply strict_neq_number_false. }
  split; [done|].
  assert (poc_enabledX (poc_left_state [VNumber n] s)) as He1.
  { unfold poc_enabledX. by destruct (poc_left_state_rest [VNumber n] s) as (-> & _). }
  rewrite poc_scrollLeft_live by by apply poc_left_state_live.
  destruct (poc_left_value_number n (poc_left_state [VNumber n] s) He1) as [Hg1 Hv1].
  assert (poc_left_value [VNumber n] (poc_left_state [VNumber n] s)
          = poc_left_value [VNumber n] s) as Hsame.
  { by rewrite Hv1, Hv, poc_left_limit_kept. }
  rewrite Hsame. f_equal.
  unfold poc_left_state at 1. rewrite Hg1, Hsame, Hst, Hv, Hz.
  by rewrite strict_neq_same.
Qed.

(** ** ScrollContainer: a disabled axis *)

Lemma sc_top_state_disabled (args : list value) (s : ScrollContainer.state) :
  sc_disabledY s → sc_top_state args s = s.
Proof.
  unfold sc_disabledY, sc_top_state, sc_top_is_getter. intros ->.
  by rewrite orb_true_r.
Qed.

Lemma sc_left_state_disabled (args : list value) (s : ScrollContainer.state) :
  sc_disabledX s → sc_left_state args s = s.
Proof.
  unfold sc_disabledX, sc_left_state, sc_left_is_getter. intros ->.
  by rewrite orb_true_r.
Qed.

Lemma sc_left_state_top_kept (args : list value) (s : ScrollContainer.state) :
  sc_top_kept s (sc_left_state args s).
Proof. destruct (sc_left_state_rest args s) as (_ & ? & ? & _). by split. Qed.

Lemma sc_top_state_left_kept (args : list value) (s : ScrollContainer.state) :
  sc_left_kept s (sc_top_state args s).
Proof. destruct (sc_top_state_rest args s) as (_ & ? & ? & _). by split. Qed.

Lemma sc_top_state_options (args : list value) (s : ScrollContainer.state) :
  ScrollContainer._options (ScrollContainer.this (sc_top_state args s))
  = ScrollContainer._options (ScrollContainer.this s).
Proof. by destruct (sc_top_state_rest args s) as (? & _). Qed.

Lemma sc_left_state_options (args : list value) (s : ScrollContainer.state) :
  ScrollContainer._options (ScrollContainer.this (sc_left_state args s))
  = ScrollContainer._options (ScrollContainer.this s).
Proof. by destruct (sc_left_state_rest args s) as (? & _). Qed.

Lemma sc_refreshed_kept (s : ScrollContainer.state) :
  Host.container (ScrollContainer.host (sc_refreshed (sc_reset s)))
  = Host.container (ScrollContainer.host s) ∧
  ScrollContainer._options (ScrollContainer.this (sc_refreshed (sc_reset s)))
  = ScrollContainer._options (ScrollContainer.this s) ∧
  ScrollContainer._scrollTop (ScrollContainer.this (sc_refreshed (sc_reset s)))
  = ScrollContainer._scrollTop (ScrollContainer.this s) ∧
  ScrollContainer._scrollLeft (ScrollContainer.this (sc_refreshed (sc_reset s)))
  = ScrollContainer._scrollLeft (ScrollContainer.this s) ∧
  Host.window (ScrollContainer.host (sc_refreshed (sc_reset s)))
  = Host.window (ScrollContainer.host s) ∧
  Host.observers (ScrollContainer.host (sc_refreshed (sc_reset s)))
  = Host.observers (ScrollContainer.host s).
Proof. unfold sc_refreshed. by destruct (ScrollContainer.changed _ _). Qed.

Lemma sc_resynced_top_disabled (old : value) (s : ScrollContainer.state) :
  sc_disabledY s → sc_top_kept s (sc_resynced_top old s).
Proof.
  intros Hd. unfold sc_resynced_top. destruct (strict_neq _ _).
  - by rewrite sc_top_state_disabled.
  - by destruct (less_than _ _).
Qed.

Lemma sc_resynced_left_disabled (old : value) (s : ScrollContainer.state) :
  sc_disabledX s → sc_left_kept s (sc_resynced_left old s).
Proof.
  intros Hd. unfold sc_resynced_left. destruct (strict_neq _ _).
  - by rewrite sc_left_state_disabled.
  - by destruct (less_than _ _).
Qed.

Lemma sc_resynced_left_top_kept (old : value) (s : ScrollContainer.state) :
  sc_top_kept s (sc_resynced_left old s).
Proof.
  unfold sc_resynced_left. destruct (strict_neq _ _).
  - apply sc_left_state_top_kept.
  - by destruct (less_than _ _).
Qed.

Lemma sc_resynced_top_left_kept (old : value) (s : ScrollContainer.state) :
  sc_left_kept s (sc_resynced_top old s).
Proof.
  unfold sc_resynced_top. destruct (strict_neq _ _).
  - apply sc_top_state_left_kept.
  - by destruct (less_than _ _).
Qed.

Lemma sc_resynced_top_options (old : value) (s : ScrollContainer.state) :
  ScrollContainer._options (ScrollContainer.this (sc_resynced_top old s))
  = ScrollContainer._options (ScrollContainer.this s).
Proof.
  unfold sc_resynced_top. destruct (strict_neq _ _).
  - apply sc_top_state_options.
  - by destruct (less_than _ _).
Qed.

(** With vertical scrolling disabled, no accessor, wheel event or tick of
    an attached container moves the top offset, native or stored. *)
Lemma sc_disabledY_frozen (s : ScrollContainer.state) :
  sc_live s → sc_disabledY s →
  (∀ args, ScrollContainer.scrollTop args s
           = Ok (VNumber (Fin (DOM.scrollTop (Host.container (ScrollContainer.host s))))) s) ∧
  (∀ args, ∃ r s', ScrollContainer.scrollLeft args s = Ok r s' ∧ sc_top_kept s s') ∧
  (∀ e, ∃ b s', ScrollContainer.wheel e s = Ok b s' ∧ sc_top_kept s s') ∧
  (detached (Host.container (ScrollContainer.host s)) = false →
   ∃ s', ScrollContainer.intervalHandler s = Ok tt s' ∧ sc_top_kept s s').
Proof.
  intros Hl Hd. split; [|split; [|split]].
  - intros args. apply sc_scrollTop_getter; [done|].
    unfold sc_top_is_getter. unfold sc_disabledY in Hd. by rewrite Hd, orb_true_r.
  - intros args. rewrite sc_scrollLeft_live by done. eexists _, _. split; [done|].
    apply sc_left_state_top_kept.
  - intros e. destruct (defaultPrevented e) eqn:Ed.
    + exists false, s. unfold ScrollContainer.wheel. by rewrite Ed.
    + rewrite sc_wheel_live by done. eexists _, _. split; [done|].
      unfold sc_wheeled. rewrite sc_top_state_disabled by done.
      apply sc_left_state_top_kept.
  - intros Ha. rewrite sc_intervalHandler_live by done. rewrite Ha.
    eexists. split; [done|]. unfold sc_ticked.
    destruct (sc_refreshed_kept s) as (Hc & Ho & Ht & _).
    assert (sc_disabledY (sc_refreshed (sc_reset s))) as Hd1
      by (unfold sc_disabledY; by rewrite Ho).
    pose proof (sc_resynced_top_disabled (ScrollContainer._scrollTop (ScrollContainer.this s))
                  _ Hd1) as [H1 H2].
    pose proof (sc_resynced_left_top_kept (ScrollContainer._scrollLeft (ScrollContainer.this s))
                  (sc_resynced_top (ScrollContainer._scrollTop (ScrollContainer.this s))
                     (sc_refreshed (sc_reset s)))) as [H3 H4].
    split.
    + by rewrite H3, H1, Hc.
    + by rewrite H4, H2, Ht.
Qed.

Lemma sc_disabledX_frozen (s : ScrollContainer.state) :
  sc_live s → sc_disabledX s →
  (∀ args, ScrollContainer.scrollLeft args s
           = Ok (VNumber (Fin (DOM.scrollLeft (Host.container (ScrollContainer.host s))))) s) ∧
  (∀ args, ∃ r s', ScrollContainer.scrollTop args s = Ok r s' ∧ sc_left_kept s s') ∧
  (∀ e, ∃ b s', ScrollContainer.wheel e s = Ok b s' ∧ sc_left_kept s s') ∧
  (detached (Host.container (ScrollContainer.host s)) = false →
   ∃ s', ScrollContainer.intervalHandler s = Ok tt s' ∧ sc_left_kept s s').
Proof.
  intros Hl Hd. split; [|split; [|split]].
  - intros args. apply sc_scrollLeft_getter; [done|].
    unfold sc_left_is_getter. unfold sc_disabledX in Hd. by rewrite Hd, orb_true_r.
  - intros args. rewrite sc_scrollTop_live by done. eexists _, _. split; [done|].
    apply sc_top_state_left_kept.
  - intros e. destruct (defaultPrevented e) eqn:Ed.
    + exists false, s. unfold ScrollContainer.wheel. by rewrite Ed.
    + rewrite sc_wheel_live by done. eexists _, _. split; [done|].
      unfold sc_wheeled.
      pose proof (sc_top_state_left_kept
        [VNumber (num_add (Fin (DOM.scrollTop (Host.container (ScrollContainer.host s))))
                          (deltaY e))] s) as [H1 H2].
      set (s1 := sc_top_state _ s) in *.
      assert (sc_disabledX s1) as Hd1.
      { unfold sc_disabledX. subst s1. by rewrite sc_top_state_options. }
      by rewrite sc_left_state_disabled.
  - intros Ha. rewrite sc_intervalHandler_live by done. rewrite Ha.
    eexists. split; [done|]. unfold sc_ticked.
    destruct (sc_refreshed_kept s) as (Hc & Ho & _ & Ht & _).
    pose proof (sc_resynced_top_left_kept (ScrollContainer._scrollTop (ScrollContainer.this s))
                  (sc_refreshed (sc_reset s))) as [H1 H2].
    set (s2 := sc_resynced_top _ (sc_refreshed (sc_reset s))) in *.
    assert (sc_disabledX s2) as Hd2.
    { unfold sc_disabledX. subst s2. by rewrite sc_resynced_top_options, Ho. }
    pose proof (sc_resynced_left_disabled (ScrollContainer._scrollLeft (ScrollContainer.this s))
                  s2 Hd2) as [H3 H4].
    split.
    + by rewrite H3, H1, Hc.
    + by rewrite H4, H2, Ht.
Qed.

(** With both axes disabled the wheel listener does nothing at all. *)
Lemma sc_wheel_disabled (e : WheelEvent) (s : ScrollContainer.state) :
  sc_live s → sc_disabledY s → sc_disabledX s →
  ScrollContainer.wheel e s = Ok false s.
Proof.
  intros Hl Hy Hx. destruct (defaultPrevented e) eqn:Ed.
  { unfold ScrollContainer.wheel. by rewrite Ed. }
  rewrite sc_wheel_live by done. unfold sc_wheeled, sc_moved.
  rewrite (sc_top_state_disabled _ s) by done.
  rewrite (sc_left_state_disabled _ s) by done.
  by rewrite !Z.eqb_refl.
Qed.

(** ** PocScrollbar: a disabled axis *)

Lemma poc_top_state_disabled (args : list value) (s : PocScrollbar.state) :
  poc_disabledY s → poc_top_state args s = s.
Proof.
  unfold poc_disabledY, poc_top_state, poc_top_is_getter. intros ->.
  by rewrite orb_true_r.
Qed.

Lemma poc_left_state_disabled (args : list value) (s : PocScrollbar.state) :
  poc_disabledX s → poc_left_state args s = s.
Proof.
  unfold poc_disabledX, poc_left_state, poc_left_is_getter. intros ->.
  by rewrite orb_true_r.
Qed.

Lemma poc_left_state_top_kept (args : list value) (s : PocScrollbar.state) :
  poc_top_kept s (poc_left_state args s).
Proof. destruct (poc_left_state_rest args s) as (_ & ? & ? & _). by split. Qed.

Lemma poc_top_state_left_kept (args : list value) (s : PocScrollbar.state) :
  poc_left_kept s (poc_top_state args s).
Proof. destruct (poc_top_state_rest args s) as (_ & ? & ? & _). by split. Qed.

Lemma poc_top_state_options (args : list value) (s : PocScrollbar.state) :
  PocScrollbar._options (PocScrollbar.this (poc_top_state args s))
  = PocScrollbar._options (PocScrollbar.this s).
Proof. by destruct (poc_top_state_rest args s) as (? & _). Qed.

Lemma poc_left_state_options (args : list value) (s : PocScrollbar.state) :
  PocScrollbar._options (PocScrollbar.this (poc_left_state args s))
  = PocScrollbar._options (PocScrollbar.this s).
Proof. by destruct (poc_left_state_rest args s) as (? & _). Qed.

Lemma poc_refreshed_kept (s : PocScrollbar.state) :
  Host.container (PocScrollbar.host (poc_refreshed (poc_reset s)))
  = Host.container (PocScrollbar.host s) ∧
  PocScrollbar._options (PocScrollbar.this (poc_refreshed (poc_reset s)))
  = PocScrollbar._options (PocScrollbar.this s) ∧
  PocScrollbar._scrollTop (PocScrollbar.this (poc_refreshed (poc_reset s)))
  = PocScrollbar._scrollTop (PocScrollbar.this s) ∧
  PocScrollbar._scrollLeft (PocScrollbar.this (poc_refreshed (poc_reset s)))
  = PocScrollbar._scrollLeft (PocScrollbar.this s) ∧
  Host.window (PocScrollbar.host (poc_refreshed (poc_reset s)))
  = Host.window (PocScrollbar.host s) ∧
  Host.observers (PocScrollbar.host (poc_refreshed (poc_reset s)))
  = Host.observers (PocScrollbar.host s).
Proof. unfold poc_refreshed. by destruct (PocScrollbar.changed _ _). Qed.

Lemma poc_resynced_top_disabled (old : value) (s : PocScrollbar.state) :
  poc_disabledY s → poc_top_kept s (poc_resynced_top old s).
Proof.
  intros Hd. unfold poc_resynced_top. destruct (strict_neq _ _).
  - by rewrite poc_top_state_disabled.
  - by destruct (less_than _ _).
Qed.

Lemma poc_resynced_left_disabled (old : value) (s : PocScrollbar.state) :
  poc_disabledX s → poc_left_kept s (poc_resynced_left old s).
Proof.
  intros Hd. unfold poc_resynced_left. destruct (strict_neq _ _).
  - by rewrite poc_left_state_disabled.
  - by destruct (less_than _ _).
Qed.

Lemma poc_resynced_left_top_kept (old : value) (s : PocScrollbar.state) :
  poc_top_kept s (poc_resynced_left old s).
Proof.
  unfold poc_resynced_left. destruct (strict_neq _ _).
  - apply poc_left_state_top_kept.
  - by destruct (less_than _ _).
Qed.

Lemma poc_resynced_top_left_kept (old : value) (s : PocScrollbar.state) :
  poc_left_kept s (poc_resynced_top old s).
Proof.
  unfold poc_resynced_top. destruct (strict_neq _ _).
  - apply poc_top_state_left_kept.
  - by destruct (less_than _ _).
Qed.

Lemma poc_resynced_top_options (old : value) (s : PocScrollbar.state) :
  PocScrollbar._options (PocScrollbar.this (poc_resynced_top old s))
  = PocScrollbar._options (PocScrollbar.this s).
Proof.
  unfold poc_resynced_top. destruct (strict_neq _ _).
  - apply poc_top_state_options.
  - by destruct (less_than _ _).
Qed.

(** With vertical scrolling disabled, no accessor, wheel event or tick of
    an attached container moves the top offset, native or stored. *)
Lemma poc_disabledY_frozen (s : PocScrollbar.state) :
  poc_live s → poc_disabledY s →
  (∀ args, PocScrollbar.scrollTop args s
           = Ok (VNumber (Fin (DOM.scrollTop (Host.container (PocScrollbar.host s))))) s) ∧
  (∀ args, ∃ r s', PocScrollbar.scrollLeft args s = Ok r s' ∧ poc_top_kept s s') ∧
  (∀ e, ∃ b s', PocScrollbar.wheel e s = Ok b s' ∧ poc_top_kept s s') ∧
  (detached (Host.container (PocScrollbar.host s)) = false →
   ∃ s', PocScrollbar.mutationHandler s = Ok tt s' ∧ poc_top_kept s s').
Proof.
  intros Hl Hd. split; [|split; [|split]].
  - intros args. apply poc_scrollTop_getter; [done|].
    unfold poc_top_is_getter. unfold poc_disabledY in Hd. by rewrite Hd, orb_true_r.
  - intros args. rewrite poc_scrollLeft_live by done. eexists _, _. split; [done|].
    apply poc_left_state_top_kept.
  - intros e. destruct (defaultPrevented e) eqn:Ed.
    + exists false, s. unfold PocScrollbar.wheel. by rewrite Ed.
    + rewrite poc_wheel_live by done. eexists _, _. split; [done|].
      unfold poc_wheeled. rewrite poc_top_state_disabled by done.
      apply poc_left_state_top_kept.
  - intros Ha. rewrite poc_mutationHandler_live by done. rewrite Ha.
    eexists. split; [done|]. unfold poc_ticked.
    destruct (poc_refreshed_kept s) as (Hc & Ho & Ht & _).
    assert (poc_disabledY (poc_refreshed (poc_reset s))) as Hd1
      by (unfold poc_disabledY; by rewrite Ho).
    pose proof (poc_resynced_top_disabled (PocScrollbar._scrollTop (PocScrollbar.this s))
                  _ Hd1) as [H1 H2].
    pose proof (poc_resynced_left_top_kept (PocScrollbar._scrollLeft (PocScrollbar.this s))
                  (poc_resynced_top (PocScrollbar._scrollTop (PocScrollbar.this s))
                     (poc_refreshed (poc_reset s)))) as [H3 H4].
    split.
    + by rewrite H3, H1, Hc.
    + by rewrite H4, H2, Ht.
Qed.

Lemma poc_disabledX_frozen (s : PocScrollbar.state) :
  poc_live s → poc_disabledX s →
  (∀ args, PocScrollbar.scrollLeft args s
           = Ok (VNumber (Fin (DOM.scrollLeft (Host.container (PocScrollbar.host s))))) s) ∧
  (∀ args, ∃ r s', PocScrollbar.scrollTop args s = Ok r s' ∧ poc_left_kept s s') ∧
  (∀ e, ∃ b s', PocScrollbar.wheel e s = Ok b s' ∧ poc_left_kept s s') ∧
  (detached (Host.container (PocScrollbar.host s)) = false →
   ∃ s', PocScrollbar.mutationHandler s = Ok tt s' ∧ poc_left_kept s s').
Proof.
  intros Hl Hd. split; [|split; [|split]].
  - intros args. apply poc_scrollLeft_getter; [done|].
    unfold poc_left_is_getter. unfold poc_disabledX in Hd. by rewrite Hd, orb_true_r.
  - intros args. rewrite poc_scrollTop_live by done. eexists _, _. split; [done|].
    apply poc_top_state_left_kept.
  - intros e. destruct (defaultPrevented e) eqn:Ed.
    + exists false, s. unfold PocScrollbar.wheel. by rewrite Ed.
    + rewrite poc_wheel_live by done. eexists _, _. split; [done|].
      unfold poc_wheeled.
      pose proof (poc_top_state_left_kept
        [VNumber (num_add (Fin (DOM.scrollTop (Host.container (PocScrollbar.host s))))
                          (deltaY e))] s) as [H1 H2].
      set (s1 := poc_top_state _ s) in *.
      assert (poc_disabledX s1) as Hd1.
      { unfold poc_disabledX. subst s1. by rewrite poc_top_state_options. }
      by rewrite poc_left_state_disabled.
  - intros Ha. rewrite poc_mutationHandler_live by done. rewrite Ha.
    eexists. split; [done|]. unfold poc_ticked.
    destruct (poc_refreshed_kept s) as (Hc & Ho & _ & Ht & _).
    pose proof (poc_resynced_top_left_kept (PocScrollbar._scrollTop (PocScrollbar.this s))
                  (poc_refreshed (poc_reset s))) as [H1 H2].
    set (s2 := poc_resynced_top _ (poc_refreshed (poc_reset s))) in *.
    assert (poc_disabledX s2) as Hd2.
    { unfold poc_disabledX. subst s2. by rewrite poc_resynced_top_options, Ho. }
    pose proof (poc_resynced_left_disabled (PocScrollbar._scrollLeft (PocScrollbar.this s))
                  s2 Hd2) as [H3 H4].
    split.
    + by rewrite H3, H1, Hc.
    + by rewrite H4, H2, Ht.
Qed.

(** With both axes disabled the wheel listener does nothing at all. *)
Lemma poc_wheel_disabled (e : WheelEvent) (s : PocScrollbar.state) :
  poc_live s → poc_disabledY s → poc_disabledX s →
  PocScrollbar.wheel e s = Ok false s.
Proof.
  intros Hl Hy Hx. destruct (defaultPrevented e) eqn:Ed.
  { unfold PocScrollbar.wheel. by rewrite Ed. }
  rewrite poc_wheel_live by done. unfold poc_wheeled, poc_moved.
  rewrite (poc_top_state_disabled _ s) by done.
  rewrite (poc_left_state_disabled _ s) by done.
  by rewrite !Z.eqb_refl.
Qed.

(** ** ScrollContainer: what a tick leaves alone and what it shows *)

(** The re-synchronization writes the element's own offset back to it. *)
Lemma sc_resynced_top_page (old : value) (s : ScrollContainer.state) :
  sc_well_formed s →
  Host.container (ScrollContainer.host (sc_resynced_top old s))
  = Host.container (ScrollContainer.host s) ∧
  Host.window (ScrollContainer.host (sc_resynced_top old s))
  = Host.window (ScrollContainer.host s) ∧
  Host.observers (ScrollContainer.host (sc_resynced_top old s))
  = Host.observers (ScrollContainer.host s).
Proof.
  intros Hw. unfold sc_resynced_top. destruct (strict_neq _ _) eqn:E.
  - unfold sc_top_state, sc_top_value. destruct (sc_top_is_getter _ _); [done|].
    simpl. rewrite validated_inside by apply Hw. rewrite E. simpl.
    by rewrite set_scrollTop_same.
  - by destruct (less_than _ _).
Qed.

Lemma sc_resynced_left_page (old : value) (s : ScrollContainer.state) :
  sc_well_formed s →
  Host.container (ScrollContainer.host (sc_resynced_left old s))
  = Host.container (ScrollContainer.host s) ∧
  Host.window (ScrollContainer.host (sc_resynced_left old s))
  = Host.window (ScrollContainer.host s) ∧
  Host.observers (ScrollContainer.host (sc_resynced_left old s))
  = Host.observers (ScrollContainer.host s).
Proof.
  intros Hw. unfold sc_resynced_left. destruct (strict_neq _ _) eqn:E.
  - unfold sc_left_state, sc_left_value. destruct (sc_left_is_getter _ _); [done|].
    simpl. rewrite validated_inside by apply Hw. rewrite E. simpl.
    by rewrite set_scrollLeft_same.
  - by destruct (less_than _ _).
Qed.

(** A tick of an attached container whose geometry is well formed changes
    nothing of the page: not the element, not the timers, not the
    observers. *)
Lemma sc_tick_keeps_page (s : ScrollContainer.state) :
  sc_live s → sc_well_formed s →
  detached (Host.container (ScrollContainer.host s)) = false →
  ∃ s', ScrollContainer.intervalHandler s = Ok tt s' ∧
    Host.container (ScrollContainer.host s') = Host.container (ScrollContainer.host s) ∧
    Host.window (ScrollContainer.host s') = Host.window (ScrollContainer.host s) ∧
    Host.observers (ScrollContainer.host s') = Host.observers (ScrollContainer.host s) ∧
    ScrollContainer._options (ScrollContainer.this s')
    = ScrollContainer._options (ScrollContainer.this s) ∧
    sc_live s'.
Proof.
  intros Hl Hw Ha. rewrite sc_intervalHandler_live by done. rewrite Ha.
  eexists. split; [done|]. unfold sc_ticked.
  destruct (sc_refreshed_kept s) as (Hc & Ho & _ & _ & Hwin & Hobs).
  set (s1 := sc_refreshed (sc_reset s)) in *.
  assert (sc_well_formed s1) as Hw1 by (unfold sc_well_formed; by rewrite Hc).
  destruct (sc_resynced_top_page (ScrollContainer._scrollTop (ScrollContainer.this s)) s1 Hw1)
    as (Hc2 & Hwin2 & Hobs2).
  pose proof (sc_resynced_top_options (ScrollContainer._scrollTop (ScrollContainer.this s)) s1)
    as Ho2.
  assert (sc_live s1) as Hl1 by by apply sc_refreshed_live.
  pose proof (sc_resynced_top_live (ScrollContainer._scrollTop (ScrollContainer.this s)) s1 Hl1)
    as Hl2.
  set (s2 := sc_resynced_top _ s1) in *.
  assert (sc_well_formed s2) as Hw2 by (unfold sc_well_formed; by rewrite Hc2).
  destruct (sc_resynced_left_page (ScrollContainer._scrollLeft (ScrollContainer.this s)) s2 Hw2)
    as (Hc3 & Hwin3 & Hobs3).
  split; [by rewrite Hc3, Hc2, Hc|]. split; [by rewrite Hwin3, Hwin2, Hwin|].
  split; [by rewrite Hobs3, Hobs2, Hobs|]. split.
  - unfold sc_resynced_left. destruct (strict_neq _ _).
    + by rewrite sc_left_state_options, Ho2, Ho.
    + destruct (less_than _ _); simpl; by rewrite Ho2, Ho.
  - unfold sc_resynced_left. destruct (strict_neq _ _).
    + by apply sc_left_state_live.
    + by destruct (less_than _ _).
Qed.

Lemma sc_refreshed_cache (s : ScrollContainer.state) :
  ScrollContainer.handler (ScrollContainer.this (sc_refreshed s))
  = sc_measured (Host.container (ScrollContainer.host s)).
Proof.
  unfold sc_refreshed. destruct (ScrollContainer.changed _ _) eqn:E; [done|].
  unfold ScrollContainer.changed in E.
  repeat (apply orb_false_elim in E as [E ?]).
  repeat match goal with
         | H : negb (_ =? _) = false |- _ => apply negb_false_iff, Z.eqb_eq in H
         end.
  unfold sc_measured. destruct (ScrollContainer.handler _). simpl in *. by subst.
Qed.

Lemma sc_resynced_top_told (s : ScrollContainer.state) :
  sc_well_formed s → sc_enabledY s ∨ sc_synced_top s →
  DOM.scrollTop (Host.container (ScrollContainer.host s))
  < ScrollContainer.scrollHeight (ScrollContainer.handler (ScrollContainer.this s)) →
  Host.view (ScrollContainer.host
    (sc_resynced_top (ScrollContainer._scrollTop (ScrollContainer.this s)) s))
  = Host.view (ScrollContainer.host s)
    ++ [ScrollView.scrollTopUpdated
          (VNumber (Fin (DOM.scrollTop (Host.container (ScrollContainer.host s)))))].
Proof.
  intros Hw Hes Hlt. unfold sc_resynced_top. destruct (strict_neq _ _) eqn:E.
  - destruct Hes as [He|Hs].
    + destruct (sc_top_value_number
        (Fin (DOM.scrollTop (Host.container (ScrollContainer.host s)))) s He) as [Hg Hv].
      unfold sc_top_state. rewrite Hg, Hv.
      rewrite validated_inside by apply Hw. by rewrite E.
    + unfold sc_synced_top in Hs. rewrite Hs in E. by rewrite strict_neq_same_Fin in E.
  - apply strict_neq_Fin_false in E. rewrite E at 1.
    rewrite less_than_number, num_ltb_Fin.
    destruct (_ <? _) eqn:E2; [by rewrite E|]. apply Z.ltb_ge in E2. lia.
Qed.

Lemma sc_resynced_left_told (s : ScrollContainer.state) :
  sc_well_formed s → sc_enabledX s ∨ sc_synced_left s →
  DOM.scrollLeft (Host.container (ScrollContainer.host s))
  < ScrollContainer.scrollWidth (ScrollContainer.handler (ScrollContainer.this s)) →
  Host.view (ScrollContainer.host
    (sc_resynced_left (ScrollContainer._scrollLeft (ScrollContainer.this s)) s))
  = Host.view (ScrollContainer.host s)
    ++ [ScrollView.scrollLeftUpdated
          (VNumber (Fin (DOM.scrollLeft (Host.container (ScrollContainer.host s)))))].
Proof.
  intros Hw Hes Hlt. unfold sc_resynced_left. destruct (strict_neq _ _) eqn:E.
  - destruct Hes as [He|Hs].
    + destruct (sc_left_value_number
        (Fin (DOM.scrollLeft (Host.container (ScrollContainer.host s)))) s He) as [Hg Hv].
      unfold sc_left_state. rewrite Hg, Hv.
      rewrite validated_inside by apply Hw. by rewrite E.
    + unfold sc_synced_left in Hs. rewrite Hs in E. by rewrite strict_neq_same_Fin in E.
  - apply strict_neq_Fin_false in E. rewrite E at 1.
    rewrite less_than_number, num_ltb_Fin.
    destruct (_ <? _) eqn:E2; [by rewrite E|]. apply Z.ltb_ge in E2. lia.
Qed.

(** After a tick of an attached container the view shows the native
    offsets: the last [scrollTopUpdated] and the last [scrollLeftUpdated]
    of the tick carry the element's [scrollTop] and [scrollLeft]. *)
Lemma sc_tick_shows_native (s : ScrollContainer.state) :
  let c := Host.container (ScrollContainer.host s) in
  sc_live s → sc_well_formed s →
  detached c = false →
  sc_enabledY s ∨ sc_synced_top s →
  sc_enabledX s ∨ sc_synced_left s →
  DOM.scrollTop c < DOM.scrollHeight c →
  DOM.scrollLeft c < DOM.scrollWidth c →
  ∃ s' cs,
    ScrollContainer.intervalHandler s = Ok tt s' ∧
    Host.view (ScrollContainer.host s') = Host.view (ScrollContainer.host s) ++ cs ∧
    shown_top cs = Some (VNumber (Fin (DOM.scrollTop c))) ∧
    shown_left cs = Some (VNumber (Fin (DOM.scrollLeft c))).
Proof.
  intros c Hl Hw Ha Hy Hx Ht Hlf. subst c.
  rewrite sc_intervalHandler_live by done. rewrite Ha. unfold sc_ticked.
  destruct (sc_refreshed_kept s) as (Hc & Ho & Hst & Hsl & _).
  pose proof (sc_refreshed_cache (sc_reset s)) as Hk. simpl in Hk.
  assert (∃ pu, Host.view (ScrollContainer.host (sc_refreshed (sc_reset s)))
                = Host.view (ScrollContainer.host s)
                  ++ [ScrollView.scrollTopUpdated (VNumber (Fin 0));
                      ScrollView.scrollLeftUpdated (VNumber (Fin 0))] ++ pu
                ∧ shown_top pu = None ∧ shown_left pu = None) as (pu & Hv1 & Hpt & Hpl).
  { unfold sc_refreshed. destruct (ScrollContainer.changed _ _); simpl.
    - exists [ScrollView.parentUpdated]. by rewrite <- !app_assoc.
    - exists []. by rewrite <- !app_assoc. }
  set (s1 := sc_refreshed (sc_reset s)) in *.
  assert (sc_well_formed s1) as Hw1 by (unfold sc_well_formed; by rewrite Hc).
  assert (sc_enabledY s1 ∨ sc_synced_top s1) as Hy1.
  { destruct Hy as [He|Hs]; [left|right].
    - unfold sc_enabledY. by rewrite Ho.
    - unfold sc_synced_top. by rewrite Hst, Hc. }
  assert (sc_enabledX s1 ∨ sc_synced_left s1) as Hx1.
  { destruct Hx as [He|Hs]; [left|right].
    - unfold sc_enabledX. by rewrite Ho.
    - unfold sc_synced_left. by rewrite Hsl, Hc. }
  rewrite <- Hst, <- Hsl.
  assert (DOM.scrollTop (Host.container (ScrollContainer.host s1))
          < ScrollContainer.scrollHeight (ScrollContainer.handler (ScrollContainer.this s1)))
    as Ht1 by (rewrite Hk, Hc; done).
  pose proof (sc_resynced_top_told s1 Hw1 Hy1 Ht1) as Hv2.
  destruct (sc_resynced_top_page (ScrollContainer._scrollTop (ScrollContainer.this s1)) s1 Hw1)
    as (Hc2 & _).
  pose proof (sc_resynced_top_left_kept (ScrollContainer._scrollTop (ScrollContainer.this s1)) s1)
    as [_ Hsl2].
  pose proof (sc_resynced_top_options (ScrollContainer._scrollTop (ScrollContainer.this s1)) s1)
    as Ho2.
  assert (ScrollContainer.handler (ScrollContainer.this
            (sc_resynced_top (ScrollContainer._scrollTop (ScrollContainer.this s1)) s1))
          = ScrollContainer.handler (ScrollContainer.this s1)) as Hk2
    by apply sc_resynced_top_frame.
  set (s2 := sc_resynced_top _ s1) in *.
  assert (sc_well_formed s2) as Hw2 by (unfold sc_well_formed; by rewrite Hc2).
  assert (sc_enabledX s2 ∨ sc_synced_left s2) as Hx2.
  { destruct Hx1 as [He|Hs]; [left|right].
    - unfold sc_enabledX. by rewrite Ho2.
    - unfold sc_synced_left. by rewrite Hsl2, Hc2. }
  assert (DOM.scrollLeft (Host.container (ScrollContainer.host s2))
          < ScrollContainer.scrollWidth (ScrollContainer.handler (ScrollContainer.this s2)))
    as Hl2 by (rewrite Hk2, Hk, Hc2, Hc; done).
  pose proof (sc_resynced_left_told s2 Hw2 Hx2 Hl2) as Hv3.
  rewrite <- Hsl2.
  eexists _, _. split; [done|]. rewrite Hv3, Hv2, Hv1, Hc2, Hc, <- !app_assoc.
  split; [done|]. split.
  - rewrite !shown_top_app. done.
  - rewrite !shown_left_app. done.
Qed.

(** ** PocScrollbar: what a tick leaves alone and what it shows *)

(** The re-synchronization writes the element's own offset back to it. *)
Lemma poc_resynced_top_page (old : value) (s : PocScrollbar.state) :
  poc_well_formed s →
  Host.container (PocScrollbar.host (poc_resynced_top old s))
  = Host.container (PocScrollbar.host s) ∧
  Host.window (PocScrollbar.host (poc_resynced_top old s))
  = Host.window (PocScrollbar.host s) ∧
  Host.observers (PocScrollbar.host (poc_resynced_top old s))
  = Host.observers (PocScrollbar.host s).
Proof.
  intros Hw. unfold poc_resynced_top. destruct (strict_neq _ _) eqn:E.
  - unfold poc_top_state, poc_top_value. destruct (poc_top_is_getter _ _); [done|].
    simpl. rewrite validated_inside by apply Hw. rewrite E. simpl.
    by rewrite set_scrollTop_same.
  - by destruct (less_than _ _).
Qed.

Lemma poc_resynced_left_page (old : value) (s : PocScrollbar.state) :
  poc_well_formed s →
  Host.container (PocScrollbar.host (poc_resynced_left old s))
  = Host.container (PocScrollbar.host s) ∧
  Host.window (PocScrollbar.host (poc_resynced_left old s))
  = Host.window (PocScrollbar.host s) ∧
  Host.observers (PocScrollbar.host (poc_resynced_left old s))
  = Host.observers (PocScrollbar.host s).
Proof.
  intros Hw. unfold poc_resynced_left. destruct (strict_neq _ _) eqn:E.
  - unfold poc_left_state, poc_left_value. destruct (poc_left_is_getter _ _); [done|].
    simpl. rewrite validated_inside by apply Hw. rewrite E. simpl.
    by rewrite set_scrollLeft_same.
  - by destruct (less_than _ _).
Qed.

(** A tick of an attached container whose geometry is well formed changes
    nothing of the page: not the element, not the timers, not the
    observers. *)
Lemma poc_tick_keeps_page (s : PocScrollbar.state) :
  poc_live s → poc_well_formed s →
  detached (Host.container (PocScrollbar.host s)) = false →
  ∃ s', PocScrollbar.mutationHandler s = Ok tt s' ∧
    Host.container (PocScrollbar.host s') = Host.container (PocScrollbar.host s) ∧
    Host.window (PocScrollbar.host s') = Host.window (PocScrollbar.host s) ∧
    Host.observers (PocScrollbar.host s') = Host.observers (PocScrollbar.host s) ∧
    PocScrollbar._options (PocScrollbar.this s')
    = PocScrollbar._options (PocScrollbar.this s) ∧
    poc_live s'.
Proof.
  intros Hl Hw Ha. rewrite poc_mutationHandler_live by done. rewrite Ha.
  eexists. split; [done|]. unfold poc_ticked.
  destruct (poc_refreshed_kept s) as (Hc & Ho & _ & _ & Hwin & Hobs).
  set (s1 := poc_refreshed (poc_reset s)) in *.
  assert (poc_well_formed s1) as Hw1 by (unfold poc_well_formed; by rewrite Hc).
  destruct (poc_resynced_top_page (PocScrollbar._scrollTop (PocScrollbar.this s)) s1 Hw1)
    as (Hc2 & Hwin2 & Hobs2).
  pose proof (poc_resynced_top_options (PocScrollbar._scrollTop (PocScrollbar.this s)) s1)
    as Ho2.
  assert (poc_live s1) as Hl1 by by apply poc_refreshed_live.
  pose proof (poc_resynced_top_live (PocScrollbar._scrollTop (PocScrollbar.this s)) s1 Hl1)
    as Hl2.
  set (s2 := poc_resynced_top _ s1) in *.
  assert (poc_well_formed s2) as Hw2 by (unfold poc_well_formed; by rewrite Hc2).
  destruct (poc_resynced_left_page (PocScrollbar._scrollLeft (PocScrollbar.this s)) s2 Hw2)
    as (Hc3 & Hwin3 & Hobs3).
  split; [by rewrite Hc3, Hc2, Hc|]. split; [by rewrite Hwin3, Hwin2, Hwin|].
  split; [by rewrite Hobs3, Hobs2, Hobs|]. split.
  - unfold poc_resynced_left. destruct (strict_neq _ _).
    + by rewrite poc_left_state_options, Ho2, Ho.
    + destruct (less_than _ _); simpl; by rewrite Ho2, Ho.
  - unfold poc_resynced_left. destruct (strict_neq _ _).
    + by apply poc_left_state_live.
    + by destruct (less_than _ _).
Qed.

Lemma poc_refreshed_cache (s : PocScrollbar.state) :
  PocScrollbar.handler (PocScrollbar.this (poc_refreshed s))
  = poc_measured (Host.container (PocScrollbar.host s)).
Proof.
  unfold poc_refreshed. destruct (PocScrollbar.changed _ _) eqn:E; [done|].
  unfold PocScrollbar.changed in E.
  repeat (apply orb_false_elim in E as [E ?]).
  repeat match goal with
         | H : negb (_ =? _) = false |- _ => apply negb_false_iff, Z.eqb_eq in H
         end.
  unfold poc_measured. destruct (PocScrollbar.handler _). simpl in *. by subst.
Qed.

Lemma poc_resynced_top_told (s : PocScrollbar.state) :
  poc_well_formed s → poc_enabledY s ∨ poc_synced_top s →
  DOM.scrollTop (Host.container (PocScrollbar.host s))
  < PocScrollbar.scrollHeight (PocScrollbar.handler (PocScrollbar.this s)) →
  Host.view (PocScrollbar.host
    (poc_resynced_top (PocScrollbar._scrollTop (PocScrollbar.this s)) s))
  = Host.view (PocScrollbar.host s)
    ++ [ScrollView.scrollTopUpdated
          (VNumber (Fin (DOM.scrollTop (Host.container (PocScrollbar.host s)))))].
Proof.
  intros Hw Hes Hlt. unfold poc_resynced_top. destruct (strict_neq _ _) eqn:E.
  - destruct Hes as [He|Hs].
    + destruct (poc_top_value_number
        (Fin (DOM.scrollTop (Host.container (PocScrollbar.host s)))) s He) as [Hg Hv].
      unfold poc_top_state. rewrite Hg, Hv.
      rewrite validated_inside by apply Hw. by rewrite E.
    + unfold poc_synced_top in Hs. rewrite Hs in E. by rewrite strict_neq_same_Fin in E.
  - apply strict_neq_Fin_false in E. rewrite E at 1.
    rewrite less_than_number, num_ltb_Fin.
    destruct (_ <? _) eqn:E2; [by rewrite E|]. apply Z.ltb_ge in E2. lia.
Qed.

Lemma poc_resynced_left_told (s : PocScrollbar.state) :
  poc_well_formed s → poc_enabledX s ∨ poc_synced_left s →
  DOM.scrollLeft (Host.container (PocScrollbar.host s))
  < PocScrollbar.scrollWidth (PocScrollbar.handler (PocScrollbar.this s)) →
  Host.view (PocScrollbar.host
    (poc_resynced_left (PocScrollbar._scrollLeft (PocScrollbar.this s)) s))
  = Host.view (PocScrollbar.host s)
    ++ [ScrollView.scrollLeftUpdated
          (VNumber (Fin (DOM.scrollLeft (Host.container (PocScrollbar.host s)))))].
Proof.
  intros Hw Hes Hlt. unfold poc_resynced_left. destruct (strict_neq _ _) eqn:E.
  - destruct Hes as [He|Hs].
    + destruct (poc_left_value_number
        (Fin (DOM.scrollLeft (Host.container (PocScrollbar.host s)))) s He) as [Hg Hv].
      unfold poc_left_state. rewrite Hg, Hv.
      rewrite validated_inside by apply Hw. by rewrite E.
    + unfold poc_synced_left in Hs. rewrite Hs in E. by rewrite strict_neq_same_Fin in E.
  - apply strict_neq_Fin_false in E. rewrite E at 1.
    rewrite less_than_number, num_ltb_Fin.
    destruct (_ <? _) eqn:E2; [by rewrite E|]. apply Z.ltb_ge in E2. lia.
Qed.

(** After a tick of an attached container the view shows the native
    offsets: the last [scrollTopUpdated] and the last [scrollLeftUpdated]
    of the tick carry the element's [scrollTop] and [scrollLeft]. *)
Lemma poc_tick_shows_native (s : PocScrollbar.state) :
  let c := Host.container (PocScrollbar.host s) in
  poc_live s → poc_well_formed s →
  detached c = false →
  poc_enabledY s ∨ poc_synced_top s →
  poc_enabledX s ∨ poc_synced_left s →
  DOM.scrollTop c < DOM.scrollHeight c →
  DOM.scrollLeft c < DOM.scrollWidth c →
  ∃ s' cs,
    PocScrollbar.mutationHandler s = Ok tt s' ∧
    Host.view (PocScrollbar.host s') = Host.view (PocScrollbar.host s) ++ cs ∧
    shown_top cs = Some (VNumber (Fin (DOM.scrollTop c))) ∧
    shown_left cs = Some (VNumber (Fin (DOM.scrollLeft c))).
Proof.
  intros c Hl Hw Ha Hy Hx Ht Hlf. subst c.
  rewrite poc_mutationHandler_live by done. rewrite Ha. unfold poc_ticked.
  destruct (poc_refreshed_kept s) as (Hc & Ho & Hst & Hsl & _).
  pose proof (poc_refreshed_cache (poc_reset s)) as Hk. simpl in Hk.
  assert (∃ pu, Host.view (PocScrollbar.host (poc_refreshed (poc_reset s)))
                = Host.view (PocScrollbar.host s)
                  ++ [ScrollView.scrollTopUpdated (VNumber (Fin 0));
                      ScrollView.scrollLeftUpdated (VNumber (Fin 0))] ++ pu
                ∧ shown_top pu = None ∧ shown_left pu = None) as (pu & Hv1 & Hpt & Hpl).
  { unfold poc_refreshed. destruct (PocScrollbar.changed _ _); simpl.
    - exists [ScrollView.parentUpdated]. by rewrite <- !app_assoc.
    - exists []. by rewrite <- !app_assoc. }
  set (s1 := poc_refreshed (poc_reset s)) in *.
  assert (poc_well_formed s1) as Hw1 by (unfold poc_well_formed; by rewrite Hc).
  assert (poc_enabledY s1 ∨ poc_synced_top s1) as Hy1.
  { destruct Hy as [He|Hs]; [left|right].
    - unfold poc_enabledY. by rewrite Ho.
    - unfold poc_synced_top. by rewrite Hst, Hc. }
  assert (poc_enabledX s1 ∨ poc_synced_left s1) as Hx1.
  { destruct Hx as [He|Hs]; [left|right].
    - unfold poc_enabledX. by rewrite Ho.
    - unfold poc_synced_left. by rewrite Hsl, Hc. }
  rewrite <- Hst, <- Hsl.
  assert (DOM.scrollTop (Host.container (PocScrollbar.host s1))
          < PocScrollbar.scrollHeight (PocScrollbar.handler (PocScrollbar.this s1)))
    as Ht1 by (rewrite Hk, Hc; done).
  pose proof (poc_resynced_top_told s1 Hw1 Hy1 Ht1) as Hv2.
  destruct (poc_resynced_top_page (PocScrollbar._scrollTop (PocScrollbar.this s1)) s1 Hw1)
    as (Hc2 & _).
  pose proof (poc_resynced_top_left_kept (PocScrollbar._scrollTop (PocScrollbar.this s1)) s1)
    as [_ Hsl2].
  pose proof (poc_resynced_top_options (PocScrollbar._scrollTop (PocScrollbar.this s1)) s1)
    as Ho2.
  assert (PocScrollbar.handler (PocScrollbar.this
            (poc_resynced_top (PocScrollbar._scrollTop (PocScrollbar.this s1)) s1))
          = PocScrollbar.handler (PocScrollbar.this s1)) as Hk2
    by apply poc_resynced_top_frame.
  set (s2 := poc_resynced_top _ s1) in *.
  assert (poc_well_formed s2) as Hw2 by (unfold poc_well_formed; by rewrite Hc2).
  assert (poc_enabledX s2 ∨ poc_synced_left s2) as Hx2.
  { destruct Hx1 as [He|Hs]; [left|right].
    - unfold poc_enabledX. by rewrite Ho2.
    - unfold poc_synced_left. by rewrite Hsl2, Hc2. }
  assert (DOM.scrollLeft (Host.container (PocScrollbar.host s2))
          < PocScrollbar.scrollWidth (PocScrollbar.handler (PocScrollbar.this s2)))
    as Hl2 by (rewrite Hk2, Hk, Hc2, Hc; done).
  pose proof (poc_resynced_left_told s2 Hw2 Hx2 Hl2) as Hv3.
  rewrite <- Hsl2.
  eexists _, _. split; [done|]. rewrite Hv3, Hv2, Hv1, Hc2, Hc, <- !app_assoc.
  split; [done|]. split.
  - rewrite !shown_top_app. done.
  - rewrite !shown_left_app. done.
Qed.

(** ** ScrollContainer: construction and tear-down *)

Lemma sc_new_closed (h : Host.t) (aOptions : gmap string value) :
  ScrollContainer.new h aOptions = Ok tt (sc_constructed h aOptions).
Proof.
  unfold ScrollContainer.new, ScrollContainer.constructor, ScrollContainer._createIntervalHandler,
    sc_constructed, dressed, sc_checkInterval, polling, poll_timer, sc_measured, own_listeners.
  sc_run. simpl. sc_run. simpl.
  destruct (negb _ && negb _); sc_run; simpl; rewrite <- !app_assoc; reflexivity.
Qed.

(** ** PocScrollbar: construction and tear-down *)

Lemma poc_new_closed (h : Host.t) (aOptions : gmap string value) :
  PocScrollbar.new h aOptions = Ok tt (poc_constructed h aOptions).
Proof.
  unfold PocScrollbar.new, PocScrollbar.constructor, PocScrollbar._getMutationHandler,
    poc_constructed, poc_observes, poc_validated_options, poc_checkInterval,
    dressed, polling, poll_timer, poc_measured, own_listeners.
  poc_run. simpl. poc_run. simpl.
  destruct (ToBoolean _) eqn:E; poc_run; simpl;
    destruct (negb _ && negb _); poc_run; simpl; rewrite <- !app_assoc; reflexivity.
Qed.

(** ** The element under a container *)

Lemma addEventListener_closed (k : string) (f : callback) (e : DOM.element) :
  ∃ added,
    DOM.addEventListener k f e = DOM.set_listeners (DOM.listeners e ++ added) e ∧
    ∀ y, y ∈ DOM.listeners e ++ added ↔ y ∈ DOM.listeners e ∨ y = (k, f).
Proof.
  unfold DOM.addEventListener. case_decide as Hin.
  - exists []. rewrite app_nil_r. split; [by destruct e|].
    intros y. split; [by left|]. by intros [?| ->].
  - eexists. split; [done|]. intros y. by rewrite elem_of_app, list_elem_of_singleton.
Qed.

Lemma dressed_spec (c : DOM.element) : dressed_as c (dressed c).
Proof.
  unfold dressed, own_listeners. cbn [foldl].
  set (c1 := DOM.set_style "overflow" (VString "hidden") c).
  match goal with |- context [if ?b then ?x else c1] => set (c2 := if b then x else c1) end.
  assert (DOM.listeners c2 = DOM.listeners c) as Hl2 by (subst c2 c1; by destruct (_ && _)).
  destruct (addEventListener_closed "wheel" (EventListener "wheel") c2) as (a3 & -> & Hm3).
  destruct (addEventListener_closed "touchstart" (EventListener "touchstart")
              (DOM.set_listeners (DOM.listeners c2 ++ a3) c2)) as (a4 & -> & Hm4).
  cbn [DOM.set_listeners DOM.listeners] in Hm4 |- *. rewrite Hl2 in *.
  unfold dressed_as. cbn [DOM.parentElement DOM.classList DOM.style DOM.listeners].
  assert (DOM.computedPosition c1 = DOM.computedPosition c) as Hp by done.
  subst c2. rewrite Hp in *.
  split_and!; try (by destruct (negb _ && negb _)).
  - destruct (negb _ && negb _); subst c1; simpl;
      rewrite ?(lookup_insert_ne _ "position" "overflow") by done;
      by rewrite lookup_insert_eq.
  - destruct (String.eqb _ "absolute"), (String.eqb _ "relative"); subst c1; simpl;
      try (by rewrite lookup_insert_ne).
    by rewrite lookup_insert_eq.
  - exists (a3 ++ a4). by rewrite app_assoc.
  - intros y. rewrite Hm4, Hm3. tauto.
Qed.

(** Removing what a constructor added gives back the listeners of a bare
    element. *)
Lemma filter_absent {A} (P : A → Prop) `{∀ x, Decision (P x)} (l : list A) :
  (∀ x, x ∈ l → P x) → filter P l = l.
Proof.
  induction l as [|a l IH]; intros Hl; [done|].
  rewrite filter_cons_True by (apply Hl; left).
  f_equal. apply IH. intros x Hx. apply Hl. by right.
Qed.

Lemma addEventListener_absent (k : string) (f : callback) (e : DOM.element) :
  (k, f) ∉ DOM.listeners e →
  DOM.addEventListener k f e = DOM.set_listeners (DOM.listeners e ++ [(k, f)]) e.
Proof. intros Hn. unfold DOM.addEventListener. by rewrite decide_False. Qed.

Lemma undress_listeners (c : DOM.element) :
  bare c →
  DOM.listeners (foldl (λ c '(aKey, g), DOM.removeEventListener aKey g c)
                       (dressed c) own_listeners)
  = DOM.listeners c.
Proof.
  intros Hb.
  assert (("wheel", EventListener "wheel") ∉ DOM.listeners c) as Hw
    by (apply Hb; unfold own_listeners; set_solver).
  assert (("touchstart", EventListener "touchstart") ∉ DOM.listeners c) as Ht
    by (apply Hb; unfold own_listeners; set_solver).
  unfold dressed, own_listeners. cbn [foldl].
  set (c1 := DOM.set_style "overflow" (VString "hidden") c).
  match goal with |- context [if ?b then ?x else c1] => set (c2 := if b then x else c1) end.
  assert (DOM.listeners c2 = DOM.listeners c) as Hl2 by (subst c2 c1; by destruct (_ && _)).
  rewrite (addEventListener_absent "wheel") by (by rewrite Hl2).
  rewrite (addEventListener_absent "touchstart").
  2:{ cbn [DOM.set_listeners DOM.listeners]. rewrite Hl2, elem_of_app, list_elem_of_singleton.
      intros [?|?]; [done|congruence]. }
  unfold DOM.removeEventListener. cbn [DOM.set_listeners DOM.listeners]. rewrite Hl2.
  rewrite !filter_app.
  rewrite (filter_absent _ (DOM.listeners c)) by (by intros x Hx ->).
  rewrite (filter_absent _ (DOM.listeners c)) by (by intros x Hx ->).
  rewrite filter_cons_False, filter_nil by (intros Hx; by apply Hx).
  rewrite filter_cons_True, filter_nil by done.
  rewrite filter_nil, filter_cons_False, filter_nil by (intros Hx; by apply Hx).
  by rewrite !app_nil_r.
Qed.

(** Clearing the handle [setInterval] just returned gives back the timers. *)
Lemma clear_polling (w : Window.t) (d : Z) :
  fresh_handles w →
  Window.timers (Window.clearInterval (Some (Window.next_handle w)) (polling w d))
  = Window.timers w.
Proof.
  intros Hf. unfold Window.clearInterval, Window.clear, polling. simpl.
  rewrite filter_app, filter_cons_False, filter_nil, app_nil_r by (simpl; intros Hx; by apply Hx).
  apply filter_absent. intros x Hx. specialize (Hf x Hx). lia.
Qed.

(** ** ScrollContainer after [destroy] *)

Ltac sc_bury s :=
  let h := fresh "h" in let i := fresh "i" in
  destruct s as [h i]; destruct i; unfold sc_dead in *; simpl in *;
  repeat match goal with
         | H : _ ∧ _ |- _ => destruct H
         end; subst.

Lemma sc_scrollTop_dead (args : list value) (s : ScrollContainer.state) :
  sc_dead s →
  ScrollContainer.scrollTop args s
  = if sc_top_survives args s then Ok (VNumber (Fin 0)) s else TypeError s.
Proof.
  intros Hd. sc_bury s.
  unfold ScrollContainer.scrollTop, sc_top_survives, sc_top_is_getter. sc_run. simpl.
  destruct (negb _ || _); simpl; [done|].
  destruct (less_than _ _); simpl; [|done].
  by destruct (strict_neq _ _).
Qed.

Lemma sc_scrollLeft_dead (args : list value) (s : ScrollContainer.state) :
  sc_dead s →
  ScrollContainer.scrollLeft args s
  = if sc_left_survives args s then Ok (VNumber (Fin 0)) s else TypeError s.
Proof.
  intros Hd. sc_bury s.
  unfold ScrollContainer.scrollLeft, sc_left_survives, sc_left_is_getter. sc_run. simpl.
  destruct (_ || _); simpl; [done|].
  destruct (less_than _ _); simpl; [|done].
  by destruct (strict_neq _ _).
Qed.

Lemma sc_wheel_dead (e : WheelEvent) (s : ScrollContainer.state) :
  sc_dead s →
  ScrollContainer.wheel e s = if defaultPrevented e then Ok false s else TypeError s.
Proof.
  intros Hd. sc_bury s. unfold ScrollContainer.wheel.
  destruct (defaultPrevented e); [done|]. by sc_run.
Qed.

Lemma sc_intervalHandler_dead (s : ScrollContainer.state) :
  sc_dead s → ScrollContainer.intervalHandler s = TypeError s.
Proof.
  intros Hd. sc_bury s. unfold ScrollContainer.intervalHandler. by sc_run.
Qed.

Lemma sc_destroyed_dead (s : ScrollContainer.state) : sc_dead (sc_destroyed s).
Proof. by split. Qed.

(** ** PocScrollbar after [destroy] *)

Ltac poc_bury s :=
  let h := fresh "h" in let i := fresh "i" in
  destruct s as [h i]; destruct i; unfold poc_dead in *; simpl in *;
  repeat match goal with
         | H : _ ∧ _ |- _ => destruct H
         end; subst.

Lemma poc_scrollTop_dead (args : list value) (s : PocScrollbar.state) :
  poc_dead s →
  PocScrollbar.scrollTop args s
  = if poc_top_survives args s then Ok (VNumber (Fin 0)) s else TypeError s.
Proof.
  intros Hd. poc_bury s.
  unfold PocScrollbar.scrollTop, poc_top_survives, poc_top_is_getter. poc_run. simpl.
  destruct (negb _ || _); simpl; [done|].
  destruct (less_than _ _); simpl; [|done].
  by destruct (strict_neq _ _).
Qed.

Lemma poc_scrollLeft_dead (args : list value) (s : PocScrollbar.state) :
  poc_dead s →
  PocScrollbar.scrollLeft args s
  = if poc_left_survives args s then Ok (VNumber (Fin 0)) s else TypeError s.
Proof.
  intros Hd. poc_bury s.
  unfold PocScrollbar.scrollLeft, poc_left_survives, poc_left_is_getter. poc_run. simpl.
  destruct (_ || _); simpl; [done|].
  destruct (less_than _ _); simpl; [|done].
  by destruct (strict_neq _ _).
Qed.

Lemma poc_wheel_dead (e : WheelEvent) (s : PocScrollbar.state) :
  poc_dead s →
  PocScrollbar.wheel e s = if defaultPrevented e then Ok false s else TypeError s.
Proof.
  intros Hd. poc_bury s. unfold PocScrollbar.wheel.
  destruct (defaultPrevented e); [done|]. by poc_run.
Qed.

Lemma poc_mutationHandler_dead (s : PocScrollbar.state) :
  poc_dead s → PocScrollbar.mutationHandler s = TypeError s.
Proof.
  intros Hd. poc_bury s. unfold PocScrollbar.mutationHandler. by poc_run.
Qed.

Lemma poc_destroyed_dead (s : PocScrollbar.state) : poc_dead (poc_destroyed s).
Proof. by split. Qed.

(** ** ScrollContainer: built and destroyed *)

Lemma undress_given_back (c : DOM.element) :
  bare c →
  let c' := foldl (λ c '(aKey, g), DOM.removeEventListener aKey g c)
                  (dressed c) own_listeners in
  given_back c c' ∧ DOM.style c' = DOM.style (dressed c).
Proof.
  intros Hb c'. pose proof (undress_listeners c Hb) as Hl. fold c' in Hl.
  destruct (dressed_spec c) as (? & ? & _).
  subst c'. unfold own_listeners in *. cbn [foldl] in *.
  unfold DOM.removeEventListener in *. simpl in *.
  unfold given_back. simpl. split_and!; done.
Qed.

Lemma sc_new_destroy (h : Host.t) (aOptions : gmap string value) :
  fresh_handles (Host.window h) → bare (Host.container h) →
  ∃ s s', ScrollContainer.new h aOptions = Ok tt s ∧
    ScrollContainer.destroy s = Ok tt s' ∧
    given_back (Host.container h) (Host.container (ScrollContainer.host s')) ∧
    DOM.style (Host.container (ScrollContainer.host s'))
    = DOM.style (Host.container (ScrollContainer.host s)) ∧
    DOM.style (Host.container (ScrollContainer.host s')) !! "overflow"
    = Some (VString "hidden") ∧
    Window.timers (Host.window (ScrollContainer.host s')) = Window.timers (Host.window h) ∧
    Host.observers (ScrollContainer.host s') = Host.observers h ∧
    Host.view (ScrollContainer.host s')
    = Host.view h ++ [ScrollView.construct; ScrollView.parentUpdated; ScrollView.destroy] ∧
    sc_dead s'.
Proof.
  intros Hf Hb. exists (sc_constructed h aOptions), (sc_destroyed (sc_constructed h aOptions)).
  split; [apply sc_new_closed|]. split; [by apply sc_destroy_live|].
  destruct (undress_given_back _ Hb) as [Hs Hst].
  destruct (dressed_spec (Host.container h)) as (_ & _ & Ho & _).
  unfold sc_destroyed, sc_constructed.
  cbn [ScrollContainer.host ScrollContainer.this Host.container Host.window Host.observers
       Host.view ScrollContainer._eventListener ScrollContainer._intervalPointer].
  split_and!; try done.
  - by apply clear_polling.
  - by rewrite <- app_assoc.
Qed.

Lemma sc_destroy_dead (s : ScrollContainer.state) :
  sc_dead s → ∃ s', ScrollContainer.destroy s = TypeError s'.
Proof.
  intros Hd. sc_bury s. unfold ScrollContainer.destroy.
  destruct _eventListener as [|[k f] l]; sc_run; simpl; sc_run; eauto.
Qed.

(** ** PocScrollbar: built and destroyed *)

Lemma poc_constructed_armed (h : Host.t) (aOptions : gmap string value) :
  poc_live (poc_constructed h aOptions) ∧ poc_armed (poc_constructed h aOptions) ∧
  poc_uses_observer (poc_constructed h aOptions) = poc_observes h aOptions.
Proof.
  split; [by split|]. unfold poc_armed, poc_uses_observer, poc_constructed, poc_observes.
  cbn [PocScrollbar.this PocScrollbar._options PocScrollbar._mutationObserver].
  split; [|done]. intros ->. eauto.
Qed.

Lemma poc_new_destroy (h : Host.t) (aOptions : gmap string value) :
  fresh_handles (Host.window h) → bare (Host.container h) →
  Debounced ChangeHandler ∉ Host.observers h →
  ∃ s s', PocScrollbar.new h aOptions = Ok tt s ∧
    PocScrollbar.destroy s = Ok tt s' ∧
    given_back (Host.container h) (Host.container (PocScrollbar.host s')) ∧
    DOM.style (Host.container (PocScrollbar.host s'))
    = DOM.style (Host.container (PocScrollbar.host s)) ∧
    DOM.style (Host.container (PocScrollbar.host s')) !! "overflow"
    = Some (VString "hidden") ∧
    Window.timers (Host.window (PocScrollbar.host s')) = Window.timers (Host.window h) ∧
    Host.observers (PocScrollbar.host s') = Host.observers h ∧
    Host.view (PocScrollbar.host s')
    = Host.view h ++ [ScrollView.construct; ScrollView.parentUpdated; ScrollView.destroy] ∧
    poc_dead s'.
Proof.
  intros Hf Hb Ho. exists (poc_constructed h aOptions), (poc_destroyed (poc_constructed h aOptions)).
  destruct (poc_constructed_armed h aOptions) as (Hl & Ha & Hu).
  split; [apply poc_new_closed|]. split; [by apply poc_destroy_live|].
  destruct (undress_given_back _ Hb) as [Hs Hst].
  destruct (dressed_spec (Host.container h)) as (_ & _ & Hov & _).
  unfold poc_destroyed. rewrite Hu. unfold poc_constructed.
  cbn [PocScrollbar.host PocScrollbar.this Host.container Host.window Host.observers
       Host.view PocScrollbar._eventListener PocScrollbar._mutationObserver].
  split_and!; try done.
  - destruct (poc_observes h aOptions); [done|]. by apply clear_polling.
  - destruct (poc_observes h aOptions); [|done].
    rewrite filter_app, filter_cons_False, filter_nil, app_nil_r by (intros Hx; by apply Hx).
    apply filter_absent. by intros x Hx ->.
  - by rewrite <- app_assoc.
Qed.

Lemma poc_destroy_dead (s : PocScrollbar.state) :
  poc_dead s → ∃ s', PocScrollbar.destroy s = TypeError s'.
Proof.
  intros Hd. poc_bury s. unfold PocScrollbar.destroy.
  unfold bind at 1. unfold PocScrollbar.self at 1. simpl.
  destruct (ToBoolean _).
  - destruct _mutationObserver; poc_run; simpl; eauto.
    destruct _eventListener as [|[k g] l]; poc_run; simpl; poc_run; eauto.
  - destruct _eventListener as [|[k g] l]; poc_run; simpl; poc_run; eauto.
Qed.

(** ** The touch listeners *)

Lemma item_index (l : list Touch.touch) (n : number) (t : Touch.touch) :
  Touch.item l n = Some t → ∃ z, n = Fin z.
Proof. destruct n; try done. eauto. Qed.

Lemma tracked_same (e : Touch.TouchEvent) (t : Touch.touch) :
  Touch.item (Touch.touches e) (tracked e) = Some t →
  strict_neq (VNumber (tracked e)) (VNumber (tracked e)) = false.
Proof. intros [z ->]%item_index. apply strict_neq_same_Fin. Qed.

Section Touching.
Context {S : Type} `{Touch.Scroller S}.

Lemma body_add_fresh (k : string) (f : Touch.listener) (l : list (string * Touch.listener)) :
  (k, f) ∉ l → Touch.addEventListener k f l = l ++ [(k, f)].
Proof. intros Hn. unfold Touch.addEventListener. by rewrite decide_False. Qed.

Lemma touchstart_closed (e : Touch.TouchEvent) (s : Touch.state S) :
  body_closed s →
  Touch.touchstart e s
  = if touch_ignored e s then Ok tt s
    else match Touch.item (Touch.touches e) (tracked e) with
         | None => TypeError s
         | Some t =>
             Ok tt {| Touch.instance := Touch.instance s;
                      Touch.body := Touch.body s ++ gesture_listeners (length (Touch.calls s));
                      Touch.calls := Touch.calls s ++ [touch_started e t] |}
         end.
Proof.
  intros Hb. unfold Touch.touchstart, touch_ignored, tracked.
  unfold bind at 1. unfold read at 1.
  destruct (_ || _); [done|].
  unfold bind at 1. unfold Touch.touch_at at 1.
  destruct (Touch.item _ _) as [t|] eqn:E; [|done].
  unfold bind at 1. unfold Touch.touch_at at 1. rewrite E.
  cbv [bind read write Touch.on_body]. simpl.
  assert (∀ k, (k, Touch.Move (length (Touch.calls s))) ∉ Touch.body s) as Hm.
  { intros k Hin. specialize (Hb k _ (or_introl Hin)). lia. }
  assert (∀ k, (k, Touch.End_ (length (Touch.calls s))) ∉ Touch.body s) as He.
  { intros k Hin. specialize (Hb k _ (or_intror Hin)). lia. }
  rewrite (body_add_fresh "touchmove") by done.
  rewrite (body_add_fresh "touchend").
  2:{ rewrite elem_of_app, list_elem_of_singleton. intros [?|?]; [by eapply He|done]. }
  rewrite (body_add_fresh "touchleave").
  2:{ rewrite !elem_of_app, !list_elem_of_singleton. intros [[?|?]|?]; [by eapply He|done|done]. }
  unfold gesture_listeners, touch_started, tracked. by rewrite <- !app_assoc.
Qed.

Lemma touchend_closed (g : nat) (e : Touch.TouchEvent) (v : Touch.variables)
    (s : Touch.state S) :
  Touch.calls s !! g = Some v →
  Touch.touchend g e s
  = if strict_neq (VNumber (Touch.which e)) (VNumber (Touch.touchToTrack v)) then Ok tt s
    else Ok tt {| Touch.instance := Touch.instance s;
                  Touch.body :=
                    Touch.removeEventListener "touchleave" (Touch.tmpEndPointer v) (Touch.End_ g)
                      (Touch.removeEventListener "touchend" (Touch.tmpEndPointer v) (Touch.End_ g)
                         (Touch.removeEventListener "touchmove" (Touch.tmpMovePointer v)
                            (Touch.Move g) (Touch.body s)));
                  Touch.calls := <[g := touch_ended v]> (Touch.calls s) |}.
Proof.
  intros Hv. unfold Touch.touchend. unfold bind at 1. unfold read at 1. rewrite Hv.
  destruct (strict_neq _ _); [done|].
  cbv [bind Touch.on_body Touch.assign]. simpl. by rewrite list_insert_insert_eq.
Qed.

(** The listeners of a call that just started are the last three on the
    body, and removing them leaves what was there. *)
Lemma gesture_listeners_removed (l : list (string * Touch.listener)) (g : nat) :
  (∀ k, (k, Touch.Move g) ∉ l) → (∀ k, (k, Touch.End_ g) ∉ l) →
  Touch.removeEventListener "touchleave" Ref (Touch.End_ g)
    (Touch.removeEventListener "touchend" Ref (Touch.End_ g)
       (Touch.removeEventListener "touchmove" Ref (Touch.Move g)
          (l ++ gesture_listeners g)))
  = l.
Proof.
  intros Hm He. unfold Touch.removeEventListener, gesture_listeners.
  rewrite !filter_app.
  rewrite (filter_absent _ l) by (intros x Hx ->; by eapply Hm).
  rewrite (filter_absent _ l) by (intros x Hx ->; by eapply He).
  rewrite (filter_absent _ l) by (intros x Hx ->; by eapply He).
  repeat first [ rewrite filter_nil
               | rewrite filter_cons_True by done
               | rewrite filter_cons_False by (intros Hx; by apply Hx) ].
  by rewrite app_nil_r.
Qed.

Lemma touch_round_trip (e e' : Touch.TouchEvent) (t : Touch.touch) (s : Touch.state S) :
  body_closed s →
  touch_ignored e s = false →
  Touch.item (Touch.touches e) (tracked e) = Some t →
  Touch.which e' = tracked e →
  ∃ s1 s2,
    Touch.touchstart e s = Ok tt s1 ∧
    Touch.body s1 = Touch.body s ++ gesture_listeners (length (Touch.calls s)) ∧
    Touch.touchend (length (Touch.calls s)) e' s1 = Ok tt s2 ∧
    Touch.body s2 = Touch.body s ∧
    Touch.instance s2 = Touch.instance s ∧
    Touch.calls s2 = Touch.calls s ++ [touch_ended (touch_started e t)].
Proof.
  intros Hb Hi Ht Hw. rewrite touchstart_closed, Hi, Ht by done.
  eexists _, _. split; [done|]. split; [done|].
  erewrite touchend_closed.
  2:{ simpl. rewrite lookup_app_r by done. by rewrite Nat.sub_diag. }
  cbn [touch_started Touch.touchToTrack Touch.tmpMovePointer Touch.tmpEndPointer].
  rewrite Hw, (tracked_same e t) by done.
  split; [done|]. cbn [Touch.body Touch.instance Touch.calls].
  split; [|split; [done|]].
  - apply gesture_listeners_removed.
    + intros k Hin. specialize (Hb k _ (or_introl Hin)). lia.
    + intros k Hin. specialize (Hb k _ (or_intror Hin)). lia.
  - rewrite insert_app_r_alt by done. by rewrite Nat.sub_diag.
Qed.

End Touching.

(** ** ScrollContainer under the touch listeners *)

(** [scrollTop(n)] on an instance whose element reports the stored offset
    up to rounding: the clamped number is stored and reported. *)
Lemma sc_top_state_stepped (n : number) (s : ScrollContainer.state) :
  let c := Host.container (ScrollContainer.host s) in
  let r := clamped (top_limit c) n in
  sc_enabledY s → 0 ≤ top_limit c → sc_tracked_top s →
  ScrollContainer._scrollTop (ScrollContainer.this (sc_top_state [VNumber n] s)) = VNumber r ∧
  DOM.scrollTop (Host.container (ScrollContainer.host (sc_top_state [VNumber n] s)))
  = reported (top_limit c) r.
Proof.
  intros c r He Hlim (r0 & Hst & Hnat).
  destruct (sc_top_value_number n s He) as [Hg Hv].
  unfold sc_top_state. rewrite Hg, Hv, validated_clamped by done. fold c r.
  destruct (strict_neq _ _) eqn:E.
  - simpl. split; [done|]. apply set_scrollTop_reported.
  - apply strict_neq_number_false in E. split; [done|].
    rewrite Hst in E. injection E as ->. done.
Qed.

(** [scrollLeft(n)] on an instance whose element reports the stored offset
    up to rounding: the clamped number is stored and reported. *)
Lemma sc_left_state_stepped (n : number) (s : ScrollContainer.state) :
  let c := Host.container (ScrollContainer.host s) in
  let r := clamped (left_limit c) n in
  sc_enabledX s → 0 ≤ left_limit c → sc_tracked_left s →
  ScrollContainer._scrollLeft (ScrollContainer.this (sc_left_state [VNumber n] s)) = VNumber r ∧
  DOM.scrollLeft (Host.container (ScrollContainer.host (sc_left_state [VNumber n] s)))
  = reported (left_limit c) r.
Proof.
  intros c r He Hlim (r0 & Hst & Hnat).
  destruct (sc_left_value_number n s He) as [Hg Hv].
  unfold sc_left_state. rewrite Hg, Hv, validated_clamped by done. fold c r.
  destruct (strict_neq _ _) eqn:E.
  - simpl. split; [done|]. apply set_scrollLeft_reported.
  - apply strict_neq_number_false in E. split; [done|].
    rewrite Hst in E. injection E as ->. done.
Qed.

(** The two accessors in a row, as the wheel and the touch listeners call
    them. *)
Lemma sc_stepped (dy dx : number) (s : ScrollContainer.state) :
  let c := Host.container (ScrollContainer.host s) in
  let s1 := sc_top_state [VNumber (num_add (Fin (DOM.scrollTop c)) dy)] s in
  let s2 := sc_left_state
              [VNumber (num_add (Fin (DOM.scrollLeft (Host.container (ScrollContainer.host s1))))
                                dx)] s1 in
  sc_enabledY s → sc_enabledX s → 0 ≤ top_limit c → 0 ≤ left_limit c →
  sc_tracked_top s → sc_tracked_left s →
  sc_scrolled_by c dy dx s2 ∧
  sc_tracked_top s2 ∧ sc_tracked_left s2 ∧
  (whole dy → sc_synced_top s2) ∧
  (whole dx → sc_synced_left s2).
Proof.
  intros c s1 s2 Hy Hx Hlt Hll Ht Hl.
  destruct (sc_top_state_stepped (num_add (Fin (DOM.scrollTop c)) dy) s Hy Hlt Ht)
    as [Hs1 Hn1]. fold c s1 in Hs1, Hn1.
  destruct (sc_top_state_rest [VNumber (num_add (Fin (DOM.scrollTop c)) dy)] s)
    as (Ho1 & Hsl1 & Hl1 & _). fold s1 c in Ho1, Hsl1, Hl1.
  assert (sc_enabledX s1) as Hx1 by (unfold sc_enabledX; by rewrite Ho1).
  assert (left_limit (Host.container (ScrollContainer.host s1)) = left_limit c) as Hlim.
  { unfold left_limit. subst s1. unfold sc_top_state.
    destruct (sc_top_is_getter _ _); [done|]. by destruct (strict_neq _ _). }
  assert (sc_tracked_left s1) as Htl1 by (by apply sc_top_state_tracked_left).
  assert (sc_tracked_top s1) as Htt1 by (by apply sc_top_state_tracked).
  destruct (sc_left_state_stepped
              (num_add (Fin (DOM.scrollLeft (Host.container (ScrollContainer.host s1)))) dx)
              s1 Hx1) as [Hs2 Hn2]; [by rewrite Hlim|done|].
  fold s2 in Hs2, Hn2. rewrite Hlim, Hl1 in Hs2, Hn2.
  destruct (sc_left_state_rest
              [VNumber (num_add (Fin (DOM.scrollLeft (Host.container (ScrollContainer.host s1))))
                                dx)] s1) as (_ & Hst2 & Ht2 & _).
  fold s2 in Hst2, Ht2.
  assert (sc_scrolled_by c dy dx s2) as Hby.
  { unfold sc_scrolled_by. by rewrite Hst2, Ht2, Hs1, Hn1, Hs2, Hn2. }
  split; [done|]. split; [by apply sc_left_state_tracked_top|].
  split; [by apply sc_left_state_tracked|].
  destruct Hby as (Ha & Hb & Hc & Hd). split.
  - intros Hw. unfold sc_synced_top. rewrite Ha, Hc.
    destruct (clamped_whole (top_limit c) (num_add (Fin (DOM.scrollTop c)) dy) Hlt)
      as (z & -> & Hz); [by apply num_add_whole|].
    by rewrite reported_Fin.
  - intros Hw. unfold sc_synced_left. rewrite Hb, Hd.
    destruct (clamped_whole (left_limit c) (num_add (Fin (DOM.scrollLeft c)) dx) Hll)
      as (z & -> & Hz); [by apply num_add_whole|].
    by rewrite reported_Fin.
Qed.

Lemma sc_lift_container (s : Touch.state ScrollContainer.state) :
  ScrollContainer._container (ScrollContainer.this (Touch.instance s)) = Ref →
  Touch.lift Touch._container s
  = Ok (Host.container (ScrollContainer.host (Touch.instance s))) s.
Proof.
  intros Hl. unfold Touch.lift. cbn [Touch._container Touch.ScrollContainer_scroller].
  unfold ScrollContainer.container. rewrite Hl. by destruct s.
Qed.

Lemma sc_lift_scrollTop (args : list value) (s : Touch.state ScrollContainer.state) :
  sc_live (Touch.instance s) →
  Touch.lift (Touch.scrollTop args) s
  = Ok (sc_top_value args (Touch.instance s))
       (sc_touching s (sc_top_state args (Touch.instance s)) (Touch.calls s)).
Proof.
  intros Hl. unfold Touch.lift. cbn [Touch.scrollTop Touch.ScrollContainer_scroller].
  by rewrite sc_scrollTop_live.
Qed.

Lemma sc_lift_scrollLeft (args : list value) (s : Touch.state ScrollContainer.state) :
  sc_live (Touch.instance s) →
  Touch.lift (Touch.scrollLeft args) s
  = Ok (sc_left_value args (Touch.instance s))
       (sc_touching s (sc_left_state args (Touch.instance s)) (Touch.calls s)).
Proof.
  intros Hl. unfold Touch.lift. cbn [Touch.scrollLeft Touch.ScrollContainer_scroller].
  by rewrite sc_scrollLeft_live.
Qed.

(** A move of the tracked touch on a live instance, in closed form. *)
Lemma sc_touchmove_live (g : nat) (e : Touch.TouchEvent) (v : Touch.variables)
    (t : Touch.touch) (s : Touch.state ScrollContainer.state) :
  sc_live (Touch.instance s) →
  Touch.calls s !! g = Some v →
  strict_neq (VNumber (Touch.which e)) (VNumber (Touch.touchToTrack v)) = false →
  Touch.item (Touch.touches e) (Touch.touchToTrack v) = Some t →
  let i := Touch.instance s in
  let top := DOM.scrollTop (Host.container (ScrollContainer.host i)) in
  let i1 := sc_top_state
              [VNumber (num_add (Fin top) (num_sub (Touch.tmpMoverY v) (Touch.clientY t)))]
              i in
  let left := DOM.scrollLeft (Host.container (ScrollContainer.host i1)) in
  let i2 := sc_left_state
              [VNumber (num_add (Fin left) (num_sub (Touch.tmpMoverX v) (Touch.clientX t)))]
              i1 in
  Touch.touchmove g e s = Ok tt (sc_touching s i2 (<[g := touch_moved v t]> (Touch.calls s))).
Proof.
  intros Hl Hv Hw Ht i top i1 left i2. unfold Touch.touchmove.
  cbv [bind read ret Touch.touch_at Touch.assign]. rewrite Hv, Hw.
  cbn [Touch.touchToTrack Touch.calls Touch.body Touch.instance]. rewrite Ht.
  cbn [Touch.touchToTrack Touch.calls Touch.body Touch.instance Touch.tmpMoverX
       Touch.tmpMoverY Touch.tmpMovePointer Touch.tmpEndPointer].
  rewrite list_insert_insert_eq.
  rewrite sc_lift_container by apply Hl.
  cbn [Touch.calls Touch.body Touch.instance].
  rewrite sc_lift_scrollTop by apply Hl.
  rewrite sc_lift_container by (by apply sc_top_state_live).
  rewrite sc_lift_scrollLeft by (by apply sc_top_state_live).
  done.
Qed.

(** ** PocScrollbar under the touch listeners *)

(** [scrollTop(n)] on an instance whose element reports the stored offset
    up to rounding: the clamped number is stored and reported. *)
Lemma poc_top_state_stepped (n : number) (s : PocScrollbar.state) :
  let c := Host.container (PocScrollbar.host s) in
  let r := clamped (top_limit c) n in
  poc_enabledY s → 0 ≤ top_limit c → poc_tracked_top s →
  PocScrollbar._scrollTop (PocScrollbar.this (poc_top_state [VNumber n] s)) = VNumber r ∧
  DOM.scrollTop (Host.container (PocScrollbar.host (poc_top_state [VNumber n] s)))
  = reported (top_limit c) r.
Proof.
  intros c r He Hlim (r0 & Hst & Hnat).
  destruct (poc_top_value_number n s He) as [Hg Hv].
  unfold poc_top_state. rewrite Hg, Hv, validated_clamped by done. fold c r.
  destruct (strict_neq _ _) eqn:E.
  - simpl. split; [done|]. apply set_scrollTop_reported.
  - apply strict_neq_number_false in E. split; [done|].
    rewrite Hst in E. injection E as ->. done.
Qed.

(** [scrollLeft(n)] on an instance whose element reports the stored offset
    up to rounding: the clamped number is stored and reported. *)
Lemma poc_left_state_stepped (n : number) (s : PocScrollbar.state) :
  let c := Host.container (PocScrollbar.host s) in
  let r := clamped (left_limit c) n in
  poc_enabledX s → 0 ≤ left_limit c → poc_tracked_left s →
  PocScrollbar._scrollLeft (PocScrollbar.this (poc_left_state [VNumber n] s)) = VNumber r ∧
  DOM.scrollLeft (Host.container (PocScrollbar.host (poc_left_state [VNumber n] s)))
  = reported (left_limit c) r.
Proof.
  intros c r He Hlim (r0 & Hst & Hnat).
  destruct (poc_left_value_number n s He) as [Hg Hv].
  unfold poc_left_state. rewrite Hg, Hv, validated_clamped by done. fold c r.
  destruct (strict_neq _ _) eqn:E.
  - simpl. split; [done|]. apply set_scrollLeft_reported.
  - apply strict_neq_number_false in E. split; [done|].
    rewrite Hst in E. injection E as ->. done.
Qed.

(** The two accessors in a row, as the wheel and the touch listeners call
    them. *)
Lemma poc_stepped (dy dx : number) (s : PocScrollbar.state) :
  let c := Host.container (PocScrollbar.host s) in
  let s1 := poc_top_state [VNumber (num_add (Fin (DOM.scrollTop c)) dy)] s in
  let s2 := poc_left_state
              [VNumber (num_add (Fin (DOM.scrollLeft (Host.container (PocScrollbar.host s1))))
                                dx)] s1 in
  poc_enabledY s → poc_enabledX s → 0 ≤ top_limit c → 0 ≤ left_limit c →
  poc_tracked_top s → poc_tracked_left s →
  poc_scrolled_by c dy dx s2 ∧
  poc_tracked_top s2 ∧ poc_tracked_left s2 ∧
  (whole dy → poc_synced_top s2) ∧
  (whole dx → poc_synced_left s2).
Proof.
  intros c s1 s2 Hy Hx Hlt Hll Ht Hl.
  destruct (poc_top_state_stepped (num_add (Fin (DOM.scrollTop c)) dy) s Hy Hlt Ht)
    as [Hs1 Hn1]. fold c s1 in Hs1, Hn1.
  destruct (poc_top_state_rest [VNumber (num_add (Fin (DOM.scrollTop c)) dy)] s)
    as (Ho1 & Hsl1 & Hl1 & _). fold s1 c in Ho1, Hsl1, Hl1.
  assert (poc_enabledX s1) as Hx1 by (unfold poc_enabledX; by rewrite Ho1).
  assert (left_limit (Host.container (PocScrollbar.host s1)) = left_limit c) as Hlim.
  { unfold left_limit. subst s1. unfold poc_top_state.
    destruct (poc_top_is_getter _ _); [done|]. by destruct (strict_neq _ _). }
  assert (poc_tracked_left s1) as Htl1 by (by apply poc_top_state_tracked_left).
  assert (poc_tracked_top s1) as Htt1 by (by apply poc_top_state_tracked).
  destruct (poc_left_state_stepped
              (num_add (Fin (DOM.scrollLeft (Host.container (PocScrollbar.host s1)))) dx)
              s1 Hx1) as [Hs2 Hn2]; [by rewrite Hlim|done|].
  fold s2 in Hs2, Hn2. rewrite Hlim, Hl1 in Hs2, Hn2.
  destruct (poc_left_state_rest
              [VNumber (num_add (Fin (DOM.scrollLeft (Host.container (PocScrollbar.host s1))))
                                dx)] s1) as (_ & Hst2 & Ht2 & _).
  fold s2 in Hst2, Ht2.
  assert (poc_scrolled_by c dy dx s2) as Hby.
  { unfold poc_scrolled_by. by rewrite Hst2, Ht2, Hs1, Hn1, Hs2, Hn2. }
  split; [done|]. split; [by apply poc_left_state_tracked_top|].
  split; [by apply poc_left_state_tracked|].
  destruct Hby as (Ha & Hb & Hc & Hd). split.
  - intros Hw. unfold poc_synced_top. rewrite Ha, Hc.
    destruct (clamped_whole (top_limit c) (num_add (Fin (DOM.scrollTop c)) dy) Hlt)
      as (z & -> & Hz); [by apply num_add_whole|].
    by rewrite reported_Fin.
  - intros Hw. unfold poc_synced_left. rewrite Hb, Hd.
    destruct (clamped_whole (left_limit c) (num_add (Fin (DOM.scrollLeft c)) dx) Hll)
      as (z & -> & Hz); [by apply num_add_whole|].
    by rewrite reported_Fin.
Qed.

Lemma poc_lift_container (s : Touch.state PocScrollbar.state) :
  PocScrollbar._container (PocScrollbar.this (Touch.instance s)) = Ref →
  Touch.lift Touch._container s
  = Ok (Host.container (PocScrollbar.host (Touch.instance s))) s.
Proof.
  intros Hl. unfold Touch.lift. cbn [Touch._container Touch.PocScrollbar_scroller].
  unfold PocScrollbar.container. rewrite Hl. by destruct s.
Qed.

Lemma poc_lift_scrollTop (args : list value) (s : Touch.state PocScrollbar.state) :
  poc_live (Touch.instance s) →
  Touch.lift (Touch.scrollTop args) s
  = Ok (poc_top_value args (Touch.instance s))
       (poc_touching s (poc_top_state args (Touch.instance s)) (Touch.calls s)).
Proof.
  intros Hl. unfold Touch.lift. cbn [Touch.scrollTop Touch.PocScrollbar_scroller].
  by rewrite poc_scrollTop_live.
Qed.

Lemma poc_lift_scrollLeft (args : list value) (s : Touch.state PocScrollbar.state) :
  poc_live (Touch.instance s) →
  Touch.lift (Touch.scrollLeft args) s
  = Ok (poc_left_value args (Touch.instance s))
       (poc_touching s (poc_left_state args (Touch.instance s)) (Touch.calls s)).
Proof.
  intros Hl. unfold Touch.lift. cbn [Touch.scrollLeft Touch.PocScrollbar_scroller].
  by rewrite poc_scrollLeft_live.
Qed.

(** A move of the tracked touch on a live instance, in closed form. *)
Lemma poc_touchmove_live (g : nat) (e : Touch.TouchEvent) (v : Touch.variables)
    (t : Touch.touch) (s : Touch.state PocScrollbar.state) :
  poc_live (Touch.instance s) →
  Touch.calls s !! g = Some v →
  strict_neq (VNumber (Touch.which e)) (VNumber (Touch.touchToTrack v)) = false →
  Touch.item (Touch.touches e) (Touch.touchToTrack v) = Some t →
  let i := Touch.instance s in
  let top := DOM.scrollTop (Host.container (PocScrollbar.host i)) in
  let i1 := poc_top_state
              [VNumber (num_add (Fin top) (num_sub (Touch.tmpMoverY v) (Touch.clientY t)))]
              i in
  let left := DOM.scrollLeft (Host.container (PocScrollbar.host i1)) in
  let i2 := poc_left_state
              [VNumber (num_add (Fin left) (num_sub (Touch.tmpMoverX v) (Touch.clientX t)))]
              i1 in
  Touch.touchmove g e s = Ok tt (poc_touching s i2 (<[g := touch_moved v t]> (Touch.calls s))).
Proof.
  intros Hl Hv Hw Ht i top i1 left i2. unfold Touch.touchmove.
  cbv [bind read ret Touch.touch_at Touch.assign]. rewrite Hv, Hw.
  cbn [Touch.touchToTrack Touch.calls Touch.body Touch.instance]. rewrite Ht.
  cbn [Touch.touchToTrack Touch.calls Touch.body Touch.instance Touch.tmpMoverX
       Touch.tmpMoverY Touch.tmpMovePointer Touch.tmpEndPointer].
  rewrite list_insert_insert_eq.
  rewrite poc_lift_container by apply Hl.
  cbn [Touch.calls Touch.body Touch.instance].
  rewrite poc_lift_scrollTop by apply Hl.
  rewrite poc_lift_container by (by apply poc_top_state_live).
  rewrite poc_lift_scrollLeft by (by apply poc_top_state_live).
  done.
Qed.

(** A move of the tracked finger scrolls by the distance it travelled. *)
Lemma sc_touchmove_scrolls (g : nat) (e : Touch.TouchEvent) (v : Touch.variables)
    (t : Touch.touch) (s : Touch.state ScrollContainer.state) :
  let i := Touch.instance s in
  let c := Host.container (ScrollContainer.host i) in
  let dy := num_sub (Touch.tmpMoverY v) (Touch.clientY t) in
  let dx := num_sub (Touch.tmpMoverX v) (Touch.clientX t) in
  sc_live i → 0 ≤ top_limit c → 0 ≤ left_limit c →
  sc_tracked_top i → sc_tracked_left i →
  sc_enabledY i → sc_enabledX i →
  Touch.calls s !! g = Some v →
  Touch.which e = Touch.touchToTrack v →
  Touch.item (Touch.touches e) (Touch.touchToTrack v) = Some t →
  ∃ s', Touch.touchmove g e s = Ok tt s' ∧
    sc_scrolled_by c dy dx (Touch.instance s') ∧
    Touch.calls s' !! g = Some (touch_moved v t) ∧
    Touch.body s' = Touch.body s ∧
    sc_tracked_top (Touch.instance s') ∧ sc_tracked_left (Touch.instance s') ∧
    (whole dy → sc_synced_top (Touch.instance s')) ∧
    (whole dx → sc_synced_left (Touch.instance s')).
Proof.
  intros i c dy dx Hl Hlt Hll Htt Htl Hy Hx Hv Hwh Ht.
  destruct (item_index _ _ _ Ht) as [z Hz].
  rewrite (sc_touchmove_live g e v t) by (try done; rewrite Hwh, Hz; apply strict_neq_same_Fin).
  eexists. split; [done|].
  cbn [sc_touching Touch.instance Touch.body Touch.calls]. fold i c dy dx.
  destruct (sc_stepped dy dx i Hy Hx Hlt Hll Htt Htl) as (Hby & Ht2 & Hl2 & Hst & Hsl).
  fold c in Hby, Ht2, Hl2, Hst, Hsl.
  split; [done|]. split; [|done].
  apply list_lookup_insert_eq. by eapply lookup_lt_Some.
Qed.

(** Once the instance is destroyed, a move of the tracked finger throws. *)
Lemma sc_touchmove_dead (g : nat) (e : Touch.TouchEvent) (v : Touch.variables)
    (t : Touch.touch) (s : Touch.state ScrollContainer.state) :
  sc_dead (Touch.instance s) →
  Touch.calls s !! g = Some v →
  Touch.which e = Touch.touchToTrack v →
  Touch.item (Touch.touches e) (Touch.touchToTrack v) = Some t →
  Touch.touchmove g e s
  = TypeError (sc_touching s (Touch.instance s) (<[g := touch_moved v t]> (Touch.calls s))).
Proof.
  intros [Hd _] Hv Hwh Ht. destruct (item_index _ _ _ Ht) as [z Hz].
  unfold Touch.touchmove.
  cbv [bind read ret Touch.touch_at Touch.assign]. rewrite Hv, Hwh, Hz, strict_neq_same_Fin.
  rewrite <- Hz.
  cbn [Touch.touchToTrack Touch.calls Touch.body Touch.instance]. rewrite Ht.
  cbn [Touch.touchToTrack Touch.calls Touch.body Touch.instance Touch.tmpMoverX
       Touch.tmpMoverY Touch.tmpMovePointer Touch.tmpEndPointer].
  rewrite list_insert_insert_eq.
  unfold Touch.lift at 1. cbn [Touch._container Touch.ScrollContainer_scroller Touch.instance].
  unfold ScrollContainer.container. by rewrite Hd.
Qed.

(** [destroy] through the listeners' state: the body keeps its listeners. *)
Lemma sc_lift_destroy (s : Touch.state ScrollContainer.state) (i : ScrollContainer.state) :
  ScrollContainer.destroy (Touch.instance s) = Ok tt i →
  Touch.lift ScrollContainer.destroy s = Ok tt (sc_touching s i (Touch.calls s)).
Proof. intros Hd. unfold Touch.lift. by rewrite Hd. Qed.

(** A move of the tracked finger scrolls by the distance it travelled. *)
Lemma poc_touchmove_scrolls (g : nat) (e : Touch.TouchEvent) (v : Touch.variables)
    (t : Touch.touch) (s : Touch.state PocScrollbar.state) :
  let i := Touch.instance s in
  let c := Host.container (PocScrollbar.host i) in
  let dy := num_sub (Touch.tmpMoverY v) (Touch.clientY t) in
  let dx := num_sub (Touch.tmpMoverX v) (Touch.clientX t) in
  poc_live i → 0 ≤ top_limit c → 0 ≤ left_limit c →
  poc_tracked_top i → poc_tracked_left i →
  poc_enabledY i → poc_enabledX i →
  Touch.calls s !! g = Some v →
  Touch.which e = Touch.touchToTrack v →
  Touch.item (Touch.touches e) (Touch.touchToTrack v) = Some t →
  ∃ s', Touch.touchmove g e s = Ok tt s' ∧
    poc_scrolled_by c dy dx (Touch.instance s') ∧
    Touch.calls s' !! g = Some (touch_moved v t) ∧
    Touch.body s' = Touch.body s ∧
    poc_tracked_top (Touch.instance s') ∧ poc_tracked_left (Touch.instance s') ∧
    (whole dy → poc_synced_top (Touch.instance s')) ∧
    (whole dx → poc_synced_left (Touch.instance s')).
Proof.
  intros i c dy dx Hl Hlt Hll Htt Htl Hy Hx Hv Hwh Ht.
  destruct (item_index _ _ _ Ht) as [z Hz].
  rewrite (poc_touchmove_live g e v t) by (try done; rewrite Hwh, Hz; apply strict_neq_same_Fin).
  eexists. split; [done|].
  cbn [poc_touching Touch.instance Touch.body Touch.calls]. fold i c dy dx.
  destruct (poc_stepped dy dx i Hy Hx Hlt Hll Htt Htl) as (Hby & Ht2 & Hl2 & Hst & Hsl).
  fold c in Hby, Ht2, Hl2, Hst, Hsl.
  split; [done|]. split; [|done].
  apply list_lookup_insert_eq. by eapply lookup_lt_Some.
Qed.

(** Once the instance is destroyed, a move of the tracked finger throws. *)
Lemma poc_touchmove_dead (g : nat) (e : Touch.TouchEvent) (v : Touch.variables)
    (t : Touch.touch) (s : Touch.state PocScrollbar.state) :
  poc_dead (Touch.instance s) →
  Touch.calls s !! g = Some v →
  Touch.which e = Touch.touchToTrack v →
  Touch.item (Touch.touches e) (Touch.touchToTrack v) = Some t →
  Touch.touchmove g e s
  = TypeError (poc_touching s (Touch.instance s) (<[g := touch_moved v t]> (Touch.calls s))).
Proof.
  intros [Hd _] Hv Hwh Ht. destruct (item_index _ _ _ Ht) as [z Hz].
  unfold Touch.touchmove.
  cbv [bind read ret Touch.touch_at Touch.assign]. rewrite Hv, Hwh, Hz, strict_neq_same_Fin.
  rewrite <- Hz.
  cbn [Touch.touchToTrack Touch.calls Touch.body Touch.instance]. rewrite Ht.
  cbn [Touch.touchToTrack Touch.calls Touch.body Touch.instance Touch.tmpMoverX
       Touch.tmpMoverY Touch.tmpMovePointer Touch.tmpEndPointer].
  rewrite list_insert_insert_eq.
  unfold Touch.lift at 1. cbn [Touch._container Touch.PocScrollbar_scroller Touch.instance].
  unfold PocScrollbar.container. by rewrite Hd.
Qed.

(** [destroy] through the listeners' state: the body keeps its listeners. *)
Lemma poc_lift_destroy (s : Touch.state PocScrollbar.state) (i : PocScrollbar.state) :
  PocScrollbar.destroy (Touch.instance s) = Ok tt i →
  Touch.lift PocScrollbar.destroy s = Ok tt (poc_touching s i (Touch.calls s)).
Proof. intros Hd. unfold Touch.lift. by rewrite Hd. Qed.

(** ** More about debounce and the options *)

Lemma find_app_absent {A} (f : A → bool) (l1 l2 : list A) :
  (∀ x, x ∈ l1 → f x = false) → List.find f (l1 ++ l2) = List.find f l2.
Proof.
  induction l1 as [|a l1 IH]; intros Hl; [done|]. simpl.
  rewrite (Hl a) by left. apply IH. intros x Hx. apply Hl. by right.
Qed.

(** A call, then at least the wait without another call, then the timer
    the call armed: the callback runs, and no timer of it is left. *)
Lemma loop_quiet_wait (s : Loop.t) (ms : Z) :
  loop_invariant s →
  Loop.wait (Helper.aWaitTime (Loop.closure s)) ≤ ms →
  let s' := Loop.run s [Loop.Call; Loop.Elapse ms;
                        Loop.Dispatch (Window.next_handle (Loop.window s))] in
  Loop.history s'
  = Loop.Ran (Window.now (Loop.window s) + ms)
    :: Loop.Called (Window.now (Loop.window s)) :: Loop.history s ∧
  Loop.pending s' = [].
Proof.
  intros (Hf & Hp & _) Hms s'. subst s'. unfold Loop.run. cbn [foldl].
  rewrite loop_step_call. cbn [Loop.step Loop.window Loop.closure Loop.history].
  unfold Loop.dispatch, Window.elapse.
  cbn [Loop.window Loop.closure Loop.history Window.timers Window.now Window.next_handle].
  set (old := Window.timers (Window.clear (Helper.pointer (Loop.closure s)) (Loop.window s))).
  assert (0 ≤ Loop.wait (Helper.aWaitTime (Loop.closure s))) as Hd by (unfold Loop.wait; lia).
  assert (∀ x, x ∈ old → Window.handle x ≠ Window.next_handle (Loop.window s)) as Hne.
  { intros x [Hin _]%clear_timers. specialize (Hf x Hin). lia. }
  rewrite find_app_absent by (intros x Hx; apply Nat.eqb_neq; by apply Hne).
  unfold armed_timer.
  cbn [List.find Window.handle Window.due Window.repeating Window.action
       Window.delay]. rewrite Nat.eqb_refl.
  cbn [Window.handle Window.due Window.repeating Window.action Window.delay].
  rewrite Z.max_r by lia.
  destruct (_ <=? _) eqn:E; [|apply Z.leb_gt in E; lia].
  cbn [Loop.history Loop.closure Helper.aCallback Loop.window Window.timers].
  rewrite decide_True by done. split; [done|].
  unfold Loop.pending. cbn [Loop.closure Loop.window Window.timers Helper.aCallback].
  rewrite app_nil_r, filter_app, filter_cons_False, filter_nil, app_nil_r
    by (simpl; intros Hx; by apply Hx).
  rewrite (filter_absent _ old) by exact Hne.
  apply filter_none. intros x [Hin Hn]%clear_timers Ha.
  destruct (Hp x Hin Ha) as (Hptr & _). done.
Qed.

(** Every run is paired with the call right before it, so there are no
    more runs than calls. *)
Lemma runs_follow_calls_count (d : Z) (n : nat) (h : list Loop.entry) :
  (length h ≤ n)%nat → runs_follow_calls d h → (runs_in h ≤ calls_in h)%nat.
Proof.
  revert h. induction n as [|n IH]; intros h Hn Hq.
  { destruct h; [done|simpl in Hn; lia]. }
  destruct h as [|[c|t] h]; [done| |].
  - assert (runs_follow_calls d h) as Hq'.
    { intros l1 t l2 E. apply (Hq (Loop.Called c :: l1) t l2). by rewrite E. }
    simpl in Hn. specialize (IH h ltac:(lia) Hq').
    unfold runs_in, calls_in in *. simpl. lia.
  - destruct (Hq [] t h eq_refl) as (c & l3 & -> & _).
    assert (runs_follow_calls d l3) as Hq'.
    { intros l1 t' l2 E. apply (Hq (Loop.Ran t :: Loop.Called c :: l1) t' l2). by rewrite E. }
    simpl in Hn. specialize (IH l3 ltac:(lia) Hq').
    unfold runs_in, calls_in in *. simpl. lia.
Qed.

(** Applying the same styles again changes no style. *)
Lemma styles_applied_twice (styles : value) (old : gmap string value) :
  styles_applied styles (styles_applied styles old) = styles_applied styles old.
Proof.
  destruct styles; try done. simpl.
  by rewrite (assoc_L (∪)), (idemp_L (∪)).
Qed.

(** A notch of the wheel scrolls by its deltas. *)
Lemma sc_wheel_scrolls (e : WheelEvent) (s : ScrollContainer.state) :
  let c := Host.container (ScrollContainer.host s) in
  sc_live s → 0 ≤ top_limit c → 0 ≤ left_limit c →
  sc_tracked_top s → sc_tracked_left s →
  sc_enabledY s → sc_enabledX s →
  defaultPrevented e = false →
  ∃ b s', ScrollContainer.wheel e s = Ok b s' ∧
    sc_scrolled_by c (deltaY e) (deltaX e) s' ∧
    sc_tracked_top s' ∧ sc_tracked_left s' ∧
    (whole (deltaY e) → sc_synced_top s') ∧
    (whole (deltaX e) → sc_synced_left s').
Proof.
  intros c Hl Hlt Hll Htt Htl Hy Hx Hp.
  rewrite sc_wheel_live by done. eexists _, _. split; [done|].
  unfold sc_wheeled. by apply sc_stepped.
Qed.

(** A notch of the wheel scrolls by its deltas. *)
Lemma poc_wheel_scrolls (e : WheelEvent) (s : PocScrollbar.state) :
  let c := Host.container (PocScrollbar.host s) in
  poc_live s → 0 ≤ top_limit c → 0 ≤ left_limit c →
  poc_tracked_top s → poc_tracked_left s →
  poc_enabledY s → poc_enabledX s →
  defaultPrevented e = false →
  ∃ b s', PocScrollbar.wheel e s = Ok b s' ∧
    poc_scrolled_by c (deltaY e) (deltaX e) s' ∧
    poc_tracked_top s' ∧ poc_tracked_left s' ∧
    (whole (deltaY e) → poc_synced_top s') ∧
    (whole (deltaX e) → poc_synced_left s').
Proof.
  intros c Hl Hlt Hll Htt Htl Hy Hx Hp.
  rewrite poc_wheel_live by done. eexists _, _. split; [done|].
  unfold poc_wheeled. by apply poc_stepped.
Qed.

(** ** Further properties of the code *)

Lemma poc_observes_eq (h : Host.t) (aOptions : gmap string value) :
  poc_observes h aOptions
  = Host.hasMutationObserver h && ToBoolean (get aOptions "useMutationObserver").
Proof.
  unfold poc_observes, poc_validated_options, get. rewrite lookup_insert_eq. simpl.
  by destruct (Host.hasMutationObserver h).
Qed.

(** X1.  The constructor of either class returns a live instance and
    leaves the parent and the classes of the element as they were; it
    assigns [hidden] to the style [overflow], and [relative] to [position]
    unless the computed position is [absolute] or [relative] already; it
    adds its [wheel] and [touchstart] listeners behind those already
    registered; the change handler starts from the four dimensions the
    element had when the constructor was called, before the styles were
    assigned; and the scroll view is constructed and told [parentUpdated],
    nothing else. *)
Theorem constructor_dresses_element (h : Host.t) (aOptions : gmap string value) :
  (∃ s, ScrollContainer.new h aOptions = Ok tt s ∧
     sc_live s ∧
     dressed_as (Host.container h) (Host.container (ScrollContainer.host s)) ∧
     ScrollContainer.handler (ScrollContainer.this s) = sc_measured (Host.container h) ∧
     Host.view (ScrollContainer.host s)
     = Host.view h ++ [ScrollView.construct; ScrollView.parentUpdated]) ∧
  (∃ p, PocScrollbar.new h aOptions = Ok tt p ∧
     poc_live p ∧
     dressed_as (Host.container h) (Host.container (PocScrollbar.host p)) ∧
     PocScrollbar.handler (PocScrollbar.this p) = poc_measured (Host.container h) ∧
     Host.view (PocScrollbar.host p)
     = Host.view h ++ [ScrollView.construct; ScrollView.parentUpdated]).
Proof.
  split.
  - exists (sc_constructed h aOptions). split; [apply sc_new_closed|].
    split; [by split|]. split; [apply dressed_spec|done].
  - exists (poc_constructed h aOptions). split; [apply poc_new_closed|].
    split; [by split|]. split; [apply dressed_spec|done].
Qed.

(** X2.  The polling interval.  [ScrollContainer] arms a repeating timer
    for its change handler whose delay is [checkInterval] when that option
    is truthy and 300 otherwise, so a [checkInterval] of 0 polls every 300
    milliseconds; [PocScrollbar], when it does not use a mutation observer,
    takes [checkInterval] whenever it is a number, 0 included, and 300
    otherwise.  The delay is what the window makes of the value (a [long],
    at least 0), and the handle is kept for [destroy]. *)
Theorem poll_timer_follows_checkInterval (h : Host.t) (aOptions : gmap string value) :
  let ci := get aOptions "checkInterval" in
  let w := Host.window h in
  (∃ s, ScrollContainer.new h aOptions = Ok tt s ∧
     ScrollContainer._intervalPointer (ScrollContainer.this s) = Some (Window.next_handle w) ∧
     Window.timers (Host.window (ScrollContainer.host s))
     = Window.timers w
       ++ [poll_timer w (if ToBoolean ci then Z.max 0 (to_long (ToNumber ci)) else 300)] ∧
     Host.observers (ScrollContainer.host s) = Host.observers h) ∧
  (Host.hasMutationObserver h && ToBoolean (get aOptions "useMutationObserver") = false →
   ∃ p, PocScrollbar.new h aOptions = Ok tt p ∧
     PocScrollbar._mutationObserver (PocScrollbar.this p)
     = PocScrollbar.Interval (Window.next_handle w) ∧
     Window.timers (Host.window (PocScrollbar.host p))
     = Window.timers w
       ++ [poll_timer w (if String.eqb (typeof ci) "number"
                         then Z.max 0 (to_long (ToNumber ci)) else 300)] ∧
     Host.observers (PocScrollbar.host p) = Host.observers h).
Proof.
  intros ci w. split.
  - exists (sc_constructed h aOptions). split; [apply sc_new_closed|].
    split; [done|]. split; [|done]. simpl. unfold sc_checkInterval. fold ci.
    by destruct (ToBoolean ci).
  - intros Ho. exists (poc_constructed h aOptions). split; [apply poc_new_closed|].
    rewrite <- poc_observes_eq in Ho. simpl. rewrite Ho.
    split; [done|]. split; [|done]. simpl. unfold poc_checkInterval. fold ci.
    by destruct (String.eqb _ _).
Qed.

(** X3.  The constructor of [PocScrollbar] writes the validated option
    [useMutationObserver] back into the options object it was given: the
    caller's value when the global [MutationObserver] is truthy, [false]
    when it is falsy; no other option changes.  It then observes the
    element, through [debounce] with the check interval as wait and
    without arming any timer, exactly when the global is truthy and the
    option is truthy; in every other case it registers no observer and
    polls. *)
Theorem observer_follows_validated_option (h : Host.t) (aOptions : gmap string value) :
  ∃ p, PocScrollbar.new h aOptions = Ok tt p ∧
    (∀ k, k ≠ "useMutationObserver" →
          get (PocScrollbar._options (PocScrollbar.this p)) k = get aOptions k) ∧
    get (PocScrollbar._options (PocScrollbar.this p)) "useMutationObserver"
    = (if Host.hasMutationObserver h then get aOptions "useMutationObserver"
       else VBool false) ∧
    if Host.hasMutationObserver h && ToBoolean (get aOptions "useMutationObserver")
    then
      PocScrollbar._mutationObserver (PocScrollbar.this p)
      = PocScrollbar.Observer (Debounced ChangeHandler) ∧
      PocScrollbar.debouncer (PocScrollbar.this p)
      = Some (Helper.debounce ChangeHandler
                (if String.eqb (typeof (get aOptions "checkInterval")) "number"
                 then get aOptions "checkInterval" else VNumber (Fin 300))) ∧
      Host.observers (PocScrollbar.host p) = Host.observers h ++ [Debounced ChangeHandler] ∧
      Host.window (PocScrollbar.host p) = Host.window h
    else
      PocScrollbar._mutationObserver (PocScrollbar.this p)
      = PocScrollbar.Interval (Window.next_handle (Host.window h)) ∧
      PocScrollbar.debouncer (PocScrollbar.this p) = None ∧
      Host.observers (PocScrollbar.host p) = Host.observers h.
Proof.
  exists (poc_constructed h aOptions). split; [apply poc_new_closed|].
  rewrite <- poc_observes_eq. simpl. split; [|split].
  - intros k Hk. unfold poc_validated_options, get. by rewrite lookup_insert_ne.
  - unfold poc_validated_options, get. by rewrite lookup_insert_eq.
  - by destruct (poc_observes h aOptions).
Qed.

(** X4.  Building a container of either class on an element that has
    none of its listeners yet, in a window whose timer handles are fresh,
    and destroying it right away takes back what the constructor
    registered: the element has its old listeners, parent and classes, the
    window its old timers, and the observers are the old ones (for
    [PocScrollbar], when its debounced handler was not observing before).
    The styles are not taken back: [destroy] assigns none, so they are what
    the constructor left ([overflow] is still [hidden]).  What stays as
    well are the three calls on the scroll view, and an instance whose
    pointers are [null]. *)
Theorem construct_then_destroy_restores_page (h : Host.t) (aOptions : gmap string value) :
  fresh_handles (Host.window h) →
  bare (Host.container h) →
  (∃ s s', ScrollContainer.new h aOptions = Ok tt s ∧
     ScrollContainer.destroy s = Ok tt s' ∧
     given_back (Host.container h) (Host.container (ScrollContainer.host s')) ∧
     DOM.style (Host.container (ScrollContainer.host s'))
     = DOM.style (Host.container (ScrollContainer.host s)) ∧
     DOM.style (Host.container (ScrollContainer.host s')) !! "overflow"
     = Some (VString "hidden") ∧
     Window.timers (Host.window (ScrollContainer.host s')) = Window.timers (Host.window h) ∧
     Host.observers (ScrollContainer.host s') = Host.observers h ∧
     Host.view (ScrollContainer.host s')
     = Host.view h ++ [ScrollView.construct; ScrollView.parentUpdated; ScrollView.destroy] ∧
     sc_dead s') ∧
  (Debounced ChangeHandler ∉ Host.observers h →
   ∃ p p', PocScrollbar.new h aOptions = Ok tt p ∧
     PocScrollbar.destroy p = Ok tt p' ∧
     given_back (Host.container h) (Host.container (PocScrollbar.host p')) ∧
     DOM.style (Host.container (PocScrollbar.host p'))
     = DOM.style (Host.container (PocScrollbar.host p)) ∧
     DOM.style (Host.container (PocScrollbar.host p')) !! "overflow"
     = Some (VString "hidden") ∧
     Window.timers (Host.window (PocScrollbar.host p')) = Window.timers (Host.window h) ∧
     Host.observers (PocScrollbar.host p') = Host.observers h ∧
     Host.view (PocScrollbar.host p')
     = Host.view h ++ [ScrollView.construct; ScrollView.parentUpdated; ScrollView.destroy] ∧
     poc_dead p').
Proof.
  intros Hf Hb. split.
  - by apply sc_new_destroy.
  - intros Ho. by apply poc_new_destroy.
Qed.

(** X5.  After [destroy()] the instance is unusable: the getters
    [scrollTop()] and [scrollLeft()], the wheel listener on an event that
    is not prevented, a tick of the change handler and a second
    [destroy()] all throw a [TypeError].  A setter throws as well, except
    for a negative number while the stored offset is 0, which returns 0
    without touching a pointer. *)
Theorem destroyed_instance_throws :
  (∀ s : ScrollContainer.state,
     sc_live s →
     ∃ s', ScrollContainer.destroy s = Ok tt s' ∧
       (∀ args, ScrollContainer.scrollTop args s'
                = if sc_top_survives args s' then Ok (VNumber (Fin 0)) s' else TypeError s') ∧
       (∀ args, ScrollContainer.scrollLeft args s'
                = if sc_left_survives args s' then Ok (VNumber (Fin 0)) s' else TypeError s') ∧
       ScrollContainer.scrollTop [] s' = TypeError s' ∧
       ScrollContainer.scrollLeft [] s' = TypeError s' ∧
       (∀ e, ScrollContainer.wheel e s'
             = if defaultPrevented e then Ok false s' else TypeError s') ∧
       ScrollContainer.intervalHandler s' = TypeError s' ∧
       ∃ s'', ScrollContainer.destroy s' = TypeError s'') ∧
  (∀ p : PocScrollbar.state,
     poc_live p → poc_armed p →
     ∃ p', PocScrollbar.destroy p = Ok tt p' ∧
       (∀ args, PocScrollbar.scrollTop args p'
                = if poc_top_survives args p' then Ok (VNumber (Fin 0)) p' else TypeError p') ∧
       (∀ args, PocScrollbar.scrollLeft args p'
                = if poc_left_survives args p' then Ok (VNumber (Fin 0)) p' else TypeError p') ∧
       PocScrollbar.scrollTop [] p' = TypeError p' ∧
       PocScrollbar.scrollLeft [] p' = TypeError p' ∧
       (∀ e, PocScrollbar.wheel e p'
             = if defaultPrevented e then Ok false p' else TypeError p') ∧
       PocScrollbar.mutationHandler p' = TypeError p' ∧
       ∃ p'', PocScrollbar.destroy p' = TypeError p'').
Proof.
  split.
  - intros s Hl. rewrite sc_destroy_live by done.
    exists (sc_destroyed s). split; [done|].
    pose proof (sc_destroyed_dead s) as Hd.
    split; [intros args; by apply sc_scrollTop_dead|].
    split; [intros args; by apply sc_scrollLeft_dead|].
    split; [by rewrite sc_scrollTop_dead by done|].
    split; [by rewrite sc_scrollLeft_dead by done|].
    split; [intros e; by apply sc_wheel_dead|].
    split; [by apply sc_intervalHandler_dead|by apply sc_destroy_dead].
  - intros p Hl Ha. rewrite poc_destroy_live by done.
    exists (poc_destroyed p). split; [done|].
    pose proof (poc_destroyed_dead p) as Hd.
    split; [intros args; by apply poc_scrollTop_dead|].
    split; [intros args; by apply poc_scrollLeft_dead|].
    split; [by rewrite poc_scrollTop_dead by done|].
    split; [by rewrite poc_scrollLeft_dead by done|].
    split; [intros e; by apply poc_wheel_dead|].
    split; [by apply poc_mutationHandler_dead|by apply poc_destroy_dead].
Qed.

(** X6.  Setting an offset is idempotent.  After [scrollTop(n)] or
    [scrollLeft(n)] with a number other than [NaN], on a live instance of
    either class whose axis is enabled, the stored offset is the returned
    one, and the same call again returns the same value and changes
    nothing: the element is not written and the scroll view is not told a
    second time. *)
Theorem repeated_offset_is_ignored (n : number) :
  n ≠ NaN →
  (∀ s : ScrollContainer.state,
     sc_live s → sc_enabledY s →
     ∃ r s1,
       ScrollContainer.scrollTop [VNumber n] s = Ok r s1 ∧
       ScrollContainer._scrollTop (ScrollContainer.this s1) = r ∧
       ScrollContainer.scrollTop [VNumber n] s1 = Ok r s1) ∧
  (∀ s : ScrollContainer.state,
     sc_live s → sc_enabledX s →
     ∃ r s1,
       ScrollContainer.scrollLeft [VNumber n] s = Ok r s1 ∧
       ScrollContainer._scrollLeft (ScrollContainer.this s1) = r ∧
       ScrollContainer.scrollLeft [VNumber n] s1 = Ok r s1) ∧
  (∀ p : PocScrollbar.state,
     poc_live p → poc_enabledY p →
     ∃ r p1,
       PocScrollbar.scrollTop [VNumber n] p = Ok r p1 ∧
       PocScrollbar._scrollTop (PocScrollbar.this p1) = r ∧
       PocScrollbar.scrollTop [VNumber n] p1 = Ok r p1) ∧
  (∀ p : PocScrollbar.state,
     poc_live p → poc_enabledX p →
     ∃ r p1,
       PocScrollbar.scrollLeft [VNumber n] p = Ok r p1 ∧
       PocScrollbar._scrollLeft (PocScrollbar.this p1) = r ∧
       PocScrollbar.scrollLeft [VNumber n] p1 = Ok r p1).
Proof.
  intros Hn. split_and!.
  - intros s Hl He. by apply sc_scrollTop_twice.
  - intros s Hl He. by apply sc_scrollLeft_twice.
  - intros p Hl He. by apply poc_scrollTop_twice.
  - intros p Hl He. by apply poc_scrollLeft_twice.
Qed.

(** X7.  A disabled axis is frozen.  With [disableYScrolling] truthy,
    [scrollTop] of either class is a getter whatever it is given, and
    neither [scrollLeft], nor the wheel listener, nor a tick of an attached
    container changes the element's [scrollTop] or the stored top offset;
    the same holds for [disableXScrolling] and the left offset.  With both
    axes disabled the wheel listener changes nothing at all and never
    prevents the default. *)
Theorem disabled_axis_is_frozen :
  (∀ s : ScrollContainer.state,
     sc_live s → sc_disabledY s →
     (∀ args, ScrollContainer.scrollTop args s
              = Ok (VNumber (Fin (DOM.scrollTop (Host.container (ScrollContainer.host s))))) s) ∧
     (∀ args, ∃ r s', ScrollContainer.scrollLeft args s = Ok r s' ∧ sc_top_kept s s') ∧
     (∀ e, ∃ b s', ScrollContainer.wheel e s = Ok b s' ∧ sc_top_kept s s') ∧
     (detached (Host.container (ScrollContainer.host s)) = false →
      ∃ s', ScrollContainer.intervalHandler s = Ok tt s' ∧ sc_top_kept s s')) ∧
  (∀ s : ScrollContainer.state,
     sc_live s → sc_disabledX s →
     (∀ args, ScrollContainer.scrollLeft args s
              = Ok (VNumber (Fin (DOM.scrollLeft (Host.container (ScrollContainer.host s))))) s) ∧
     (∀ args, ∃ r s', ScrollContainer.scrollTop args s = Ok r s' ∧ sc_left_kept s s') ∧
     (∀ e, ∃ b s', ScrollContainer.wheel e s = Ok b s' ∧ sc_left_kept s s') ∧
     (detached (Host.container (ScrollContainer.host s)) = false →
      ∃ s', ScrollContainer.intervalHandler s = Ok tt s' ∧ sc_left_kept s s')) ∧
  (∀ (s : ScrollContainer.state) (e : WheelEvent),
     sc_live s → sc_disabledY s → sc_disabledX s →
     ScrollContainer.wheel e s = Ok false s) ∧
  (∀ p : PocScrollbar.state,
     poc_live p → poc_disabledY p →
     (∀ args, PocScrollbar.scrollTop args p
              = Ok (VNumber (Fin (DOM.scrollTop (Host.container (PocScrollbar.host p))))) p) ∧
     (∀ args, ∃ r p', PocScrollbar.scrollLeft args p = Ok r p' ∧ poc_top_kept p p') ∧
     (∀ e, ∃ b p', PocScrollbar.wheel e p = Ok b p' ∧ poc_top_kept p p') ∧
     (detached (Host.container (PocScrollbar.host p)) = false →
      ∃ p', PocScrollbar.mutationHandler p = Ok tt p' ∧ poc_top_kept p p')) ∧
  (∀ p : PocScrollbar.state,
     poc_live p → poc_disabledX p →
     (∀ args, PocScrollbar.scrollLeft args p
              = Ok (VNumber (Fin (DOM.scrollLeft (Host.container (PocScrollbar.host p))))) p) ∧
     (∀ args, ∃ r p', PocScrollbar.scrollTop args p = Ok r p' ∧ poc_left_kept p p') ∧
     (∀ e, ∃ b p', PocScrollbar.wheel e p = Ok b p' ∧ poc_left_kept p p') ∧
     (detached (Host.container (PocScrollbar.host p)) = false →
      ∃ p', PocScrollbar.mutationHandler p = Ok tt p' ∧ poc_left_kept p p')) ∧
  (∀ (p : PocScrollbar.state) (e : WheelEvent),
     poc_live p → poc_disabledY p → poc_disabledX p →
     PocScrollbar.wheel e p = Ok false p).
Proof.
  split_and!.
  - intros s Hl Hd. by apply sc_disabledY_frozen.
  - intros s Hl Hd. by apply sc_disabledX_frozen.
  - intros s e Hl Hy Hx. by apply sc_wheel_disabled.
  - intros p Hl Hd. by apply poc_disabledY_frozen.
  - intros p Hl Hd. by apply poc_disabledX_frozen.
  - intros p e Hl Hy Hx. by apply poc_wheel_disabled.
Qed.

(** X8.  A tick of the change handler of either class on an attached
    container with a well-formed geometry returns and leaves the page as it
    is: the element (offsets, listeners and styles included), the window's
    timers, the observers and the options are unchanged, and the instance
    stays live.  All a tick does is talk to the scroll view and refresh
    what the instance stores. *)
Theorem attached_tick_keeps_page :
  (∀ s : ScrollContainer.state,
     sc_live s → sc_well_formed s →
     detached (Host.container (ScrollContainer.host s)) = false →
     ∃ s', ScrollContainer.intervalHandler s = Ok tt s' ∧
       Host.container (ScrollContainer.host s') = Host.container (ScrollContainer.host s) ∧
       Host.window (ScrollContainer.host s') = Host.window (ScrollContainer.host s) ∧
       Host.observers (ScrollContainer.host s') = Host.observers (ScrollContainer.host s) ∧
       ScrollContainer._options (ScrollContainer.this s')
       = ScrollContainer._options (ScrollContainer.this s) ∧
       sc_live s') ∧
  (∀ p : PocScrollbar.state,
     poc_live p → poc_well_formed p →
     detached (Host.container (PocScrollbar.host p)) = false →
     ∃ p', PocScrollbar.mutationHandler p = Ok tt p' ∧
       Host.container (PocScrollbar.host p') = Host.container (PocScrollbar.host p) ∧
       Host.window (PocScrollbar.host p') = Host.window (PocScrollbar.host p) ∧
       Host.observers (PocScrollbar.host p') = Host.observers (PocScrollbar.host p) ∧
       PocScrollbar._options (PocScrollbar.this p')
       = PocScrollbar._options (PocScrollbar.this p) ∧
       poc_live p').
Proof.
  split.
  - intros s Hl Hw Ha. by apply sc_tick_keeps_page.
  - intros p Hl Hw Ha. by apply poc_tick_keeps_page.
Qed.

(** X9.  Every tick first tells the scroll view offsets of 0, and takes
    that back before it returns: after a tick of an attached container
    with a well-formed geometry, each axis enabled or its stored offset
    equal to the native one, and the offsets below the scroll dimensions,
    the last [scrollTopUpdated] and the last [scrollLeftUpdated] of the
    tick carry the element's [scrollTop] and [scrollLeft]. *)
Theorem attached_tick_shows_native_offsets :
  (∀ s : ScrollContainer.state,
     let c := Host.container (ScrollContainer.host s) in
     sc_live s → sc_well_formed s →
     detached c = false →
     sc_enabledY s ∨ sc_synced_top s →
     sc_enabledX s ∨ sc_synced_left s →
     DOM.scrollTop c < DOM.scrollHeight c →
     DOM.scrollLeft c < DOM.scrollWidth c →
     ∃ s' cs,
       ScrollContainer.intervalHandler s = Ok tt s' ∧
       Host.view (ScrollContainer.host s') = Host.view (ScrollContainer.host s) ++ cs ∧
       shown_top cs = Some (VNumber (Fin (DOM.scrollTop c))) ∧
       shown_left cs = Some (VNumber (Fin (DOM.scrollLeft c)))) ∧
  (∀ p : PocScrollbar.state,
     let c := Host.container (PocScrollbar.host p) in
     poc_live p → poc_well_formed p →
     detached c = false →
     poc_enabledY p ∨ poc_synced_top p →
     poc_enabledX p ∨ poc_synced_left p →
     DOM.scrollTop c < DOM.scrollHeight c →
     DOM.scrollLeft c < DOM.scrollWidth c →
     ∃ p' cs,
       PocScrollbar.mutationHandler p = Ok tt p' ∧
       Host.view (PocScrollbar.host p') = Host.view (PocScrollbar.host p) ++ cs ∧
       shown_top cs = Some (VNumber (Fin (DOM.scrollTop c))) ∧
       shown_left cs = Some (VNumber (Fin (DOM.scrollLeft c)))).
Proof.
  split.
  - intros s c Hl Hw Ha Hy Hx Ht Hlf. by apply sc_tick_shows_native.
  - intros p c Hl Hw Ha Hy Hx Ht Hlf. by apply poc_tick_shows_native.
Qed.

(** X10.  The trailing edge of [debounce].  Start as in C7 and let the
    loop run any events.  One more call of the debounced function, then at
    least the wait without another call, then the host dispatching the
    timer that call armed: the callback has run once, at that time, right
    after the call, and no timer for it is left. *)
Theorem quiet_wait_runs_callback_once (w : Window.t) (f : callback)
    (aWaitTime : value) (es : list Loop.event) (ms : Z) :
  fresh_handles w →
  (∀ x, x ∈ Window.timers w → Window.action x ≠ f) →
  Loop.wait aWaitTime ≤ ms →
  let s := Loop.run (Loop.initial w f aWaitTime) es in
  let s' := Loop.run s [Loop.Call; Loop.Elapse ms;
                        Loop.Dispatch (Window.next_handle (Loop.window s))] in
  Loop.history s'
  = Loop.Ran (Window.now (Loop.window s) + ms)
    :: Loop.Called (Window.now (Loop.window s)) :: Loop.history s ∧
  Loop.pending s' = [].
Proof.
  intros Hf Hn Hms s.
  pose proof (loop_invariant_run es _ (loop_invariant_initial w f aWaitTime Hf Hn)) as Hi.
  fold s in Hi.
  destruct (loop_run_closure_fixed es (Loop.initial w f aWaitTime)) as [_ Hw].
  fold s in Hw. simpl in Hw.
  apply loop_quiet_wait; [done|]. by rewrite Hw.
Qed.

(** X11.  However calls, waits and timers interleave, the callback of a
    debounced function never ran more often than the function was
    called. *)
Theorem runs_never_outnumber_calls (w : Window.t) (f : callback)
    (aWaitTime : value) (es : list Loop.event) :
  fresh_handles w →
  (∀ x, x ∈ Window.timers w → Window.action x ≠ f) →
  let s := Loop.run (Loop.initial w f aWaitTime) es in
  (runs_in (Loop.history s) ≤ calls_in (Loop.history s))%nat.
Proof.
  intros Hf Hn s.
  destruct (loop_invariant_run es _ (loop_invariant_initial w f aWaitTime Hf Hn))
    as (_ & _ & _ & _ & Hq).
  fold s in Hq. by eapply runs_follow_calls_count.
Qed.

(** X12.  Applying the same options to an element a second time changes
    none of its styles: [applyOptionsToScollBarElement] copies the style
    option over what is there, key by key, whether or not the class option
    makes [classList.add] throw afterwards. *)
Theorem styles_apply_idempotently (e : DOM.element) (aElementName : string)
    (aOptions : value) :
  let e' := DOM.element_of (Helper.applyOptionsToScollBarElement e aElementName aOptions) in
  DOM.style (DOM.element_of (Helper.applyOptionsToScollBarElement e' aElementName aOptions))
  = DOM.style e'.
Proof.
  intros e'. subst e'.
  destruct (applyOptions_styles
              (DOM.element_of (Helper.applyOptionsToScollBarElement e aElementName aOptions))
              aElementName aOptions) as [-> _].
  destruct (applyOptions_styles e aElementName aOptions) as [-> _].
  apply styles_applied_twice.
Qed.

(** X13.  The listener [touchstart] of either class does nothing on an
    event whose default is prevented or when the option
    [disableTouchScrollingOnContainer] is truthy.  Otherwise it tracks the
    touch [aEvent.which || 0]: when the event has no touch at that index it
    throws a [TypeError] before it registers anything; when it has, the
    listener leaves the instance alone, remembers where that touch is, and
    adds three listeners of its own to the body, behind those there:
    one for [touchmove] and one closure for both [touchend] and
    [touchleave]. *)
Theorem touchstart_registers_gesture {S : Type} `{Touch.Scroller S}
    (e : Touch.TouchEvent) (s : Touch.state S) :
  body_closed s →
  Touch.touchstart e s
  = if Touch.defaultPrevented e
       || ToBoolean (get (Touch.aOptions (Touch.instance s))
                         "disableTouchScrollingOnContainer")
    then Ok tt s
    else match Touch.item (Touch.touches e)
                 (if ToBoolean (VNumber (Touch.which e)) then Touch.which e else Fin 0) with
         | None => TypeError s
         | Some t =>
             Ok tt {| Touch.instance := Touch.instance s;
                      Touch.body :=
                        Touch.body s
                        ++ [("touchmove", Touch.Move (length (Touch.calls s)));
                            ("touchend", Touch.End_ (length (Touch.calls s)));
                            ("touchleave", Touch.End_ (length (Touch.calls s)))];
                      Touch.calls :=
                        Touch.calls s
                        ++ [{| Touch.touchToTrack :=
                                 if ToBoolean (VNumber (Touch.which e))
                                 then Touch.which e else Fin 0;
                               Touch.tmpMoverX := Touch.clientX t;
                               Touch.tmpMoverY := Touch.clientY t;
                               Touch.tmpMovePointer := Ref;
                               Touch.tmpEndPointer := Ref |}] |}
         end.
Proof. intros Hb. by rewrite touchstart_closed. Qed.

(** X14.  A touch gesture cleans up after itself.  When [touchstart]
    tracked a touch, the [touchend] (or [touchleave]) of that touch removes
    exactly the three listeners the gesture added: the body has the
    listeners it had before the gesture, in their order, the instance is
    untouched, and the two closures are dropped from the gesture's
    variables. *)
Theorem touch_gesture_round_trip {S : Type} `{Touch.Scroller S}
    (e e' : Touch.TouchEvent) (t : Touch.touch) (s : Touch.state S) :
  body_closed s →
  touch_ignored e s = false →
  Touch.item (Touch.touches e) (tracked e) = Some t →
  Touch.which e' = tracked e →
  ∃ s1 s2,
    Touch.touchstart e s = Ok tt s1 ∧
    Touch.body s1 = Touch.body s ++ gesture_listeners (length (Touch.calls s)) ∧
    Touch.touchend (length (Touch.calls s)) e' s1 = Ok tt s2 ∧
    Touch.body s2 = Touch.body s ∧
    Touch.instance s2 = Touch.instance s ∧
    Touch.calls s2 = Touch.calls s ++ [touch_ended (touch_started e t)].
Proof. intros Hb Hi Ht Hw. by apply touch_round_trip. Qed.

(** X15.  Dragging scrolls by the distance the finger travelled.  On a
    live container of either class with both axes enabled, scroll sizes
    that are at least the client sizes and an element that reports the
    stored offsets (exactly, or rounded when they are fractions), a
    [touchmove] of the tracked touch, whose coordinates are any numbers,
    whole or fractional, stores as the top offset the element's
    [scrollTop] plus the difference of the remembered and the new
    [clientY], clamped into the scrollable range, and as the left offset
    the same with [scrollLeft] and [clientX]; the element reports the two
    stored offsets, a fraction as the whole number of pixels the browser
    rounds it to, and for coordinates that are integers these are the old
    offsets plus [y0 - y1] and [x0 - x1] brought into the range.  The
    closure remembers the new coordinates for the next move, the body keeps
    its listeners, the element again reports the stored offsets, and equals
    them on an axis whose difference is an integer. *)
Theorem touchmove_scrolls_by_distance :
  (∀ (s : Touch.state ScrollContainer.state) (g : nat) (e : Touch.TouchEvent)
      (v : Touch.variables) (t : Touch.touch),
     let i := Touch.instance s in
     let c := Host.container (ScrollContainer.host i) in
     let dy := num_sub (Touch.tmpMoverY v) (Touch.clientY t) in
     let dx := num_sub (Touch.tmpMoverX v) (Touch.clientX t) in
     sc_live i → 0 ≤ top_limit c → 0 ≤ left_limit c →
     sc_tracked_top i → sc_tracked_left i →
     sc_enabledY i → sc_enabledX i →
     Touch.calls s !! g = Some v →
     Touch.which e = Touch.touchToTrack v →
     Touch.item (Touch.touches e) (Touch.touchToTrack v) = Some t →
     ∃ s', Touch.touchmove g e s = Ok tt s' ∧
       let c' := Host.container (ScrollContainer.host (Touch.instance s')) in
       sc_scrolled_by c dy dx (Touch.instance s') ∧
       (∀ y0 y1, Touch.tmpMoverY v = Fin y0 → Touch.clientY t = Fin y1 →
          DOM.scrollTop c' = DOM.into_range (top_limit c) (DOM.scrollTop c + (y0 - y1))) ∧
       (∀ x0 x1, Touch.tmpMoverX v = Fin x0 → Touch.clientX t = Fin x1 →
          DOM.scrollLeft c' = DOM.into_range (left_limit c) (DOM.scrollLeft c + (x0 - x1))) ∧
       Touch.calls s' !! g = Some (touch_moved v t) ∧
       Touch.body s' = Touch.body s ∧
       sc_tracked_top (Touch.instance s') ∧ sc_tracked_left (Touch.instance s') ∧
       (whole dy → sc_synced_top (Touch.instance s')) ∧
       (whole dx → sc_synced_left (Touch.instance s'))) ∧
  (∀ (p : Touch.state PocScrollbar.state) (g : nat) (e : Touch.TouchEvent)
      (v : Touch.variables) (t : Touch.touch),
     let i := Touch.instance p in
     let c := Host.container (PocScrollbar.host i) in
     let dy := num_sub (Touch.tmpMoverY v) (Touch.clientY t) in
     let dx := num_sub (Touch.tmpMoverX v) (Touch.clientX t) in
     poc_live i → 0 ≤ top_limit c → 0 ≤ left_limit c →
     poc_tracked_top i → poc_tracked_left i →
     poc_enabledY i → poc_enabledX i →
     Touch.calls p !! g = Some v →
     Touch.which e = Touch.touchToTrack v →
     Touch.item (Touch.touches e) (Touch.touchToTrack v) = Some t →
     ∃ p', Touch.touchmove g e p = Ok tt p' ∧
       let c' := Host.container (PocScrollbar.host (Touch.instance p')) in
       poc_scrolled_by c dy dx (Touch.instance p') ∧
       (∀ y0 y1, Touch.tmpMoverY v = Fin y0 → Touch.clientY t = Fin y1 →
          DOM.scrollTop c' = DOM.into_range (top_limit c) (DOM.scrollTop c + (y0 - y1))) ∧
       (∀ x0 x1, Touch.tmpMoverX v = Fin x0 → Touch.clientX t = Fin x1 →
          DOM.scrollLeft c' = DOM.into_range (left_limit c) (DOM.scrollLeft c + (x0 - x1))) ∧
       Touch.calls p' !! g = Some (touch_moved v t) ∧
       Touch.body p' = Touch.body p ∧
       poc_tracked_top (Touch.instance p') ∧ poc_tracked_left (Touch.instance p') ∧
       (whole dy → poc_synced_top (Touch.instance p')) ∧
       (whole dx → poc_synced_left (Touch.instance p'))).
Proof.
  split.
  - intros s g e v t i c dy dx Hl Hlt Hll Htt Htl Hy Hx Hv Hwh Ht.
    destruct (sc_touchmove_scrolls g e v t s Hl Hlt Hll Htt Htl Hy Hx Hv Hwh Ht)
      as (s' & Hr & Hby & Hrest).
    exists s'. split; [done|]. fold i c dy dx in Hby. split; [done|].
    destruct Hby as (_ & _ & Hty & Htx). split; [|split; [|done]].
    + intros y0 y1 H0 H1. subst dy. rewrite Hty, H0, H1, num_sub_Fin, num_add_Fin.
      by apply reported_clamped_Fin.
    + intros x0 x1 H0 H1. subst dx. rewrite Htx, H0, H1, num_sub_Fin, num_add_Fin.
      by apply reported_clamped_Fin.
  - intros p g e v t i c dy dx Hl Hlt Hll Htt Htl Hy Hx Hv Hwh Ht.
    destruct (poc_touchmove_scrolls g e v t p Hl Hlt Hll Htt Htl Hy Hx Hv Hwh Ht)
      as (p' & Hr & Hby & Hrest).
    exists p'. split; [done|]. fold i c dy dx in Hby. split; [done|].
    destruct Hby as (_ & _ & Hty & Htx). split; [|split; [|done]].
    + intros y0 y1 H0 H1. subst dy. rewrite Hty, H0, H1, num_sub_Fin, num_add_Fin.
      by apply reported_clamped_Fin.
    + intros x0 x1 H0 H1. subst dx. rewrite Htx, H0, H1, num_sub_Fin, num_add_Fin.
      by apply reported_clamped_Fin.
Qed.

(** X16.  [destroy()] does not end a gesture in progress.  It removes
    the listeners of the element only, so the closures [touchstart] put on
    the body stay registered; and the next [touchmove] of the tracked touch
    throws a [TypeError], because the closure reads the [scrollTop] of
    [this._container], which [destroy()] set to [null]. *)
Theorem touchmove_after_destroy_throws :
  (∀ (s : Touch.state ScrollContainer.state) (g : nat) (e : Touch.TouchEvent)
      (v : Touch.variables) (t : Touch.touch),
     sc_live (Touch.instance s) →
     Touch.calls s !! g = Some v →
     Touch.which e = Touch.touchToTrack v →
     Touch.item (Touch.touches e) (Touch.touchToTrack v) = Some t →
     ∃ s1 s2,
       Touch.lift ScrollContainer.destroy s = Ok tt s1 ∧
       Touch.body s1 = Touch.body s ∧
       Touch.touchmove g e s1 = TypeError s2 ∧
       Touch.body s2 = Touch.body s ∧
       Touch.instance s2 = Touch.instance s1) ∧
  (∀ (p : Touch.state PocScrollbar.state) (g : nat) (e : Touch.TouchEvent)
      (v : Touch.variables) (t : Touch.touch),
     poc_live (Touch.instance p) → poc_armed (Touch.instance p) →
     Touch.calls p !! g = Some v →
     Touch.which e = Touch.touchToTrack v →
     Touch.item (Touch.touches e) (Touch.touchToTrack v) = Some t →
     ∃ p1 p2,
       Touch.lift PocScrollbar.destroy p = Ok tt p1 ∧
       Touch.body p1 = Touch.body p ∧
       Touch.touchmove g e p1 = TypeError p2 ∧
       Touch.body p2 = Touch.body p ∧
       Touch.instance p2 = Touch.instance p1).
Proof.
  split.
  - intros s g e v t Hl Hv Hwh Ht.
    eexists _, _. split; [apply sc_lift_destroy; by apply sc_destroy_live|].
    split; [done|].
    erewrite sc_touchmove_dead; [done|apply sc_destroyed_dead|done..].
  - intros p g e v t Hl Ha Hv Hwh Ht.
    eexists _, _. split; [apply poc_lift_destroy; by apply poc_destroy_live|].
    split; [done|].
    erewrite poc_touchmove_dead; [done|apply poc_destroyed_dead|done..].
Qed.

(** X17.  The wheel scrolls by its deltas.  On a live container of either
    class with both axes enabled, scroll sizes that are at least the client
    sizes and an element that reports the stored offsets (exactly, or
    rounded when they are fractions), a wheel event that is not prevented,
    whatever numbers its deltas are, stores as the top offset the element's
    [scrollTop] plus [deltaY] clamped into the scrollable range and as the
    left offset its [scrollLeft] plus [deltaX] clamped likewise; the
    element reports the two stored offsets, a fraction as the whole number
    of pixels the browser rounds it to, and for a delta that is an integer
    this is the old offset plus the delta brought into the range.  The
    element again reports the stored offsets, and equals them on an axis
    whose delta is an integer. *)
Theorem wheel_scrolls_by_delta :
  (∀ (s : ScrollContainer.state) (e : WheelEvent),
     let c := Host.container (ScrollContainer.host s) in
     sc_live s → 0 ≤ top_limit c → 0 ≤ left_limit c →
     sc_tracked_top s → sc_tracked_left s →
     sc_enabledY s → sc_enabledX s →
     defaultPrevented e = false →
     ∃ b s', ScrollContainer.wheel e s = Ok b s' ∧
       let c' := Host.container (ScrollContainer.host s') in
       sc_scrolled_by c (deltaY e) (deltaX e) s' ∧
       (∀ dy, deltaY e = Fin dy →
          DOM.scrollTop c' = DOM.into_range (top_limit c) (DOM.scrollTop c + dy)) ∧
       (∀ dx, deltaX e = Fin dx →
          DOM.scrollLeft c' = DOM.into_range (left_limit c) (DOM.scrollLeft c + dx)) ∧
       sc_tracked_top s' ∧ sc_tracked_left s' ∧
       (whole (deltaY e) → sc_synced_top s') ∧
       (whole (deltaX e) → sc_synced_left s')) ∧
  (∀ (p : PocScrollbar.state) (e : WheelEvent),
     let c := Host.container (PocScrollbar.host p) in
     poc_live p → 0 ≤ top_limit c → 0 ≤ left_limit c →
     poc_tracked_top p → poc_tracked_left p →
     poc_enabledY p → poc_enabledX p →
     defaultPrevented e = false →
     ∃ b p', PocScrollbar.wheel e p = Ok b p' ∧
       let c' := Host.container (PocScrollbar.host p') in
       poc_scrolled_by c (deltaY e) (deltaX e) p' ∧
       (∀ dy, deltaY e = Fin dy →
          DOM.scrollTop c' = DOM.into_range (top_limit c) (DOM.scrollTop c + dy)) ∧
       (∀ dx, deltaX e = Fin dx →
          DOM.scrollLeft c' = DOM.into_range (left_limit c) (DOM.scrollLeft c + dx)) ∧
       poc_tracked_top p' ∧ poc_tracked_left p' ∧
       (whole (deltaY e) → poc_synced_top p') ∧
       (whole (deltaX e) → poc_synced_left p')).
Proof.
  split.
  - intros s e c Hl Hlt Hll Htt Htl Hy Hx Hp.
    destruct (sc_wheel_scrolls e s Hl Hlt Hll Htt Htl Hy Hx Hp)
      as (b & s' & Hr & Hby & Hrest).
    exists b, s'. split; [done|]. fold c in Hby. split; [done|].
    destruct Hby as (_ & _ & Hty & Htx). split; [|split; [|done]].
    + intros dy H0. rewrite Hty, H0, num_add_Fin. by apply reported_clamped_Fin.
    + intros dx H0. rewrite Htx, H0, num_add_Fin. by apply reported_clamped_Fin.
  - intros p e c Hl Hlt Hll Htt Htl Hy Hx Hp.
    destruct (poc_wheel_scrolls e p Hl Hlt Hll Htt Htl Hy Hx Hp)
      as (b & p' & Hr & Hby & Hrest).
    exists b, p'. split; [done|]. fold c in Hby. split; [done|].
    destruct Hby as (_ & _ & Hty & Htx). split; [|split; [|done]].
    + intros dy H0. rewrite Hty, H0, num_add_Fin. by apply reported_clamped_Fin.
    + intros dx H0. rewrite Htx, H0, num_add_Fin. by apply reported_clamped_Fin.
Qed.

End Properties.

(* ===================================================================== *)
(** * The code on the example page *)
(* ===================================================================== *)

#[local] Existing Instance example_engine.

Lemma example_sc_live : sc_live example_sc.
Proof. split; reflexivity. Qed.

Lemma example_poc_live : poc_live example_poc.
Proof. split; reflexivity. Qed.

(** C1, witness: [scrollTop(10.5)] on the example [div], which reports 11
    afterwards. *)
Lemma clamped_offset_is_written_witness :
  Frac 10 0 ≠ NaN ∧
  ∃ s', ScrollContainer.scrollTop [VNumber (Frac 10 0)] example_sc
        = Ok (VNumber (Frac 10 0)) s' ∧
        ScrollContainer._scrollTop (ScrollContainer.this s') = VNumber (Frac 10 0) ∧
        DOM.scrollTop (Host.container (ScrollContainer.host s')) = 11 ∧
        Host.view (ScrollContainer.host s')
        = Host.view (ScrollContainer.host example_sc)
          ++ [ScrollView.scrollTopUpdated (VNumber (Frac 10 0))].
Proof.
  assert (Frac 10 0 ≠ NaN) as Hn by discriminate.
  assert (sc_live example_sc) as Hl by (split; reflexivity).
  assert (sc_enabledY example_sc) as He by reflexivity.
  assert (0 ≤ top_limit (Host.container (ScrollContainer.host example_sc))) as Hlim
    by (vm_compute; discriminate).
  split; [exact Hn|].
  destruct (proj1 (clamped_offset_is_written (Frac 10 0) Hn) example_sc Hl He Hlim)
    as (_ & s' & Hr & Hs).
  exists s'. split; [exact Hr|].
  destruct Hs as (_ & Ht & _ & Hv & Hst). split; [exact Hst|]. split; [exact Ht|exact Hv].
Defined.

(** C1, counterexample: [NaN] is a number, and [scrollTop(NaN)] returns
    [NaN], which lies in no range. *)
Lemma scrollTop_NaN_is_returned :
  typeof (VNumber NaN) = "number" ∧
  sc_live example_sc ∧ sc_enabledY example_sc ∧
  ∃ s', ScrollContainer.scrollTop [VNumber NaN] example_sc = Ok (VNumber NaN) s' ∧
        ¬ within (top_limit (Host.container (ScrollContainer.host example_sc))) NaN.
Proof.
  split; [reflexivity|]. split; [split; reflexivity|]. split; [reflexivity|].
  eexists. split; [vm_compute; reflexivity|].
  intros Hz. exact Hz.
Qed.

(** C2, the code at the failing input [scrollLeft(undefined)]: the guard of
    [scrollLeft] only counts the arguments, so on either container the call
    is no getter.  The element's [scrollLeft] is 0, yet the call returns
    [undefined], tells the view [scrollLeftUpdated(undefined)] and stores
    [undefined] as the offset. *)
Theorem scrollLeft_undefined_is_no_getter :
  typeof VUndefined ≠ "number" ∧
  (DOM.scrollLeft (Host.container (ScrollContainer.host example_sc)) = 0 ∧
   ∃ s', ScrollContainer.scrollLeft [VUndefined] example_sc = Ok VUndefined s' ∧
     ScrollContainer._scrollLeft (ScrollContainer.this s') = VUndefined ∧
     Host.view (ScrollContainer.host s')
     = Host.view (ScrollContainer.host example_sc)
       ++ [ScrollView.scrollLeftUpdated VUndefined]) ∧
  (DOM.scrollLeft (Host.container (PocScrollbar.host example_poc)) = 0 ∧
   ∃ p', PocScrollbar.scrollLeft [VUndefined] example_poc = Ok VUndefined p' ∧
     PocScrollbar._scrollLeft (PocScrollbar.this p') = VUndefined ∧
     Host.view (PocScrollbar.host p')
     = Host.view (PocScrollbar.host example_poc)
       ++ [ScrollView.scrollLeftUpdated VUndefined]).
Proof.
  split; [discriminate|]. split.
  - split; [reflexivity|]. eexists. split; [vm_compute; reflexivity|].
    split; reflexivity.
  - split; [reflexivity|]. eexists. split; [vm_compute; reflexivity|].
    split; reflexivity.
Qed.

(** C3, counterexample: built on a [div] that is scrolled down by 50
    pixels, the container stores 0 while the element's [scrollTop] is 50;
    and after [scrollTop(10.5)] on the example container, whose offsets
    were in step, the container stores 10.5 while the element's
    [scrollTop] is 11. *)
Lemma stored_offsets_differ_from_native :
  (∃ s, ScrollContainer.new scrolled_host ∅ = Ok tt s ∧
     ScrollContainer._scrollTop (ScrollContainer.this s) = VNumber (Fin 0) ∧
     DOM.scrollTop (Host.container (ScrollContainer.host s)) = 50 ∧
     ¬ sc_synced s) ∧
  (sc_synced example_sc ∧
   ∃ s', ScrollContainer.scrollTop [VNumber (Frac 10 0)] example_sc
         = Ok (VNumber (Frac 10 0)) s' ∧
     ScrollContainer._scrollTop (ScrollContainer.this s') = VNumber (Frac 10 0) ∧
     DOM.scrollTop (Host.container (ScrollContainer.host s')) = 11 ∧
     ¬ sc_synced s').
Proof.
  split.
  - eexists. split; [vm_compute; reflexivity|].
    split; [reflexivity|]. split; [reflexivity|].
    intros [Ht _]. vm_compute in Ht. discriminate.
  - split; [split; reflexivity|].
    eexists. split; [vm_compute; reflexivity|].
    split; [reflexivity|]. split; [reflexivity|].
    intros [Ht _]. vm_compute in Ht. discriminate.
Qed.

(** C3, witness: [scrollTop(450)] on the example container, whose offsets
    are in step. *)
Lemma stored_offsets_follow_native_witness :
  sc_live example_sc ∧ sc_well_formed example_sc ∧ sc_synced example_sc ∧ whole (Fin 450) ∧
  ∃ r s', ScrollContainer.scrollTop [VNumber (Fin 450)] example_sc = Ok r s' ∧ sc_synced s'.
Proof.
  assert (sc_live example_sc) as Hl by (split; reflexivity).
  assert (sc_well_formed example_sc) as Hw by (vm_compute; repeat split; discriminate).
  assert (sc_synced example_sc) as Hs by (split; reflexivity).
  assert (whole (Fin 450)) as Hn by exact I.
  split; [exact Hl|]. split; [exact Hw|]. split; [exact Hs|]. split; [exact Hn|].
  exact (proj1 (proj1 (proj2 (proj1 stored_offsets_follow_native))
                  example_sc (Fin 450) Hl Hw Hs Hn)).
Defined.

(** C4, witness: one notch of the wheel over the example container. *)
Lemma wheel_prevents_default_iff_scrolled_witness :
  sc_live example_sc ∧
  ∃ b s', ScrollContainer.wheel example_wheel example_sc = Ok b s' ∧
    (b = true ↔
     DOM.scrollTop (Host.container (ScrollContainer.host example_sc))
     ≠ DOM.scrollTop (Host.container (ScrollContainer.host s')) ∨
     DOM.scrollLeft (Host.container (ScrollContainer.host example_sc))
     ≠ DOM.scrollLeft (Host.container (ScrollContainer.host s'))).
Proof.
  assert (sc_live example_sc) as Hl by (split; reflexivity).
  split; [exact Hl|].
  pose proof (proj1 (wheel_prevents_default_iff_scrolled example_wheel) example_sc Hl) as Hw.
  simpl in Hw. destruct Hw as (r1 & s1 & r2 & s' & b & _ & _ & Hw & Hb & _).
  exists b, s'. split; [exact Hw|exact Hb].
Defined.

(** C5, counterexample: the [div] is no longer in the document and its
    height, 150, differs from the cached one, 100, yet the tick does not
    tell the view [parentUpdated]: it destroys the instance, and the cache
    still holds 100. *)
Lemma detached_tick_skips_resize :
  sc_live removed_sc ∧
  ScrollContainer.containerHeight (ScrollContainer.handler (ScrollContainer.this removed_sc))
  = 100 ∧
  DOM.clientHeight (Host.container (ScrollContainer.host removed_sc)) = 150 ∧
  ∃ s', ScrollContainer.intervalHandler removed_sc = Ok tt s' ∧
    Host.view (ScrollContainer.host s')
    = Host.view (ScrollContainer.host removed_sc)
      ++ [ScrollView.scrollTopUpdated (VNumber (Fin 0));
          ScrollView.scrollLeftUpdated (VNumber (Fin 0));
          ScrollView.destroy] ∧
    (ScrollView.parentUpdated
     ∉ [ScrollView.scrollTopUpdated (VNumber (Fin 0));
        ScrollView.scrollLeftUpdated (VNumber (Fin 0));
        ScrollView.destroy]) ∧
    ScrollContainer.containerHeight (ScrollContainer.handler (ScrollContainer.this s')) = 100.
Proof.
  split; [split; reflexivity|]. split; [reflexivity|]. split; [reflexivity|].
  eexists. split; [vm_compute; reflexivity|]. split; [reflexivity|]. split; [|reflexivity].
  intros Hin. repeat (apply elem_of_cons in Hin as [Hin|Hin]; [discriminate|]).
  by apply elem_of_nil in Hin.
Qed.

(** C5, witness: a tick of a container in the document whose [div] grew
    from 100 to 150 pixels: the view is told, and the cache holds 150. *)
Lemma attached_tick_reports_resize_witness :
  sc_live resized_sc ∧
  reaches_body (DOM.parentElement (Host.container (ScrollContainer.host resized_sc))) ∧
  ∃ s' cs,
    ScrollContainer.intervalHandler resized_sc = Ok tt s' ∧
    Host.view (ScrollContainer.host s') = Host.view (ScrollContainer.host resized_sc) ++ cs ∧
    ScrollView.parentUpdated ∈ cs ∧
    ScrollContainer.containerHeight (ScrollContainer.handler (ScrollContainer.this s')) = 150.
Proof.
  assert (sc_live resized_sc) as Hl by (split; reflexivity).
  assert (reaches_body (DOM.parentElement (Host.container (ScrollContainer.host resized_sc))))
    as Ha by (apply reaches_above, reaches_here).
  split; [exact Hl|]. split; [exact Ha|].
  destruct (proj1 attached_tick_reports_resize resized_sc Hl Ha)
    as (s' & cs & Hr & Hv & Hp & Hk & _).
  assert (ScrollView.parentUpdated ∈ cs) as Hin.
  { apply Hp. left. vm_compute. discriminate. }
  exists s', cs. split; [exact Hr|]. split; [exact Hv|]. split; [exact Hin|].
  rewrite (Hk Hin). reflexivity.
Defined.

(** C6, the code at the failing input: a [PocScrollbar] with
    [useMutationObserver] whose observer delivered a mutation, destroyed
    before the debounce wait is over.  [destroy()] returns, the observer is
    disconnected and the listeners are gone, but the timer [debounce] set
    for the mutation handler is still active; when the host dispatches it,
    the handler reads [this._container.parentElement] on [null] and
    throws. *)
Theorem destroy_leaves_debounce_timer :
  ∃ p1 p2,
    PocScrollbar.observed example_observing = Ok tt p1 ∧
    PocScrollbar.destroy p1 = Ok tt p2 ∧
    Host.observers (PocScrollbar.host p2) = [] ∧
    DOM.listeners (Host.container (PocScrollbar.host p2)) = [] ∧
    Window.timers (Host.window (PocScrollbar.host p2))
    = [{| Window.handle := 1; Window.action := ChangeHandler; Window.delay := 300;
          Window.due := 300; Window.repeating := false |}] ∧
    PocScrollbar.mutationHandler p2 = TypeError p2.
Proof.
  eexists _, _. split; [vm_compute; reflexivity|].
  split; [vm_compute; reflexivity|].
  repeat split; vm_compute; reflexivity.
Qed.

(** C7, witness: two calls 100 ms apart on a wait of 300 ms, then the
    timers are dispatched. *)
Lemma debounce_fires_once_per_wait_witness :
  let s := Loop.run (Loop.initial (Host.window example_host) ChangeHandler (VNumber (Fin 300)))
             [Loop.Call; Loop.Elapse 100; Loop.Call; Loop.Dispatch 1; Loop.Dispatch 2;
              Loop.Elapse 300; Loop.Dispatch 2; Loop.Dispatch 2] in
  Loop.history s = [Loop.Ran 400; Loop.Called 100; Loop.Called 0] ∧
  runs_follow_calls 300 (Loop.history s) ∧
  runs_apart 300 (Loop.history s).
Proof.
  intros s. split; [reflexivity|].
  refine (proj2 (debounce_fires_once_per_wait (Host.window example_host) ChangeHandler
                   (VNumber (Fin 300)) _ _ _)).
  - intros x Hx. by apply elem_of_nil in Hx.
  - intros x Hx. by apply elem_of_nil in Hx.
Defined.



(** C9, witness: [scrollTop(450)] on a container of each class built on the
    example page with the same options. *)
Lemma accessors_agree_witness :
  same_instance example_sc_like_poc example_poc ∧
  same_outcome (ScrollContainer.scrollTop [VNumber (Fin 450)] example_sc_like_poc)
               (PocScrollbar.scrollTop [VNumber (Fin 450)] example_poc).
Proof.
  assert (same_instance example_sc_like_poc example_poc) as Hs
    by (repeat split; reflexivity).
  split; [exact Hs|].
  exact (proj1 (accessors_agree example_sc_like_poc example_poc [VNumber (Fin 450)] Hs)).
Defined.

(** C10, witness: a tick after the [article] around the [div] was taken
    out of the document: the walk takes two links and finds no parent. *)
Lemma detached_tick_destroys_witness :
  sc_live removed_sc ∧
  DOM.parentElement (Host.container (ScrollContainer.host removed_sc))
  = DOM.Element false (DOM.Element false DOM.Null) ∧
  ends_outside (DOM.parentElement (Host.container (ScrollContainer.host removed_sc))) ∧
  ScrollContainer.intervalHandler removed_sc = ScrollContainer.destroy (sc_reset removed_sc) ∧
  ∃ s', ScrollContainer.intervalHandler removed_sc = Ok tt s' ∧
        ScrollContainer._container (ScrollContainer.this s') = Null.
Proof.
  assert (sc_live removed_sc) as Hl by (split; reflexivity).
  assert (ends_outside (DOM.parentElement (Host.container (ScrollContainer.host removed_sc))))
    as Ha by (apply ends_above, ends_above, ends_null).
  split; [exact Hl|]. split; [reflexivity|]. split; [exact Ha|].
  destruct (proj1 detached_tick_destroys removed_sc Hl Ha)
    as (Hd & s' & Hr & _ & _ & _ & _ & Hc & _).
  split; [exact Hd|]. exists s'. split; [exact Hr|exact Hc].
Defined.

(** ** Further properties on the example page *)

(** X2, witness: with [{checkInterval: 0}] a [ScrollContainer] polls every
    300 ms and a [PocScrollbar] without observer as fast as the window
    lets it. *)
Lemma poll_timer_follows_checkInterval_witness :
  Host.hasMutationObserver example_host && ToBoolean (get eager_options "useMutationObserver")
  = false ∧
  (∃ s, ScrollContainer.new example_host eager_options = Ok tt s ∧
        Window.delay <$> Window.timers (Host.window (ScrollContainer.host s)) = [300]) ∧
  (∃ p, PocScrollbar.new example_host eager_options = Ok tt p ∧
        Window.delay <$> Window.timers (Host.window (PocScrollbar.host p)) = [0]).
Proof.
  assert (Host.hasMutationObserver example_host
          && ToBoolean (get eager_options "useMutationObserver") = false) as Ho
    by reflexivity.
  split; [exact Ho|].
  destruct (poll_timer_follows_checkInterval example_host eager_options)
    as [(s & Hs & _ & Ht & _) Hp].
  destruct (Hp Ho) as (p & Hn & _ & Htp & _).
  split.
  - exists s. split; [exact Hs|]. rewrite Ht. reflexivity.
  - exists p. split; [exact Hn|]. rewrite Htp. reflexivity.
Defined.

(** X4, witness: a [ScrollContainer] built on the example page and
    destroyed. *)
Lemma construct_then_destroy_restores_page_witness :
  fresh_handles (Host.window example_host) ∧
  bare (Host.container example_host) ∧
  ∃ s s', ScrollContainer.new example_host ∅ = Ok tt s ∧
    ScrollContainer.destroy s = Ok tt s' ∧
    DOM.listeners (Host.container (ScrollContainer.host s')) = [] ∧
    Window.timers (Host.window (ScrollContainer.host s')) = [].
Proof.
  assert (fresh_handles (Host.window example_host)) as Hf
    by (intros x Hx; by apply elem_of_nil in Hx).
  assert (bare (Host.container example_host)) as Hb
    by (intros y _ Hy; by apply elem_of_nil in Hy).
  split; [exact Hf|]. split; [exact Hb|].
  destruct (proj1 (construct_then_destroy_restores_page example_host ∅ Hf Hb))
    as (s & s' & Hn & Hd & Hs & _ & _ & Ht & _).
  exists s, s'. split; [exact Hn|]. split; [exact Hd|]. split; [|exact Ht].
  destruct Hs as (_ & Hl & _). exact Hl.
Defined.

(** X5, witness: the example container, destroyed and asked for its
    offset. *)
Lemma destroyed_instance_throws_witness :
  sc_live example_sc ∧
  ∃ s', ScrollContainer.destroy example_sc = Ok tt s' ∧
        ScrollContainer.scrollTop [] s' = TypeError s'.
Proof.
  assert (sc_live example_sc) as Hl by (split; reflexivity).
  split; [exact Hl|].
  destruct (proj1 destroyed_instance_throws example_sc Hl) as (s' & Hd & _ & _ & Ht & _).
  exists s'. split; [exact Hd|exact Ht].
Defined.

(** X6, witness: [scrollTop(450)] twice on the example container. *)
Lemma repeated_offset_is_ignored_witness :
  Fin 450 ≠ NaN ∧ sc_live example_sc ∧ sc_enabledY example_sc ∧
  ∃ r s1, ScrollContainer.scrollTop [VNumber (Fin 450)] example_sc = Ok r s1 ∧
          ScrollContainer.scrollTop [VNumber (Fin 450)] s1 = Ok r s1.
Proof.
  assert (Fin 450 ≠ NaN) as Hn by discriminate.
  assert (sc_live example_sc) as Hl by (split; reflexivity).
  assert (sc_enabledY example_sc) as He by reflexivity.
  split; [exact Hn|]. split; [exact Hl|]. split; [exact He|].
  destruct (proj1 (repeated_offset_is_ignored (Fin 450) Hn) example_sc Hl He)
    as (r & s1 & H1 & _ & H2).
  exists r, s1. split; [exact H1|exact H2].
Defined.

(** X7, witness: one notch of the wheel over a container with both axes
    disabled. *)
Lemma disabled_axis_is_frozen_witness :
  sc_live locked_sc ∧ sc_disabledY locked_sc ∧ sc_disabledX locked_sc ∧
  ScrollContainer.wheel example_wheel locked_sc = Ok false locked_sc.
Proof.
  assert (sc_live locked_sc) as Hl by (split; reflexivity).
  assert (sc_disabledY locked_sc) as Hy by reflexivity.
  assert (sc_disabledX locked_sc) as Hx by reflexivity.
  split; [exact Hl|]. split; [exact Hy|]. split; [exact Hx|].
  exact (proj1 (proj2 (proj2 disabled_axis_is_frozen)) locked_sc example_wheel Hl Hy Hx).
Defined.

(** X8, witness: a tick of the example container. *)
Lemma attached_tick_keeps_page_witness :
  sc_live example_sc ∧ sc_well_formed example_sc ∧
  detached (Host.container (ScrollContainer.host example_sc)) = false ∧
  ∃ s', ScrollContainer.intervalHandler example_sc = Ok tt s' ∧
        Host.container (ScrollContainer.host s')
        = Host.container (ScrollContainer.host example_sc).
Proof.
  assert (sc_live example_sc) as Hl by (split; reflexivity).
  assert (sc_well_formed example_sc) as Hw by (vm_compute; repeat split; discriminate).
  assert (detached (Host.container (ScrollContainer.host example_sc)) = false) as Ha
    by reflexivity.
  split; [exact Hl|]. split; [exact Hw|]. split; [exact Ha|].
  destruct (proj1 attached_tick_keeps_page example_sc Hl Hw Ha) as (s' & Hr & Hc & _).
  exists s'. split; [exact Hr|exact Hc].
Defined.

(** X9, witness: after a tick of the example container the view shows the
    offset 0 of the [div]. *)
Lemma attached_tick_shows_native_offsets_witness :
  sc_live example_sc ∧ sc_well_formed example_sc ∧
  detached (Host.container (ScrollContainer.host example_sc)) = false ∧
  sc_enabledY example_sc ∧ sc_enabledX example_sc ∧
  ∃ s' cs, ScrollContainer.intervalHandler example_sc = Ok tt s' ∧
    Host.view (ScrollContainer.host s') = Host.view (ScrollContainer.host example_sc) ++ cs ∧
    shown_top cs = Some (VNumber (Fin 0)) ∧ shown_left cs = Some (VNumber (Fin 0)).
Proof.
  assert (sc_live example_sc) as Hl by (split; reflexivity).
  assert (sc_well_formed example_sc) as Hw by (vm_compute; repeat split; discriminate).
  assert (detached (Host.container (ScrollContainer.host example_sc)) = false) as Ha
    by reflexivity.
  assert (sc_enabledY example_sc) as Hy by reflexivity.
  assert (sc_enabledX example_sc) as Hx by reflexivity.
  split; [exact Hl|]. split; [exact Hw|]. split; [exact Ha|].
  split; [exact Hy|]. split; [exact Hx|].
  exact (proj1 attached_tick_shows_native_offsets example_sc Hl Hw Ha
           (or_introl Hy) (or_introl Hx) eq_refl eq_refl).
Defined.

(** X10, witness: one call on a wait of 300 ms, 300 ms of quiet, and the
    timer. *)
Lemma quiet_wait_runs_callback_once_witness :
  fresh_handles (Host.window example_host) ∧
  Loop.wait (VNumber (Fin 300)) ≤ 300 ∧
  Loop.history (Loop.run (Loop.initial (Host.window example_host) ChangeHandler
                            (VNumber (Fin 300)))
                         [Loop.Call; Loop.Elapse 300; Loop.Dispatch 1])
  = [Loop.Ran 300; Loop.Called 0].
Proof.
  assert (fresh_handles (Host.window example_host)) as Hf
    by (intros x Hx; by apply elem_of_nil in Hx).
  assert (Loop.wait (VNumber (Fin 300)) ≤ 300) as Hw by (vm_compute; discriminate).
  split; [exact Hf|]. split; [exact Hw|].
  exact (proj1 (quiet_wait_runs_callback_once (Host.window example_host) ChangeHandler
                  (VNumber (Fin 300)) [] 300 Hf
                  (λ x Hx, False_ind _ (proj1 (elem_of_nil x) Hx)) Hw)).
Defined.

(** X11, witness: two calls 100 ms apart, which the callback answers with
    one run. *)
Lemma runs_never_outnumber_calls_witness :
  fresh_handles (Host.window example_host) ∧
  Loop.history (Loop.run (Loop.initial (Host.window example_host) ChangeHandler
                            (VNumber (Fin 300))) example_events)
  = [Loop.Ran 400; Loop.Called 100; Loop.Called 0] ∧
  (runs_in (Loop.history (Loop.run (Loop.initial (Host.window example_host) ChangeHandler
                                      (VNumber (Fin 300))) example_events))
   ≤ calls_in (Loop.history (Loop.run (Loop.initial (Host.window example_host) ChangeHandler
                                         (VNumber (Fin 300))) example_events)))%nat.
Proof.
  assert (fresh_handles (Host.window example_host)) as Hf
    by (intros x Hx; by apply elem_of_nil in Hx).
  split; [exact Hf|]. split; [reflexivity|].
  exact (runs_never_outnumber_calls (Host.window example_host) ChangeHandler
           (VNumber (Fin 300)) example_events Hf
           (λ x Hx, False_ind _ (proj1 (elem_of_nil x) Hx))).
Defined.

(** X13, witness: a finger is put down on the example container. *)
Lemma touchstart_registers_gesture_witness :
  body_closed example_touching ∧
  Touch.touchstart example_finger example_touching = Ok tt example_dragging.
Proof.
  assert (body_closed example_touching) as Hb.
  { intros k g [Hin|Hin]; by apply elem_of_nil in Hin. }
  split; [exact Hb|].
  rewrite (touchstart_registers_gesture example_finger example_touching Hb).
  reflexivity.
Defined.

(** X14, witness: the finger is put down and lifted again. *)
Lemma touch_gesture_round_trip_witness :
  body_closed example_touching ∧
  ∃ s1 s2, Touch.touchstart example_finger example_touching = Ok tt s1 ∧
           Touch.touchend 0 example_finger s1 = Ok tt s2 ∧
           Touch.body s2 = [] ∧ Touch.instance s2 = example_sc.
Proof.
  assert (body_closed example_touching) as Hb.
  { intros k g [Hin|Hin]; by apply elem_of_nil in Hin. }
  assert (touch_ignored example_finger example_touching = false) as Hi by reflexivity.
  split; [exact Hb|].
  destruct (touch_gesture_round_trip example_finger example_finger
              {| Touch.clientX := Fin 20; Touch.clientY := Fin 80 |} example_touching
              Hb Hi eq_refl eq_refl)
    as (s1 & s2 & H1 & _ & H2 & H3 & H4 & _).
  exists s1, s2. split; [exact H1|]. split; [exact H2|]. split; [exact H3|exact H4].
Defined.

(** X15, witness: the finger moves up by 30.5 pixels; the container stores
    30.5 and the [div] reports 31. *)
Lemma touchmove_scrolls_by_distance_witness :
  sc_live (Touch.instance example_dragging) ∧
  sc_tracked_top (Touch.instance example_dragging) ∧
  sc_tracked_left (Touch.instance example_dragging) ∧
  ∃ s', Touch.touchmove 0 example_slide example_dragging = Ok tt s' ∧
        ScrollContainer._scrollTop (ScrollContainer.this (Touch.instance s'))
        = VNumber (Frac 30 0) ∧
        DOM.scrollTop (Host.container (ScrollContainer.host (Touch.instance s'))) = 31.
Proof.
  set (v := {| Touch.touchToTrack := Fin 0;
               Touch.tmpMoverX := Fin 20; Touch.tmpMoverY := Fin 80;
               Touch.tmpMovePointer := Ref; Touch.tmpEndPointer := Ref |}).
  set (t := {| Touch.clientX := Frac 20 0; Touch.clientY := Frac 49 0 |}).
  assert (sc_live (Touch.instance example_dragging)) as Hl by (split; reflexivity).
  assert (0 ≤ top_limit (Host.container (ScrollContainer.host (Touch.instance example_dragging))))
    as Hlt by (vm_compute; discriminate).
  assert (0 ≤ left_limit (Host.container (ScrollContainer.host (Touch.instance example_dragging))))
    as Hll by (vm_compute; discriminate).
  assert (sc_tracked_top (Touch.instance example_dragging)) as Htt
    by (exists (Fin 0); split; vm_compute; reflexivity).
  assert (sc_tracked_left (Touch.instance example_dragging)) as Htl
    by (exists (Fin 0); split; vm_compute; reflexivity).
  assert (sc_enabledY (Touch.instance example_dragging)) as Hy by (vm_compute; reflexivity).
  assert (sc_enabledX (Touch.instance example_dragging)) as Hx by (vm_compute; reflexivity).
  assert (Touch.calls example_dragging !! 0%nat = Some v) as Hv by reflexivity.
  assert (Touch.which example_slide = Touch.touchToTrack v) as Hw by reflexivity.
  assert (Touch.item (Touch.touches example_slide) (Touch.touchToTrack v) = Some t) as Hi
    by (vm_compute; reflexivity).
  split; [exact Hl|]. split; [exact Htt|]. split; [exact Htl|].
  destruct (proj1 touchmove_scrolls_by_distance example_dragging 0%nat example_slide v t
              Hl Hlt Hll Htt Htl Hy Hx Hv Hw Hi)
    as (s' & Hr & (Ha & _ & Hc & _) & _).
  exists s'. split; [exact Hr|]. split.
  - rewrite Ha. vm_compute. reflexivity.
  - rewrite Hc. vm_compute. reflexivity.
Defined.

(** X16, witness: the example container is destroyed while the finger is
    down, and the finger moves. *)
Lemma touchmove_after_destroy_throws_witness :
  sc_live example_sc ∧
  ∃ s1 s2, Touch.lift ScrollContainer.destroy example_dragging = Ok tt s1 ∧
           Touch.touchmove 0 example_drag s1 = TypeError s2 ∧
           Touch.body s2 = Touch.body example_dragging.
Proof.
  assert (sc_live example_sc) as Hl by (split; reflexivity).
  split; [exact Hl|].
  destruct (proj1 touchmove_after_destroy_throws example_dragging 0%nat example_drag
              {| Touch.touchToTrack := Fin 0;
                 Touch.tmpMoverX := Fin 20; Touch.tmpMoverY := Fin 80;
                 Touch.tmpMovePointer := Ref; Touch.tmpEndPointer := Ref |}
              {| Touch.clientX := Fin 20; Touch.clientY := Fin 50 |}
              Hl eq_refl eq_refl eq_refl)
    as (s1 & s2 & H1 & _ & H2 & H3 & _).
  exists s1, s2. split; [exact H1|]. split; [exact H2|exact H3].
Defined.

(** X17, witness: a move on the track pad by a pixel and a quarter; the
    container stores 1.25 and the [div] reports 1. *)
Lemma wheel_scrolls_by_delta_witness :
  sc_live example_sc ∧ sc_tracked_top example_sc ∧ sc_tracked_left example_sc ∧
  ∃ b s', ScrollContainer.wheel example_trackpad example_sc = Ok b s' ∧
          ScrollContainer._scrollTop (ScrollContainer.this s') = VNumber (Frac 2 1) ∧
          DOM.scrollTop (Host.container (ScrollContainer.host s')) = 1.
Proof.
  assert (sc_live example_sc) as Hl by (split; reflexivity).
  assert (0 ≤ top_limit (Host.container (ScrollContainer.host example_sc))) as Hlt
    by (vm_compute; discriminate).
  assert (0 ≤ left_limit (Host.container (ScrollContainer.host example_sc))) as Hll
    by (vm_compute; discriminate).
  assert (sc_tracked_top example_sc) as Htt
    by (exists (Fin 0); split; vm_compute; reflexivity).
  assert (sc_tracked_left example_sc) as Htl
    by (exists (Fin 0); split; vm_compute; reflexivity).
  assert (sc_enabledY example_sc) as Hy by (vm_compute; reflexivity).
  assert (sc_enabledX example_sc) as Hx by (vm_compute; reflexivity).
  assert (defaultPrevented example_trackpad = false) as Hp by reflexivity.
  split; [exact Hl|]. split; [exact Htt|]. split; [exact Htl|].
  destruct (proj1 wheel_scrolls_by_delta example_sc example_trackpad
              Hl Hlt Hll Htt Htl Hy Hx Hp)
    as (b & s' & Hr & (Ha & _ & Hc & _) & _).
  exists b, s'. split; [exact Hr|]. split.
  - rewrite Ha. vm_compute. reflexivity.
  - rewrite Hc. vm_compute. reflexivity.
Defined.
